(** * TaskSchedulerHW: the scheduler's dispatch engine

    A shallow embedding of the four scheduler services of the repository

      - [src/fifo/scheduler.py]         (module [Fifo])
      - [src/priority/scheduler.py]     (module [Priority])
      - [src/scheduler.py]              (module [RR], round-robin without arrivals)
      - [src/round-robin/scheduler.py]  (module [RoundRobin], round-robin with arrivals)

    and of the core threads and drivers of their workers

      - [src/round-robin/worker.py]     (module [Worker])
      - [src/fifo/worker.py]            (module [FifoWorker])
      - [src/priority/worker.py]        (module [PriorityWorker])

    with the properties of the run engine that the specification states,
    and further properties of the services and of the runs that one core of
    a worker drives.

    Conventions of the embedding.
      - Python [int] is [Z]; Python [float] (wall-clock seconds, [speedup],
        ratios) is idealised as an exact rational [Q]: rounding is
        ignored, and so are the overflow to [inf] and [nan]. A statement
        that needs a float computation to stay finite, as [wall_to_sim]
        does for [round] to return, says so in a hypothesis
        ([clock_in_range]).
      - A [dict] whose iteration order the code relies on (the job table) is
        an insertion-ordered association list ([Py.dict]); the worker
        registry, whose order is never observed, is a [gmap].
      - Every read of [time.time()] is an explicit argument.
      - A handler returns a [Py.result]: its JSON body, or the exception
        that leaves it; [Py.http_status] is the status code the framework
        answers with.
      - The body of the [while True] loop of [/next] is one function
        ([next_iter]) that either replies or blocks on the condition variable
        with a timeout; the loop itself runs over an explicit schedule of
        wake-ups, each carrying the clock readings of that pass and what the
        other threads did to the shared run while the caller slept. *)

From Stdlib Require Import ZArith QArith Qround Qminmax Qabs List String Ascii.
From Stdlib Require Import Lia Permutation DecimalString Bool Sorted.
From Stdlib Require OrderedTypeEx.
From Stdlib Require Import Lqa.
From stdpp Require Import gmap strings.
Import ListNotations.
Open Scope Z_scope.

(** ** Python prelude *)

Module Py.

(** Exceptions that the modelled code raises. *)
Inductive exn : Type :=
| HTTPException (status_code : Z) (detail : string)
| ValueError (msg : string)
| KeyError (key : string)
| IndexError (msg : string)
| ZeroDivisionError
| OverflowError (msg : string).

Inductive result (A : Type) : Type :=
| Ok (a : A)
| Raise (e : exn).
Arguments Ok {A} a.
Arguments Raise {A} e.

#[global] Instance result_ret : MRet result := fun _ a => Ok a.
#[global] Instance result_bind : MBind result := fun _ _ k m =>
  match m with
  | Ok a => k a
  | Raise e => Raise e
  end.

(** The status code of the HTTP answer: 200 for a returned body, the code
    of an [HTTPException], and 500 for any other exception that leaves the
    handler (the framework's default for an unhandled error). *)
Definition http_status {A : Type} (r : result A) : Z :=
  match r with
  | Ok _ => 200
  | Raise (HTTPException c _) => c
  | Raise _ => 500
  end.

(** [str(n)] for an integer. *)
Definition str_of_Z (n : Z) : string := NilZero.string_of_int (Z.to_int n).

(** [int(s)] for a string: a decimal literal, or [ValueError]. *)
Definition int_of_str (s : string) : result Z :=
  match NilZero.int_of_string s with
  | Some d => Ok (Z.of_int d)
  | None => Raise (ValueError ("invalid literal for int() with base 10: " ++ s))
  end.

(** [int(x)] for a float: truncation towards zero. *)
Definition int_of_float (x : Q) : Z :=
  if Qle_bool 0 x then Qfloor x else Qceiling x.

(** [round(x)] for a float: to the nearest integer, ties to the even one. *)
Definition round (x : Q) : Z :=
  let f := Qfloor x in
  match (x - inject_Z f ?= 1 # 2)%Q with
  | Lt => f
  | Gt => f + 1
  | Eq => if Z.even f then f else f + 1
  end.

(** [min(a, b)] and [max(a, b)] on floats: the first argument wins a tie. *)
Definition minq (a b : Q) : Q := if Qle_bool a b then a else b.
Definition maxq (a b : Q) : Q := if Qle_bool b a then a else b.

(** [float(n)] as the operators apply it to an integer operand: the
    nearest double, or [OverflowError] when that is beyond the largest
    one. *)
Definition float_of_int (n : Z) : result Q :=
  if Z.abs n <? 2 ^ 1024 - 2 ^ 970 then Ok (inject_Z n)
  else Raise (OverflowError "int too large to convert to float").

(** [a / b] on floats. *)
Definition truediv (a b : Q) : result Q :=
  if Qeq_bool b 0 then Raise ZeroDivisionError else Ok (a / b)%Q.

(** [time.sleep(secs)]: the length is converted to nanoseconds, rounded
    away from zero, and must fit a signed 64-bit integer; a negative
    length is refused. *)
Definition sleep (secs : Q) : result unit :=
  let d := (secs * 1000000000)%Q in
  let ns := if Qle_bool 0 d then Qceiling d else Qfloor d in
  if (ns <? - 2 ^ 63) || (2 ^ 63 <=? ns) then
    Raise (OverflowError "timestamp too large to convert to C _PyTime_t")
  else if ns <? 0 then Raise (ValueError "sleep length must be non-negative")
  else Ok tt.

(** *** Insertion-ordered dictionaries with string keys *)

Definition dict (V : Type) : Type := list (string * V).

Fixpoint get {V : Type} (d : dict V) (k : string) : option V :=
  match d with
  | [] => None
  | (k', v) :: d' => if String.eqb k' k then Some v else get d' k
  end.

(** [d[k] = v]: an existing key keeps its position, a new one goes last. *)
Fixpoint set {V : Type} (d : dict V) (k : string) (v : V) : dict V :=
  match d with
  | [] => [(k, v)]
  | (k', v') :: d' =>
      if String.eqb k' k then (k, v) :: d' else (k', v') :: set d' k v
  end.

Definition keys {V : Type} (d : dict V) : list string := map fst d.
Definition values {V : Type} (d : dict V) : list V := map snd d.
Definition len {A : Type} (l : list A) : Z := Z.of_nat (length l).

(** [d[k]], which raises [KeyError] on a missing key. *)
Definition getitem {V : Type} (d : dict V) (k : string) : result V :=
  match get d k with
  | Some v => Ok v
  | None => Raise (KeyError k)
  end.

(** *** Stable sorting ([sorted], [sort_values(kind="stable")]) *)

Section StableSort.
Context {A : Type} (key : A -> Z).

(** [x] goes before the first item whose key is not smaller than its
    own. *)
Fixpoint insert_by (x : A) (l : list A) : list A :=
  match l with
  | [] => [x]
  | y :: l' => if key x <=? key y then x :: l else y :: insert_by x l'
  end.

(** The items are inserted from the right, so each one lands before the
    items of equal key that followed it in the input: equal keys keep
    their order. *)
Definition sorted_by (l : list A) : list A := fold_right insert_by [] l.

End StableSort.

(** [list.sort(key=...)] with keys that are strings, in Python's order on
    [str]: an item goes before the first one whose key is not smaller, so
    items with equal keys keep their order. *)
Section SortStr.
Context {A : Type} (key : A -> string).

Fixpoint insert_str (x : A) (l : list A) : list A :=
  match l with
  | [] => [x]
  | y :: l' =>
      if String.ltb (key y) (key x) then y :: insert_str x l' else x :: l
  end.

Definition sorted_str (l : list A) : list A := fold_right insert_str [] l.

End SortStr.

(** *** [heapq]

    The library is modelled by its contract, not by its array layout: a
    heap is the collection of its items, [heap[0]] is its smallest item
    and [heappop] removes and returns it. The items the schedulers push
    are tuples that end in a unique sequence number and the job id, so the
    order is total and the contract fixes every result. *)

Section Heap.
Context {A : Type} (ltb : A -> A -> bool).

Definition heappush (h : list A) (x : A) : list A := h ++ [x].

(** The smallest of [x :: l], and the other items. *)
Fixpoint extract_min (x : A) (l : list A) : A * list A :=
  match l with
  | [] => (x, [])
  | y :: l' =>
      let '(m, r) := extract_min y l' in
      if ltb m x then (m, x :: r) else (x, l)
  end.

Definition heappop (h : list A) : option (A * list A) :=
  match h with
  | [] => None
  | x :: l => Some (extract_min x l)
  end.

Definition heap_top (h : list A) : option A :=
  match heappop h with
  | Some (m, _) => Some m
  | None => None
  end.

End Heap.

(** *** [numpy] and [pandas] statistics of a column of integers *)

Definition sumq (l : list Q) : Q := fold_right Qplus 0%Q l.

(** [Series.mean()]. *)
Definition mean (l : list Z) : Q :=
  (sumq (map inject_Z l) / inject_Z (len l))%Q.

(** [np.percentile(a, q)] with the default linear interpolation. *)
Definition percentile (l : list Z) (q : Z) : Q :=
  let s := sorted_by (fun z => z) l in
  let pos := (inject_Z q / 100 * inject_Z (len l - 1))%Q in
  let lo := Qfloor pos in
  let a := nth (Z.to_nat lo) s 0 in
  let b := nth (Z.to_nat (lo + 1)) s a in
  (inject_Z a + (pos - inject_Z lo) * inject_Z (b - a))%Q.

(** [os.path.join(a, b)]. *)
Definition path_join (a b : string) : string :=
  if String.prefix "/" b then b
  else if String.eqb a "" then b
  else if String.eqb (substring (String.length a - 1) 1 a) "/" then a ++ b
  else a ++ "/" ++ b.

(** *** Data frames as [pd.read_csv] yields them

    A column is typed: integers when every cell parses as one, text
    otherwise. Every column holds one cell per row. *)

Inductive column : Type :=
| IntCol (cells : list Z)
| StrCol (cells : list string).

Inductive cell : Type :=
| CInt (z : Z)
| CStr (s : string).

Definition DataFrame : Type := dict column.

Definition col_len (c : column) : nat :=
  match c with
  | IntCol l => length l
  | StrCol l => length l
  end.

Definition nrows (df : DataFrame) : nat :=
  match df with
  | [] => O
  | (_, c) :: _ => col_len c
  end.

Definition has_column (df : DataFrame) (name : string) : bool :=
  match get df name with Some _ => true | None => false end.

(** [needed.issubset(df.columns)]. *)
Definition has_columns (df : DataFrame) (needed : list string) : bool :=
  forallb (has_column df) needed.

Definition col_cell (c : column) (i : nat) : option cell :=
  match c with
  | IntCol l => option_map CInt (nth_error l i)
  | StrCol l => option_map CStr (nth_error l i)
  end.

(** [getattr(row, name)] for row [i] of [df.itertuples()]. *)
Definition getattr (df : DataFrame) (i : nat) (name : string) : result cell :=
  match get df name with
  | Some c =>
      match col_cell c i with
      | Some x => Ok x
      | None => Raise (IndexError name)
      end
  | None => Raise (KeyError name)
  end.

Definition str (c : cell) : string :=
  match c with
  | CInt z => str_of_Z z
  | CStr s => s
  end.

Definition int (c : cell) : result Z :=
  match c with
  | CInt z => Ok z
  | CStr s => int_of_str s
  end.

(** The rows [0 .. n-1] in order, threaded through a fallible step. *)
Fixpoint for_rows {S : Type} (step : nat -> S -> result S)
    (rows : list nat) (s : S) : result S :=
  match rows with
  | [] => Ok s
  | i :: rest => s' ← step i s; for_rows step rest s'
  end.

(** [df.sort_values(name, kind="stable")] on an integer column: the row
    indices in their new order. A text column is ordered as text by pandas;
    the loaders convert its cells with [int] afterwards, so only the
    integer case yields jobs and the text case keeps the row order here. *)
Definition sort_rows (df : DataFrame) (name : string) : list nat :=
  match get df name with
  | Some (IntCol l) => sorted_by (fun i => nth i l 0) (seq 0 (nrows df))
  | _ => seq 0 (nrows df)
  end.

End Py.

(** ** Environment: configuration, files, the condition variable *)

Record Config : Type := {
  DATA_DIR : string;
  RESULTS_DIR : string;
  WORKER_TIMEOUT_SEC : Q
}.

(** The defaults of [os.getenv]. *)
Definition default_config : Config :=
  {| DATA_DIR := "/data"; RESULTS_DIR := "/results"; WORKER_TIMEOUT_SEC := 10 |}.

(** A file under [DATA_DIR]: a CSV that [pd.read_csv] parses, or anything
    else, on which it raises a parser error (a [ValueError]). *)
Inductive file : Type :=
| Csv (df : Py.DataFrame)
| NotCsv.

Definition read_csv (fs : gmap string file) (path : string) : Py.result Py.DataFrame :=
  match fs !! path with
  | Some (Csv df) => Py.Ok df
  | Some NotCsv => Py.Raise (Py.ValueError "Error tokenizing data")
  | None => Py.Raise (Py.ValueError "No such file")
  end.

(** [os.path.exists]. *)
Definition path_exists (fs : gmap string file) (path : string) : bool :=
  match fs !! path with Some _ => true | None => false end.

(** Calls on [RUN_CV], in program order. *)
Inductive signal : Type :=
| notify
| notify_all.

(** One pass through the loop of [/next]: a reply (or an exception), or a
    timed wait on [RUN_CV]. *)
Inductive pass (R : Type) : Type :=
| Reply (r : Py.result R)
| Block (timeout : Q).
Arguments Reply {R} r.
Arguments Block {R} timeout.

(** The [while True] loop of [/next] over a schedule of wake-ups: each
    carries the clock readings [c] of one pass and what the other threads
    do to the shared state while the caller then waits. With the schedule
    exhausted the caller is still blocked. *)
Section LongPoll.
Context {S R C : Type} (body : C -> S -> pass R * S).

Fixpoint long_poll (wakeups : list (C * (S -> S))) (s : S)
    : option (Py.result R * S) :=
  match wakeups with
  | [] => None
  | (c, others) :: rest =>
      match body c s with
      | (Reply r, s') => Some (r, s')
      | (Block _, s') => long_poll rest (others s')
      end
  end.

(** The state in which the caller wakes up after a schedule in which
    every pass blocked. *)
Fixpoint blocked_through (wakeups : list (C * (S -> S))) (s : S) : option S :=
  match wakeups with
  | [] => Some s
  | (c, others) :: rest =>
      match body c s with
      | (Reply _, _) => None
      | (Block _, s') => blocked_through rest (others s')
      end
  end.

End LongPoll.

(** ** Worker registry (the same code in the four services) *)

Module Registry.

Record WorkerInfo : Type := {
  cores : Z;
  last_seen : Q
}.

Abbreviation Workers := (gmap string WorkerInfo).

Definition register (W : Workers) (now : Q) (worker_id : string) (n : Z) : Workers :=
  <[worker_id := {| cores := n; last_seen := now |}]> W.

Definition heartbeat (W : Workers) (now : Q) (worker_id : string) : bool * Workers :=
  match W !! worker_id with
  | Some info =>
      (true, <[worker_id := {| cores := cores info; last_seen := now |}]> W)
  | None => (false, W)
  end.

Definition is_alive_worker_core (cfg : Config) (W : Workers) (now : Q)
    (worker_id : string) (core_id : Z) : bool :=
  match W !! worker_id with
  | None => false
  | Some info =>
      if negb (Qle_bool (now - last_seen info) (WORKER_TIMEOUT_SEC cfg)) then false
      else (0 <=? core_id) && (core_id <? cores info)
  end.

Definition total_alive_slots (cfg : Config) (W : Workers) (now : Q) : Z :=
  map_fold (fun _ info acc =>
              if Qle_bool (now - last_seen info) (WORKER_TIMEOUT_SEC cfg)
              then cores info + acc else acc) 0 W.

(** The body of [GET /workers]. *)
Record WorkersResp : Type := {
  worker_count : Z;
  total_slots : Z;
  alive_workers : list (string * Z)
}.

(** One turn of the loop of [workers] over [WORKERS.items()]. *)
Definition workers_turn (cfg : Config) (now : Q)
    (acc : list (string * Z) * Z) (item : string * WorkerInfo) : list (string * Z) * Z :=
  let '(alive, total) := acc in
  let '(wid, info) := item in
  if Qle_bool (now - last_seen info) (WORKER_TIMEOUT_SEC cfg)
  then (alive ++ [(wid, cores info)], total + cores info)
  else acc.

(** [GET /workers]. The loop visits the registry in some order of its
    items; the list is sorted by worker id afterwards. *)
Definition workers (cfg : Config) (W : Workers) (now : Q) : WorkersResp :=
  let '(alive, total) := fold_left (workers_turn cfg now) (map_to_list W) ([], 0) in
  let alive := Py.sorted_str fst alive in
  {| worker_count := Py.len alive; total_slots := total; alive_workers := alive |}.

End Registry.

(** ** FIFO service: [src/fifo/scheduler.py] *)

Module Fifo.

Record JobState : Type := {
  job_id : string;
  service_ms : Z;
  arrival_ms : Z;
  start_ms : option Z;
  finish_ms : option Z;
  cpu_percent : option Q;
  memory_mb : option Q
}.

Record Summary : Type := {
  sum_run_id : string;
  sum_dataset_file : string;
  sum_speedup : Q;
  sum_jobs : Z;
  mean_response_ms : Q;
  p50_response_ms : Q;
  p95_response_ms : Q;
  p99_response_ms : Q;
  mean_wait_ms : Q;
  mean_execution_ms : Q;
  total_slots_at_end : Z
}.

(** [pending_jobs] maps ids to the very objects of [jobs]; only the ids
    are kept here and the job is read from [jobs]. *)
Record RunState : Type := {
  run_id : string;
  dataset_file : string;
  speedup : Q;
  start_wall_ms : Z;
  jobs : Py.dict JobState;
  ready_q : list string;
  pending_jobs : list string;
  total_jobs : Z;
  current_sim_ms : Z;
  completed : Z;
  done : bool;
  jobs_csv : option string;
  run_csv : option string;
  summary : option Summary
}.

(** One row of the per-job results. *)
Record Row : Type := {
  row_job_id : string;
  arrival_time_ms : Z;
  service_time_ms : Z;
  start_time_ms : Z;
  finish_time_ms : Z;
  waiting_time_ms : Z;
  execution_time_ms : Z;
  response_time_ms : Z;
  cpu_usage_percent : Q;
  memory_usage_mb : Q;
  slowdown : Q
}.

(** The files that finalization writes. *)
Inductive artifact : Type :=
| JobsCsv (rid : string) (rows : list Row)
| RunCsv (s : Summary).

Record World : Type := {
  WORKERS : Registry.Workers;
  ACTIVE_RUN : option RunState;
  DATASETS : gmap string file;
  RESULTS : list (string * artifact)
}.

Record StartReq : Type := {
  sr_dataset_file : string;
  sr_speedup : Q;
  sr_min_slots : Z
}.

Record NextReq : Type := {
  nr_worker_id : string;
  nr_core_id : Z;
  nr_timeout_ms : Z
}.

Record DoneReq : Type := {
  dr_worker_id : string;
  dr_core_id : Z;
  dr_job_id : string;
  started_wall_ms : Z;
  finished_wall_ms : Z;
  dr_cpu_percent : option Q;
  dr_memory_mb : option Q
}.

Inductive NextResp : Type :=
| next_no_run
| next_done
| next_wait
| next_ok (jid : string) (execution_ms : Z).

Inductive DoneResp : Type :=
| done_no_run
| done_done
| done_ok.

Definition wall_to_sim (run : RunState) (wall_ms : Z) : Z :=
  Py.round (inject_Z (wall_ms - start_wall_ms run) * speedup run).

Definition new_job (jid : string) (svc arrival : Z) : JobState :=
  {| job_id := jid; service_ms := svc; arrival_ms := arrival;
     start_ms := None; finish_ms := None; cpu_percent := None; memory_mb := None |}.

Definition load_row (df : Py.DataFrame) (has_arrival : bool) (i : nat)
    (jobs : Py.dict JobState) : Py.result (Py.dict JobState) :=
  c ← Py.getattr df i "job_id";
  let jid := Py.str c in
  c ← Py.getattr df i "service_time_ms";
  svc ← Py.int c;
  arrival ← (if has_arrival
             then c ← Py.getattr df i "arrival_time_ms"; Py.int c
             else Py.Ok 0);
  Py.Ok (Py.set jobs jid (new_job jid svc arrival)).

Definition load_jobs (fs : gmap string file) (dataset_path : string)
    : Py.result (Py.dict JobState) :=
  df ← read_csv fs dataset_path;
  if negb (Py.has_columns df ["job_id"; "service_time_ms"]) then
    Py.Raise (Py.ValueError
      "Dataset must contain at least ['job_id', 'service_time_ms']")
  else
    let has_arrival := Py.has_column df "arrival_time_ms" in
    Py.for_rows (load_row df has_arrival) (seq 0 (Py.nrows df)) [].

Definition with_queues (run : RunState) (ready pending : list string)
    (sim : Z) : RunState :=
  {| run_id := run_id run; dataset_file := dataset_file run;
     speedup := speedup run; start_wall_ms := start_wall_ms run;
     jobs := jobs run; ready_q := ready; pending_jobs := pending;
     total_jobs := total_jobs run; current_sim_ms := sim;
     completed := completed run; done := done run;
     jobs_csv := jobs_csv run; run_csv := run_csv run;
     summary := summary run |}.

Definition arrived (run : RunState) (now_sim : Z) (jid : string) : bool :=
  match Py.get (jobs run) jid with
  | Some job => arrival_ms job <=? now_sim
  | None => false
  end.

(** One pass of the loop of [arrival_thread_func], with the signals it
    sends: a [notify_all] per promoted job. *)
Definition arrival_pass (run : RunState) (now : Q) : RunState * list signal :=
  let current_sim := wall_to_sim run (Py.int_of_float (now * 1000)) in
  let jobs_to_add := List.filter (arrived run current_sim) (pending_jobs run) in
  let pending := List.filter (fun jid => negb (arrived run current_sim jid)) (pending_jobs run) in
  (with_queues run (ready_q run ++ jobs_to_add) pending
     (Z.max (current_sim_ms run) current_sim),
   map (fun _ => notify_all) jobs_to_add).

Definition row_of (j : JobState) : list Row :=
  match finish_ms j, start_ms j with
  | Some finish, Some start =>
      let waiting_time := start - arrival_ms j in
      let execution_time := finish - start in
      let response_time := finish - arrival_ms j in
      let slowdown := (inject_Z response_time / inject_Z (Z.max 1 (service_ms j)))%Q in
      [{| row_job_id := job_id j;
          arrival_time_ms := arrival_ms j;
          service_time_ms := service_ms j;
          start_time_ms := start;
          finish_time_ms := finish;
          waiting_time_ms := waiting_time;
          execution_time_ms := execution_time;
          response_time_ms := response_time;
          cpu_usage_percent := match cpu_percent j with Some c => c | None => 0%Q end;
          memory_usage_mb := match memory_mb j with Some m => m | None => 0%Q end;
          slowdown := slowdown |}]
  | _, _ => []
  end.

(** The rows that [finalize_run] collects, in the order of [run.jobs]. *)
Definition result_rows (run : RunState) : list Row :=
  flat_map row_of (Py.values (jobs run)).

Definition summarize (cfg : Config) (W : Registry.Workers) (now : Q)
    (run : RunState) (rows : list Row) : Summary :=
  let resp := map response_time_ms rows in
  {| sum_run_id := run_id run;
     sum_dataset_file := dataset_file run;
     sum_speedup := speedup run;
     sum_jobs := Py.len rows;
     mean_response_ms := Py.mean resp;
     p50_response_ms := Py.percentile resp 50;
     p95_response_ms := Py.percentile resp 95;
     p99_response_ms := Py.percentile resp 99;
     mean_wait_ms := Py.mean (map waiting_time_ms rows);
     mean_execution_ms := Py.mean (map execution_time_ms rows);
     total_slots_at_end := Registry.total_alive_slots cfg W now |}.

Definition jobs_path (cfg : Config) (run : RunState) : string :=
  Py.path_join (RESULTS_DIR cfg) ("results_jobs_" ++ run_id run ++ ".csv").
Definition run_path (cfg : Config) (run : RunState) : string :=
  Py.path_join (RESULTS_DIR cfg) ("results_run_" ++ run_id run ++ ".csv").

(** [finalize_run]: the finalized run and the files written. With no
    finished job it returns early and the run is left as it is. *)
Definition finalize_run (cfg : Config) (W : Registry.Workers) (now : Q)
    (run : RunState) : RunState * list (string * artifact) :=
  let rows := result_rows run in
  if Py.len rows =? 0 then (run, [])
  else
    let s := summarize cfg W now run rows in
    ({| run_id := run_id run; dataset_file := dataset_file run;
        speedup := speedup run; start_wall_ms := start_wall_ms run;
        jobs := jobs run; ready_q := ready_q run;
        pending_jobs := pending_jobs run; total_jobs := total_jobs run;
        current_sim_ms := current_sim_ms run; completed := completed run;
        done := true;
        jobs_csv := Some (jobs_path cfg run);
        run_csv := Some (run_path cfg run);
        summary := Some s |},
     [(jobs_path cfg run, JobsCsv (run_id run) rows);
      (run_path cfg run, RunCsv s)]).

Definition with_run (w : World) (run : option RunState) : World :=
  {| WORKERS := WORKERS w; ACTIVE_RUN := run;
     DATASETS := DATASETS w; RESULTS := RESULTS w |}.

(** The ready queue and the pending ids the loop of [start] builds. *)
Definition partition_jobs (jobs : Py.dict JobState) : list string * list string :=
  (map fst (List.filter (fun kv => arrival_ms (snd kv) <=? 0) jobs),
   map fst (List.filter (fun kv => negb (arrival_ms (snd kv) <=? 0)) jobs)).

(** [POST /start]. [now_slots] and [now_start] are the clock readings of
    [total_alive_slots] and of [start_wall_ms]; [fresh_id] is
    [uuid.uuid4().hex[:10]]. The arrival thread it launches runs
    [arrival_pass] about every 10 ms. *)
Definition start (cfg : Config) (now_slots now_start : Q) (fresh_id : string)
    (req : StartReq) (w : World) : Py.result string * World * list signal :=
  let slots := Registry.total_alive_slots cfg (WORKERS w) now_slots in
  if slots <? sr_min_slots req then
    (Py.Raise (Py.HTTPException 400
       ("Not enough slots online (" ++ Py.str_of_Z slots ++ ") < min_slots ("
        ++ Py.str_of_Z (sr_min_slots req) ++ ")")), w, [])
  else
    let dataset_path := Py.path_join (DATA_DIR cfg) (sr_dataset_file req) in
    if negb (path_exists (DATASETS w) dataset_path) then
      (Py.Raise (Py.HTTPException 400 ("Dataset not found: " ++ dataset_path)), w, [])
    else
      match load_jobs (DATASETS w) dataset_path with
      | Py.Raise e => (Py.Raise e, w, [])
      | Py.Ok jobs =>
          let '(ready_q, pending_jobs) := partition_jobs jobs in
          let run :=
            {| run_id := fresh_id; dataset_file := sr_dataset_file req;
               speedup := sr_speedup req;
               start_wall_ms := Py.int_of_float (now_start * 1000);
               jobs := jobs; ready_q := ready_q; pending_jobs := pending_jobs;
               total_jobs := Py.len jobs; current_sim_ms := 0; completed := 0;
               done := false; jobs_csv := None; run_csv := None;
               summary := None |} in
          (Py.Ok (run_id run), with_run w (Some run), [notify_all])
      end.

(** One pass of the loop of [next_job], under [RUN_CV]. [now] is the clock
    reading of [deadline - time.time()]. *)
Definition next_iter (deadline now : Q) (active : option RunState)
    : pass NextResp * option RunState :=
  match active with
  | None => (Reply (Py.Ok next_no_run), active)
  | Some run =>
      if done run || (total_jobs run <=? completed run) then
        (Reply (Py.Ok next_done), active)
      else
        match ready_q run with
        | jid :: rest =>
            let run' := with_queues run rest (pending_jobs run) (current_sim_ms run) in
            match Py.getitem (jobs run) jid with
            | Py.Ok job => (Reply (Py.Ok (next_ok jid (service_ms job))), Some run')
            | Py.Raise e => (Reply (Py.Raise e), Some run')
            end
        | [] =>
            let remaining := (deadline - now)%Q in
            if Qle_bool remaining 0 then (Reply (Py.Ok next_wait), active)
            else (Block remaining, active)
        end
  end.

Definition next_loop (deadline : Q)
    (wakeups : list (Q * (option RunState -> option RunState)))
    (active : option RunState) : option (Py.result NextResp * option RunState) :=
  long_poll (next_iter deadline) wakeups active.

(** [POST /next]. [now] is read by the liveness check, [now_deadline] when
    the deadline is set. *)
Definition next_job (cfg : Config) (now now_deadline : Q) (req : NextReq)
    (wakeups : list (Q * (option RunState -> option RunState)))
    (w : World) : option (Py.result NextResp * World) :=
  if negb (Registry.is_alive_worker_core cfg (WORKERS w) now
             (nr_worker_id req) (nr_core_id req)) then
    Some (Py.Raise (Py.HTTPException 400 "worker/core not alive or invalid core_id"), w)
  else
    let deadline := (now_deadline + inject_Z (nr_timeout_ms req) / 1000)%Q in
    match next_loop deadline wakeups (ACTIVE_RUN w) with
    | Some (r, active') => Some (r, with_run w active')
    | None => None
    end.

Definition record_done (job : JobState) (start finish : Z) (req : DoneReq) : JobState :=
  {| job_id := job_id job; service_ms := service_ms job;
     arrival_ms := arrival_ms job;
     start_ms := Some start; finish_ms := Some finish;
     cpu_percent := dr_cpu_percent req; memory_mb := dr_memory_mb req |}.

(** [POST /done]. [now] is read by the liveness check, [now_final] by the
    slot count of a finalization. *)
Definition done_handler (cfg : Config) (now now_final : Q) (req : DoneReq)
    (w : World) : Py.result DoneResp * World * list signal :=
  if negb (Registry.is_alive_worker_core cfg (WORKERS w) now
             (dr_worker_id req) (dr_core_id req)) then
    (Py.Raise (Py.HTTPException 400 "worker/core not alive or invalid core_id"), w, [])
  else
    match ACTIVE_RUN w with
    | None => (Py.Ok done_no_run, w, [])
    | Some run =>
        if done run then (Py.Ok done_done, w, [])
        else
          match Py.get (jobs run) (dr_job_id req) with
          | None => (Py.Raise (Py.HTTPException 400 "unknown job_id"), w, [])
          | Some job =>
              let started_sim := wall_to_sim run (started_wall_ms req) in
              let start := match start_ms job with Some s => s | None => started_sim end in
              let finish := start + service_ms job in
              let job' := record_done job start finish req in
              let run1 :=
                {| run_id := run_id run; dataset_file := dataset_file run;
                   speedup := speedup run; start_wall_ms := start_wall_ms run;
                   jobs := Py.set (jobs run) (dr_job_id req) job';
                   ready_q := ready_q run; pending_jobs := pending_jobs run;
                   total_jobs := total_jobs run;
                   current_sim_ms := Z.max (current_sim_ms run) finish;
                   completed := completed run + 1; done := done run;
                   jobs_csv := jobs_csv run; run_csv := run_csv run;
                   summary := summary run |} in
              if total_jobs run1 <=? completed run1 then
                let '(run2, files) := finalize_run cfg (WORKERS w) now_final run1 in
                (Py.Ok done_ok,
                 {| WORKERS := WORKERS w; ACTIVE_RUN := Some run2;
                    DATASETS := DATASETS w; RESULTS := RESULTS w ++ files |},
                 [notify_all])
              else
                (Py.Ok done_ok, with_run w (Some run1), [notify])
          end
    end.


(** The body of [GET /status]. *)
Inductive StatusResp : Type :=
| status_no_run
| status_done (rid : string) (s : option Summary) (jobs_csv run_csv : option string)
| status_running (rid : string) (completed total : Z).

(** [GET /status]. *)
Definition status (w : World) : StatusResp :=
  match ACTIVE_RUN w with
  | None => status_no_run
  | Some run =>
      if done run
      then status_done (run_id run) (summary run) (jobs_csv run) (run_csv run)
      else status_running (run_id run) (completed run) (total_jobs run)
  end.

Definition with_workers (w : World) (W : Registry.Workers) : World :=
  {| WORKERS := W; ACTIVE_RUN := ACTIVE_RUN w;
     DATASETS := DATASETS w; RESULTS := RESULTS w |}.

(** The steps that change the shared state, each taken under its lock:
    the handlers [/register], [/heartbeat], [/start] and [/done], one pass
    of the loop of [/next], and one pass of the arrival thread of the
    active run. The thread tests [run.done] outside the lock, so one of its
    passes may still follow the finalization. *)
Inductive event : Type :=
| ev_register (now : Q) (worker_id : string) (cores : Z)
| ev_heartbeat (now : Q) (worker_id : string)
| ev_start (now_slots now_start : Q) (fresh_id : string) (req : StartReq)
| ev_next (deadline now : Q)
| ev_done (now now_final : Q) (req : DoneReq)
| ev_arrival (now : Q).

Definition step (cfg : Config) (e : event) (w : World) : World :=
  match e with
  | ev_register now wid n => with_workers w (Registry.register (WORKERS w) now wid n)
  | ev_heartbeat now wid => with_workers w (snd (Registry.heartbeat (WORKERS w) now wid))
  | ev_start now_slots now_start fresh_id req =>
      snd (fst (start cfg now_slots now_start fresh_id req w))
  | ev_next deadline now => with_run w (snd (next_iter deadline now (ACTIVE_RUN w)))
  | ev_done now now_final req => snd (fst (done_handler cfg now now_final req w))
  | ev_arrival now =>
      with_run w (option_map (fun run => fst (arrival_pass run now)) (ACTIVE_RUN w))
  end.

Definition steps (cfg : Config) (es : list event) (w : World) : World :=
  fold_left (fun w e => step cfg e w) es w.

Definition is_start (e : event) : bool :=
  match e with
  | ev_start _ _ _ _ => true
  | _ => false
  end.

Definition is_next (e : event) : bool :=
  match e with
  | ev_next _ _ => true
  | _ => false
  end.

(** The job that a step hands to a caller of [/next]. *)
Definition handed_out (e : event) (w : World) : list string :=
  match e with
  | ev_next deadline now =>
      match fst (next_iter deadline now (ACTIVE_RUN w)) with
      | Reply (Py.Ok (next_ok jid _)) => [jid]
      | _ => []
      end
  | _ => []
  end.

(** The jobs handed out along a sequence of steps, in order. *)
Fixpoint dispatches (cfg : Config) (es : list event) (w : World) : list string :=
  match es with
  | [] => []
  | e :: es' => handed_out e w ++ dispatches cfg es' (step cfg e w)
  end.

End Fifo.

(** ** Priority service: [src/priority/scheduler.py] *)

Module Priority.

Record JobState : Type := {
  job_id : string;
  service_ms : Z;
  arrival_ms : Z;
  priority : Z;
  start_ms : option Z;
  finish_ms : option Z;
  cpu_percent : option Q;
  memory_mb : option Q
}.

Record Summary : Type := {
  sum_run_id : string;
  sum_dataset_file : string;
  sum_speedup : Q;
  sum_jobs : Z;
  mean_response_ms : Q;
  p50_response_ms : Q;
  p95_response_ms : Q;
  p99_response_ms : Q;
  mean_wait_ms : Q;
  mean_execution_ms : Q;
  total_slots_at_end : Z
}.

(** Heap items: [(priority, arrival_ms, seq, job_id)] and
    [(arrival_ms, seq, job_id)]. *)
Definition ready_item : Type := Z * Z * Z * string.
Definition pending_item : Type := Z * Z * string.

Record RunState : Type := {
  run_id : string;
  dataset_file : string;
  speedup : Q;
  start_wall_ms : Z;
  jobs : Py.dict JobState;
  ready_heap : list ready_item;
  pending_heap : list pending_item;
  next_seq : Z;
  total_jobs : Z;
  current_sim_ms : Z;
  completed : Z;
  done : bool;
  jobs_csv : option string;
  run_csv : option string;
  summary : option Summary
}.

Record Row : Type := {
  row_job_id : string;
  arrival_time_ms : Z;
  service_time_ms : Z;
  start_time_ms : Z;
  finish_time_ms : Z;
  waiting_time_ms : Z;
  execution_time_ms : Z;
  response_time_ms : Z;
  cpu_usage_percent : Q;
  memory_usage_mb : Q;
  slowdown : Q;
  row_priority : Z
}.

Inductive artifact : Type :=
| JobsCsv (rid : string) (rows : list Row)
| RunCsv (s : Summary).

Record World : Type := {
  WORKERS : Registry.Workers;
  ACTIVE_RUN : option RunState;
  DATASETS : gmap string file;
  RESULTS : list (string * artifact)
}.

Record StartReq : Type := {
  sr_dataset_file : string;
  sr_speedup : Q;
  sr_min_slots : Z
}.

Record NextReq : Type := {
  nr_worker_id : string;
  nr_core_id : Z;
  nr_timeout_ms : Z
}.

Record DoneReq : Type := {
  dr_worker_id : string;
  dr_core_id : Z;
  dr_job_id : string;
  started_wall_ms : Z;
  finished_wall_ms : Z;
  dr_cpu_percent : option Q;
  dr_memory_mb : option Q
}.

Inductive NextResp : Type :=
| next_no_run
| next_done
| next_wait
| next_ok (jid : string) (execution_ms : Z) (prio : Z) (arrival_time : Z).

Inductive DoneResp : Type :=
| done_no_run
| done_done
| done_ok.

(** Python's order on the tuples of the two heaps. *)
Definition lex (c : comparison) (rest : bool) : bool :=
  match c with
  | Lt => true
  | Eq => rest
  | Gt => false
  end.

Definition ready_ltb (x y : ready_item) : bool :=
  let '(p1, a1, s1, j1) := x in
  let '(p2, a2, s2, j2) := y in
  lex (p1 ?= p2) (lex (a1 ?= a2) (lex (s1 ?= s2) (String.ltb j1 j2))).

Definition pending_ltb (x y : pending_item) : bool :=
  let '(a1, s1, j1) := x in
  let '(a2, s2, j2) := y in
  lex (a1 ?= a2) (lex (s1 ?= s2) (String.ltb j1 j2)).

Definition wall_to_sim (run : RunState) (wall_ms : Z) : Z :=
  Py.round (inject_Z (wall_ms - start_wall_ms run) * speedup run).

Definition new_job (jid : string) (svc arrival prio : Z) : JobState :=
  {| job_id := jid; service_ms := svc; arrival_ms := arrival; priority := prio;
     start_ms := None; finish_ms := None; cpu_percent := None; memory_mb := None |}.

Definition load_row (df : Py.DataFrame) (has_arrival : bool) (i : nat)
    (jobs : Py.dict JobState) : Py.result (Py.dict JobState) :=
  c ← Py.getattr df i "job_id";
  let jid := Py.str c in
  c ← Py.getattr df i "service_time_ms";
  service ← Py.int c;
  arrival ← (if has_arrival
             then c ← Py.getattr df i "arrival_time_ms"; Py.int c
             else Py.Ok 0);
  c ← Py.getattr df i "priority";
  prio ← Py.int c;
  Py.Ok (Py.set jobs jid (new_job jid service arrival prio)).

Definition load_jobs (fs : gmap string file) (dataset_path : string)
    : Py.result (Py.dict JobState) :=
  df ← read_csv fs dataset_path;
  if negb (Py.has_columns df ["job_id"; "service_time_ms"; "priority"]) then
    Py.Raise (Py.ValueError
      "Dataset must contain columns: ['job_id', 'priority', 'service_time_ms']")
  else
    let has_arrival := Py.has_column df "arrival_time_ms" in
    Py.for_rows (load_row df has_arrival) (seq 0 (Py.nrows df)) [].

Definition with_heaps (run : RunState) (ready : list ready_item)
    (pending : list pending_item) (seq sim : Z) : RunState :=
  {| run_id := run_id run; dataset_file := dataset_file run;
     speedup := speedup run; start_wall_ms := start_wall_ms run;
     jobs := jobs run; ready_heap := ready; pending_heap := pending;
     next_seq := seq; total_jobs := total_jobs run; current_sim_ms := sim;
     completed := completed run; done := done run;
     jobs_csv := jobs_csv run; run_csv := run_csv run;
     summary := summary run |}.

Definition push_ready (run : RunState) (jid : string) : Py.result RunState :=
  job ← Py.getitem (jobs run) jid;
  Py.Ok (with_heaps run
           (Py.heappush (ready_heap run) (priority job, arrival_ms job, next_seq run, jid))
           (pending_heap run) (next_seq run + 1) (current_sim_ms run)).

Definition push_pending (run : RunState) (jid : string) : Py.result RunState :=
  job ← Py.getitem (jobs run) jid;
  Py.Ok (with_heaps run (ready_heap run)
           (Py.heappush (pending_heap run) (arrival_ms job, next_seq run, jid))
           (next_seq run + 1) (current_sim_ms run)).

(** The [while] loop of [promote_arrivals]; every turn pops one pending
    item, so the size of the pending heap bounds the number of turns. *)
Fixpoint promote_loop (turns : nat) (run : RunState) (upto_sim_ms : Z)
    (changed : bool) : Py.result bool * RunState :=
  match turns with
  | O => (Py.Ok changed, run)
  | S n =>
      match Py.heap_top pending_ltb (pending_heap run) with
      | Some (arrival, _, _) =>
          if arrival <=? upto_sim_ms then
            match Py.heappop pending_ltb (pending_heap run) with
            | Some ((_, _, jid), rest) =>
                let run1 := with_heaps run (ready_heap run) rest
                              (next_seq run) (current_sim_ms run) in
                match push_ready run1 jid with
                | Py.Ok run2 => promote_loop n run2 upto_sim_ms true
                | Py.Raise e => (Py.Raise e, run1)
                end
            | None => (Py.Raise (Py.IndexError "index out of range"), run)
            end
          else (Py.Ok changed, run)
      | None => (Py.Ok changed, run)
      end
  end.

Definition promote_arrivals (run : RunState) (upto_sim_ms : Z)
    : Py.result unit * RunState * list signal :=
  match promote_loop (length (pending_heap run)) run upto_sim_ms false with
  | (Py.Ok changed, run') => (Py.Ok tt, run', if changed then [notify_all] else [])
  | (Py.Raise e, run') => (Py.Raise e, run', [])
  end.

(** One pass of the loop of [arrival_thread_func]. *)
(** [run.current_sim_ms = max(run.current_sim_ms, wall_to_sim(run, now))]:
    the new value, and the run that holds it. *)
Definition sim_now (run : RunState) (now : Q) : Z :=
  Z.max (current_sim_ms run) (wall_to_sim run (Py.int_of_float (now * 1000))).

Definition advance (run : RunState) (sim : Z) : RunState :=
  with_heaps run (ready_heap run) (pending_heap run) (next_seq run) sim.

Definition arrival_pass (run : RunState) (now : Q)
    : Py.result unit * RunState * list signal :=
  promote_arrivals (advance run (sim_now run now)) (sim_now run now).

Definition row_of (job : JobState) : list Row :=
  match start_ms job, finish_ms job with
  | Some start, Some finish =>
      let waiting := start - arrival_ms job in
      let response := finish - arrival_ms job in
      let execution := finish - start in
      let slowdown := (inject_Z response / inject_Z (Z.max 1 (service_ms job)))%Q in
      [{| row_job_id := job_id job;
          arrival_time_ms := arrival_ms job;
          service_time_ms := service_ms job;
          start_time_ms := start;
          finish_time_ms := finish;
          waiting_time_ms := waiting;
          execution_time_ms := execution;
          response_time_ms := response;
          cpu_usage_percent := match cpu_percent job with Some c => c | None => 0%Q end;
          memory_usage_mb := match memory_mb job with Some m => m | None => 0%Q end;
          slowdown := slowdown;
          row_priority := priority job |}]
  | _, _ => []
  end.

Definition result_rows (run : RunState) : list Row :=
  flat_map row_of (Py.values (jobs run)).

Definition summarize (cfg : Config) (W : Registry.Workers) (now : Q)
    (run : RunState) (rows : list Row) : Summary :=
  let resp := map response_time_ms rows in
  {| sum_run_id := run_id run;
     sum_dataset_file := dataset_file run;
     sum_speedup := speedup run;
     sum_jobs := Py.len rows;
     mean_response_ms := Py.mean resp;
     p50_response_ms := Py.percentile resp 50;
     p95_response_ms := Py.percentile resp 95;
     p99_response_ms := Py.percentile resp 99;
     mean_wait_ms := Py.mean (map waiting_time_ms rows);
     mean_execution_ms := Py.mean (map execution_time_ms rows);
     total_slots_at_end := Registry.total_alive_slots cfg W now |}.

Definition jobs_path (cfg : Config) (run : RunState) : string :=
  Py.path_join (RESULTS_DIR cfg) ("results_jobs_" ++ run_id run ++ ".csv").
Definition run_path (cfg : Config) (run : RunState) : string :=
  Py.path_join (RESULTS_DIR cfg) ("results_run_" ++ run_id run ++ ".csv").

Definition finalize_run (cfg : Config) (W : Registry.Workers) (now : Q)
    (run : RunState) : RunState * list (string * artifact) :=
  let rows := result_rows run in
  match rows with
  | [] => (run, [])
  | _ :: _ =>
      let s := summarize cfg W now run rows in
      ({| run_id := run_id run; dataset_file := dataset_file run;
          speedup := speedup run; start_wall_ms := start_wall_ms run;
          jobs := jobs run; ready_heap := ready_heap run;
          pending_heap := pending_heap run; next_seq := next_seq run;
          total_jobs := total_jobs run;
          current_sim_ms := current_sim_ms run; completed := completed run;
          done := true;
          jobs_csv := Some (jobs_path cfg run);
          run_csv := Some (run_path cfg run);
          summary := Some s |},
       [(jobs_path cfg run, JobsCsv (run_id run) rows);
        (run_path cfg run, RunCsv s)])
  end.

Definition with_run (w : World) (run : option RunState) : World :=
  {| WORKERS := WORKERS w; ACTIVE_RUN := run;
     DATASETS := DATASETS w; RESULTS := RESULTS w |}.

(** The loop of [start] over [jobs.items()]: the two heaps and the next
    sequence number. *)
Fixpoint fill_heaps (items : list (string * JobState))
    (ready : list ready_item) (pending : list pending_item) (seq : Z)
    : list ready_item * list pending_item * Z :=
  match items with
  | [] => (ready, pending, seq)
  | (jid, job) :: rest =>
      if arrival_ms job <=? 0 then
        fill_heaps rest (Py.heappush ready (priority job, arrival_ms job, seq, jid))
          pending (seq + 1)
      else
        fill_heaps rest ready (Py.heappush pending (arrival_ms job, seq, jid))
          (seq + 1)
  end.

(** [POST /start]. *)
Definition start (cfg : Config) (now_slots now_start : Q) (fresh_id : string)
    (req : StartReq) (w : World) : Py.result string * World * list signal :=
  let slots := Registry.total_alive_slots cfg (WORKERS w) now_slots in
  if slots <? sr_min_slots req then
    (Py.Raise (Py.HTTPException 400
       ("Not enough slots online (" ++ Py.str_of_Z slots ++ ") < min_slots ("
        ++ Py.str_of_Z (sr_min_slots req) ++ ")")), w, [])
  else
    let dataset_path := Py.path_join (DATA_DIR cfg) (sr_dataset_file req) in
    if negb (path_exists (DATASETS w) dataset_path) then
      (Py.Raise (Py.HTTPException 400 ("Dataset not found: " ++ dataset_path)), w, [])
    else
      match load_jobs (DATASETS w) dataset_path with
      | Py.Raise e => (Py.Raise e, w, [])
      | Py.Ok jobs =>
          let '(ready_heap, pending_heap, seq) := fill_heaps jobs [] [] 0 in
          let run :=
            {| run_id := fresh_id; dataset_file := sr_dataset_file req;
               speedup := sr_speedup req;
               start_wall_ms := Py.int_of_float (now_start * 1000);
               jobs := jobs; ready_heap := ready_heap;
               pending_heap := pending_heap; next_seq := seq;
               total_jobs := Py.len jobs; current_sim_ms := 0; completed := 0;
               done := false; jobs_csv := None; run_csv := None;
               summary := None |} in
          (Py.Ok (run_id run), with_run w (Some run), [notify_all])
      end.

(** One pass of the loop of [next_job]. [now_sim] is the clock reading that
    is converted to simulated time, [now] the one of
    [deadline - time.time()]. *)
Definition next_iter (deadline now_sim now : Q) (active : option RunState)
    : pass NextResp * option RunState * list signal :=
  match active with
  | None => (Reply (Py.Ok next_no_run), active, [])
  | Some run =>
      if done run || (total_jobs run <=? completed run) then
        (Reply (Py.Ok next_done), active, [])
      else
        match promote_arrivals (advance run (sim_now run now_sim))
                (sim_now run now_sim) with
        | (Py.Raise e, run1, sigs) => (Reply (Py.Raise e), Some run1, sigs)
        | (Py.Ok _, run1, sigs) =>
            match Py.heappop ready_ltb (ready_heap run1) with
            | Some ((prio, arrival, _, jid), rest) =>
                let run2 := with_heaps run1 rest (pending_heap run1)
                              (next_seq run1) (current_sim_ms run1) in
                match Py.getitem (jobs run1) jid with
                | Py.Ok job =>
                    (Reply (Py.Ok (next_ok jid (service_ms job) prio arrival)),
                     Some run2, sigs)
                | Py.Raise e => (Reply (Py.Raise e), Some run2, sigs)
                end
            | None =>
                let remaining := (deadline - now)%Q in
                if Qle_bool remaining 0 then (Reply (Py.Ok next_wait), Some run1, sigs)
                else (Block remaining, Some run1, sigs)
            end
        end
  end.

(** The pass as the loop sees it: the clock readings as a pair. *)
Definition next_pass (deadline : Q) (clock : Q * Q) (active : option RunState)
    : pass NextResp * option RunState :=
  let '(p, active', _) := next_iter deadline (fst clock) (snd clock) active in
  (p, active').

Definition next_loop (deadline : Q)
    (wakeups : list (Q * Q * (option RunState -> option RunState)))
    (active : option RunState) : option (Py.result NextResp * option RunState) :=
  long_poll (next_pass deadline) wakeups active.

(** [POST /next]. *)
Definition next_job (cfg : Config) (now now_deadline : Q) (req : NextReq)
    (wakeups : list (Q * Q * (option RunState -> option RunState)))
    (w : World) : option (Py.result NextResp * World) :=
  if negb (Registry.is_alive_worker_core cfg (WORKERS w) now
             (nr_worker_id req) (nr_core_id req)) then
    Some (Py.Raise (Py.HTTPException 400 "worker/core not alive or invalid core_id"), w)
  else
    let deadline := (now_deadline + inject_Z (nr_timeout_ms req) / 1000)%Q in
    match next_loop deadline wakeups (ACTIVE_RUN w) with
    | Some (r, active') => Some (r, with_run w active')
    | None => None
    end.

(** [POST /done]. *)
Definition done_handler (cfg : Config) (now now_final : Q) (req : DoneReq)
    (w : World) : Py.result DoneResp * World * list signal :=
  if negb (Registry.is_alive_worker_core cfg (WORKERS w) now
             (dr_worker_id req) (dr_core_id req)) then
    (Py.Raise (Py.HTTPException 400 "worker/core not alive or invalid core_id"), w, [])
  else
    match ACTIVE_RUN w with
    | None => (Py.Ok done_no_run, w, [])
    | Some run =>
        if done run then (Py.Ok done_done, w, [])
        else
          match Py.get (jobs run) (dr_job_id req) with
          | None => (Py.Raise (Py.HTTPException 400 "unknown job_id"), w, [])
          | Some job =>
              let started_sim := wall_to_sim run (started_wall_ms req) in
              let finished_sim := started_sim + service_ms job in
              let job' :=
                {| job_id := job_id job; service_ms := service_ms job;
                   arrival_ms := arrival_ms job; priority := priority job;
                   start_ms := Some (match start_ms job with
                                     | Some s => s
                                     | None => started_sim
                                     end);
                   finish_ms := Some finished_sim;
                   cpu_percent := dr_cpu_percent req;
                   memory_mb := dr_memory_mb req |} in
              let run1 :=
                {| run_id := run_id run; dataset_file := dataset_file run;
                   speedup := speedup run; start_wall_ms := start_wall_ms run;
                   jobs := Py.set (jobs run) (dr_job_id req) job';
                   ready_heap := ready_heap run; pending_heap := pending_heap run;
                   next_seq := next_seq run; total_jobs := total_jobs run;
                   current_sim_ms := Z.max (current_sim_ms run) finished_sim;
                   completed := completed run + 1; done := done run;
                   jobs_csv := jobs_csv run; run_csv := run_csv run;
                   summary := summary run |} in
              if total_jobs run1 <=? completed run1 then
                let '(run2, files) := finalize_run cfg (WORKERS w) now_final run1 in
                (Py.Ok done_ok,
                 {| WORKERS := WORKERS w; ACTIVE_RUN := Some run2;
                    DATASETS := DATASETS w; RESULTS := RESULTS w ++ files |},
                 [notify_all])
              else
                (Py.Ok done_ok, with_run w (Some run1), [notify])
          end
    end.

(** The body of [GET /status]. *)
Inductive StatusResp : Type :=
| status_no_run
| status_done (rid : string) (s : option Summary) (jobs_csv run_csv : option string)
| status_running (rid : string) (completed total ready pending : Z).

(** [GET /status]. *)
Definition status (w : World) : StatusResp :=
  match ACTIVE_RUN w with
  | None => status_no_run
  | Some run =>
      if done run
      then status_done (run_id run) (summary run) (jobs_csv run) (run_csv run)
      else status_running (run_id run) (completed run) (total_jobs run)
             (Py.len (ready_heap run)) (Py.len (pending_heap run))
  end.

Definition with_workers (w : World) (W : Registry.Workers) : World :=
  {| WORKERS := W; ACTIVE_RUN := ACTIVE_RUN w;
     DATASETS := DATASETS w; RESULTS := RESULTS w |}.

(** The steps that change the shared state, each taken under its lock:
    the handlers [/register], [/heartbeat], [/start] and [/done], one pass
    of the loop of [/next], and one pass of the arrival thread of the
    active run. A pass that raises leaves the run as it was when the
    exception left the handler. *)
Inductive event : Type :=
| ev_register (now : Q) (worker_id : string) (cores : Z)
| ev_heartbeat (now : Q) (worker_id : string)
| ev_start (now_slots now_start : Q) (fresh_id : string) (req : StartReq)
| ev_next (deadline now_sim now : Q)
| ev_done (now now_final : Q) (req : DoneReq)
| ev_arrival (now : Q).

Definition step (cfg : Config) (e : event) (w : World) : World :=
  match e with
  | ev_register now wid n => with_workers w (Registry.register (WORKERS w) now wid n)
  | ev_heartbeat now wid => with_workers w (snd (Registry.heartbeat (WORKERS w) now wid))
  | ev_start now_slots now_start fresh_id req =>
      snd (fst (start cfg now_slots now_start fresh_id req w))
  | ev_next deadline now_sim now =>
      with_run w (snd (fst (next_iter deadline now_sim now (ACTIVE_RUN w))))
  | ev_done now now_final req => snd (fst (done_handler cfg now now_final req w))
  | ev_arrival now =>
      with_run w (option_map (fun run => snd (fst (arrival_pass run now))) (ACTIVE_RUN w))
  end.

Definition steps (cfg : Config) (es : list event) (w : World) : World :=
  fold_left (fun w e => step cfg e w) es w.

Definition is_start (e : event) : bool :=
  match e with
  | ev_start _ _ _ _ => true
  | _ => false
  end.

(** The job that a step hands to a caller of [/next]. *)
Definition handed_out (e : event) (w : World) : list string :=
  match e with
  | ev_next deadline now_sim now =>
      match fst (fst (next_iter deadline now_sim now (ACTIVE_RUN w))) with
      | Reply (Py.Ok (next_ok jid _ _ _)) => [jid]
      | _ => []
      end
  | _ => []
  end.

(** The jobs handed out along a sequence of steps, in order. *)
Fixpoint dispatches (cfg : Config) (es : list event) (w : World) : list string :=
  match es with
  | [] => []
  | e :: es' => handed_out e w ++ dispatches cfg es' (step cfg e w)
  end.

End Priority.

(** ** Round-robin service without arrivals: [src/scheduler.py] *)

Module RR.

Record JobState : Type := {
  job_id : string;
  service_ms : Z;
  remaining_ms : Z;
  arrival_ms : Z;
  first_start_ms : option Z;
  finish_ms : option Z;
  slices : Z;
  preemptions : Z
}.

Record Summary : Type := {
  sum_run_id : string;
  sum_dataset_file : string;
  sum_quantum_ms : Z;
  sum_speedup : Q;
  sum_jobs : Z;
  mean_response_ms : Q;
  p50_response_ms : Q;
  p95_response_ms : Q;
  p99_response_ms : Q;
  mean_wait_ms : Q;
  avg_slices_per_job : Q;
  total_slots_at_end : Z
}.

Record RunState : Type := {
  run_id : string;
  dataset_file : string;
  quantum_ms : Z;
  speedup : Q;
  start_wall_ms : Z;
  jobs : Py.dict JobState;
  ready_q : list string;
  total_jobs : Z;
  completed : Z;
  done : bool;
  jobs_csv : option string;
  run_csv : option string;
  summary : option Summary
}.

Record Row : Type := {
  row_job_id : string;
  service_time_ms : Z;
  arrival_time_ms : Z;
  first_start_time_ms : Z;
  finish_time_ms : Z;
  response_time_ms : Z;
  waiting_time_ms : Z;
  row_slices : Z;
  row_preemptions : Z;
  slowdown : Q
}.

Inductive artifact : Type :=
| JobsCsv (rid : string) (quantum : Z) (rows : list Row)
| RunCsv (s : Summary).

Record World : Type := {
  WORKERS : Registry.Workers;
  ACTIVE_RUN : option RunState;
  DATASETS : gmap string file;
  RESULTS : list (string * artifact)
}.

Record StartReq : Type := {
  sr_dataset_file : string;
  sr_quantum_ms : Z;
  sr_speedup : Q;
  sr_min_slots : Z
}.

Record NextReq : Type := {
  nr_worker_id : string;
  nr_core_id : Z;
  nr_timeout_ms : Z
}.

Record DoneReq : Type := {
  dr_worker_id : string;
  dr_core_id : Z;
  dr_job_id : string;
  ran_ms : Z;
  remaining_after_ms : Z;
  started_wall_ms : Z;
  finished_wall_ms : Z
}.

Inductive NextResp : Type :=
| next_no_run
| next_done
| next_wait
| next_ok (jid : string) (slice_ms : Z) (remaining_before_ms : Z).

Inductive DoneResp : Type :=
| done_no_run
| done_done
| done_ok.

Definition wall_to_sim (run : RunState) (wall_ms : Z) : Z :=
  Py.round (inject_Z (wall_ms - start_wall_ms run) * speedup run).

Definition new_job (jid : string) (svc : Z) : JobState :=
  {| job_id := jid; service_ms := svc; remaining_ms := svc; arrival_ms := 0;
     first_start_ms := None; finish_ms := None; slices := 0; preemptions := 0 |}.

Definition load_row (df : Py.DataFrame) (i : nat)
    (jobs : Py.dict JobState) : Py.result (Py.dict JobState) :=
  c ← Py.getattr df i "job_id";
  let jid := Py.str c in
  c ← Py.getattr df i "service_time_ms";
  svc ← Py.int c;
  Py.Ok (Py.set jobs jid (new_job jid svc)).

Definition load_jobs (fs : gmap string file) (dataset_path : string)
    : Py.result (Py.dict JobState) :=
  df ← read_csv fs dataset_path;
  if negb (Py.has_columns df ["job_id"; "service_time_ms"]) then
    Py.Raise (Py.ValueError
      "Dataset must contain at least ['job_id', 'service_time_ms']")
  else
    Py.for_rows (load_row df) (seq 0 (Py.nrows df)) [].

Definition row_of (j : JobState) : list Row :=
  match finish_ms j with
  | None => []
  | Some finish =>
      let response := finish - arrival_ms j in
      let waiting := response - service_ms j in
      let slowdown := (inject_Z response / inject_Z (Z.max 1 (service_ms j)))%Q in
      [{| row_job_id := job_id j;
          service_time_ms := service_ms j;
          arrival_time_ms := arrival_ms j;
          first_start_time_ms := match first_start_ms j with Some s => s | None => 0 end;
          finish_time_ms := finish;
          response_time_ms := response;
          waiting_time_ms := waiting;
          row_slices := slices j;
          row_preemptions := preemptions j;
          slowdown := slowdown |}]
  end.

Definition result_rows (run : RunState) : list Row :=
  flat_map row_of (Py.values (jobs run)).

Definition summarize (cfg : Config) (W : Registry.Workers) (now : Q)
    (run : RunState) (rows : list Row) : Summary :=
  let resp := map response_time_ms rows in
  {| sum_run_id := run_id run;
     sum_dataset_file := dataset_file run;
     sum_quantum_ms := quantum_ms run;
     sum_speedup := speedup run;
     sum_jobs := Py.len rows;
     mean_response_ms := Py.mean resp;
     p50_response_ms := Py.percentile resp 50;
     p95_response_ms := Py.percentile resp 95;
     p99_response_ms := Py.percentile resp 99;
     mean_wait_ms := Py.mean (map waiting_time_ms rows);
     avg_slices_per_job := Py.mean (map row_slices rows);
     total_slots_at_end := Registry.total_alive_slots cfg W now |}.

Definition jobs_path (cfg : Config) (run : RunState) : string :=
  Py.path_join (RESULTS_DIR cfg) ("results_jobs_" ++ run_id run ++ ".csv").
Definition run_path (cfg : Config) (run : RunState) : string :=
  Py.path_join (RESULTS_DIR cfg) ("results_run_" ++ run_id run ++ ".csv").

(** [finalize_run]. A frame built from no rows has no column, and reading
    its [response_time_ms] raises [KeyError]. *)
Definition finalize_run (cfg : Config) (W : Registry.Workers) (now : Q)
    (run : RunState) : Py.result (RunState * list (string * artifact)) :=
  let rows := result_rows run in
  match rows with
  | [] => Py.Raise (Py.KeyError "response_time_ms")
  | _ :: _ =>
      let s := summarize cfg W now run rows in
      Py.Ok
        ({| run_id := run_id run; dataset_file := dataset_file run;
            quantum_ms := quantum_ms run;
            speedup := speedup run; start_wall_ms := start_wall_ms run;
            jobs := jobs run; ready_q := ready_q run;
            total_jobs := total_jobs run; completed := completed run;
            done := true;
            jobs_csv := Some (jobs_path cfg run);
            run_csv := Some (run_path cfg run);
            summary := Some s |},
         [(jobs_path cfg run, JobsCsv (run_id run) (quantum_ms run) rows);
          (run_path cfg run, RunCsv s)])
  end.

Definition with_run (w : World) (run : option RunState) : World :=
  {| WORKERS := WORKERS w; ACTIVE_RUN := run;
     DATASETS := DATASETS w; RESULTS := RESULTS w |}.

Definition with_ready (run : RunState) (ready : list string) : RunState :=
  {| run_id := run_id run; dataset_file := dataset_file run;
     quantum_ms := quantum_ms run;
     speedup := speedup run; start_wall_ms := start_wall_ms run;
     jobs := jobs run; ready_q := ready;
     total_jobs := total_jobs run; completed := completed run;
     done := done run; jobs_csv := jobs_csv run; run_csv := run_csv run;
     summary := summary run |}.

(** [POST /start]. *)
Definition start (cfg : Config) (now_slots now_start : Q) (fresh_id : string)
    (req : StartReq) (w : World) : Py.result string * World * list signal :=
  let slots := Registry.total_alive_slots cfg (WORKERS w) now_slots in
  if slots <? sr_min_slots req then
    (Py.Raise (Py.HTTPException 400
       ("Not enough slots online (" ++ Py.str_of_Z slots ++ ") < min_slots ("
        ++ Py.str_of_Z (sr_min_slots req) ++ ")")), w, [])
  else
    let dataset_path := Py.path_join (DATA_DIR cfg) (sr_dataset_file req) in
    if negb (path_exists (DATASETS w) dataset_path) then
      (Py.Raise (Py.HTTPException 400 ("Dataset not found: " ++ dataset_path)), w, [])
    else
      match load_jobs (DATASETS w) dataset_path with
      | Py.Raise e => (Py.Raise e, w, [])
      | Py.Ok jobs =>
          let run :=
            {| run_id := fresh_id; dataset_file := sr_dataset_file req;
               quantum_ms := sr_quantum_ms req;
               speedup := sr_speedup req;
               start_wall_ms := Py.int_of_float (now_start * 1000);
               jobs := jobs; ready_q := Py.keys jobs;
               total_jobs := Py.len jobs; completed := 0;
               done := false; jobs_csv := None; run_csv := None;
               summary := None |} in
          (Py.Ok (run_id run), with_run w (Some run), [notify_all])
      end.

(** One pass of the loop of [next_slice]. *)
Definition next_iter (deadline now : Q) (active : option RunState)
    : pass NextResp * option RunState :=
  match active with
  | None => (Reply (Py.Ok next_no_run), active)
  | Some run =>
      if done run || (total_jobs run <=? completed run) then
        (Reply (Py.Ok next_done), active)
      else
        match ready_q run with
        | jid :: rest =>
            let run' := with_ready run rest in
            match Py.getitem (jobs run) jid with
            | Py.Ok job =>
                let slice_ms := Z.min (quantum_ms run) (remaining_ms job) in
                (Reply (Py.Ok (next_ok jid slice_ms (remaining_ms job))), Some run')
            | Py.Raise e => (Reply (Py.Raise e), Some run')
            end
        | [] =>
            let remaining := (deadline - now)%Q in
            if Qle_bool remaining 0 then (Reply (Py.Ok next_wait), active)
            else (Block remaining, active)
        end
  end.

Definition next_loop (deadline : Q)
    (wakeups : list (Q * (option RunState -> option RunState)))
    (active : option RunState) : option (Py.result NextResp * option RunState) :=
  long_poll (next_iter deadline) wakeups active.

(** [POST /next]. *)
Definition next_slice (cfg : Config) (now now_deadline : Q) (req : NextReq)
    (wakeups : list (Q * (option RunState -> option RunState)))
    (w : World) : option (Py.result NextResp * World) :=
  if negb (Registry.is_alive_worker_core cfg (WORKERS w) now
             (nr_worker_id req) (nr_core_id req)) then
    Some (Py.Raise (Py.HTTPException 400 "worker/core not alive or invalid core_id"), w)
  else
    let deadline := (now_deadline + inject_Z (nr_timeout_ms req) / 1000)%Q in
    match next_loop deadline wakeups (ACTIVE_RUN w) with
    | Some (r, active') => Some (r, with_run w active')
    | None => None
    end.

(** The job after a reported slice. *)
Definition record_slice (run : RunState) (job : JobState) (req : DoneReq) : JobState :=
  let started_sim := wall_to_sim run (started_wall_ms req) in
  let finished_sim := wall_to_sim run (finished_wall_ms req) in
  let remaining := Z.max 0 (remaining_after_ms req) in
  {| job_id := job_id job; service_ms := service_ms job;
     remaining_ms := remaining;
     arrival_ms := arrival_ms job;
     first_start_ms := Some (match first_start_ms job with
                             | Some s => s
                             | None => started_sim
                             end);
     finish_ms := if remaining =? 0 then Some finished_sim else finish_ms job;
     slices := slices job + 1;
     preemptions := if remaining =? 0 then preemptions job else preemptions job + 1 |}.

(** [POST /done]. *)
Definition done_handler (cfg : Config) (now now_final : Q) (req : DoneReq)
    (w : World) : Py.result DoneResp * World * list signal :=
  if negb (Registry.is_alive_worker_core cfg (WORKERS w) now
             (dr_worker_id req) (dr_core_id req)) then
    (Py.Raise (Py.HTTPException 400 "worker/core not alive or invalid core_id"), w, [])
  else
    match ACTIVE_RUN w with
    | None => (Py.Ok done_no_run, w, [])
    | Some run =>
        if done run then (Py.Ok done_done, w, [])
        else
          match Py.get (jobs run) (dr_job_id req) with
          | None => (Py.Raise (Py.HTTPException 400 "unknown job_id"), w, [])
          | Some job =>
              let job' := record_slice run job req in
              let finished := remaining_ms job' =? 0 in
              let run1 :=
                {| run_id := run_id run; dataset_file := dataset_file run;
                   quantum_ms := quantum_ms run;
                   speedup := speedup run; start_wall_ms := start_wall_ms run;
                   jobs := Py.set (jobs run) (dr_job_id req) job';
                   ready_q := if finished then ready_q run
                              else ready_q run ++ [job_id job'];
                   total_jobs := total_jobs run;
                   completed := if finished then completed run + 1 else completed run;
                   done := done run;
                   jobs_csv := jobs_csv run; run_csv := run_csv run;
                   summary := summary run |} in
              let sigs := if finished then [] else [notify] in
              if total_jobs run1 <=? completed run1 then
                match finalize_run cfg (WORKERS w) now_final run1 with
                | Py.Ok (run2, files) =>
                    (Py.Ok done_ok,
                     {| WORKERS := WORKERS w; ACTIVE_RUN := Some run2;
                        DATASETS := DATASETS w; RESULTS := RESULTS w ++ files |},
                     sigs ++ [notify_all])
                | Py.Raise e => (Py.Raise e, with_run w (Some run1), sigs)
                end
              else
                (Py.Ok done_ok, with_run w (Some run1), sigs)
          end
    end.

(** The body of [GET /status]. *)
Inductive StatusResp : Type :=
| status_no_run
| status_done (rid : string) (s : option Summary) (jobs_csv run_csv : option string)
| status_running (rid : string) (completed total quantum : Z).

(** [GET /status]. *)
Definition status (w : World) : StatusResp :=
  match ACTIVE_RUN w with
  | None => status_no_run
  | Some run =>
      if done run
      then status_done (run_id run) (summary run) (jobs_csv run) (run_csv run)
      else status_running (run_id run) (completed run) (total_jobs run) (quantum_ms run)
  end.

Definition with_workers (w : World) (W : Registry.Workers) : World :=
  {| WORKERS := W; ACTIVE_RUN := ACTIVE_RUN w;
     DATASETS := DATASETS w; RESULTS := RESULTS w |}.

(** The steps that change the shared state, each taken under its lock:
    the handlers [/register], [/heartbeat], [/start] and [/done], and one
    pass of the loop of [/next]. A handler that raises leaves the state as
    it was when the exception left it. *)
Inductive event : Type :=
| ev_register (now : Q) (worker_id : string) (cores : Z)
| ev_heartbeat (now : Q) (worker_id : string)
| ev_start (now_slots now_start : Q) (fresh_id : string) (req : StartReq)
| ev_next (deadline now : Q)
| ev_done (now now_final : Q) (req : DoneReq).

Definition step (cfg : Config) (e : event) (w : World) : World :=
  match e with
  | ev_register now wid n => with_workers w (Registry.register (WORKERS w) now wid n)
  | ev_heartbeat now wid => with_workers w (snd (Registry.heartbeat (WORKERS w) now wid))
  | ev_start now_slots now_start fresh_id req =>
      snd (fst (start cfg now_slots now_start fresh_id req w))
  | ev_next deadline now =>
      with_run w (snd (next_iter deadline now (ACTIVE_RUN w)))
  | ev_done now now_final req => snd (fst (done_handler cfg now now_final req w))
  end.

Definition steps (cfg : Config) (es : list event) (w : World) : World :=
  fold_left (fun w e => step cfg e w) es w.

Definition is_start (e : event) : bool :=
  match e with
  | ev_start _ _ _ _ => true
  | _ => false
  end.

End RR.

(** ** Round-robin service with arrivals: [src/round-robin/scheduler.py] *)

Module RoundRobin.

Record JobState : Type := {
  job_id : string;
  service_ms : Z;
  remaining_ms : Z;
  arrival_ms : Z;
  first_start_ms : option Z;
  finish_ms : option Z;
  slices : Z;
  preemptions : Z
}.

Record Summary : Type := {
  sum_run_id : string;
  sum_dataset_file : string;
  sum_quantum_ms : Z;
  sum_speedup : Q;
  sum_jobs : Z;
  mean_response_ms : Q;
  p50_response_ms : Q;
  p95_response_ms : Q;
  p99_response_ms : Q;
  mean_wait_ms : Q;
  avg_slices_per_job : Q;
  total_slots_at_end : Z
}.

(** [pending_ids] holds every job id in increasing arrival order;
    [pending_idx] is the first one not yet released. *)
Record RunState : Type := {
  run_id : string;
  dataset_file : string;
  quantum_ms : Z;
  speedup : Q;
  start_wall_ms : Z;
  jobs : Py.dict JobState;
  ready_q : list string;
  pending_ids : list string;
  total_jobs : Z;
  pending_idx : Z;
  completed : Z;
  done : bool;
  jobs_csv : option string;
  run_csv : option string;
  summary : option Summary
}.

(** The per-job results of this service have no slowdown column. *)
Record Row : Type := {
  row_job_id : string;
  service_time_ms : Z;
  arrival_time_ms : Z;
  first_start_time_ms : Z;
  finish_time_ms : Z;
  response_time_ms : Z;
  waiting_time_ms : Z;
  row_slices : Z;
  row_preemptions : Z
}.

Inductive artifact : Type :=
| JobsCsv (rid : string) (quantum : Z) (rows : list Row)
| RunCsv (s : Summary).

Record World : Type := {
  WORKERS : Registry.Workers;
  ACTIVE_RUN : option RunState;
  DATASETS : gmap string file;
  RESULTS : list (string * artifact)
}.

Record StartReq : Type := {
  sr_dataset_file : string;
  sr_quantum_ms : Z;
  sr_speedup : Q;
  sr_min_slots : Z
}.

Record NextReq : Type := {
  nr_worker_id : string;
  nr_core_id : Z;
  nr_timeout_ms : Z
}.

Record DoneReq : Type := {
  dr_worker_id : string;
  dr_core_id : Z;
  dr_job_id : string;
  ran_ms : Z;
  remaining_after_ms : Z;
  started_wall_ms : Z;
  finished_wall_ms : Z
}.

Inductive NextResp : Type :=
| next_no_run
| next_done
| next_wait
| next_ok (jid : string) (slice_ms : Z) (remaining_before_ms : Z) (arrival_time : Z).

Inductive DoneResp : Type :=
| done_no_run
| done_done
| done_ok.

Definition with_ready (run : RunState) (ready : list string) (idx : Z) : RunState :=
  {| run_id := run_id run; dataset_file := dataset_file run;
     quantum_ms := quantum_ms run;
     speedup := speedup run; start_wall_ms := start_wall_ms run;
     jobs := jobs run; ready_q := ready; pending_ids := pending_ids run;
     total_jobs := total_jobs run; pending_idx := idx;
     completed := completed run;
     done := done run; jobs_csv := jobs_csv run; run_csv := run_csv run;
     summary := summary run |}.

(** The ids from [pending_idx] on. *)
Definition unreleased (run : RunState) : list string :=
  skipn (Z.to_nat (pending_idx run)) (pending_ids run).

(** The [while] loop of [release_arrivals] over the unreleased ids. *)
Fixpoint release_loop (jobs : Py.dict JobState) (now_sim_ms : Z)
    (rest ready : list string) (idx : Z) : Py.result unit * list string * Z :=
  match rest with
  | [] => (Py.Ok tt, ready, idx)
  | jid :: rest' =>
      match Py.getitem jobs jid with
      | Py.Raise e => (Py.Raise e, ready, idx)
      | Py.Ok job =>
          if now_sim_ms <? arrival_ms job then (Py.Ok tt, ready, idx)
          else release_loop jobs now_sim_ms rest' (ready ++ [jid]) (idx + 1)
      end
  end.

Definition release_arrivals (run : RunState) (now_sim_ms : Z)
    : Py.result unit * RunState :=
  let '(r, ready, idx) :=
    release_loop (jobs run) now_sim_ms (unreleased run) (ready_q run) (pending_idx run) in
  (r, with_ready run ready idx).

Definition wall_to_sim (run : RunState) (wall_ms : Z) : Z :=
  Py.round (inject_Z (wall_ms - start_wall_ms run) * speedup run).

Definition new_job (jid : string) (svc arr : Z) : JobState :=
  {| job_id := jid; service_ms := svc; remaining_ms := svc; arrival_ms := arr;
     first_start_ms := None; finish_ms := None; slices := 0; preemptions := 0 |}.

Definition load_row (df : Py.DataFrame) (i : nat)
    (jobs : Py.dict JobState) : Py.result (Py.dict JobState) :=
  c ← Py.getattr df i "job_id";
  let jid := Py.str c in
  c ← Py.getattr df i "service_time_ms";
  svc ← Py.int c;
  c ← Py.getattr df i "arrival_time_ms";
  arr ← Py.int c;
  Py.Ok (Py.set jobs jid (new_job jid svc arr)).

Definition load_jobs (fs : gmap string file) (dataset_path : string)
    : Py.result (Py.dict JobState) :=
  df ← read_csv fs dataset_path;
  if negb (Py.has_columns df ["job_id"; "service_time_ms"; "arrival_time_ms"]) then
    Py.Raise (Py.ValueError
      "Dataset must contain at least ['arrival_time_ms', 'job_id', 'service_time_ms']")
  else
    Py.for_rows (load_row df) (Py.sort_rows df "arrival_time_ms") [].

Definition row_of (j : JobState) : list Row :=
  match finish_ms j with
  | None => []
  | Some finish =>
      let response := finish - arrival_ms j in
      let waiting := response - service_ms j in
      [{| row_job_id := job_id j;
          service_time_ms := service_ms j;
          arrival_time_ms := arrival_ms j;
          first_start_time_ms := match first_start_ms j with Some s => s | None => 0 end;
          finish_time_ms := finish;
          response_time_ms := response;
          waiting_time_ms := waiting;
          row_slices := slices j;
          row_preemptions := preemptions j |}]
  end.

Definition result_rows (run : RunState) : list Row :=
  flat_map row_of (Py.values (jobs run)).

Definition summarize (cfg : Config) (W : Registry.Workers) (now : Q)
    (run : RunState) (rows : list Row) : Summary :=
  let resp := map response_time_ms rows in
  let slots := Registry.total_alive_slots cfg W now in
  match rows with
  | [] =>
      {| sum_run_id := run_id run; sum_dataset_file := dataset_file run;
         sum_quantum_ms := quantum_ms run; sum_speedup := speedup run;
         sum_jobs := 0; mean_response_ms := 0; p50_response_ms := 0;
         p95_response_ms := 0; p99_response_ms := 0; mean_wait_ms := 0;
         avg_slices_per_job := 0; total_slots_at_end := slots |}
  | _ :: _ =>
      {| sum_run_id := run_id run; sum_dataset_file := dataset_file run;
         sum_quantum_ms := quantum_ms run; sum_speedup := speedup run;
         sum_jobs := Py.len rows;
         mean_response_ms := Py.mean resp;
         p50_response_ms := Py.percentile resp 50;
         p95_response_ms := Py.percentile resp 95;
         p99_response_ms := Py.percentile resp 99;
         mean_wait_ms := Py.mean (map waiting_time_ms rows);
         avg_slices_per_job := Py.mean (map row_slices rows);
         total_slots_at_end := slots |}
  end.

Definition jobs_path (cfg : Config) (run : RunState) : string :=
  Py.path_join (RESULTS_DIR cfg) ("results_jobs_" ++ run_id run ++ ".csv").
Definition run_path (cfg : Config) (run : RunState) : string :=
  Py.path_join (RESULTS_DIR cfg) ("results_run_" ++ run_id run ++ ".csv").

Definition finalize_run (cfg : Config) (W : Registry.Workers) (now : Q)
    (run : RunState) : RunState * list (string * artifact) :=
  let rows := result_rows run in
  let s := summarize cfg W now run rows in
  ({| run_id := run_id run; dataset_file := dataset_file run;
      quantum_ms := quantum_ms run;
      speedup := speedup run; start_wall_ms := start_wall_ms run;
      jobs := jobs run; ready_q := ready_q run; pending_ids := pending_ids run;
      total_jobs := total_jobs run; pending_idx := pending_idx run;
      completed := completed run;
      done := true;
      jobs_csv := Some (jobs_path cfg run);
      run_csv := Some (run_path cfg run);
      summary := Some s |},
   [(jobs_path cfg run, JobsCsv (run_id run) (quantum_ms run) rows);
    (run_path cfg run, RunCsv s)]).

Definition with_run (w : World) (run : option RunState) : World :=
  {| WORKERS := WORKERS w; ACTIVE_RUN := run;
     DATASETS := DATASETS w; RESULTS := RESULTS w |}.

Definition arrival_of (jobs : Py.dict JobState) (jid : string) : Z :=
  match Py.get jobs jid with
  | Some job => arrival_ms job
  | None => 0
  end.

(** [POST /start]. The arrivals due at simulated time 0 are released
    before the run is installed. *)
Definition start (cfg : Config) (now_slots now_start : Q) (fresh_id : string)
    (req : StartReq) (w : World) : Py.result string * World * list signal :=
  let slots := Registry.total_alive_slots cfg (WORKERS w) now_slots in
  if slots <? sr_min_slots req then
    (Py.Raise (Py.HTTPException 400
       ("Not enough slots online (" ++ Py.str_of_Z slots ++ ") < min_slots ("
        ++ Py.str_of_Z (sr_min_slots req) ++ ")")), w, [])
  else
    let dataset_path := Py.path_join (DATA_DIR cfg) (sr_dataset_file req) in
    if negb (path_exists (DATASETS w) dataset_path) then
      (Py.Raise (Py.HTTPException 400 ("Dataset not found: " ++ dataset_path)), w, [])
    else
      match load_jobs (DATASETS w) dataset_path with
      | Py.Raise e => (Py.Raise e, w, [])
      | Py.Ok jobs =>
          let pending_ids := Py.sorted_by (arrival_of jobs) (Py.keys jobs) in
          let run :=
            {| run_id := fresh_id; dataset_file := sr_dataset_file req;
               quantum_ms := sr_quantum_ms req;
               speedup := sr_speedup req;
               start_wall_ms := Py.int_of_float (now_start * 1000);
               jobs := jobs; ready_q := []; pending_ids := pending_ids;
               total_jobs := Py.len jobs; pending_idx := 0; completed := 0;
               done := false; jobs_csv := None; run_csv := None;
               summary := None |} in
          match release_arrivals run 0 with
          | (Py.Raise e, _) => (Py.Raise e, w, [])
          | (Py.Ok _, run') =>
              (Py.Ok (run_id run'), with_run w (Some run'), [notify_all])
          end
      end.

(** The timeout of the wait: the time left of the request, cut down to the
    wall-clock time until the next pending arrival (at least 1 ms). *)
Definition wait_time (run : RunState) (now_sim_ms : Z) (remaining_req : Q)
    : Py.result Q :=
  match nth_error (pending_ids run) (Z.to_nat (pending_idx run)) with
  | Some next_jid =>
      job ← Py.getitem (jobs run) next_jid;
      let next_arr_sim := arrival_ms job in
      let delta_sim := Z.max 0 (next_arr_sim - now_sim_ms) in
      if Qeq_bool (speedup run) 0 then Py.Raise Py.ZeroDivisionError
      else
        let wait_until_arrival :=
          Py.maxq (1 # 1000) ((inject_Z delta_sim / speedup run) / 1000)%Q in
        Py.Ok (Py.minq remaining_req wait_until_arrival)
  | None => Py.Ok remaining_req
  end.

(** One pass of the loop of [next_slice]. [now_wall] is the clock reading
    of [now_wall_ms], [now] the one of [deadline_wall - time.time()]. *)
Definition next_iter (deadline_wall now_wall now : Q) (active : option RunState)
    : pass NextResp * option RunState :=
  match active with
  | None => (Reply (Py.Ok next_no_run), active)
  | Some run =>
      if done run || (total_jobs run <=? completed run) then
        (Reply (Py.Ok next_done), active)
      else
        let now_wall_ms := Py.int_of_float (now_wall * 1000) in
        let now_sim_ms := wall_to_sim run now_wall_ms in
        match release_arrivals run now_sim_ms with
        | (Py.Raise e, run1) => (Reply (Py.Raise e), Some run1)
        | (Py.Ok _, run1) =>
            match ready_q run1 with
            | jid :: rest =>
                let run2 := with_ready run1 rest (pending_idx run1) in
                match Py.getitem (jobs run1) jid with
                | Py.Ok job =>
                    let slice_ms := Z.min (quantum_ms run1) (remaining_ms job) in
                    (Reply (Py.Ok (next_ok jid slice_ms (remaining_ms job) (arrival_ms job))),
                     Some run2)
                | Py.Raise e => (Reply (Py.Raise e), Some run2)
                end
            | [] =>
                let remaining_req := (deadline_wall - now)%Q in
                if Qle_bool remaining_req 0 then (Reply (Py.Ok next_wait), Some run1)
                else
                  match wait_time run1 now_sim_ms remaining_req with
                  | Py.Ok t => (Block t, Some run1)
                  | Py.Raise e => (Reply (Py.Raise e), Some run1)
                  end
            end
        end
  end.

Definition next_pass (deadline : Q) (clock : Q * Q) (active : option RunState)
    : pass NextResp * option RunState :=
  next_iter deadline (fst clock) (snd clock) active.

Definition next_loop (deadline : Q)
    (wakeups : list (Q * Q * (option RunState -> option RunState)))
    (active : option RunState) : option (Py.result NextResp * option RunState) :=
  long_poll (next_pass deadline) wakeups active.

(** [POST /next]. *)
Definition next_slice (cfg : Config) (now now_deadline : Q) (req : NextReq)
    (wakeups : list (Q * Q * (option RunState -> option RunState)))
    (w : World) : option (Py.result NextResp * World) :=
  if negb (Registry.is_alive_worker_core cfg (WORKERS w) now
             (nr_worker_id req) (nr_core_id req)) then
    Some (Py.Raise (Py.HTTPException 400 "worker/core not alive or invalid core_id"), w)
  else
    let deadline := (now_deadline + inject_Z (nr_timeout_ms req) / 1000)%Q in
    match next_loop deadline wakeups (ACTIVE_RUN w) with
    | Some (r, active') => Some (r, with_run w active')
    | None => None
    end.

Definition record_slice (run : RunState) (job : JobState) (req : DoneReq) : JobState :=
  let started_sim := wall_to_sim run (started_wall_ms req) in
  let finished_sim := wall_to_sim run (finished_wall_ms req) in
  let remaining := Z.max 0 (remaining_after_ms req) in
  {| job_id := job_id job; service_ms := service_ms job;
     remaining_ms := remaining;
     arrival_ms := arrival_ms job;
     first_start_ms := Some (match first_start_ms job with
                             | Some s => s
                             | None => started_sim
                             end);
     finish_ms := if remaining =? 0 then Some finished_sim else finish_ms job;
     slices := slices job + 1;
     preemptions := if remaining =? 0 then preemptions job else preemptions job + 1 |}.

(** [POST /done]. *)
Definition done_handler (cfg : Config) (now now_final : Q) (req : DoneReq)
    (w : World) : Py.result DoneResp * World * list signal :=
  if negb (Registry.is_alive_worker_core cfg (WORKERS w) now
             (dr_worker_id req) (dr_core_id req)) then
    (Py.Raise (Py.HTTPException 400 "worker/core not alive or invalid core_id"), w, [])
  else
    match ACTIVE_RUN w with
    | None => (Py.Ok done_no_run, w, [])
    | Some run =>
        if done run then (Py.Ok done_done, w, [])
        else
          match Py.get (jobs run) (dr_job_id req) with
          | None => (Py.Raise (Py.HTTPException 400 "unknown job_id"), w, [])
          | Some job =>
              let job' := record_slice run job req in
              let finished := remaining_ms job' =? 0 in
              let run1 :=
                {| run_id := run_id run; dataset_file := dataset_file run;
                   quantum_ms := quantum_ms run;
                   speedup := speedup run; start_wall_ms := start_wall_ms run;
                   jobs := Py.set (jobs run) (dr_job_id req) job';
                   ready_q := if finished then ready_q run
                              else ready_q run ++ [job_id job'];
                   pending_ids := pending_ids run;
                   total_jobs := total_jobs run;
                   pending_idx := pending_idx run;
                   completed := if finished then completed run + 1 else completed run;
                   done := done run;
                   jobs_csv := jobs_csv run; run_csv := run_csv run;
                   summary := summary run |} in
              let sigs := if finished then [] else [notify_all] in
              if total_jobs run1 <=? completed run1 then
                let '(run2, files) := finalize_run cfg (WORKERS w) now_final run1 in
                (Py.Ok done_ok,
                 {| WORKERS := WORKERS w; ACTIVE_RUN := Some run2;
                    DATASETS := DATASETS w; RESULTS := RESULTS w ++ files |},
                 sigs ++ [notify_all])
              else
                (Py.Ok done_ok, with_run w (Some run1), sigs)
          end
    end.

(** The body of [GET /status]. *)
Inductive StatusResp : Type :=
| status_no_run
| status_done (rid : string) (s : option Summary) (jobs_csv run_csv : option string)
| status_running (rid : string) (completed total quantum : Z).

(** [GET /status]. *)
Definition status (w : World) : StatusResp :=
  match ACTIVE_RUN w with
  | None => status_no_run
  | Some run =>
      if done run
      then status_done (run_id run) (summary run) (jobs_csv run) (run_csv run)
      else status_running (run_id run) (completed run) (total_jobs run) (quantum_ms run)
  end.

Definition with_workers (w : World) (W : Registry.Workers) : World :=
  {| WORKERS := W; ACTIVE_RUN := ACTIVE_RUN w;
     DATASETS := DATASETS w; RESULTS := RESULTS w |}.

(** The steps that change the shared state, each taken under its lock:
    the handlers [/register], [/heartbeat], [/start] and [/done], and one
    pass of the loop of [/next]. A handler that raises leaves the state as
    it was when the exception left it. *)
Inductive event : Type :=
| ev_register (now : Q) (worker_id : string) (cores : Z)
| ev_heartbeat (now : Q) (worker_id : string)
| ev_start (now_slots now_start : Q) (fresh_id : string) (req : StartReq)
| ev_next (deadline now_wall now : Q)
| ev_done (now now_final : Q) (req : DoneReq).

Definition step (cfg : Config) (e : event) (w : World) : World :=
  match e with
  | ev_register now wid n => with_workers w (Registry.register (WORKERS w) now wid n)
  | ev_heartbeat now wid => with_workers w (snd (Registry.heartbeat (WORKERS w) now wid))
  | ev_start now_slots now_start fresh_id req =>
      snd (fst (start cfg now_slots now_start fresh_id req w))
  | ev_next deadline now_wall now =>
      with_run w (snd (next_iter deadline now_wall now (ACTIVE_RUN w)))
  | ev_done now now_final req => snd (fst (done_handler cfg now now_final req w))
  end.

Definition steps (cfg : Config) (es : list event) (w : World) : World :=
  fold_left (fun w e => step cfg e w) es w.

Definition is_start (e : event) : bool :=
  match e with
  | ev_start _ _ _ _ => true
  | _ => false
  end.

End RoundRobin.

(** ** The workers

    Each worker reads [SPEEDUP] from its environment; it is an argument
    here. *)

(** Where a turn of [core_driver] leaves the driver of a core: at the top
    of its loop again, or waiting for ever on [done_qs[core_id].get] for
    the event of a core thread that an exception has ended. *)
Inductive core_state : Type :=
| core_polling
| core_dead (e : Py.exn).

(** ** The round-robin worker: [src/round-robin/worker.py] *)

Module Worker.

(** What [assign_to_core] stores for a core: three fields of an [ok]
    answer of [/next]. *)
Record Assignment : Type := {
  a_job_id : string;
  a_slice_ms : Z;
  a_remaining_before_ms : Z
}.

Definition assign_to_core (jid : string) (slice_ms remaining_before_ms : Z)
    : Assignment :=
  {| a_job_id := jid; a_slice_ms := slice_ms;
     a_remaining_before_ms := remaining_before_ms |}.

(** One turn of [core_thread] on an assignment: the clock is read at
    [t0], the slice is slept through, the clock is read at [t1], and the
    event put on the queue of the core is the body of the [/done] to
    come. An exception of [slice_ms / 1000.0 / SPEEDUP] or of
    [time.sleep] ends the thread before any event is put. *)
Definition core_thread (SPEEDUP : Q) (worker_id : string) (core_id : Z)
    (a : Assignment) (t0 t1 : Q) : Py.result RR.DoneReq :=
  let started_wall_ms := Py.int_of_float (t0 * 1000) in
  x ← Py.float_of_int (a_slice_ms a);
  secs ← Py.truediv (x / 1000) SPEEDUP;
  _ ← Py.sleep secs;
  let finished_wall_ms := Py.int_of_float (t1 * 1000) in
  let ran_ms := a_slice_ms a in
  let remaining_after := Z.max 0 (a_remaining_before_ms a - ran_ms) in
  Py.Ok {| RR.dr_worker_id := worker_id; RR.dr_core_id := core_id;
           RR.dr_job_id := a_job_id a;
           RR.ran_ms := ran_ms; RR.remaining_after_ms := remaining_after;
           RR.started_wall_ms := started_wall_ms;
           RR.finished_wall_ms := finished_wall_ms |}.

(** The clock readings of one turn of [core_driver], and the wake-ups of
    its long poll. *)
Record Turn : Type := {
  t_next : Q;
  t_deadline : Q;
  t_passes : list (Q * (option RR.RunState -> option RR.RunState));
  t_started : Q;
  t_finished : Q;
  t_done : Q;
  t_final : Q
}.

(** One turn of the loop of [core_driver] against the scheduler of
    [src/scheduler.py]: a long poll of [/next]; on [ok] the slice is
    assigned, run by the core thread and reported to [/done]; on any
    other answer, or an error, the driver backs off. A turn whose poll
    is still blocked when its wake-ups are used up ends there. When the
    core thread dies on the slice, no event comes and the driver waits
    for it for ever. *)
Definition core_driver (cfg : Config) (SPEEDUP : Q) (worker_id : string)
    (core_id : Z) (t : Turn) (w : RR.World) : RR.World * core_state :=
  let req := {| RR.nr_worker_id := worker_id; RR.nr_core_id := core_id;
                RR.nr_timeout_ms := 20000 |} in
  match RR.next_slice cfg (t_next t) (t_deadline t) req (t_passes t) w with
  | Some (Py.Ok (RR.next_ok jid slice_ms remaining_before_ms), w1) =>
      match core_thread SPEEDUP worker_id core_id
              (assign_to_core jid slice_ms remaining_before_ms)
              (t_started t) (t_finished t) with
      | Py.Ok event =>
          (snd (fst (RR.done_handler cfg (t_done t) (t_final t) event w1)),
           core_polling)
      | Py.Raise e => (w1, core_dead e)
      end
  | Some (_, w1) => (w1, core_polling)
  | None => (w, core_polling)
  end.

(** The driver of one core, turn after turn, for as long as it gets back
    to the top of its loop. *)
Fixpoint run_core (cfg : Config) (SPEEDUP : Q) (worker_id : string) (core_id : Z)
    (turns : list Turn) (w : RR.World) : RR.World * core_state :=
  match turns with
  | [] => (w, core_polling)
  | t :: rest =>
      match core_driver cfg SPEEDUP worker_id core_id t w with
      | (w', core_polling) => run_core cfg SPEEDUP worker_id core_id rest w'
      | (w', core_dead e) => (w', core_dead e)
      end
  end.

End Worker.

(** ** The worker of the FIFO service: [src/fifo/worker.py]

    A core runs a whole job at a time. *)

Module FifoWorker.

(** The readings of [psutil] around a job, when the module could be
    imported: [cpu_percent(interval=None)] and [virtual_memory().used]
    before and after the job. *)
Record Psutil : Type := {
  cpu_before : Q;
  memory_before : Z;
  cpu_after : Q;
  memory_after : Z
}.

(** What [assign_to_core] stores for a core. *)
Record Assignment : Type := {
  a_job_id : string;
  a_execution_ms : Z
}.

Definition assign_to_core (jid : string) (execution_ms : Z) : Assignment :=
  {| a_job_id := jid; a_execution_ms := execution_ms |}.

(** The average of the two CPU readings and the larger of the two memory
    readings in MB; [None] without [psutil]. *)
Definition cpu_avg (ps : option Psutil) : option Q :=
  match ps with
  | Some p => Some ((cpu_before p + cpu_after p) / 2)%Q
  | None => None
  end.

Definition memory_max (ps : option Psutil) : option Q :=
  match ps with
  | Some p =>
      Some (inject_Z (Z.max (memory_before p) (memory_after p))
            / inject_Z (1024 * 1024))%Q
  | None => None
  end.

(** One turn of [core_thread] on an assignment: the clock is read at
    [t0], the job is slept through, the clock is read at [t1], and the
    event put on the queue of the core is the body of the [/done] to
    come. An exception of [execution_ms / 1000.0 / SPEEDUP] or of
    [time.sleep] ends the thread before any event is put. *)
Definition core_thread (SPEEDUP : Q) (worker_id : string) (core_id : Z)
    (a : Assignment) (t0 t1 : Q) (ps : option Psutil) : Py.result Fifo.DoneReq :=
  let started_wall_ms := Py.int_of_float (t0 * 1000) in
  x ← Py.float_of_int (a_execution_ms a);
  secs ← Py.truediv (x / 1000) SPEEDUP;
  _ ← Py.sleep secs;
  let finished_wall_ms := Py.int_of_float (t1 * 1000) in
  Py.Ok {| Fifo.dr_worker_id := worker_id; Fifo.dr_core_id := core_id;
           Fifo.dr_job_id := a_job_id a;
           Fifo.started_wall_ms := started_wall_ms;
           Fifo.finished_wall_ms := finished_wall_ms;
           Fifo.dr_cpu_percent := cpu_avg ps;
           Fifo.dr_memory_mb := memory_max ps |}.

(** The clock readings of one turn of [core_driver], the wake-ups of its
    long poll, and the readings of [psutil] in the core thread. *)
Record Turn : Type := {
  t_next : Q;
  t_deadline : Q;
  t_passes : list (Q * (option Fifo.RunState -> option Fifo.RunState));
  t_started : Q;
  t_finished : Q;
  t_psutil : option Psutil;
  t_done : Q;
  t_final : Q
}.

(** One turn of the loop of [core_driver]: a long poll of [/next]; on
    [ok] the job is assigned, run by the core thread and reported to
    [/done]; on any other answer, or an error, the driver backs off. A
    turn whose poll is still blocked when its wake-ups are used up ends
    there. When the core thread dies on the job, no event comes and the
    driver waits for it for ever. *)
Definition core_driver (cfg : Config) (SPEEDUP : Q) (worker_id : string)
    (core_id : Z) (t : Turn) (w : Fifo.World) : Fifo.World * core_state :=
  let req := {| Fifo.nr_worker_id := worker_id; Fifo.nr_core_id := core_id;
                Fifo.nr_timeout_ms := 20000 |} in
  match Fifo.next_job cfg (t_next t) (t_deadline t) req (t_passes t) w with
  | Some (Py.Ok (Fifo.next_ok jid execution_ms), w1) =>
      match core_thread SPEEDUP worker_id core_id
              (assign_to_core jid execution_ms)
              (t_started t) (t_finished t) (t_psutil t) with
      | Py.Ok event =>
          (snd (fst (Fifo.done_handler cfg (t_done t) (t_final t) event w1)),
           core_polling)
      | Py.Raise e => (w1, core_dead e)
      end
  | Some (_, w1) => (w1, core_polling)
  | None => (w, core_polling)
  end.

(** The driver of one core, turn after turn, for as long as it gets back
    to the top of its loop. *)
Fixpoint run_core (cfg : Config) (SPEEDUP : Q) (worker_id : string) (core_id : Z)
    (turns : list Turn) (w : Fifo.World) : Fifo.World * core_state :=
  match turns with
  | [] => (w, core_polling)
  | t :: rest =>
      match core_driver cfg SPEEDUP worker_id core_id t w with
      | (w', core_polling) => run_core cfg SPEEDUP worker_id core_id rest w'
      | (w', core_dead e) => (w', core_dead e)
      end
  end.

End FifoWorker.

(** ** The worker of the priority service: [src/priority/worker.py]

    A core runs a whole job at a time. *)

Module PriorityWorker.

(** The readings of [psutil] around a job, when the module could be
    imported: [cpu_percent(interval=None)] and [virtual_memory().used]
    before and after the job. *)
Record Psutil : Type := {
  cpu_before : Q;
  memory_before : Z;
  cpu_after : Q;
  memory_after : Z
}.

(** What [assign_to_core] stores for a core. *)
Record Assignment : Type := {
  a_job_id : string;
  a_execution_ms : Z;
  a_priority : Z
}.

Definition assign_to_core (jid : string) (execution_ms prio : Z) : Assignment :=
  {| a_job_id := jid; a_execution_ms := execution_ms; a_priority := prio |}.

(** The average of the two CPU readings and the larger of the two memory
    readings in MB; [None] without [psutil]. *)
Definition cpu_avg (ps : option Psutil) : option Q :=
  match ps with
  | Some p => Some ((cpu_before p + cpu_after p) / 2)%Q
  | None => None
  end.

Definition memory_max (ps : option Psutil) : option Q :=
  match ps with
  | Some p =>
      Some (inject_Z (Z.max (memory_before p) (memory_after p))
            / inject_Z (1024 * 1024))%Q
  | None => None
  end.

(** One turn of [core_thread] on an assignment: the clock is read at
    [t0], the job is slept through, the clock is read at [t1], and the
    event put on the queue of the core is the body of the [/done] to
    come. An exception of [execution_ms / 1000.0 / SPEEDUP] or of
    [time.sleep] ends the thread before any event is put. *)
Definition core_thread (SPEEDUP : Q) (worker_id : string) (core_id : Z)
    (a : Assignment) (t0 t1 : Q) (ps : option Psutil)
    : Py.result Priority.DoneReq :=
  let started_wall_ms := Py.int_of_float (t0 * 1000) in
  x ← Py.float_of_int (a_execution_ms a);
  secs ← Py.truediv (x / 1000) SPEEDUP;
  _ ← Py.sleep secs;
  let finished_wall_ms := Py.int_of_float (t1 * 1000) in
  Py.Ok {| Priority.dr_worker_id := worker_id; Priority.dr_core_id := core_id;
           Priority.dr_job_id := a_job_id a;
           Priority.started_wall_ms := started_wall_ms;
           Priority.finished_wall_ms := finished_wall_ms;
           Priority.dr_cpu_percent := cpu_avg ps;
           Priority.dr_memory_mb := memory_max ps |}.

(** The clock readings of one turn of [core_driver], the wake-ups of its
    long poll, and the readings of [psutil] in the core thread. *)
Record Turn : Type := {
  t_next : Q;
  t_deadline : Q;
  t_passes : list ((Q * Q) * (option Priority.RunState -> option Priority.RunState));
  t_started : Q;
  t_finished : Q;
  t_psutil : option Psutil;
  t_done : Q;
  t_final : Q
}.

(** One turn of the loop of [core_driver]: a long poll of [/next]; on
    [ok] the job is assigned, run by the core thread and reported to
    [/done]; on any other answer, or an error, the driver backs off. A
    turn whose poll is still blocked when its wake-ups are used up ends
    there. When the core thread dies on the job, no event comes and the
    driver waits for it for ever. *)
Definition core_driver (cfg : Config) (SPEEDUP : Q) (worker_id : string)
    (core_id : Z) (t : Turn) (w : Priority.World) : Priority.World * core_state :=
  let req := {| Priority.nr_worker_id := worker_id; Priority.nr_core_id := core_id;
                Priority.nr_timeout_ms := 20000 |} in
  match Priority.next_job cfg (t_next t) (t_deadline t) req (t_passes t) w with
  | Some (Py.Ok (Priority.next_ok jid execution_ms prio _), w1) =>
      match core_thread SPEEDUP worker_id core_id
              (assign_to_core jid execution_ms prio)
              (t_started t) (t_finished t) (t_psutil t) with
      | Py.Ok event =>
          (snd (fst (Priority.done_handler cfg (t_done t) (t_final t) event w1)),
           core_polling)
      | Py.Raise e => (w1, core_dead e)
      end
  | Some (_, w1) => (w1, core_polling)
  | None => (w, core_polling)
  end.

(** The driver of one core, turn after turn, for as long as it gets back
    to the top of its loop. *)
Fixpoint run_core (cfg : Config) (SPEEDUP : Q) (worker_id : string) (core_id : Z)
    (turns : list Turn) (w : Priority.World) : Priority.World * core_state :=
  match turns with
  | [] => (w, core_polling)
  | t :: rest =>
      match core_driver cfg SPEEDUP worker_id core_id t w with
      | (w', core_polling) => run_core cfg SPEEDUP worker_id core_id rest w'
      | (w', core_dead e) => (w', core_dead e)
      end
  end.

End PriorityWorker.

(** ** Sample runs

    One worker with two cores, registered at second 0; runs started at
    second 1 with speedup 1, so that wall millisecond [1000 + t] is
    simulated millisecond [t]. *)

Module Sample.

Definition workers : Registry.Workers :=
  Registry.register ∅ 0 "w1" 2.

(** Two jobs of 100 ms, [A] arriving at 0 and [B] at 1000. *)
Definition late_csv : Py.DataFrame :=
  [("job_id", Py.StrCol ["A"; "B"]);
   ("service_time_ms", Py.IntCol [100; 100]);
   ("arrival_time_ms", Py.IntCol [0; 1000]);
   ("priority", Py.IntCol [10; 1])].

(** The same jobs without the arrival column. *)
Definition plain_csv : Py.DataFrame :=
  [("job_id", Py.StrCol ["A"; "B"]);
   ("service_time_ms", Py.IntCol [100; 100]);
   ("priority", Py.IntCol [10; 1])].

(** A file without the service times. *)
Definition broken_csv : Py.DataFrame :=
  [("job_id", Py.StrCol ["A"; "B"]);
   ("arrival_time_ms", Py.IntCol [0; 1000])].

(** The workload of the round-robin scenario: 50 ms and 30 ms, both at 0. *)
Definition rr_csv : Py.DataFrame :=
  [("job_id", Py.StrCol ["A"; "B"]);
   ("service_time_ms", Py.IntCol [50; 30]);
   ("arrival_time_ms", Py.IntCol [0; 0])].

Definition datasets : gmap string file :=
  <["/data/late.csv" := Csv late_csv]>
  (<["/data/plain.csv" := Csv plain_csv]>
  (<["/data/broken.csv" := Csv broken_csv]>
  (<["/data/rr.csv" := Csv rr_csv]>
  (<["/data/notes.txt" := NotCsv]> ∅)))).

(** FIFO. *)

Definition fifo_idle : Fifo.World :=
  {| Fifo.WORKERS := workers; Fifo.ACTIVE_RUN := None;
     Fifo.DATASETS := datasets; Fifo.RESULTS := [] |}.

Definition fifo_start (dataset : string) : Fifo.StartReq :=
  {| Fifo.sr_dataset_file := dataset; Fifo.sr_speedup := 1; Fifo.sr_min_slots := 1 |}.

Definition fifo_done (jid : string) (started finished : Z) : Fifo.DoneReq :=
  {| Fifo.dr_worker_id := "w1"; Fifo.dr_core_id := 0; Fifo.dr_job_id := jid;
     Fifo.started_wall_ms := started; Fifo.finished_wall_ms := finished;
     Fifo.dr_cpu_percent := None; Fifo.dr_memory_mb := None |}.

Definition fifo_next : Fifo.NextReq :=
  {| Fifo.nr_worker_id := "w1"; Fifo.nr_core_id := 0; Fifo.nr_timeout_ms := 10000 |}.

(** The world after [/start] of [late.csv] at second 1. *)
Definition fifo_late : Fifo.World :=
  snd (fst (Fifo.start default_config 1 1 "run0000001" (fifo_start "late.csv") fifo_idle)).

(** ... and after [/start] of [plain.csv]. *)
Definition fifo_plain : Fifo.World :=
  snd (fst (Fifo.start default_config 1 1 "run0000002" (fifo_start "plain.csv") fifo_idle)).

Definition fifo_run (w : Fifo.World) : Fifo.RunState :=
  match Fifo.ACTIVE_RUN w with
  | Some run => run
  | None =>
      {| Fifo.run_id := ""; Fifo.dataset_file := ""; Fifo.speedup := 1;
         Fifo.start_wall_ms := 0; Fifo.jobs := []; Fifo.ready_q := [];
         Fifo.pending_jobs := []; Fifo.total_jobs := 0; Fifo.current_sim_ms := 0;
         Fifo.completed := 0; Fifo.done := false; Fifo.jobs_csv := None;
         Fifo.run_csv := None; Fifo.summary := None |}
  end.


(** [late.csv] after a [/done] for [A] and one for [B] that reports the
    start of the run as the start of [B]. *)
Definition fifo_early : Fifo.World :=
  fold_left (fun w req => snd (fst (Fifo.done_handler default_config 2 2 req w)))
    [fifo_done "A" 1000 1100; fifo_done "B" 1000 1100] fifo_late.

(** [late.csv] with honest reports: [A] ran from the start of the run,
    [B] from its arrival one second later. *)
Definition fifo_honest_once : Fifo.World :=
  snd (fst (Fifo.done_handler default_config 2 2 (fifo_done "A" 1000 1100) fifo_late)).

Definition fifo_honest : Fifo.World :=
  snd (fst (Fifo.done_handler default_config 2 2 (fifo_done "B" 2000 2100)
              fifo_honest_once)).

(** The row of [B] in the per-job results of that run. *)
Definition fifo_row_B : Fifo.Row :=
  {| Fifo.row_job_id := "B"; Fifo.arrival_time_ms := 1000;
     Fifo.service_time_ms := 100; Fifo.start_time_ms := 1000;
     Fifo.finish_time_ms := 1100; Fifo.waiting_time_ms := 0;
     Fifo.execution_time_ms := 100; Fifo.response_time_ms := 100;
     Fifo.cpu_usage_percent := 0; Fifo.memory_usage_mb := 0;
     Fifo.slowdown := (inject_Z 100 / inject_Z 100)%Q |}.



(** Priority. *)

Definition prio_idle : Priority.World :=
  {| Priority.WORKERS := workers; Priority.ACTIVE_RUN := None;
     Priority.DATASETS := datasets; Priority.RESULTS := [] |}.

Definition prio_start (dataset : string) : Priority.StartReq :=
  {| Priority.sr_dataset_file := dataset; Priority.sr_speedup := 1;
     Priority.sr_min_slots := 1 |}.

Definition prio_done (jid : string) (started finished : Z) : Priority.DoneReq :=
  {| Priority.dr_worker_id := "w1"; Priority.dr_core_id := 0;
     Priority.dr_job_id := jid;
     Priority.started_wall_ms := started; Priority.finished_wall_ms := finished;
     Priority.dr_cpu_percent := None; Priority.dr_memory_mb := None |}.

Definition prio_next : Priority.NextReq :=
  {| Priority.nr_worker_id := "w1"; Priority.nr_core_id := 0;
     Priority.nr_timeout_ms := 10000 |}.

Definition prio_late : Priority.World :=
  snd (fst (Priority.start default_config 1 1 "run0000003" (prio_start "late.csv") prio_idle)).

Definition prio_plain : Priority.World :=
  snd (fst (Priority.start default_config 1 1 "run0000004" (prio_start "plain.csv") prio_idle)).

Definition prio_run (w : Priority.World) : Priority.RunState :=
  match Priority.ACTIVE_RUN w with
  | Some run => run
  | None =>
      {| Priority.run_id := ""; Priority.dataset_file := ""; Priority.speedup := 1;
         Priority.start_wall_ms := 0; Priority.jobs := []; Priority.ready_heap := [];
         Priority.pending_heap := []; Priority.next_seq := 0;
         Priority.total_jobs := 0; Priority.current_sim_ms := 0;
         Priority.completed := 0; Priority.done := false; Priority.jobs_csv := None;
         Priority.run_csv := None; Priority.summary := None |}
  end.

(** [late.csv] two seconds after the start, when [B] is due: the run as
    the promotion of [/next] leaves it. *)
Definition prio_late_due : Priority.RunState :=
  Priority.with_heaps (prio_run prio_late)
    [(10, 0, 0, "A"); (1, 1000, 2, "B")] [] 3 1000.

(** [plain.csv] after two [/done] calls for [A], the second one with a
    start 5 ms later, and none for [B]. *)
Definition prio_once : Priority.World :=
  snd (fst (Priority.done_handler default_config 2 2 (prio_done "A" 1000 1100) prio_plain)).

Definition prio_replayed : Priority.World :=
  snd (fst (Priority.done_handler default_config 2 2 (prio_done "A" 1005 1105) prio_once)).

(** ... and as the pass of [/next] leaves it, with [B] handed out. *)
Definition prio_late_dispatched : Priority.RunState :=
  Priority.with_heaps prio_late_due [(10, 0, 0, "A")] [] 3 1000.


(** Round-robin without arrivals. *)

Definition rr_idle : RR.World :=
  {| RR.WORKERS := workers; RR.ACTIVE_RUN := None;
     RR.DATASETS := datasets; RR.RESULTS := [] |}.

Definition rr_start (dataset : string) : RR.StartReq :=
  {| RR.sr_dataset_file := dataset; RR.sr_quantum_ms := 20; RR.sr_speedup := 1;
     RR.sr_min_slots := 1 |}.

Definition rr_done (jid : string) (ran remaining started finished : Z) : RR.DoneReq :=
  {| RR.dr_worker_id := "w1"; RR.dr_core_id := 0; RR.dr_job_id := jid;
     RR.ran_ms := ran; RR.remaining_after_ms := remaining;
     RR.started_wall_ms := started; RR.finished_wall_ms := finished |}.

Definition rr_next : RR.NextReq :=
  {| RR.nr_worker_id := "w1"; RR.nr_core_id := 0; RR.nr_timeout_ms := 10000 |}.

Definition rr_started : RR.World :=
  snd (fst (RR.start default_config 1 1 "run0000005" (rr_start "rr.csv") rr_idle)).


(** The slices of the scenario, one core: A(20), B(20), A(20), B(10), A(10). *)
Definition rr_slices : list RR.DoneReq :=
  [rr_done "A" 20 30 1000 1020; rr_done "B" 20 10 1020 1040;
   rr_done "A" 20 10 1040 1060; rr_done "B" 10 0 1060 1070;
   rr_done "A" 10 0 1070 1080].

(** The world after [/start] of [late.csv], whose arrival column says
    1000 for [B]. *)
Definition rr_late : RR.World :=
  snd (fst (RR.start default_config 1 1 "run0000008" (rr_start "late.csv") rr_idle)).

(** A slice of [A] reported with a finish before its start. *)
Definition rr_backwards : RR.World :=
  snd (fst (RR.done_handler default_config 2 2 (rr_done "A" 20 30 1050 1010) rr_started)).

Definition rr_backwards_end : RR.World :=
  snd (fst (RR.done_handler default_config 2 2 (rr_done "A" 30 0 1050 1010) rr_backwards)).

(** One turn of the core: a pass of [/next] that takes the head of the
    queue, then the [/done] of the slice. *)
Definition rr_turn (w : RR.World) (req : RR.DoneReq) : RR.World :=
  let w1 := RR.with_run w (snd (RR.next_iter 100 2 (RR.ACTIVE_RUN w))) in
  snd (fst (RR.done_handler default_config 2 2 req w1)).

Definition rr_finished : RR.World := fold_left rr_turn rr_slices rr_started.

(** Round-robin with arrivals. *)

Definition rrobin_idle : RoundRobin.World :=
  {| RoundRobin.WORKERS := workers; RoundRobin.ACTIVE_RUN := None;
     RoundRobin.DATASETS := datasets; RoundRobin.RESULTS := [] |}.

Definition rrobin_start (dataset : string) : RoundRobin.StartReq :=
  {| RoundRobin.sr_dataset_file := dataset; RoundRobin.sr_quantum_ms := 20;
     RoundRobin.sr_speedup := 1; RoundRobin.sr_min_slots := 1 |}.

Definition rrobin_done (jid : string) (ran remaining started finished : Z)
    : RoundRobin.DoneReq :=
  {| RoundRobin.dr_worker_id := "w1"; RoundRobin.dr_core_id := 0;
     RoundRobin.dr_job_id := jid;
     RoundRobin.ran_ms := ran; RoundRobin.remaining_after_ms := remaining;
     RoundRobin.started_wall_ms := started; RoundRobin.finished_wall_ms := finished |}.

Definition rrobin_next : RoundRobin.NextReq :=
  {| RoundRobin.nr_worker_id := "w1"; RoundRobin.nr_core_id := 0;
     RoundRobin.nr_timeout_ms := 10000 |}.


Definition rrobin_run (w : RoundRobin.World) : RoundRobin.RunState :=
  match RoundRobin.ACTIVE_RUN w with
  | Some run => run
  | None =>
      {| RoundRobin.run_id := ""; RoundRobin.dataset_file := "";
         RoundRobin.quantum_ms := 0; RoundRobin.speedup := 1;
         RoundRobin.start_wall_ms := 0; RoundRobin.jobs := [];
         RoundRobin.ready_q := []; RoundRobin.pending_ids := [];
         RoundRobin.total_jobs := 0; RoundRobin.pending_idx := 0;
         RoundRobin.completed := 0; RoundRobin.done := false;
         RoundRobin.jobs_csv := None; RoundRobin.run_csv := None;
         RoundRobin.summary := None |}
  end.


End Sample.

(** ** Sample traces

    Steps of the services from their boot, with the worker of the sample
    runs. *)

Module Scenario.

(** A dataset with its header and no row. *)
Definition empty_csv : Py.DataFrame :=
  [("job_id", Py.StrCol []);
   ("service_time_ms", Py.IntCol []);
   ("arrival_time_ms", Py.IntCol []);
   ("priority", Py.IntCol [])].

Definition datasets : gmap string file :=
  <["/data/empty.csv" := Csv empty_csv]> Sample.datasets.

(** A dataset that names job [A] twice. *)
Definition repeated_csv : Py.DataFrame :=
  [("job_id", Py.StrCol ["A"; "B"; "A"]);
   ("service_time_ms", Py.IntCol [10; 20; 30]);
   ("priority", Py.IntCol [1; 2; 3])].

Definition repeated_files : gmap string file :=
  {["/data/repeated.csv" := Csv repeated_csv]}.

(** FIFO. *)

Definition fifo_boot : Fifo.World :=
  {| Fifo.WORKERS := ∅; Fifo.ACTIVE_RUN := None;
     Fifo.DATASETS := datasets; Fifo.RESULTS := [] |}.

(** The run of [late.csv] on one core: [A] is handed out and reported, a
    caller finds nothing ready, the arrival thread promotes [B] two
    seconds in, [B] is handed out and reported. *)
Definition fifo_run_events : list Fifo.event :=
  [Fifo.ev_next 11 1;
   Fifo.ev_done 1 1 (Sample.fifo_done "A" 1000 1100);
   Fifo.ev_next 11 (3 # 2);
   Fifo.ev_arrival 2;
   Fifo.ev_next 12 2;
   Fifo.ev_done 2 2 (Sample.fifo_done "B" 2000 2100)].

(** The same from the boot of the service. *)
Definition fifo_day : list Fifo.event :=
  Fifo.ev_register 0 "w1" 2
  :: Fifo.ev_start 1 1 "run0000001" (Sample.fifo_start "late.csv")
  :: fifo_run_events.

(** What follows the finalization: a late report, a heartbeat, a caller
    of [/next], a last pass of the arrival thread. *)
Definition fifo_late_events : list Fifo.event :=
  [Fifo.ev_done 3 3 (Sample.fifo_done "A" 1000 1100);
   Fifo.ev_heartbeat 3 "w1";
   Fifo.ev_next 13 3;
   Fifo.ev_arrival 3].


(** Round-robin with its worker: the turns of one core, all within the
    first seconds of the run. *)
Definition rr_turn (k : Z) : Worker.Turn :=
  {| Worker.t_next := 1; Worker.t_deadline := 1;
     Worker.t_passes := [(1%Q, fun a => a)];
     Worker.t_started := (inject_Z (1000 + 20 * k) / 1000)%Q;
     Worker.t_finished := (inject_Z (1020 + 20 * k) / 1000)%Q;
     Worker.t_done := 2; Worker.t_final := 2 |}.


Definition fifo_empty_idle : Fifo.World :=
  {| Fifo.WORKERS := Sample.workers; Fifo.ACTIVE_RUN := None;
     Fifo.DATASETS := datasets; Fifo.RESULTS := [] |}.

Definition fifo_empty : Fifo.World :=
  snd (fst (Fifo.start default_config 1 1 "run0000009"
              (Sample.fifo_start "empty.csv") fifo_empty_idle)).

(** Priority. *)

Definition prio_boot : Priority.World :=
  {| Priority.WORKERS := ∅; Priority.ACTIVE_RUN := None;
     Priority.DATASETS := datasets; Priority.RESULTS := [] |}.

(** The boot of the service up to [/start] of [late.csv] at second 1. *)
Definition prio_morning : list Priority.event :=
  [Priority.ev_register 0 "w1" 2;
   Priority.ev_start 1 1 "run0000003" (Sample.prio_start "late.csv")].

(** The run of [late.csv] on one core: [A] is handed out and reported, a
    caller finds nothing ready, the arrival thread promotes [B] two
    seconds in, [B] is handed out and reported. *)
Definition prio_run_events : list Priority.event :=
  [Priority.ev_next 11 1 1;
   Priority.ev_done 1 1 (Sample.prio_done "A" 1000 1100);
   Priority.ev_next 11 (3 # 2) (3 # 2);
   Priority.ev_arrival 2;
   Priority.ev_next 12 2 2;
   Priority.ev_done 2 2 (Sample.prio_done "B" 2000 2100)].

(** The same up to the moment [B] is handed out. *)
Definition prio_run_half : list Priority.event := firstn 5 prio_run_events.

(** Round-robin without arrivals. *)



(** Round-robin with arrivals. *)

Definition rrobin_boot : RoundRobin.World :=
  {| RoundRobin.WORKERS := ∅; RoundRobin.ACTIVE_RUN := None;
     RoundRobin.DATASETS := datasets; RoundRobin.RESULTS := [] |}.

(** A request to start a run whose simulated clock stands still. *)
Definition rrobin_start_frozen : RoundRobin.StartReq :=
  {| RoundRobin.sr_dataset_file := "late.csv"; RoundRobin.sr_quantum_ms := 200;
     RoundRobin.sr_speedup := 0; RoundRobin.sr_min_slots := 1 |}.

(** The boot of the service, [/start] of [late.csv] with speedup 0, and
    [A] handed out: nothing is ready and [B] is still to be released. *)
Definition rrobin_stalled : list RoundRobin.event :=
  [RoundRobin.ev_register 0 "w1" 2;
   RoundRobin.ev_start 1 1 "run0000006" rrobin_start_frozen;
   RoundRobin.ev_next 11 1 1].

(** The run of [late.csv] with speedup 1 and quantum 20 up to its end:
    five slices of [A], then [B] once it has arrived, and its five
    slices. *)
Definition rrobin_day : list RoundRobin.event :=
  [RoundRobin.ev_register 0 "w1" 2;
   RoundRobin.ev_start 1 1 "run0000006" (Sample.rrobin_start "late.csv");
   RoundRobin.ev_next 11 1 1;
   RoundRobin.ev_done 1 1 (Sample.rrobin_done "A" 20 0 1000 1100);
   RoundRobin.ev_next 12 2 2;
   RoundRobin.ev_done 2 2 (Sample.rrobin_done "B" 20 0 2000 2100)].




(** The priority service with its worker: a dataset in which [B] is the
    most urgent job and [C], of the priority of [A], arrived before it;
    the run of it; the readings of [psutil], and the turns of one core,
    100 ms apart. *)
Definition urgent_csv : Py.DataFrame :=
  [("job_id", Py.StrCol ["A"; "B"; "C"]);
   ("service_time_ms", Py.IntCol [10; 20; 30]);
   ("arrival_time_ms", Py.IntCol [0; 0; -5]);
   ("priority", Py.IntCol [2; 1; 2])].

Definition prio_office : Priority.World :=
  {| Priority.WORKERS := Sample.workers; Priority.ACTIVE_RUN := None;
     Priority.DATASETS := {["/data/urgent.csv" := Csv urgent_csv]};
     Priority.RESULTS := [] |}.

Definition prio_urgent : Priority.World :=
  snd (fst (Priority.start default_config 1 1 "run0000010"
              (Sample.prio_start "urgent.csv") prio_office)).

Definition prio_psutil : PriorityWorker.Psutil :=
  {| PriorityWorker.cpu_before := 10; PriorityWorker.memory_before := 104857600;
     PriorityWorker.cpu_after := 30; PriorityWorker.memory_after := 209715200 |}.

Definition prio_turn (k : Z) : PriorityWorker.Turn :=
  {| PriorityWorker.t_next := 1; PriorityWorker.t_deadline := 1;
     PriorityWorker.t_passes := [(1%Q, 1%Q, fun a => a)];
     PriorityWorker.t_started := (inject_Z (1000 + 100 * k) / 1000)%Q;
     PriorityWorker.t_finished := (inject_Z (1100 + 100 * k) / 1000)%Q;
     PriorityWorker.t_psutil := Some prio_psutil;
     PriorityWorker.t_done := 2; PriorityWorker.t_final := 2 |}.

Definition prio_turns : list PriorityWorker.Turn := map prio_turn [0; 1; 2].

End Scenario.

(** ** Vocabulary of the statements *)

(** The key of a ready item and the lexicographic order on keys:
    priority, then arrival, then sequence number, all ascending. *)
Definition ready_key (x : Priority.ready_item) : Z * Z * Z :=
  let '(p, a, s, _) := x in (p, a, s).

Definition key_le (x y : Z * Z * Z) : Prop :=
  let '(p1, a1, s1) := x in
  let '(p2, a2, s2) := y in
  p1 < p2 \/ (p1 = p2 /\ (a1 < a2 \/ (a1 = a2 /\ s1 <= s2))).

(** Every listed id is a key of the job table. *)
Definition ids_known {V : Type} (jobs : Py.dict V) (ids : list string) : Prop :=
  forall jid, In jid ids -> exists job, Py.get jobs jid = Some job.

(** The listed ids are in non-decreasing order of arrival. *)
Definition arrivals_sorted (jobs : Py.dict RoundRobin.JobState)
    (ids : list string) : Prop :=
  StronglySorted
    (fun a b => RoundRobin.arrival_of jobs a <= RoundRobin.arrival_of jobs b) ids.

(** Arrival causality of one job: a recorded start is not before the
    arrival, a job with a finish has a start, and the finish is not before
    it. *)
Definition causal (arrival : Z) (start finish : option Z) : Prop :=
  (forall s, start = Some s -> arrival <= s) /\
  (forall f, finish = Some f -> exists s, start = Some s /\ s <= f).

(** Every job a loader builds is keyed by its own id and has neither a
    start nor a finish. *)
Definition fresh_fifo (jobs : Py.dict Fifo.JobState) : Prop :=
  forall jid j, Py.get jobs jid = Some j ->
    Fifo.job_id j = jid /\ Fifo.start_ms j = None /\ Fifo.finish_ms j = None.

Definition fresh_prio (jobs : Py.dict Priority.JobState) : Prop :=
  forall jid j, Py.get jobs jid = Some j ->
    Priority.job_id j = jid /\ Priority.start_ms j = None /\
    Priority.finish_ms j = None.

Definition fresh_rr (jobs : Py.dict RR.JobState) : Prop :=
  forall jid j, Py.get jobs jid = Some j ->
    RR.job_id j = jid /\ RR.first_start_ms j = None /\ RR.finish_ms j = None /\
    RR.arrival_ms j = 0 /\ RR.remaining_ms j = RR.service_ms j.

Definition fresh_rrobin (jobs : Py.dict RoundRobin.JobState) : Prop :=
  forall jid j, Py.get jobs jid = Some j ->
    RoundRobin.job_id j = jid /\ RoundRobin.first_start_ms j = None /\
    RoundRobin.finish_ms j = None /\
    RoundRobin.remaining_ms j = RoundRobin.service_ms j.

(** A data frame with a column of zero arrival times added at the end. *)
Definition with_zero_arrivals (df : Py.DataFrame) : Py.DataFrame :=
  df ++ [("arrival_time_ms", Py.IntCol (repeat 0 (Py.nrows df)))].

(** A length in milliseconds that the core thread of a worker with
    speedup [s] sleeps through: it is not negative, it is well within the
    64-bit integers of a data frame, and the sleep of [ms / 1000 / s]
    seconds is at most the [2^63 - 1] nanoseconds that [time.sleep]
    takes. *)
Definition sleeps (s : Q) (ms : Z) : Prop :=
  (0 < s)%Q /\ 0 <= ms <= 2 ^ 61 /\
  (inject_Z ms * 1000000 <= 9223372036854775807 * s)%Q.

(** The conversion of the wall-clock reading [wall_ms] to the simulated
    time of a run started at [start_wall_ms] with [speedup] stays within
    61 bits: the product is finite as a double, so that [round] returns
    on it (on [inf] it raises [OverflowError]), and the simulated time is
    well within the 64-bit integers of the results frame. *)
Definition clock_in_range (speedup : Q) (start_wall_ms wall_ms : Z) : Prop :=
  Z.abs (wall_ms - start_wall_ms) <= 2 ^ 61 /\
  (Qabs (inject_Z (wall_ms - start_wall_ms) * speedup) <= inject_Z (2 ^ 61))%Q.

(** * Properties *)







(** A run of the FIFO service as its steps keep it: the ids in the two
    queues are distinct keys of the job table, the counter of completions
    stays below the number of jobs until the run is finalized, and a
    finalized run names its summary and the two files written for it. *)
Record fifo_sound (cfg : Config) (w : Fifo.World) (run : Fifo.RunState) : Prop := {
  fs_keys : List.NoDup (Py.keys (Fifo.jobs run));
  fs_queues : List.NoDup (Fifo.ready_q run ++ Fifo.pending_jobs run);
  fs_known : ids_known (Fifo.jobs run) (Fifo.ready_q run ++ Fifo.pending_jobs run);
  fs_total : Fifo.total_jobs run = Py.len (Fifo.jobs run);
  fs_running :
    Fifo.done run = false ->
    0 <= Fifo.completed run /\
    (Fifo.completed run < Fifo.total_jobs run \/
     Fifo.total_jobs run = 0 /\ Fifo.completed run = 0);
  fs_finalized :
    Fifo.done run = true ->
    exists (W : Registry.Workers) (now : Q),
      Fifo.result_rows run <> [] /\
      Fifo.summary run
      = Some (Fifo.summarize cfg W now run (Fifo.result_rows run)) /\
      Fifo.jobs_csv run = Some (Fifo.jobs_path cfg run) /\
      Fifo.run_csv run = Some (Fifo.run_path cfg run) /\
      In (Fifo.jobs_path cfg run, Fifo.JobsCsv (Fifo.run_id run) (Fifo.result_rows run))
         (Fifo.RESULTS w) /\
      In (Fifo.run_path cfg run,
          Fifo.RunCsv (Fifo.summarize cfg W now run (Fifo.result_rows run)))
         (Fifo.RESULTS w)
}.

Definition fifo_inv (cfg : Config) (w : Fifo.World) : Prop :=
  forall run, Fifo.ACTIVE_RUN w = Some run -> fifo_sound cfg w run.

(** The jobs of a priority run that wait in one of its two heaps. *)
Definition waiting_ids (run : Priority.RunState) : list string :=
  map snd (Priority.ready_heap run) ++ map snd (Priority.pending_heap run).

(** A run of the priority service as its steps keep it: the ids in the
    two heaps are distinct, every heap item carries the priority and the
    arrival time of its job in the job table, the ready items have arrived
    by the simulated clock of the run, the counter of completions stays
    below the number of jobs until the run is finalized, and a finalized
    run names its summary and the two files written for it. *)
Record prio_sound (cfg : Config) (w : Priority.World) (run : Priority.RunState)
    : Prop := {
  ps_keys : List.NoDup (Py.keys (Priority.jobs run));
  ps_heaps : List.NoDup (waiting_ids run);
  ps_ready :
    forall p a s jid, In (p, a, s, jid) (Priority.ready_heap run) ->
      exists job, Py.get (Priority.jobs run) jid = Some job /\
        Priority.priority job = p /\ Priority.arrival_ms job = a /\
        a <= Priority.current_sim_ms run;
  ps_pending :
    forall a s jid, In (a, s, jid) (Priority.pending_heap run) ->
      exists job, Py.get (Priority.jobs run) jid = Some job /\
        Priority.arrival_ms job = a;
  ps_total : Priority.total_jobs run = Py.len (Priority.jobs run);
  ps_running :
    Priority.done run = false ->
    0 <= Priority.completed run /\
    (Priority.completed run < Priority.total_jobs run \/
     Priority.total_jobs run = 0 /\ Priority.completed run = 0);
  ps_finalized :
    Priority.done run = true ->
    exists (W : Registry.Workers) (now : Q),
      Priority.result_rows run <> [] /\
      Priority.summary run
      = Some (Priority.summarize cfg W now run (Priority.result_rows run)) /\
      Priority.jobs_csv run = Some (Priority.jobs_path cfg run) /\
      Priority.run_csv run = Some (Priority.run_path cfg run) /\
      In (Priority.jobs_path cfg run,
          Priority.JobsCsv (Priority.run_id run) (Priority.result_rows run))
         (Priority.RESULTS w) /\
      In (Priority.run_path cfg run,
          Priority.RunCsv (Priority.summarize cfg W now run (Priority.result_rows run)))
         (Priority.RESULTS w)
}.

Definition prio_inv (cfg : Config) (w : Priority.World) : Prop :=
  forall run, Priority.ACTIVE_RUN w = Some run -> prio_sound cfg w run.



(** The same for the service of [src/round-robin/scheduler.py], with its
    list of arrivals: the ids of the list are keys of the job table, the
    index of the first unreleased one is within the list, and that job, if
    there is one, arrives after time 0. *)
Record rrobin_sound (cfg : Config) (w : RoundRobin.World) (run : RoundRobin.RunState)
    : Prop := {
  rbs_known : ids_known (RoundRobin.jobs run) (RoundRobin.ready_q run);
  rbs_ids :
    forall jid job, Py.get (RoundRobin.jobs run) jid = Some job ->
      RoundRobin.job_id job = jid;
  rbs_pending : ids_known (RoundRobin.jobs run) (RoundRobin.pending_ids run);
  rbs_idx :
    0 <= RoundRobin.pending_idx run <= Py.len (RoundRobin.pending_ids run);
  rbs_next :
    forall jid job,
      nth_error (RoundRobin.pending_ids run) (Z.to_nat (RoundRobin.pending_idx run))
      = Some jid ->
      Py.get (RoundRobin.jobs run) jid = Some job -> 0 < RoundRobin.arrival_ms job;
  rbs_total : RoundRobin.total_jobs run = Py.len (RoundRobin.jobs run);
  rbs_running :
    RoundRobin.done run = false ->
    0 <= RoundRobin.completed run /\
    (RoundRobin.completed run < RoundRobin.total_jobs run \/
     RoundRobin.total_jobs run = 0 /\ RoundRobin.completed run = 0);
  rbs_finalized :
    RoundRobin.done run = true ->
    exists (W : Registry.Workers) (now : Q),
      RoundRobin.result_rows run <> [] /\
      RoundRobin.summary run
      = Some (RoundRobin.summarize cfg W now run (RoundRobin.result_rows run)) /\
      RoundRobin.jobs_csv run = Some (RoundRobin.jobs_path cfg run) /\
      RoundRobin.run_csv run = Some (RoundRobin.run_path cfg run) /\
      In (RoundRobin.jobs_path cfg run,
          RoundRobin.JobsCsv (RoundRobin.run_id run) (RoundRobin.quantum_ms run)
            (RoundRobin.result_rows run))
         (RoundRobin.RESULTS w) /\
      In (RoundRobin.run_path cfg run,
          RoundRobin.RunCsv
            (RoundRobin.summarize cfg W now run (RoundRobin.result_rows run)))
         (RoundRobin.RESULTS w)
}.

Definition rrobin_inv (cfg : Config) (w : RoundRobin.World) : Prop :=
  forall run, RoundRobin.ACTIVE_RUN w = Some run -> rrobin_sound cfg w run.




(** The place of an id in a list of ids: [ids.index(jid)]. *)
Fixpoint position (jid : string) (ids : list string) : Z :=
  match ids with
  | [] => 0
  | x :: ids' => if String.eqb x jid then 0 else 1 + position jid ids'
  end.

(** The heap item of a job that is ready when its run starts: its
    priority, its arrival time, and as sequence number its place in the
    dataset. *)
Definition prio_item (jobs0 : Py.dict Priority.JobState) (jid : string)
    : Priority.ready_item :=
  match Py.get jobs0 jid with
  | Some job =>
      (Priority.priority job, Priority.arrival_ms job, position jid (Py.keys jobs0), jid)
  | None => (0, 0, position jid (Py.keys jobs0), jid)
  end.

(** Job [a] is not after job [b] in the order of the priority policy:
    smaller priority value first, then earlier arrival, then earlier place
    in the dataset. *)
Definition prio_before (jobs0 : Py.dict Priority.JobState) (a b : string) : Prop :=
  key_le (ready_key (prio_item jobs0 a)) (ready_key (prio_item jobs0 b)).

(** Job [jid] of the dataset as a turn of a core of the priority worker
    leaves it: started when the core thread read the clock, finished a
    service time later, with the measurements of the thread. *)
Definition prio_served (run : Priority.RunState) (jobs0 : Py.dict Priority.JobState)
    (jid : string) (t : PriorityWorker.Turn) : Prop :=
  exists job0 job,
    Py.get jobs0 jid = Some job0 /\ Py.get (Priority.jobs run) jid = Some job /\
    Priority.job_id job = jid /\
    Priority.service_ms job = Priority.service_ms job0 /\
    Priority.arrival_ms job = Priority.arrival_ms job0 /\
    Priority.priority job = Priority.priority job0 /\
    Priority.start_ms job
    = Some (Priority.wall_to_sim run
              (Py.int_of_float (PriorityWorker.t_started t * 1000))) /\
    Priority.finish_ms job
    = Some (Priority.wall_to_sim run
              (Py.int_of_float (PriorityWorker.t_started t * 1000))
            + Priority.service_ms job0) /\
    Priority.cpu_percent job = PriorityWorker.cpu_avg (PriorityWorker.t_psutil t) /\
    Priority.memory_mb job = PriorityWorker.memory_max (PriorityWorker.t_psutil t).

(** A priority run, all of whose jobs had arrived at its start, between
    two turns of the one core that drives it: the jobs [served] have been
    run by the turns so far, one each, in the order of the policy and
    before every job that waits; the others wait in the ready heap under
    the items they were pushed with, as they were loaded. [jobs0] is the
    job table at the start of the run. *)
Record prio_between (W : Registry.Workers) (jobs0 : Py.dict Priority.JobState)
    (served : list string) (turns : list PriorityWorker.Turn)
    (w : Priority.World) (run : Priority.RunState) : Prop := {
  pb_workers : Priority.WORKERS w = W;
  pb_run : Priority.ACTIVE_RUN w = Some run;
  pb_running : Priority.done run = false;
  pb_keys : Py.keys (Priority.jobs run) = Py.keys jobs0;
  pb_split :
    Permutation (Py.keys jobs0) (served ++ map snd (Priority.ready_heap run));
  pb_items :
    forall x, In x (Priority.ready_heap run) -> x = prio_item jobs0 (snd x);
  pb_pending : Priority.pending_heap run = [];
  pb_total : Priority.total_jobs run = Py.len jobs0;
  pb_completed : Priority.completed run = Py.len served;
  pb_sorted : StronglySorted (prio_before jobs0) served;
  pb_least :
    forall a b, In a served -> In b (map snd (Priority.ready_heap run)) ->
      prio_before jobs0 a b;
  pb_served : Forall2 (prio_served run jobs0) served turns;
  pb_waiting :
    forall jid, In jid (map snd (Priority.ready_heap run)) ->
      Py.get (Priority.jobs run) jid = Py.get jobs0 jid
}.

(** ... and once the last job is reported; [order] is the order in
    which the jobs were run. *)
Record prio_complete (cfg : Config) (jobs0 : Py.dict Priority.JobState)
    (order : list string) (turns : list PriorityWorker.Turn)
    (w : Priority.World) (run : Priority.RunState) : Prop := {
  pc_run : Priority.ACTIVE_RUN w = Some run;
  pc_done : Priority.done run = true;
  pc_completed : Priority.completed run = Priority.total_jobs run;
  pc_total : Priority.total_jobs run = Py.len jobs0;
  pc_heap : Priority.ready_heap run = [];
  pc_perm : Permutation order (Py.keys jobs0);
  pc_sorted : StronglySorted (prio_before jobs0) order;
  pc_served : Forall2 (prio_served run jobs0) order turns;
  pc_rows : map Priority.row_job_id (Priority.result_rows run) = Py.keys jobs0;
  pc_files :
    In (Priority.jobs_path cfg run,
        Priority.JobsCsv (Priority.run_id run) (Priority.result_rows run))
       (Priority.RESULTS w)
}.

(** ** Facts about the prelude *)

Lemma dict_get_set_same {V : Type} (d : Py.dict V) (k : string) (v : V) :
  Py.get (Py.set d k v) k = Some v.
Proof.
  induction d as [|[k' v'] d IH]; simpl.
  - now rewrite String.eqb_refl.
  - destruct (String.eqb k' k) eqn:E; simpl.
    + now rewrite String.eqb_refl.
    + now rewrite E.
Qed.

Lemma dict_get_set_other {V : Type} (d : Py.dict V) (k k' : string) (v : V) :
  k <> k' -> Py.get (Py.set d k v) k' = Py.get d k'.
Proof.
  intros Hne. induction d as [|[k0 v0] d IH]; simpl.
  - apply String.eqb_neq in Hne. now rewrite Hne.
  - destruct (String.eqb k0 k) eqn:E; simpl.
    + apply String.eqb_eq in E. subst k0.
      apply String.eqb_neq in Hne. now rewrite Hne.
    + now rewrite IH.
Qed.

(** What a lookup finds after an update: the new value under the updated
    key, the old one elsewhere. *)
Lemma dict_get_set {V : Type} (d : Py.dict V) (k k' : string) (v x : V) :
  Py.get (Py.set d k v) k' = Some x ->
  (k' = k /\ x = v) \/ (k' <> k /\ Py.get d k' = Some x).
Proof.
  destruct (String.eqb_spec k k') as [->|Hne]; intros H.
  - rewrite dict_get_set_same in H. left. split; congruence.
  - rewrite dict_get_set_other in H by assumption. right. split; congruence.
Qed.

Lemma dict_get_In_values {V : Type} (d : Py.dict V) (k : string) (v : V) :
  Py.get d k = Some v -> In v (Py.values d).
Proof.
  induction d as [|[k' v'] d IH]; simpl; [discriminate|].
  destruct (String.eqb k' k); intros H.
  - left. congruence.
  - right. auto.
Qed.

Lemma dict_In_values_get {V : Type} (d : Py.dict V) (v : V) :
  In v (Py.values d) -> exists k, In (k, v) d.
Proof.
  unfold Py.values. intros H. apply in_map_iff in H.
  destruct H as [[k v'] [E H]]. simpl in E. subst. eauto.
Qed.

Lemma dict_values_set {V : Type} (d : Py.dict V) (k : string) (v x : V) :
  In x (Py.values (Py.set d k v)) -> x = v \/ In x (Py.values d).
Proof.
  induction d as [|[k' v'] d IH]; simpl.
  - intros [H|[]]. now left.
  - destruct (String.eqb k' k); simpl.
    + intros [H|H]; [now left | right; now right].
    + intros [H|H]; [right; now left|].
      destruct (IH H) as [E|E]; [now left | right; now right].
Qed.

Lemma dict_keys_set_known {V : Type} (d : Py.dict V) (k : string) (v x : V) :
  Py.get d k = Some x -> Py.keys (Py.set d k v) = Py.keys d.
Proof.
  induction d as [|[k' v'] d IH]; simpl; [discriminate|].
  destruct (String.eqb k' k) eqn:E; simpl; intros H.
  - apply String.eqb_eq in E. now subst.
  - f_equal. auto.
Qed.

(** The sleep of a core thread. *)

Lemma sleeps_through (s : Q) (ms : Z) :
  sleeps s ms ->
  (x ← Py.float_of_int ms; secs ← Py.truediv (x / 1000) s; Py.sleep secs) = Py.Ok tt.
Proof.
  intros (Hs & [Hlo Hhi] & Hb).
  unfold Py.float_of_int.
  assert (Hbig : 2 ^ 61 < 2 ^ 1024 - 2 ^ 970) by (vm_compute; reflexivity).
  set (B := 2 ^ 61) in *. set (B' := 2 ^ 1024 - 2 ^ 970) in *.
  assert (Ea : (Z.abs ms <? B') = true) by (apply Z.ltb_lt; lia).
  rewrite Ea. cbn [mbind Py.result_bind].
  unfold Py.truediv.
  assert (Ez : Qeq_bool s 0 = false).
  { destruct (Qeq_bool s 0) eqn:E; [|reflexivity]. apply Qeq_bool_iff in E. lra. }
  rewrite Ez. cbn [mbind Py.result_bind]. unfold Py.sleep.
  set (d := (inject_Z ms / 1000 / s * 1000000000)%Q).
  assert (Hd : (d == inject_Z ms * 1000000 / s)%Q) by (unfold d; field; lra).
  assert (Hms : (0 <= inject_Z ms)%Q) by (change 0%Q with (inject_Z 0); rewrite <- Zle_Qle; lia).
  assert (Hd0 : (0 <= d)%Q).
  { rewrite Hd. apply Qle_shift_div_l; [assumption|]. lra. }
  assert (Hd1 : (d <= inject_Z 9223372036854775807)%Q).
  { rewrite Hd. apply Qle_shift_div_r; [assumption|]. exact Hb. }
  assert (E0 : Qle_bool 0 d = true) by (now apply Qle_bool_iff).
  rewrite E0.
  assert (Hc0 : 0 <= Qceiling d).
  { change 0 with (Qceiling 0). now apply Qceiling_resp_le. }
  assert (Hc1 : Qceiling d <= 9223372036854775807).
  { rewrite <- (Qceiling_Z 9223372036854775807). now apply Qceiling_resp_le. }
  assert (E1 : (Qceiling d <? - 2 ^ 63) = false) by (apply Z.ltb_ge; lia).
  assert (E2 : (2 ^ 63 <=? Qceiling d) = false) by (apply Z.leb_gt; lia).
  assert (E3 : (Qceiling d <? 0) = false) by (apply Z.ltb_ge; lia).
  now rewrite E1, E2, E3.
Qed.


(** ** The long-poll loop *)

(** A schedule whose first passes all block hands the reply of the next
    pass back to the caller. *)
Lemma long_poll_first_reply {S R C : Type} (body : C -> S -> pass R * S)
    (pre post : list (C * (S -> S))) (c : C) (others : S -> S)
    (s a a' : S) (r : Py.result R) :
  blocked_through body pre s = Some a ->
  body c a = (Reply r, a') ->
  long_poll body (pre ++ (c, others) :: post) s = Some (r, a').
Proof.
  revert s. induction pre as [|[c0 o0] pre IH]; simpl; intros s Hb Hr.
  - injection Hb as ->. now rewrite Hr.
  - destruct (body c0 s) as [[r0|t] s0]; [discriminate|]. now apply IH.
Qed.

(** A pass that blocks leaves the caller waiting for the next wake-up. *)
Lemma long_poll_blocked {S R C : Type} (body : C -> S -> pass R * S)
    (pre : list (C * (S -> S))) (s a : S) :
  blocked_through body pre s = Some a ->
  long_poll body pre s = None.
Proof.
  revert s. induction pre as [|[c0 o0] pre IH]; simpl; intros s Hb; [reflexivity|].
  destruct (body c0 s) as [[r0|t] s0]; [discriminate|]. now apply IH.
Qed.

(** ** The heap contract *)

Section HeapFacts.
Context {A : Type} (ltb : A -> A -> bool).
Hypothesis ltb_asym : forall a b, ltb a b = true -> ltb b a = false.
Hypothesis ltb_negtrans :
  forall a b c, ltb a b = false -> ltb b c = false -> ltb a c = false.

Lemma extract_min_perm (x : A) (l : list A) (m : A) (r : list A) :
  Py.extract_min ltb x l = (m, r) -> Permutation (x :: l) (m :: r).
Proof.
  revert x m r. induction l as [|y l IH]; simpl; intros x m r H.
  - injection H as <- <-. reflexivity.
  - destruct (Py.extract_min ltb y l) as [m' r'] eqn:E.
    destruct (ltb m' x); injection H as <- <-.
    + rewrite (IH _ _ _ E). apply perm_swap.
    + reflexivity.
Qed.

Lemma extract_min_least (x : A) (l : list A) (m : A) (r : list A) :
  Py.extract_min ltb x l = (m, r) ->
  forall z, In z (x :: l) -> ltb z m = false.
Proof.
  revert x m r. induction l as [|y l IH]; simpl; intros x m r H z Hz.
  - injection H as <- <-. destruct Hz as [<-|[]].
    destruct (ltb x x) eqn:E; [|reflexivity]. now rewrite (ltb_asym _ _ E) in E.
  - destruct (Py.extract_min ltb y l) as [m' r'] eqn:E.
    pose proof (IH _ _ _ E) as Hmin.
    destruct (ltb m' x) eqn:Elt; injection H as <- <-.
    + destruct Hz as [<-|Hz]; [now apply ltb_asym | now apply Hmin].
    + destruct Hz as [<-|Hz].
      * destruct (ltb x x) eqn:Ex; [|reflexivity]. now rewrite (ltb_asym _ _ Ex) in Ex.
      * apply ltb_negtrans with m'; [now apply Hmin | exact Elt].
Qed.

(** [heappop] answers on every non-empty heap, with an item of the heap
    that no other item is below, and leaves the other items. *)
Lemma heappop_spec (h : list A) :
  h <> [] ->
  exists m r, Py.heappop ltb h = Some (m, r) /\ Permutation h (m :: r) /\
              forall z, In z h -> ltb z m = false.
Proof.
  destruct h as [|x l]; [congruence|]. intros _. simpl.
  destruct (Py.extract_min ltb x l) as [m r] eqn:E. exists m, r.
  split; [reflexivity|]. split.
  - now apply extract_min_perm.
  - now apply extract_min_least with (r := r).
Qed.

Lemma heappop_some (h : list A) (m : A) (r : list A) :
  Py.heappop ltb h = Some (m, r) ->
  Permutation h (m :: r) /\ forall z, In z h -> ltb z m = false.
Proof.
  destruct h as [|x l]; simpl; [discriminate|]. intros H. injection H as H.
  split; [now apply extract_min_perm | now apply extract_min_least with (r := r)].
Qed.

Lemma heappop_none (h : list A) : Py.heappop ltb h = None -> h = [].
Proof. destruct h; simpl; [reflexivity | discriminate]. Qed.

End HeapFacts.

(** ** Python's order on the heap tuples is a strict total order *)

Lemma string_ltb_asym (a b : string) :
  String.ltb a b = true -> String.ltb b a = false.
Proof.
  unfold String.ltb. rewrite (String.compare_antisym b a).
  destruct (String.compare a b); simpl; congruence.
Qed.

Lemma string_ltb_negtrans (a b c : string) :
  String.ltb a b = false -> String.ltb b c = false -> String.ltb a c = false.
Proof.
  unfold String.ltb. intros Hab Hbc.
  destruct (String.compare a c) eqn:Hac; try reflexivity. exfalso.
  apply OrderedTypeEx.String_as_OT.cmp_lt in Hac.
  destruct (String.compare a b) eqn:Eab; try discriminate.
  - apply OrderedTypeEx.String_as_OT.cmp_eq in Eab. subst b.
    apply OrderedTypeEx.String_as_OT.cmp_lt in Hac.
    unfold OrderedTypeEx.String_as_OT.cmp in Hac. rewrite Hac in Hbc. discriminate.
  - assert (Hba : OrderedTypeEx.String_as_OT.lt b a).
    { apply OrderedTypeEx.String_as_OT.cmp_lt.
      unfold OrderedTypeEx.String_as_OT.cmp.
      rewrite String.compare_antisym, Eab. reflexivity. }
    pose proof (OrderedTypeEx.String_as_OT.lt_trans _ _ _ Hba Hac) as Hbc'.
    apply OrderedTypeEx.String_as_OT.cmp_lt in Hbc'.
    unfold OrderedTypeEx.String_as_OT.cmp in Hbc'. rewrite Hbc' in Hbc. discriminate.
Qed.

Ltac lex_cases :=
  unfold Priority.lex;
  repeat match goal with
         | |- context [Z.compare ?a ?b] => destruct (Z.compare_spec a b); subst
         | H : context [Z.compare ?a ?b] |- _ => destruct (Z.compare_spec a b); subst
         end;
  try congruence; try lia.

Lemma ready_ltb_asym (x y : Priority.ready_item) :
  Priority.ready_ltb x y = true -> Priority.ready_ltb y x = false.
Proof.
  destruct x as [[[p1 a1] s1] j1], y as [[[p2 a2] s2] j2].
  unfold Priority.ready_ltb. lex_cases. apply string_ltb_asym.
Qed.

Lemma ready_ltb_negtrans (x y z : Priority.ready_item) :
  Priority.ready_ltb x y = false -> Priority.ready_ltb y z = false ->
  Priority.ready_ltb x z = false.
Proof.
  destruct x as [[[p1 a1] s1] j1], y as [[[p2 a2] s2] j2], z as [[[p3 a3] s3] j3].
  unfold Priority.ready_ltb. lex_cases. apply string_ltb_negtrans.
Qed.

Lemma pending_ltb_asym (x y : Priority.pending_item) :
  Priority.pending_ltb x y = true -> Priority.pending_ltb y x = false.
Proof.
  destruct x as [[a1 s1] j1], y as [[a2 s2] j2].
  unfold Priority.pending_ltb. lex_cases. apply string_ltb_asym.
Qed.

Lemma pending_ltb_negtrans (x y z : Priority.pending_item) :
  Priority.pending_ltb x y = false -> Priority.pending_ltb y z = false ->
  Priority.pending_ltb x z = false.
Proof.
  destruct x as [[a1 s1] j1], y as [[a2 s2] j2], z as [[a3 s3] j3].
  unfold Priority.pending_ltb. lex_cases. apply string_ltb_negtrans.
Qed.

(** An item that is not below [m] has a key at least the key of [m]. *)
Lemma ready_not_below_key (m y : Priority.ready_item) :
  Priority.ready_ltb y m = false -> key_le (ready_key m) (ready_key y).
Proof.
  destruct m as [[[p1 a1] s1] j1], y as [[[p2 a2] s2] j2].
  unfold Priority.ready_ltb, key_le, ready_key. lex_cases.
Qed.

Lemma pending_not_below_arrival (m y : Priority.pending_item) :
  Priority.pending_ltb y m = false -> fst (fst m) <= fst (fst y).
Proof.
  destruct m as [[a1 s1] j1], y as [[a2 s2] j2].
  unfold Priority.pending_ltb. simpl. lex_cases.
Qed.

(** ** Dispatch: [/next] *)



(** FIFO. *)






(** Round-robin without arrivals. *)






(** Priority: the promotion loop. *)

Lemma heap_top_pop {A : Type} (ltb : A -> A -> bool) (h : list A) :
  Py.heap_top ltb h = option_map fst (Py.heappop ltb h).
Proof.
  unfold Py.heap_top. destruct (Py.heappop ltb h) as [[m r]|]; reflexivity.
Qed.

(** The loop touches the two heaps and the sequence counter only, and it
    adds to the ready heap at its end. *)
Lemma promote_loop_frame (n : nat) (run run' : Priority.RunState) (upto : Z)
    (ch : bool) (r : Py.result bool) :
  Priority.promote_loop n run upto ch = (r, run') ->
  Priority.jobs run' = Priority.jobs run /\
  Priority.done run' = Priority.done run /\
  Priority.completed run' = Priority.completed run /\
  Priority.total_jobs run' = Priority.total_jobs run /\
  Priority.current_sim_ms run' = Priority.current_sim_ms run /\
  exists added, Priority.ready_heap run' = Priority.ready_heap run ++ added.
Proof.
  revert run ch. induction n as [|n IH]; simpl; intros run ch H.
  - injection H as <- <-. repeat split; try reflexivity. exists []. now rewrite app_nil_r.
  - rewrite heap_top_pop in H.
    destruct (Py.heappop Priority.pending_ltb (Priority.pending_heap run))
      as [[[[a s] j] rest]|] eqn:Epop; simpl in H.
    2:{ injection H as <- <-. repeat split; try reflexivity.
        exists []. now rewrite app_nil_r. }
    destruct (a <=? upto).
    2:{ injection H as <- <-. repeat split; try reflexivity.
        exists []. now rewrite app_nil_r. }
    unfold Priority.push_ready, Py.getitem in H. simpl in H.
    destruct (Py.get (Priority.jobs run) j) as [job|]; simpl in H.
    + apply IH in H. simpl in H.
      destruct H as (Hj & Hd & Hc & Ht & Hs & added & Hr).
      repeat split; try assumption.
      unfold Py.heappush in Hr. rewrite <- app_assoc in Hr. eauto.
    + injection H as <- <-. simpl. repeat split; try reflexivity.
      exists []. now rewrite app_nil_r.
Qed.

(** With every pending id in the job table the loop raises nothing; when
    it has as many turns as pending items, it leaves only items that are
    not due, and every due item is in the ready heap afterwards. *)
Lemma promote_loop_complete (n : nat) (run run' : Priority.RunState) (upto : Z)
    (ch : bool) (r : Py.result bool) :
  Priority.promote_loop n run upto ch = (r, run') ->
  ids_known (Priority.jobs run) (map snd (Priority.pending_heap run)) ->
  (length (Priority.pending_heap run) <= n)%nat ->
  (exists b, r = Py.Ok b) /\
  (forall x, In x (Priority.pending_heap run') ->
     In x (Priority.pending_heap run) /\ upto < fst (fst x)) /\
  (forall x, In x (Priority.pending_heap run) -> fst (fst x) <= upto ->
     exists job seq, Py.get (Priority.jobs run) (snd x) = Some job /\
       In (Priority.priority job, Priority.arrival_ms job, seq, snd x)
          (Priority.ready_heap run')).
Proof.
  revert run ch. induction n as [|n IH]; simpl; intros run ch H Hk Hlen.
  - injection H as <- <-.
    destruct (Priority.pending_heap run) as [|x l]; [|simpl in Hlen; lia].
    split; [eauto|]. split; intros x [].
  - rewrite heap_top_pop in H.
    destruct (Py.heappop Priority.pending_ltb (Priority.pending_heap run))
      as [[[[a s] j] rest]|] eqn:Epop; simpl in H.
    2:{ injection H as <- <-. apply heappop_none in Epop. rewrite Epop.
        split; [eauto|]. split; intros x []. }
    destruct (heappop_some _ pending_ltb_asym pending_ltb_negtrans _ _ _ Epop)
      as [Hperm Hmin].
    destruct (a <=? upto) eqn:Ea.
    2:{ injection H as <- <-. apply Z.leb_gt in Ea.
        split; [eauto|]. split.
        - intros x Hx. split; [assumption|].
          pose proof (pending_not_below_arrival _ _ (Hmin x Hx)) as Hle.
          simpl in Hle. lia.
        - intros x Hx Hdue.
          pose proof (pending_not_below_arrival _ _ (Hmin x Hx)) as Hle.
          simpl in Hle. lia. }
    apply Z.leb_le in Ea.
    assert (Hin : In (a, s, j) (Priority.pending_heap run)).
    { apply (Permutation_in _ (Permutation_sym Hperm)). now left. }
    destruct (Hk j) as [job Hjob].
    { apply in_map_iff. exists (a, s, j). split; [reflexivity | assumption]. }
    unfold Priority.push_ready, Py.getitem in H. simpl in H.
    rewrite Hjob in H. simpl in H.
    pose proof (promote_loop_frame _ _ _ _ _ _ H) as (_ & _ & _ & _ & _ & added & Hadd).
    simpl in Hadd.
    apply IH in H; simpl.
    + destruct H as (Hok & Hleft & Hdue). simpl in Hleft, Hdue.
      split; [assumption|]. split.
      * intros x Hx. destruct (Hleft x Hx) as [Hx' Hup]. split; [|assumption].
        apply (Permutation_in _ (Permutation_sym Hperm)). now right.
      * intros x Hx Hxdue.
        apply (Permutation_in _ Hperm) in Hx. destruct Hx as [<-|Hx].
        -- simpl. exists job, (Priority.next_seq run). split; [assumption|].
           rewrite Hadd. unfold Py.heappush.
           apply in_or_app. left. apply in_or_app. right. now left.
        -- now apply Hdue.
    + intros jid Hjid. simpl in Hjid. apply Hk.
      apply in_map_iff in Hjid. destruct Hjid as [x [<- Hx]].
      apply in_map. apply (Permutation_in _ (Permutation_sym Hperm)). now right.
    + apply Permutation_length in Hperm. simpl in Hperm. lia.
Qed.

Lemma promote_arrivals_frame (run run1 : Priority.RunState) (upto : Z)
    (r : Py.result unit) (sigs : list signal) :
  Priority.promote_arrivals run upto = (r, run1, sigs) ->
  Priority.jobs run1 = Priority.jobs run /\
  Priority.done run1 = Priority.done run /\
  Priority.completed run1 = Priority.completed run /\
  Priority.total_jobs run1 = Priority.total_jobs run /\
  Priority.current_sim_ms run1 = Priority.current_sim_ms run /\
  exists added, Priority.ready_heap run1 = Priority.ready_heap run ++ added.
Proof.
  unfold Priority.promote_arrivals. intros H.
  destruct (Priority.promote_loop _ run upto false) as [[b|e] run'] eqn:E;
    injection H as _ <- _; exact (promote_loop_frame _ _ _ _ _ _ E).
Qed.

Lemma promote_arrivals_complete (run run1 : Priority.RunState) (upto : Z)
    (r : Py.result unit) (sigs : list signal) :
  Priority.promote_arrivals run upto = (r, run1, sigs) ->
  ids_known (Priority.jobs run) (map snd (Priority.pending_heap run)) ->
  r = Py.Ok tt /\
  (forall x, In x (Priority.pending_heap run1) ->
     In x (Priority.pending_heap run) /\ upto < fst (fst x)) /\
  (forall x, In x (Priority.pending_heap run) -> fst (fst x) <= upto ->
     exists job seq, Py.get (Priority.jobs run) (snd x) = Some job /\
       In (Priority.priority job, Priority.arrival_ms job, seq, snd x)
          (Priority.ready_heap run1)).
Proof.
  unfold Priority.promote_arrivals. intros H Hk.
  destruct (Priority.promote_loop _ run upto false) as [r' run'] eqn:E.
  destruct (promote_loop_complete _ _ _ _ _ _ E Hk (le_n _)) as ([b ->] & Hl & Hd).
  injection H as <- <- _. auto.
Qed.

(** Priority: the passes of [/next]. *)

Lemma prio_next_reply (cfg : Config) (t0 t1 : Q) (req : Priority.NextReq)
    (pre post : list (Q * Q * (option Priority.RunState -> option Priority.RunState)))
    (now_sim now : Q) (others : option Priority.RunState -> option Priority.RunState)
    (w : Priority.World) (a a' : option Priority.RunState)
    (r : Py.result Priority.NextResp) (sigs : list signal) :
  Registry.is_alive_worker_core cfg (Priority.WORKERS w) t0
    (Priority.nr_worker_id req) (Priority.nr_core_id req) = true ->
  blocked_through
    (Priority.next_pass (t1 + inject_Z (Priority.nr_timeout_ms req) / 1000)%Q)
    pre (Priority.ACTIVE_RUN w) = Some a ->
  Priority.next_iter (t1 + inject_Z (Priority.nr_timeout_ms req) / 1000)%Q
    now_sim now a = (Reply r, a', sigs) ->
  Priority.next_job cfg t0 t1 req (pre ++ (now_sim, now, others) :: post) w
    = Some (r, Priority.with_run w a').
Proof.
  intros Halive Hpre Hpass. unfold Priority.next_job, Priority.next_loop.
  rewrite Halive. simpl.
  rewrite (long_poll_first_reply _ pre post (now_sim, now) others _ a a' r Hpre);
    [reflexivity|].
  unfold Priority.next_pass. simpl. now rewrite Hpass.
Qed.

Lemma prio_running (run : Priority.RunState) :
  Priority.done run = false -> Priority.completed run < Priority.total_jobs run ->
  Priority.done run || (Priority.total_jobs run <=? Priority.completed run) = false.
Proof.
  intros -> H. simpl. apply Z.leb_gt. exact H.
Qed.


Lemma prio_next_dispatch (d now_sim now : Q) (run run1 : Priority.RunState)
    (sigs : list signal) :
  Priority.done run = false -> Priority.completed run < Priority.total_jobs run ->
  Priority.promote_arrivals (Priority.advance run (Priority.sim_now run now_sim))
    (Priority.sim_now run now_sim) = (Py.Ok tt, run1, sigs) ->
  Priority.ready_heap run1 <> [] ->
  ids_known (Priority.jobs run1) (map snd (Priority.ready_heap run1)) ->
  exists prio arr seq jid rest job,
    Permutation (Priority.ready_heap run1) ((prio, arr, seq, jid) :: rest) /\
    (forall y, In y (Priority.ready_heap run1) ->
       key_le (prio, arr, seq) (ready_key y)) /\
    Py.get (Priority.jobs run1) jid = Some job /\
    Priority.next_iter d now_sim now (Some run)
    = (Reply (Py.Ok (Priority.next_ok jid (Priority.service_ms job) prio arr)),
       Some (Priority.with_heaps run1 rest (Priority.pending_heap run1)
               (Priority.next_seq run1) (Priority.current_sim_ms run1)),
       sigs).
Proof.
  intros Hd Hc Hp Hne Hk.
  destruct (heappop_spec _ ready_ltb_asym ready_ltb_negtrans _ Hne)
    as ([[[prio arr] seq] jid] & rest & Hpop & Hperm & Hmin).
  destruct (Hk jid) as [job Hjob].
  { apply in_map_iff. exists (prio, arr, seq, jid). split; [reflexivity|].
    apply (Permutation_in _ (Permutation_sym Hperm)). now left. }
  exists prio, arr, seq, jid, rest, job. split; [assumption|]. split.
  - intros y Hy. exact (ready_not_below_key (prio, arr, seq, jid) y (Hmin y Hy)).
  - split; [assumption|]. unfold Priority.next_iter, Py.getitem.
    now rewrite (prio_running run Hd Hc), Hp, Hpop, Hjob.
Qed.


(** Round-robin with arrivals: the release loop. *)

Lemma release_loop_appends (jobs : Py.dict RoundRobin.JobState) (now : Z)
    (rest ready ready' : list string) (idx idx' : Z) (r : Py.result unit) :
  RoundRobin.release_loop jobs now rest ready idx = (r, ready', idx') ->
  exists k, (k <= length rest)%nat /\
    ready' = ready ++ firstn k rest /\ idx' = idx + Z.of_nat k /\
    (forall jid, In jid (firstn k rest) ->
       exists job, Py.get jobs jid = Some job /\ RoundRobin.arrival_ms job <= now) /\
    match r with
    | Py.Ok _ =>
        match nth_error rest k with
        | Some jid => exists job, Py.get jobs jid = Some job /\
                                  now < RoundRobin.arrival_ms job
        | None => True
        end
    | Py.Raise _ =>
        exists jid, nth_error rest k = Some jid /\ Py.get jobs jid = None
    end.
Proof.
  revert ready idx. induction rest as [|jid rest IH]; simpl; intros ready idx H.
  - injection H as <- <- <-. exists O. simpl. rewrite app_nil_r.
    split; [lia|]. split; [reflexivity|]. split; [lia|]. split; [intros ? []|exact I].
  - unfold Py.getitem in H. destruct (Py.get jobs jid) as [job|] eqn:Ej.
    + destruct (now <? RoundRobin.arrival_ms job) eqn:Elt.
      * injection H as <- <- <-. exists O. simpl. rewrite app_nil_r.
        apply Z.ltb_lt in Elt.
        split; [lia|]. split; [reflexivity|]. split; [lia|]. split; [intros ? []|eauto].
      * apply Z.ltb_ge in Elt. apply IH in H.
        destruct H as (k & Hk & Hr & Hi & Hdue & Hstop).
        exists (S k). simpl.
        split; [lia|]. split; [rewrite Hr, <- app_assoc; reflexivity|].
        split; [lia|]. split; [|exact Hstop].
        intros j [<-|Hj]; [eauto | now apply Hdue].
    + injection H as <- <- <-. exists O. simpl. rewrite app_nil_r.
      split; [lia|]. split; [reflexivity|]. split; [lia|]. split; [intros ? []|eauto].
Qed.

Lemma release_arrivals_frame (run run1 : RoundRobin.RunState) (now : Z)
    (r : Py.result unit) :
  RoundRobin.release_arrivals run now = (r, run1) ->
  RoundRobin.jobs run1 = RoundRobin.jobs run /\
  RoundRobin.done run1 = RoundRobin.done run /\
  RoundRobin.completed run1 = RoundRobin.completed run /\
  RoundRobin.total_jobs run1 = RoundRobin.total_jobs run /\
  RoundRobin.quantum_ms run1 = RoundRobin.quantum_ms run /\
  RoundRobin.speedup run1 = RoundRobin.speedup run /\
  RoundRobin.pending_ids run1 = RoundRobin.pending_ids run /\
  exists released, RoundRobin.ready_q run1 = RoundRobin.ready_q run ++ released.
Proof.
  unfold RoundRobin.release_arrivals. intros H.
  destruct (RoundRobin.release_loop _ _ _ _ _) as [[r' ready] idx] eqn:E.
  injection H as <- <-. simpl. repeat split.
  destruct (release_loop_appends _ _ _ _ _ _ _ _ E) as (k & _ & -> & _). eauto.
Qed.








(** ** Completion: [/done] *)

(** Finalization changes the completion flag, the artifact paths and the
    summary, nothing else. *)
Lemma rr_finalize_frame (cfg : Config) (W : Registry.Workers) (now : Q)
    (run run2 : RR.RunState) (files : list (string * RR.artifact)) :
  RR.finalize_run cfg W now run = Py.Ok (run2, files) ->
  RR.jobs run2 = RR.jobs run /\ RR.ready_q run2 = RR.ready_q run /\
  RR.completed run2 = RR.completed run /\ RR.done run2 = true.
Proof.
  unfold RR.finalize_run. destruct (RR.result_rows run); [discriminate|].
  intros H. injection H as <- _. simpl. auto.
Qed.





Lemma fifo_finalize_frame (cfg : Config) (W : Registry.Workers) (now : Q)
    (run : Fifo.RunState) :
  Fifo.jobs (fst (Fifo.finalize_run cfg W now run)) = Fifo.jobs run /\
  Fifo.completed (fst (Fifo.finalize_run cfg W now run)) = Fifo.completed run /\
  Fifo.ready_q (fst (Fifo.finalize_run cfg W now run)) = Fifo.ready_q run /\
  Fifo.pending_jobs (fst (Fifo.finalize_run cfg W now run)) = Fifo.pending_jobs run /\
  Fifo.speedup (fst (Fifo.finalize_run cfg W now run)) = Fifo.speedup run /\
  Fifo.start_wall_ms (fst (Fifo.finalize_run cfg W now run)) = Fifo.start_wall_ms run.
Proof.
  unfold Fifo.finalize_run. destruct (Py.len (Fifo.result_rows run) =? 0); simpl;
    repeat split; reflexivity.
Qed.

Lemma prio_finalize_frame (cfg : Config) (W : Registry.Workers) (now : Q)
    (run : Priority.RunState) :
  Priority.jobs (fst (Priority.finalize_run cfg W now run)) = Priority.jobs run /\
  Priority.completed (fst (Priority.finalize_run cfg W now run)) = Priority.completed run /\
  Priority.ready_heap (fst (Priority.finalize_run cfg W now run)) = Priority.ready_heap run /\
  Priority.pending_heap (fst (Priority.finalize_run cfg W now run))
    = Priority.pending_heap run /\
  Priority.speedup (fst (Priority.finalize_run cfg W now run)) = Priority.speedup run /\
  Priority.start_wall_ms (fst (Priority.finalize_run cfg W now run))
    = Priority.start_wall_ms run.
Proof.
  unfold Priority.finalize_run. destruct (Priority.result_rows run); simpl;
    repeat split; reflexivity.
Qed.

(** What [/done] of the FIFO service leaves behind: the job with its
    recorded start and with [finish_ms] set from it, one more completion. *)
Lemma fifo_done_effect (cfg : Config) (now now_final : Q) (req : Fifo.DoneReq)
    (w : Fifo.World) (run : Fifo.RunState) (job : Fifo.JobState) :
  Registry.is_alive_worker_core cfg (Fifo.WORKERS w) now
    (Fifo.dr_worker_id req) (Fifo.dr_core_id req) = true ->
  Fifo.ACTIVE_RUN w = Some run -> Fifo.done run = false ->
  Py.get (Fifo.jobs run) (Fifo.dr_job_id req) = Some job ->
  exists w' sigs run',
    Fifo.done_handler cfg now now_final req w = (Py.Ok Fifo.done_ok, w', sigs) /\
    Fifo.ACTIVE_RUN w' = Some run' /\
    Fifo.completed run' = Fifo.completed run + 1 /\
    Fifo.ready_q run' = Fifo.ready_q run /\
    Fifo.pending_jobs run' = Fifo.pending_jobs run /\
    Fifo.jobs run'
    = Py.set (Fifo.jobs run) (Fifo.dr_job_id req)
        (Fifo.record_done job
           (match Fifo.start_ms job with
            | Some s => s
            | None => Fifo.wall_to_sim run (Fifo.started_wall_ms req)
            end)
           (match Fifo.start_ms job with
            | Some s => s
            | None => Fifo.wall_to_sim run (Fifo.started_wall_ms req)
            end + Fifo.service_ms job) req).
Proof.
  intros Halive Hrun Hdone Hjob. unfold Fifo.done_handler.
  rewrite Halive, Hrun, Hdone, Hjob. simpl.
  match goal with
  | |- context [if ?c then _ else _] => destruct c
  end.
  - match goal with
    | |- context [Fifo.finalize_run ?c ?W ?n ?r] =>
        pose proof (fifo_finalize_frame c W n r) as (Hj & Hc & Hq & Hp & _);
        destruct (Fifo.finalize_run c W n r) as [run2 files]
    end.
    simpl in *. eexists _, _, run2. split; [reflexivity|]. simpl.
    rewrite Hj, Hc, Hq, Hp. auto.
  - eexists _, _, _. split; [reflexivity|]. simpl. auto.
Qed.

(** The same for the Priority service, where [finish_ms] is set from the
    start that this call reports. *)
Lemma prio_done_effect (cfg : Config) (now now_final : Q) (req : Priority.DoneReq)
    (w : Priority.World) (run : Priority.RunState) (job : Priority.JobState) :
  Registry.is_alive_worker_core cfg (Priority.WORKERS w) now
    (Priority.dr_worker_id req) (Priority.dr_core_id req) = true ->
  Priority.ACTIVE_RUN w = Some run -> Priority.done run = false ->
  Py.get (Priority.jobs run) (Priority.dr_job_id req) = Some job ->
  exists w' sigs run' job',
    Priority.done_handler cfg now now_final req w = (Py.Ok Priority.done_ok, w', sigs) /\
    Priority.ACTIVE_RUN w' = Some run' /\
    Priority.completed run' = Priority.completed run + 1 /\
    Priority.ready_heap run' = Priority.ready_heap run /\
    Priority.pending_heap run' = Priority.pending_heap run /\
    Priority.jobs run' = Py.set (Priority.jobs run) (Priority.dr_job_id req) job' /\
    Priority.arrival_ms job' = Priority.arrival_ms job /\
    Priority.service_ms job' = Priority.service_ms job /\
    Priority.start_ms job'
    = Some (match Priority.start_ms job with
            | Some s => s
            | None => Priority.wall_to_sim run (Priority.started_wall_ms req)
            end) /\
    Priority.finish_ms job'
    = Some (Priority.wall_to_sim run (Priority.started_wall_ms req)
            + Priority.service_ms job).
Proof.
  intros Halive Hrun Hdone Hjob. unfold Priority.done_handler.
  rewrite Halive, Hrun, Hdone, Hjob. simpl.
  match goal with
  | |- context [if ?c then _ else _] => destruct c
  end.
  - match goal with
    | |- context [Priority.finalize_run ?c ?W ?n ?r] =>
        pose proof (prio_finalize_frame c W n r) as (Hj & Hc & Hq & Hp & _);
        destruct (Priority.finalize_run c W n r) as [run2 files]
    end.
    simpl in *. eexists _, _, run2, _. split; [reflexivity|]. simpl.
    rewrite Hj, Hc, Hq, Hp. repeat split; reflexivity.
  - eexists _, _, _, _. split; [reflexivity|]. simpl. repeat split; reflexivity.
Qed.



(** After a [/done] of the FIFO service the job's [finish_ms] is its
    recorded [start_ms] plus [service_ms], whether the start was stamped by
    this call or by an earlier one. *)
Lemma fifo_done_finish_from_recorded_start (cfg : Config) (now now_final : Q)
    (req : Fifo.DoneReq) (w : Fifo.World) (run : Fifo.RunState) (job : Fifo.JobState) :
  Registry.is_alive_worker_core cfg (Fifo.WORKERS w) now
    (Fifo.dr_worker_id req) (Fifo.dr_core_id req) = true ->
  Fifo.ACTIVE_RUN w = Some run -> Fifo.done run = false ->
  Py.get (Fifo.jobs run) (Fifo.dr_job_id req) = Some job ->
  exists run' job' s,
    Fifo.ACTIVE_RUN (snd (fst (Fifo.done_handler cfg now now_final req w))) = Some run' /\
    Py.get (Fifo.jobs run') (Fifo.dr_job_id req) = Some job' /\
    Fifo.start_ms job' = Some s /\
    (forall s0, Fifo.start_ms job = Some s0 -> s = s0) /\
    (Fifo.start_ms job = None ->
       s = Fifo.wall_to_sim run (Fifo.started_wall_ms req)) /\
    Fifo.finish_ms job' = Some (s + Fifo.service_ms job').
Proof.
  intros Ha Hr Hd Hj.
  destruct (fifo_done_effect cfg now now_final req w run job Ha Hr Hd Hj)
    as (w' & sigs & run' & H1 & H2 & _ & _ & _ & H6).
  rewrite H1. simpl. eexists run', _, _. split; [assumption|].
  rewrite H6, dict_get_set_same. split; [reflexivity|]. simpl.
  split; [reflexivity|]. split.
  - intros s0 E. rewrite E. reflexivity.
  - split; [intros E; rewrite E; reflexivity | reflexivity].
Qed.

(** Claim C2, at the input where the Priority service departs from it.
    [A] (100 ms) is reported done twice, the second time with a start 5 ms
    later: its recorded [start_ms] stays 0 while [finish_ms] becomes
    5 + 100, not 0 + 100. *)
Theorem prio_replayed_done_finish :
  exists run a,
    Priority.ACTIVE_RUN Sample.prio_replayed = Some run /\
    Py.get (Priority.jobs run) "A" = Some a /\
    Priority.service_ms a = 100 /\
    Priority.start_ms a = Some 0 /\
    Priority.finish_ms a = Some 105.
Proof.
  eexists _, _. vm_compute. repeat split; reflexivity.
Qed.

(** ** Admission: [/start] *)

(** The failures that [start] itself detects answer HTTP 400 and leave
    the world as it was; an exception of [load_jobs] leaves it as it was
    too, and is passed on unchanged. *)
Lemma fifo_start_failures (cfg : Config) (now_slots now_start : Q)
    (fresh_id : string) (req : Fifo.StartReq) (w : Fifo.World) :
  (Registry.total_alive_slots cfg (Fifo.WORKERS w) now_slots < Fifo.sr_min_slots req ->
   exists detail,
     Fifo.start cfg now_slots now_start fresh_id req w
     = (Py.Raise (Py.HTTPException 400 detail), w, [])) /\
  (Fifo.sr_min_slots req <= Registry.total_alive_slots cfg (Fifo.WORKERS w) now_slots ->
   Fifo.DATASETS w !! Py.path_join (DATA_DIR cfg) (Fifo.sr_dataset_file req) = None ->
   exists detail,
     Fifo.start cfg now_slots now_start fresh_id req w
     = (Py.Raise (Py.HTTPException 400 detail), w, [])) /\
  (forall f e,
     Fifo.sr_min_slots req <= Registry.total_alive_slots cfg (Fifo.WORKERS w) now_slots ->
     Fifo.DATASETS w !! Py.path_join (DATA_DIR cfg) (Fifo.sr_dataset_file req) = Some f ->
     Fifo.load_jobs (Fifo.DATASETS w)
       (Py.path_join (DATA_DIR cfg) (Fifo.sr_dataset_file req)) = Py.Raise e ->
     Fifo.start cfg now_slots now_start fresh_id req w = (Py.Raise e, w, [])) /\
  (forall f jobs,
     Fifo.sr_min_slots req <= Registry.total_alive_slots cfg (Fifo.WORKERS w) now_slots ->
     Fifo.DATASETS w !! Py.path_join (DATA_DIR cfg) (Fifo.sr_dataset_file req) = Some f ->
     Fifo.load_jobs (Fifo.DATASETS w)
       (Py.path_join (DATA_DIR cfg) (Fifo.sr_dataset_file req)) = Py.Ok jobs ->
     exists run,
       Fifo.start cfg now_slots now_start fresh_id req w
       = (Py.Ok fresh_id, Fifo.with_run w (Some run), [notify_all]) /\
       Fifo.run_id run = fresh_id /\ Fifo.jobs run = jobs /\
       Fifo.total_jobs run = Py.len jobs /\ Fifo.completed run = 0 /\
       Fifo.done run = false).
Proof.
  unfold Fifo.start, path_exists. repeat split.
  - intros H. apply Z.ltb_lt in H. rewrite H. eauto.
  - intros H Hf. apply Z.ltb_ge in H. rewrite H, Hf. simpl. eauto.
  - intros f e H Hf Hl. apply Z.ltb_ge in H. now rewrite H, Hf, Hl.
  - intros f jobs H Hf Hl. apply Z.ltb_ge in H. rewrite H, Hf, Hl. simpl.
    destruct (Fifo.partition_jobs jobs) as [ready pending].
    eexists. split; [reflexivity|]. simpl. repeat split; reflexivity.
Qed.

(** Claim C6, at the inputs where the services depart from it. A dataset
    that lacks a required column, or a file that is no CSV, makes
    [load_jobs] raise [ValueError]; [start] does not catch it, so the
    request is answered with status 500 and not 400. The active run is
    left unchanged. The same in the four services. *)
Theorem start_malformed_dataset_status :
  (let out := Fifo.start default_config 1 1 "run0000007"
                (Sample.fifo_start "broken.csv") Sample.fifo_idle in
   Py.http_status (fst (fst out)) = 500 /\ snd (fst out) = Sample.fifo_idle) /\
  (let out := Fifo.start default_config 1 1 "run0000007"
                (Sample.fifo_start "notes.txt") Sample.fifo_idle in
   Py.http_status (fst (fst out)) = 500 /\ snd (fst out) = Sample.fifo_idle) /\
  (let out := Priority.start default_config 1 1 "run0000007"
                (Sample.prio_start "broken.csv") Sample.prio_idle in
   Py.http_status (fst (fst out)) = 500 /\ snd (fst out) = Sample.prio_idle) /\
  (let out := RR.start default_config 1 1 "run0000007"
                (Sample.rr_start "broken.csv") Sample.rr_idle in
   Py.http_status (fst (fst out)) = 500 /\ snd (fst out) = Sample.rr_idle) /\
  (let out := RoundRobin.start default_config 1 1 "run0000007"
                (Sample.rrobin_start "broken.csv") Sample.rrobin_idle in
   Py.http_status (fst (fst out)) = 500 /\ snd (fst out) = Sample.rrobin_idle).
Proof.
  repeat split; vm_compute; reflexivity.
Qed.

(** ** Promotion of arrivals *)




Lemma strongly_sorted_skipn {A : Type} (R : A -> A -> Prop) (k : nat) (l : list A) :
  StronglySorted R l -> StronglySorted R (skipn k l).
Proof.
  revert l. induction k as [|k IH]; intros l H; simpl; [exact H|].
  destruct l as [|x l]; [constructor|]. apply IH. now inversion H.
Qed.

Lemma nth_error_skipn_cons {A : Type} (k : nat) (l : list A) (x : A) :
  nth_error l k = Some x -> exists tl, skipn k l = x :: tl.
Proof.
  revert l. induction k as [|k IH]; intros [|y l]; simpl; try discriminate.
  - intros H. injection H as ->. eauto.
  - apply IH.
Qed.












(** ** The timed wait of [/next] *)








(** ** Loading a dataset *)

(** A property of the accumulated state that every row keeps holds of the
    result of the loop over the rows. *)
Lemma for_rows_invariant {S : Type} (P : S -> Prop)
    (step : nat -> S -> Py.result S) (rows : list nat) (s s' : S) :
  (forall i x x', P x -> step i x = Py.Ok x' -> P x') ->
  P s -> Py.for_rows step rows s = Py.Ok s' -> P s'.
Proof.
  intros Hstep. revert s. induction rows as [|i rows IH]; simpl; intros s Hs H.
  - now injection H as <-.
  - destruct (step i s) as [x|e] eqn:E; simpl in H; [|discriminate].
    apply (IH x); [eapply Hstep; eassumption | exact H].
Qed.

Lemma bind_ok {A B : Type} (m : Py.result A) (k : A -> Py.result B) (b : B) :
  (x ← m; k x) = Py.Ok b -> exists a, m = Py.Ok a /\ k a = Py.Ok b.
Proof.
  destruct m as [a|e]; simpl; [eauto | discriminate].
Qed.

Lemma fifo_load_jobs_fresh (fs : gmap string file) (path : string)
    (jobs : Py.dict Fifo.JobState) :
  Fifo.load_jobs fs path = Py.Ok jobs -> fresh_fifo jobs.
Proof.
  unfold Fifo.load_jobs. intros H. apply bind_ok in H. destruct H as (df & _ & H).
  destruct (negb _); [discriminate|].
  apply (for_rows_invariant fresh_fifo) in H; [exact H| |intros ? ? [=]].
  intros i x x' Hx Hs. unfold Fifo.load_row in Hs.
  apply bind_ok in Hs. destruct Hs as (c & _ & Hs).
  apply bind_ok in Hs. destruct Hs as (c1 & _ & Hs).
  apply bind_ok in Hs. destruct Hs as (svc & _ & Hs).
  apply bind_ok in Hs. destruct Hs as (arr & _ & Hs).
  injection Hs as <-. intros jid j Hj.
  apply dict_get_set in Hj. destruct Hj as [[-> ->]|[_ Hj]]; [simpl; auto | eauto].
Qed.

Lemma prio_load_jobs_fresh (fs : gmap string file) (path : string)
    (jobs : Py.dict Priority.JobState) :
  Priority.load_jobs fs path = Py.Ok jobs -> fresh_prio jobs.
Proof.
  unfold Priority.load_jobs. intros H. apply bind_ok in H. destruct H as (df & _ & H).
  destruct (negb _); [discriminate|].
  apply (for_rows_invariant fresh_prio) in H; [exact H| |intros ? ? [=]].
  intros i x x' Hx Hs. unfold Priority.load_row in Hs.
  apply bind_ok in Hs. destruct Hs as (c & _ & Hs).
  apply bind_ok in Hs. destruct Hs as (c1 & _ & Hs).
  apply bind_ok in Hs. destruct Hs as (svc & _ & Hs).
  apply bind_ok in Hs. destruct Hs as (arr & _ & Hs).
  apply bind_ok in Hs. destruct Hs as (c2 & _ & Hs).
  apply bind_ok in Hs. destruct Hs as (prio & _ & Hs).
  injection Hs as <-. intros jid j Hj.
  apply dict_get_set in Hj. destruct Hj as [[-> ->]|[_ Hj]]; [simpl; auto | eauto].
Qed.

Lemma rr_load_jobs_fresh (fs : gmap string file) (path : string)
    (jobs : Py.dict RR.JobState) :
  RR.load_jobs fs path = Py.Ok jobs -> fresh_rr jobs.
Proof.
  unfold RR.load_jobs. intros H. apply bind_ok in H. destruct H as (df & _ & H).
  destruct (negb _); [discriminate|].
  apply (for_rows_invariant fresh_rr) in H; [exact H| |intros ? ? [=]].
  intros i x x' Hx Hs. unfold RR.load_row in Hs.
  apply bind_ok in Hs. destruct Hs as (c & _ & Hs).
  apply bind_ok in Hs. destruct Hs as (c1 & _ & Hs).
  apply bind_ok in Hs. destruct Hs as (svc & _ & Hs).
  injection Hs as <-. intros jid j Hj.
  apply dict_get_set in Hj.
  destruct Hj as [[-> ->]|[_ Hj]]; [simpl; repeat split; reflexivity | eauto].
Qed.

Lemma rrobin_load_jobs_fresh (fs : gmap string file) (path : string)
    (jobs : Py.dict RoundRobin.JobState) :
  RoundRobin.load_jobs fs path = Py.Ok jobs -> fresh_rrobin jobs.
Proof.
  unfold RoundRobin.load_jobs. intros H. apply bind_ok in H.
  destruct H as (df & _ & H).
  destruct (negb _); [discriminate|].
  apply (for_rows_invariant fresh_rrobin) in H; [exact H| |intros ? ? [=]].
  intros i x x' Hx Hs. unfold RoundRobin.load_row in Hs.
  apply bind_ok in Hs. destruct Hs as (c & _ & Hs).
  apply bind_ok in Hs. destruct Hs as (c1 & _ & Hs).
  apply bind_ok in Hs. destruct Hs as (svc & _ & Hs).
  apply bind_ok in Hs. destruct Hs as (c2 & _ & Hs).
  apply bind_ok in Hs. destruct Hs as (arr & _ & Hs).
  injection Hs as <-. intros jid j Hj.
  apply dict_get_set in Hj.
  destruct Hj as [[-> ->]|[_ Hj]]; [simpl; repeat split; reflexivity | eauto].
Qed.

(** ** Arrival causality *)

(** A [/done] that is refused (dead worker, unknown job) or that finds the
    run finalized leaves the active run as it is. *)
Lemma fifo_done_untouched (cfg : Config) (now now_final : Q) (req : Fifo.DoneReq)
    (w : Fifo.World) (run : Fifo.RunState) :
  Fifo.ACTIVE_RUN w = Some run ->
  Registry.is_alive_worker_core cfg (Fifo.WORKERS w) now
    (Fifo.dr_worker_id req) (Fifo.dr_core_id req) = false \/
  Fifo.done run = true \/ Py.get (Fifo.jobs run) (Fifo.dr_job_id req) = None ->
  snd (fst (Fifo.done_handler cfg now now_final req w)) = w.
Proof.
  intros Hrun H. unfold Fifo.done_handler.
  destruct (Registry.is_alive_worker_core _ _ _ _ _); simpl; [|reflexivity].
  rewrite Hrun. destruct (Fifo.done run); [reflexivity|].
  destruct H as [H|[H|H]]; try discriminate. now rewrite H.
Qed.

Lemma prio_done_untouched (cfg : Config) (now now_final : Q) (req : Priority.DoneReq)
    (w : Priority.World) (run : Priority.RunState) :
  Priority.ACTIVE_RUN w = Some run ->
  Registry.is_alive_worker_core cfg (Priority.WORKERS w) now
    (Priority.dr_worker_id req) (Priority.dr_core_id req) = false \/
  Priority.done run = true \/
  Py.get (Priority.jobs run) (Priority.dr_job_id req) = None ->
  snd (fst (Priority.done_handler cfg now now_final req w)) = w.
Proof.
  intros Hrun H. unfold Priority.done_handler.
  destruct (Registry.is_alive_worker_core _ _ _ _ _); simpl; [|reflexivity].
  rewrite Hrun. destruct (Priority.done run); [reflexivity|].
  destruct H as [H|[H|H]]; try discriminate. now rewrite H.
Qed.

Lemma rr_done_untouched (cfg : Config) (now now_final : Q) (req : RR.DoneReq)
    (w : RR.World) (run : RR.RunState) :
  RR.ACTIVE_RUN w = Some run ->
  Registry.is_alive_worker_core cfg (RR.WORKERS w) now
    (RR.dr_worker_id req) (RR.dr_core_id req) = false \/
  RR.done run = true \/ Py.get (RR.jobs run) (RR.dr_job_id req) = None ->
  snd (fst (RR.done_handler cfg now now_final req w)) = w.
Proof.
  intros Hrun H. unfold RR.done_handler.
  destruct (Registry.is_alive_worker_core _ _ _ _ _); simpl; [|reflexivity].
  rewrite Hrun. destruct (RR.done run); [reflexivity|].
  destruct H as [H|[H|H]]; try discriminate. now rewrite H.
Qed.

Lemma rrobin_done_untouched (cfg : Config) (now now_final : Q)
    (req : RoundRobin.DoneReq) (w : RoundRobin.World) (run : RoundRobin.RunState) :
  RoundRobin.ACTIVE_RUN w = Some run ->
  Registry.is_alive_worker_core cfg (RoundRobin.WORKERS w) now
    (RoundRobin.dr_worker_id req) (RoundRobin.dr_core_id req) = false \/
  RoundRobin.done run = true \/
  Py.get (RoundRobin.jobs run) (RoundRobin.dr_job_id req) = None ->
  snd (fst (RoundRobin.done_handler cfg now now_final req w)) = w.
Proof.
  intros Hrun H. unfold RoundRobin.done_handler.
  destruct (Registry.is_alive_worker_core _ _ _ _ _); simpl; [|reflexivity].
  rewrite Hrun. destruct (RoundRobin.done run); [reflexivity|].
  destruct H as [H|[H|H]]; try discriminate. now rewrite H.
Qed.

(** The job table after a [/done] that reaches the job, in the two
    round-robin services: the reported slice is recorded, the other jobs
    are as before. *)
Lemma rr_done_jobs (cfg : Config) (now now_final : Q) (req : RR.DoneReq)
    (w : RR.World) (run run' : RR.RunState) (job : RR.JobState) :
  Registry.is_alive_worker_core cfg (RR.WORKERS w) now
    (RR.dr_worker_id req) (RR.dr_core_id req) = true ->
  RR.ACTIVE_RUN w = Some run -> RR.done run = false ->
  Py.get (RR.jobs run) (RR.dr_job_id req) = Some job ->
  RR.ACTIVE_RUN (snd (fst (RR.done_handler cfg now now_final req w))) = Some run' ->
  RR.jobs run' = Py.set (RR.jobs run) (RR.dr_job_id req) (RR.record_slice run job req).
Proof.
  intros Ha Hrun Hd Hj. unfold RR.done_handler. rewrite Ha, Hrun, Hd, Hj. simpl.
  match goal with
  | |- context [if ?c then _ else _] => destruct c
  end.
  - match goal with
    | |- context [RR.finalize_run ?c ?W ?n ?r] =>
        destruct (RR.finalize_run c W n r) as [[run2 files]|e] eqn:Efin;
        [destruct (rr_finalize_frame _ _ _ _ _ _ Efin) as (Hjobs & _)|]
    end; simpl; intros H; injection H as <-; [exact Hjobs | reflexivity].
  - simpl. intros H. injection H as <-. reflexivity.
Qed.

Lemma rrobin_done_jobs (cfg : Config) (now now_final : Q) (req : RoundRobin.DoneReq)
    (w : RoundRobin.World) (run run' : RoundRobin.RunState)
    (job : RoundRobin.JobState) :
  Registry.is_alive_worker_core cfg (RoundRobin.WORKERS w) now
    (RoundRobin.dr_worker_id req) (RoundRobin.dr_core_id req) = true ->
  RoundRobin.ACTIVE_RUN w = Some run -> RoundRobin.done run = false ->
  Py.get (RoundRobin.jobs run) (RoundRobin.dr_job_id req) = Some job ->
  RoundRobin.ACTIVE_RUN (snd (fst (RoundRobin.done_handler cfg now now_final req w)))
    = Some run' ->
  RoundRobin.jobs run'
  = Py.set (RoundRobin.jobs run) (RoundRobin.dr_job_id req)
      (RoundRobin.record_slice run job req).
Proof.
  intros Ha Hrun Hd Hj. unfold RoundRobin.done_handler.
  rewrite Ha, Hrun, Hd, Hj. simpl.
  match goal with
  | |- context [if ?c then _ else _] => destruct c
  end; simpl; intros H; injection H as <-; reflexivity.
Qed.

Lemma fifo_done_causal (cfg : Config) (now now_final : Q) (req : Fifo.DoneReq)
    (w : Fifo.World) (run run' : Fifo.RunState) :
  Fifo.ACTIVE_RUN w = Some run ->
  (forall jid j, Py.get (Fifo.jobs run) jid = Some j ->
     causal (Fifo.arrival_ms j) (Fifo.start_ms j) (Fifo.finish_ms j)) ->
  (forall job, Py.get (Fifo.jobs run) (Fifo.dr_job_id req) = Some job ->
     Fifo.arrival_ms job <= Fifo.wall_to_sim run (Fifo.started_wall_ms req) /\
     0 <= Fifo.service_ms job) ->
  Fifo.ACTIVE_RUN (snd (fst (Fifo.done_handler cfg now now_final req w))) = Some run' ->
  forall jid j, Py.get (Fifo.jobs run') jid = Some j ->
    causal (Fifo.arrival_ms j) (Fifo.start_ms j) (Fifo.finish_ms j).
Proof.
  intros Hrun Hinv Hrep.
  destruct (Registry.is_alive_worker_core cfg (Fifo.WORKERS w) now
              (Fifo.dr_worker_id req) (Fifo.dr_core_id req)) eqn:Ha.
  2:{ rewrite (fifo_done_untouched _ _ _ _ _ _ Hrun) by auto.
      rewrite Hrun. intros H. injection H as <-. exact Hinv. }
  destruct (Fifo.done run) eqn:Hd.
  { rewrite (fifo_done_untouched _ _ _ _ _ _ Hrun) by auto.
    rewrite Hrun. intros H. injection H as <-. exact Hinv. }
  destruct (Py.get (Fifo.jobs run) (Fifo.dr_job_id req)) as [job|] eqn:Hj.
  2:{ rewrite (fifo_done_untouched _ _ _ _ _ _ Hrun) by auto.
      rewrite Hrun. intros H. injection H as <-. exact Hinv. }
  destruct (fifo_done_effect cfg now now_final req w run job Ha Hrun Hd Hj)
    as (w' & sigs & run1 & H1 & H2 & _ & _ & _ & H6).
  rewrite H1. simpl. rewrite H2. intros H. injection H as <-.
  intros jid j Hget. rewrite H6 in Hget. apply dict_get_set in Hget.
  destruct Hget as [[-> ->]|[_ Hget]]; [|eauto].
  destruct (Hrep job eq_refl) as [Harr Hsvc]. destruct (Hinv _ _ Hj) as [Hs _].
  unfold causal. simpl. split.
  - intros s E. injection E as <-.
    destruct (Fifo.start_ms job) as [s0|]; [now apply Hs | assumption].
  - intros f E. injection E as <-. eexists. split; [reflexivity|]. lia.
Qed.

Lemma prio_done_causal (cfg : Config) (now now_final : Q) (req : Priority.DoneReq)
    (w : Priority.World) (run run' : Priority.RunState) :
  Priority.ACTIVE_RUN w = Some run ->
  (forall jid j, Py.get (Priority.jobs run) jid = Some j ->
     causal (Priority.arrival_ms j) (Priority.start_ms j) (Priority.finish_ms j)) ->
  (forall job, Py.get (Priority.jobs run) (Priority.dr_job_id req) = Some job ->
     Priority.arrival_ms job
     <= Priority.wall_to_sim run (Priority.started_wall_ms req) /\
     0 <= Priority.service_ms job /\
     forall s, Priority.start_ms job = Some s ->
       s <= Priority.wall_to_sim run (Priority.started_wall_ms req)) ->
  Priority.ACTIVE_RUN (snd (fst (Priority.done_handler cfg now now_final req w)))
    = Some run' ->
  forall jid j, Py.get (Priority.jobs run') jid = Some j ->
    causal (Priority.arrival_ms j) (Priority.start_ms j) (Priority.finish_ms j).
Proof.
  intros Hrun Hinv Hrep.
  destruct (Registry.is_alive_worker_core cfg (Priority.WORKERS w) now
              (Priority.dr_worker_id req) (Priority.dr_core_id req)) eqn:Ha.
  2:{ rewrite (prio_done_untouched _ _ _ _ _ _ Hrun) by auto.
      rewrite Hrun. intros H. injection H as <-. exact Hinv. }
  destruct (Priority.done run) eqn:Hd.
  { rewrite (prio_done_untouched _ _ _ _ _ _ Hrun) by auto.
    rewrite Hrun. intros H. injection H as <-. exact Hinv. }
  destruct (Py.get (Priority.jobs run) (Priority.dr_job_id req)) as [job|] eqn:Hj.
  2:{ rewrite (prio_done_untouched _ _ _ _ _ _ Hrun) by auto.
      rewrite Hrun. intros H. injection H as <-. exact Hinv. }
  destruct (prio_done_effect cfg now now_final req w run job Ha Hrun Hd Hj)
    as (w' & sigs & run1 & job' & H1 & H2 & _ & _ & _ & H6 & Harr' & Hsvc' & Hst & Hfin).
  rewrite H1. simpl. rewrite H2. intros H. injection H as <-.
  intros jid j Hget. rewrite H6 in Hget. apply dict_get_set in Hget.
  destruct Hget as [[-> ->]|[_ Hget]]; [|eauto].
  destruct (Hrep job eq_refl) as (Harr & Hsvc & Hback).
  destruct (Hinv _ _ Hj) as [Hs _].
  unfold causal. rewrite Harr', Hst, Hfin. split.
  - intros s E. injection E as <-.
    destruct (Priority.start_ms job) as [s0|]; [now apply Hs | assumption].
  - intros f E. injection E as <-. eexists. split; [reflexivity|].
    destruct (Priority.start_ms job) as [s0|]; [specialize (Hback s0 eq_refl)|]; lia.
Qed.

Lemma rr_done_causal (cfg : Config) (now now_final : Q) (req : RR.DoneReq)
    (w : RR.World) (run run' : RR.RunState) :
  RR.ACTIVE_RUN w = Some run ->
  (forall jid j, Py.get (RR.jobs run) jid = Some j ->
     causal (RR.arrival_ms j) (RR.first_start_ms j) (RR.finish_ms j)) ->
  (forall job, Py.get (RR.jobs run) (RR.dr_job_id req) = Some job ->
     RR.arrival_ms job <= RR.wall_to_sim run (RR.started_wall_ms req) /\
     RR.wall_to_sim run (RR.started_wall_ms req)
     <= RR.wall_to_sim run (RR.finished_wall_ms req) /\
     forall s, RR.first_start_ms job = Some s ->
       s <= RR.wall_to_sim run (RR.finished_wall_ms req)) ->
  RR.ACTIVE_RUN (snd (fst (RR.done_handler cfg now now_final req w))) = Some run' ->
  forall jid j, Py.get (RR.jobs run') jid = Some j ->
    causal (RR.arrival_ms j) (RR.first_start_ms j) (RR.finish_ms j).
Proof.
  intros Hrun Hinv Hrep.
  destruct (Registry.is_alive_worker_core cfg (RR.WORKERS w) now
              (RR.dr_worker_id req) (RR.dr_core_id req)) eqn:Ha.
  2:{ rewrite (rr_done_untouched _ _ _ _ _ _ Hrun) by auto.
      rewrite Hrun. intros H. injection H as <-. exact Hinv. }
  destruct (RR.done run) eqn:Hd.
  { rewrite (rr_done_untouched _ _ _ _ _ _ Hrun) by auto.
    rewrite Hrun. intros H. injection H as <-. exact Hinv. }
  destruct (Py.get (RR.jobs run) (RR.dr_job_id req)) as [job|] eqn:Hj.
  2:{ rewrite (rr_done_untouched _ _ _ _ _ _ Hrun) by auto.
      rewrite Hrun. intros H. injection H as <-. exact Hinv. }
  intros Hrun' jid j Hget.
  rewrite (rr_done_jobs _ _ _ _ _ _ _ _ Ha Hrun Hd Hj Hrun') in Hget.
  apply dict_get_set in Hget. destruct Hget as [[-> ->]|[_ Hget]]; [|eauto].
  destruct (Hrep job eq_refl) as (Harr & Hord & Hback).
  destruct (Hinv _ _ Hj) as [Hs Hf].
  unfold causal, RR.record_slice. simpl. split.
  - intros s E. injection E as <-.
    destruct (RR.first_start_ms job) as [s0|]; [now apply Hs | assumption].
  - intros f E. destruct (Z.max 0 (RR.remaining_after_ms req) =? 0).
    + injection E as <-. eexists. split; [reflexivity|].
      destruct (RR.first_start_ms job) as [s0|]; [now apply Hback | assumption].
    + destruct (Hf f E) as (s & Es & Hle). rewrite Es. eauto.
Qed.

Lemma rrobin_done_causal (cfg : Config) (now now_final : Q) (req : RoundRobin.DoneReq)
    (w : RoundRobin.World) (run run' : RoundRobin.RunState) :
  RoundRobin.ACTIVE_RUN w = Some run ->
  (forall jid j, Py.get (RoundRobin.jobs run) jid = Some j ->
     causal (RoundRobin.arrival_ms j) (RoundRobin.first_start_ms j)
       (RoundRobin.finish_ms j)) ->
  (forall job, Py.get (RoundRobin.jobs run) (RoundRobin.dr_job_id req) = Some job ->
     RoundRobin.arrival_ms job
     <= RoundRobin.wall_to_sim run (RoundRobin.started_wall_ms req) /\
     RoundRobin.wall_to_sim run (RoundRobin.started_wall_ms req)
     <= RoundRobin.wall_to_sim run (RoundRobin.finished_wall_ms req) /\
     forall s, RoundRobin.first_start_ms job = Some s ->
       s <= RoundRobin.wall_to_sim run (RoundRobin.finished_wall_ms req)) ->
  RoundRobin.ACTIVE_RUN (snd (fst (RoundRobin.done_handler cfg now now_final req w)))
    = Some run' ->
  forall jid j, Py.get (RoundRobin.jobs run') jid = Some j ->
    causal (RoundRobin.arrival_ms j) (RoundRobin.first_start_ms j)
      (RoundRobin.finish_ms j).
Proof.
  intros Hrun Hinv Hrep.
  destruct (Registry.is_alive_worker_core cfg (RoundRobin.WORKERS w) now
              (RoundRobin.dr_worker_id req) (RoundRobin.dr_core_id req)) eqn:Ha.
  2:{ rewrite (rrobin_done_untouched _ _ _ _ _ _ Hrun) by auto.
      rewrite Hrun. intros H. injection H as <-. exact Hinv. }
  destruct (RoundRobin.done run) eqn:Hd.
  { rewrite (rrobin_done_untouched _ _ _ _ _ _ Hrun) by auto.
    rewrite Hrun. intros H. injection H as <-. exact Hinv. }
  destruct (Py.get (RoundRobin.jobs run) (RoundRobin.dr_job_id req)) as [job|] eqn:Hj.
  2:{ rewrite (rrobin_done_untouched _ _ _ _ _ _ Hrun) by auto.
      rewrite Hrun. intros H. injection H as <-. exact Hinv. }
  intros Hrun' jid j Hget.
  rewrite (rrobin_done_jobs _ _ _ _ _ _ _ _ Ha Hrun Hd Hj Hrun') in Hget.
  apply dict_get_set in Hget. destruct Hget as [[-> ->]|[_ Hget]]; [|eauto].
  destruct (Hrep job eq_refl) as (Harr & Hord & Hback).
  destruct (Hinv _ _ Hj) as [Hs Hf].
  unfold causal, RoundRobin.record_slice. simpl. split.
  - intros s E. injection E as <-.
    destruct (RoundRobin.first_start_ms job) as [s0|]; [now apply Hs | assumption].
  - intros f E. destruct (Z.max 0 (RoundRobin.remaining_after_ms req) =? 0).
    + injection E as <-. eexists. split; [reflexivity|].
      destruct (RoundRobin.first_start_ms job) as [s0|]; [now apply Hback | assumption].
    + destruct (Hf f E) as (s & Es & Hle). rewrite Es. eauto.
Qed.

(** What a successful [/start] installs. *)
Lemma fifo_start_installs (cfg : Config) (now_slots now_start : Q) (fresh_id : string)
    (req : Fifo.StartReq) (w w' : Fifo.World) (rid : string) (sigs : list signal) :
  Fifo.start cfg now_slots now_start fresh_id req w = (Py.Ok rid, w', sigs) ->
  exists run,
    Fifo.ACTIVE_RUN w' = Some run /\
    Fifo.load_jobs (Fifo.DATASETS w)
      (Py.path_join (DATA_DIR cfg) (Fifo.sr_dataset_file req)) = Py.Ok (Fifo.jobs run) /\
    Fifo.ready_q run = fst (Fifo.partition_jobs (Fifo.jobs run)) /\
    Fifo.pending_jobs run = snd (Fifo.partition_jobs (Fifo.jobs run)) /\
    Fifo.done run = false /\ Fifo.completed run = 0 /\
    Fifo.total_jobs run = Py.len (Fifo.jobs run).
Proof.
  unfold Fifo.start. destruct (_ <? _); [discriminate|].
  destruct (negb _); [discriminate|].
  destruct (Fifo.load_jobs _ _) as [jobs|e]; [|discriminate].
  unfold Fifo.partition_jobs.
  intros H. injection H as _ <- _. eexists. split; [reflexivity|].
  repeat split; reflexivity.
Qed.

Lemma prio_start_installs (cfg : Config) (now_slots now_start : Q) (fresh_id : string)
    (req : Priority.StartReq) (w w' : Priority.World) (rid : string)
    (sigs : list signal) :
  Priority.start cfg now_slots now_start fresh_id req w = (Py.Ok rid, w', sigs) ->
  exists run,
    Priority.ACTIVE_RUN w' = Some run /\
    Priority.load_jobs (Priority.DATASETS w)
      (Py.path_join (DATA_DIR cfg) (Priority.sr_dataset_file req))
    = Py.Ok (Priority.jobs run) /\
    Priority.fill_heaps (Priority.jobs run) [] [] 0
    = (Priority.ready_heap run, Priority.pending_heap run, Priority.next_seq run) /\
    Priority.done run = false /\ Priority.completed run = 0 /\
    Priority.total_jobs run = Py.len (Priority.jobs run).
Proof.
  unfold Priority.start. destruct (_ <? _); [discriminate|].
  destruct (negb _); [discriminate|].
  destruct (Priority.load_jobs _ _) as [jobs|e]; [|discriminate].
  destruct (Priority.fill_heaps jobs [] [] 0) as [[ready pending] seq] eqn:Ep.
  intros H. injection H as _ <- _. simpl. eexists. split; [reflexivity|].
  simpl. rewrite Ep. repeat split; reflexivity.
Qed.

Lemma rr_start_installs (cfg : Config) (now_slots now_start : Q) (fresh_id : string)
    (req : RR.StartReq) (w w' : RR.World) (rid : string) (sigs : list signal) :
  RR.start cfg now_slots now_start fresh_id req w = (Py.Ok rid, w', sigs) ->
  exists run,
    RR.ACTIVE_RUN w' = Some run /\
    RR.load_jobs (RR.DATASETS w)
      (Py.path_join (DATA_DIR cfg) (RR.sr_dataset_file req)) = Py.Ok (RR.jobs run) /\
    RR.ready_q run = Py.keys (RR.jobs run) /\
    RR.done run = false /\ RR.completed run = 0 /\
    RR.total_jobs run = Py.len (RR.jobs run).
Proof.
  unfold RR.start. destruct (_ <? _); [discriminate|].
  destruct (negb _); [discriminate|].
  destruct (RR.load_jobs _ _) as [jobs|e]; [|discriminate].
  intros H. injection H as _ <- _. simpl. eexists. split; [reflexivity|].
  simpl. repeat split; reflexivity.
Qed.

Lemma rrobin_start_installs (cfg : Config) (now_slots now_start : Q)
    (fresh_id : string) (req : RoundRobin.StartReq) (w w' : RoundRobin.World)
    (rid : string) (sigs : list signal) :
  RoundRobin.start cfg now_slots now_start fresh_id req w = (Py.Ok rid, w', sigs) ->
  exists run k,
    RoundRobin.ACTIVE_RUN w' = Some run /\
    RoundRobin.load_jobs (RoundRobin.DATASETS w)
      (Py.path_join (DATA_DIR cfg) (RoundRobin.sr_dataset_file req))
    = Py.Ok (RoundRobin.jobs run) /\
    RoundRobin.pending_ids run
    = Py.sorted_by (RoundRobin.arrival_of (RoundRobin.jobs run))
        (Py.keys (RoundRobin.jobs run)) /\
    RoundRobin.pending_idx run = Z.of_nat k /\
    RoundRobin.ready_q run = firstn k (RoundRobin.pending_ids run) /\
    (forall jid, In jid (firstn k (RoundRobin.pending_ids run)) ->
       exists job, Py.get (RoundRobin.jobs run) jid = Some job /\
                   RoundRobin.arrival_ms job <= 0) /\
    match nth_error (RoundRobin.pending_ids run) k with
    | Some jid => exists job, Py.get (RoundRobin.jobs run) jid = Some job /\
                              0 < RoundRobin.arrival_ms job
    | None => True
    end /\
    RoundRobin.done run = false /\ RoundRobin.completed run = 0 /\
    RoundRobin.total_jobs run = Py.len (RoundRobin.jobs run).
Proof.
  unfold RoundRobin.start. destruct (_ <? _); [discriminate|].
  destruct (negb _); [discriminate|].
  destruct (RoundRobin.load_jobs _ _) as [jobs|e]; [|discriminate].
  unfold RoundRobin.release_arrivals, RoundRobin.unreleased. simpl.
  destruct (RoundRobin.release_loop _ _ _ _ _) as [[r ready] idx] eqn:El.
  destruct (release_loop_appends _ _ _ _ _ _ _ _ El) as (k & Hlen & Hr & Hi & Hdue & Hstop).
  destruct r as [[]|e]; [|discriminate].
  intros H. injection H as _ <- _. simpl. eexists _, k. split; [reflexivity|].
  simpl. subst ready idx. repeat split; try reflexivity; assumption.
Qed.

(** A pass of [/next] leaves the job table as it is. *)
Lemma fifo_next_jobs (d now : Q) (run run' : Fifo.RunState) (p : pass Fifo.NextResp) :
  Fifo.next_iter d now (Some run) = (p, Some run') -> Fifo.jobs run' = Fifo.jobs run.
Proof.
  unfold Fifo.next_iter.
  destruct (Fifo.done run || (Fifo.total_jobs run <=? Fifo.completed run));
    [intros H; now injection H as _ <-|].
  destruct (Fifo.ready_q run) as [|jid rest].
  - destruct (Qle_bool (d - now) 0); intros H; now injection H as _ <-.
  - destruct (Py.getitem (Fifo.jobs run) jid); intros H; now injection H as _ <-.
Qed.

Lemma prio_next_jobs (d now_sim now : Q) (run run' : Priority.RunState)
    (p : pass Priority.NextResp) (sigs : list signal) :
  Priority.next_iter d now_sim now (Some run) = (p, Some run', sigs) ->
  Priority.jobs run' = Priority.jobs run.
Proof.
  unfold Priority.next_iter.
  destruct (Priority.done run || (Priority.total_jobs run <=? Priority.completed run));
    [intros H; now injection H as _ <- _|].
  destruct (Priority.promote_arrivals _ _) as [[r run1] sigs1] eqn:Ep.
  pose proof (promote_arrivals_frame _ _ _ _ _ Ep) as (Hj & _). simpl in Hj.
  destruct r as [[]|e]; [|intros H; now injection H as _ <- _].
  destruct (Py.heappop Priority.ready_ltb (Priority.ready_heap run1))
    as [[[[[prio arr] seq] jid] rest]|].
  - destruct (Py.getitem (Priority.jobs run1) jid); intros H; now injection H as _ <- _.
  - destruct (Qle_bool (d - now) 0); intros H; now injection H as _ <- _.
Qed.

Lemma rr_next_jobs (d now : Q) (run run' : RR.RunState) (p : pass RR.NextResp) :
  RR.next_iter d now (Some run) = (p, Some run') -> RR.jobs run' = RR.jobs run.
Proof.
  unfold RR.next_iter.
  destruct (RR.done run || (RR.total_jobs run <=? RR.completed run));
    [intros H; now injection H as _ <-|].
  destruct (RR.ready_q run) as [|jid rest].
  - destruct (Qle_bool (d - now) 0); intros H; now injection H as _ <-.
  - destruct (Py.getitem (RR.jobs run) jid); intros H; now injection H as _ <-.
Qed.

Lemma rrobin_next_jobs (d now_wall now : Q) (run run' : RoundRobin.RunState)
    (p : pass RoundRobin.NextResp) :
  RoundRobin.next_iter d now_wall now (Some run) = (p, Some run') ->
  RoundRobin.jobs run' = RoundRobin.jobs run.
Proof.
  unfold RoundRobin.next_iter.
  destruct (RoundRobin.done run || (RoundRobin.total_jobs run <=? RoundRobin.completed run));
    [intros H; now injection H as _ <-|].
  destruct (RoundRobin.release_arrivals run _) as [r run1] eqn:Er.
  pose proof (release_arrivals_frame _ _ _ _ Er) as (Hj & _).
  destruct r as [[]|e]; [|intros H; now injection H as _ <-].
  destruct (RoundRobin.ready_q run1) as [|jid rest].
  - destruct (Qle_bool (d - now) 0); [intros H; now injection H as _ <-|].
    destruct (RoundRobin.wait_time _ _ _); intros H; now injection H as _ <-.
  - destruct (Py.getitem (RoundRobin.jobs run1) jid); intros H; now injection H as _ <-.
Qed.

(** Claim C7 fails as stated. The worker reports, for [B] of [late.csv]
    (arrival at simulated 1000), a start at the wall time of the start of
    the run: the finalized FIFO run records [start_ms = 0] for it. A
    round-robin slice reported with a finish before its start gives a
    completed job with [finish_ms] before [first_start_ms]. *)
Lemma arrival_causality_counterexample :
  (exists run b,
     Fifo.ACTIVE_RUN Sample.fifo_early = Some run /\ Fifo.done run = true /\
     Py.get (Fifo.jobs run) "B" = Some b /\
     Fifo.arrival_ms b = 1000 /\ Fifo.start_ms b = Some 0 /\
     Fifo.finish_ms b = Some 100) /\
  (exists run a,
     RR.ACTIVE_RUN Sample.rr_backwards_end = Some run /\
     Py.get (RR.jobs run) "A" = Some a /\
     RR.first_start_ms a = Some 50 /\ RR.finish_ms a = Some 10).
Proof.
  split; eexists _, _; vm_compute; repeat split; reflexivity.
Qed.

(** Claim C7, amended. The services record the reported times unchecked:
    [start_ms] is the simulated time of the [started_wall_ms] of the
    job's first [/done]. Arrival causality ([arrival_ms <= start_ms], and
    [start_ms <= finish_ms] for a job with a finish) holds of every job
    after [/start], is kept by every pass of [/next], and is kept by a
    [/done] whose report is causal: the reported start is not before the
    job's arrival in simulated time, and
      - FIFO: [service_ms >= 0];
      - Priority: [service_ms >= 0] and the reported start is not before
        a start recorded earlier;
      - round-robin: the reported finish is not before the reported start
        nor before a start recorded earlier. *)
Theorem arrival_causality :
  (* FIFO *)
  ((forall cfg now_slots now_start fresh_id req w w' rid sigs run,
      Fifo.start cfg now_slots now_start fresh_id req w = (Py.Ok rid, w', sigs) ->
      Fifo.ACTIVE_RUN w' = Some run ->
      forall jid j, Py.get (Fifo.jobs run) jid = Some j ->
        causal (Fifo.arrival_ms j) (Fifo.start_ms j) (Fifo.finish_ms j)) /\
   (forall d now run run' p,
      Fifo.next_iter d now (Some run) = (p, Some run') ->
      Fifo.jobs run' = Fifo.jobs run) /\
   (forall cfg now now_final req w run run',
      Fifo.ACTIVE_RUN w = Some run ->
      (forall jid j, Py.get (Fifo.jobs run) jid = Some j ->
         causal (Fifo.arrival_ms j) (Fifo.start_ms j) (Fifo.finish_ms j)) ->
      (forall job, Py.get (Fifo.jobs run) (Fifo.dr_job_id req) = Some job ->
         Fifo.arrival_ms job <= Fifo.wall_to_sim run (Fifo.started_wall_ms req) /\
         0 <= Fifo.service_ms job) ->
      Fifo.ACTIVE_RUN (snd (fst (Fifo.done_handler cfg now now_final req w)))
        = Some run' ->
      forall jid j, Py.get (Fifo.jobs run') jid = Some j ->
        causal (Fifo.arrival_ms j) (Fifo.start_ms j) (Fifo.finish_ms j)))
  /\
  (* Priority *)
  ((forall cfg now_slots now_start fresh_id req w w' rid sigs run,
      Priority.start cfg now_slots now_start fresh_id req w = (Py.Ok rid, w', sigs) ->
      Priority.ACTIVE_RUN w' = Some run ->
      forall jid j, Py.get (Priority.jobs run) jid = Some j ->
        causal (Priority.arrival_ms j) (Priority.start_ms j) (Priority.finish_ms j)) /\
   (forall d now_sim now run run' p sigs,
      Priority.next_iter d now_sim now (Some run) = (p, Some run', sigs) ->
      Priority.jobs run' = Priority.jobs run) /\
   (forall cfg now now_final req w run run',
      Priority.ACTIVE_RUN w = Some run ->
      (forall jid j, Py.get (Priority.jobs run) jid = Some j ->
         causal (Priority.arrival_ms j) (Priority.start_ms j) (Priority.finish_ms j)) ->
      (forall job, Py.get (Priority.jobs run) (Priority.dr_job_id req) = Some job ->
         Priority.arrival_ms job
         <= Priority.wall_to_sim run (Priority.started_wall_ms req) /\
         0 <= Priority.service_ms job /\
         forall s, Priority.start_ms job = Some s ->
           s <= Priority.wall_to_sim run (Priority.started_wall_ms req)) ->
      Priority.ACTIVE_RUN (snd (fst (Priority.done_handler cfg now now_final req w)))
        = Some run' ->
      forall jid j, Py.get (Priority.jobs run') jid = Some j ->
        causal (Priority.arrival_ms j) (Priority.start_ms j) (Priority.finish_ms j)))
  /\
  (* Round-robin without arrivals *)
  ((forall cfg now_slots now_start fresh_id req w w' rid sigs run,
      RR.start cfg now_slots now_start fresh_id req w = (Py.Ok rid, w', sigs) ->
      RR.ACTIVE_RUN w' = Some run ->
      forall jid j, Py.get (RR.jobs run) jid = Some j ->
        causal (RR.arrival_ms j) (RR.first_start_ms j) (RR.finish_ms j)) /\
   (forall d now run run' p,
      RR.next_iter d now (Some run) = (p, Some run') ->
      RR.jobs run' = RR.jobs run) /\
   (forall cfg now now_final req w run run',
      RR.ACTIVE_RUN w = Some run ->
      (forall jid j, Py.get (RR.jobs run) jid = Some j ->
         causal (RR.arrival_ms j) (RR.first_start_ms j) (RR.finish_ms j)) ->
      (forall job, Py.get (RR.jobs run) (RR.dr_job_id req) = Some job ->
         RR.arrival_ms job <= RR.wall_to_sim run (RR.started_wall_ms req) /\
         RR.wall_to_sim run (RR.started_wall_ms req)
         <= RR.wall_to_sim run (RR.finished_wall_ms req) /\
         forall s, RR.first_start_ms job = Some s ->
           s <= RR.wall_to_sim run (RR.finished_wall_ms req)) ->
      RR.ACTIVE_RUN (snd (fst (RR.done_handler cfg now now_final req w))) = Some run' ->
      forall jid j, Py.get (RR.jobs run') jid = Some j ->
        causal (RR.arrival_ms j) (RR.first_start_ms j) (RR.finish_ms j)))
  /\
  (* Round-robin with arrivals *)
  ((forall cfg now_slots now_start fresh_id req w w' rid sigs run,
      RoundRobin.start cfg now_slots now_start fresh_id req w = (Py.Ok rid, w', sigs) ->
      RoundRobin.ACTIVE_RUN w' = Some run ->
      forall jid j, Py.get (RoundRobin.jobs run) jid = Some j ->
        causal (RoundRobin.arrival_ms j) (RoundRobin.first_start_ms j)
          (RoundRobin.finish_ms j)) /\
   (forall d now_wall now run run' p,
      RoundRobin.next_iter d now_wall now (Some run) = (p, Some run') ->
      RoundRobin.jobs run' = RoundRobin.jobs run) /\
   (forall cfg now now_final req w run run',
      RoundRobin.ACTIVE_RUN w = Some run ->
      (forall jid j, Py.get (RoundRobin.jobs run) jid = Some j ->
         causal (RoundRobin.arrival_ms j) (RoundRobin.first_start_ms j)
           (RoundRobin.finish_ms j)) ->
      (forall job, Py.get (RoundRobin.jobs run) (RoundRobin.dr_job_id req) = Some job ->
         RoundRobin.arrival_ms job
         <= RoundRobin.wall_to_sim run (RoundRobin.started_wall_ms req) /\
         RoundRobin.wall_to_sim run (RoundRobin.started_wall_ms req)
         <= RoundRobin.wall_to_sim run (RoundRobin.finished_wall_ms req) /\
         forall s, RoundRobin.first_start_ms job = Some s ->
           s <= RoundRobin.wall_to_sim run (RoundRobin.finished_wall_ms req)) ->
      RoundRobin.ACTIVE_RUN
        (snd (fst (RoundRobin.done_handler cfg now now_final req w))) = Some run' ->
      forall jid j, Py.get (RoundRobin.jobs run') jid = Some j ->
        causal (RoundRobin.arrival_ms j) (RoundRobin.first_start_ms j)
          (RoundRobin.finish_ms j))).
Proof.
  split; [|split; [|split]].
  - split; [|split; [exact fifo_next_jobs | exact fifo_done_causal]].
    intros cfg ns nst fid req w w' rid sigs run Hs Hr jid j Hj.
    destruct (fifo_start_installs _ _ _ _ _ _ _ _ _ Hs) as (run0 & Hr0 & Hl & _).
    rewrite Hr in Hr0. injection Hr0 as <-.
    destruct (fifo_load_jobs_fresh _ _ _ Hl jid j Hj) as (_ & -> & ->).
    split; intros ? [=].
  - split; [|split; [exact prio_next_jobs | exact prio_done_causal]].
    intros cfg ns nst fid req w w' rid sigs run Hs Hr jid j Hj.
    destruct (prio_start_installs _ _ _ _ _ _ _ _ _ Hs) as (run0 & Hr0 & Hl & _).
    rewrite Hr in Hr0. injection Hr0 as <-.
    destruct (prio_load_jobs_fresh _ _ _ Hl jid j Hj) as (_ & -> & ->).
    split; intros ? [=].
  - split; [|split; [exact rr_next_jobs | exact rr_done_causal]].
    intros cfg ns nst fid req w w' rid sigs run Hs Hr jid j Hj.
    destruct (rr_start_installs _ _ _ _ _ _ _ _ _ Hs) as (run0 & Hr0 & Hl & _).
    rewrite Hr in Hr0. injection Hr0 as <-.
    destruct (rr_load_jobs_fresh _ _ _ Hl jid j Hj) as (_ & -> & -> & _).
    split; intros ? [=].
  - split; [|split; [exact rrobin_next_jobs | exact rrobin_done_causal]].
    intros cfg ns nst fid req w w' rid sigs run Hs Hr jid j Hj.
    destruct (rrobin_start_installs _ _ _ _ _ _ _ _ _ Hs) as (run0 & k & Hr0 & Hl & _).
    rewrite Hr in Hr0. injection Hr0 as <-.
    destruct (rrobin_load_jobs_fresh _ _ _ Hl jid j Hj) as (_ & -> & -> & _).
    split; intros ? [=].
Qed.

(** The FIFO run of [late.csv] with honest reports: [A] started at the
    start of the run, [B] at its arrival one second later. Every job of
    the finalized run is causal. *)
Lemma arrival_causality_witness :
  exists b,
    Py.get (Fifo.jobs (Sample.fifo_run Sample.fifo_honest)) "B" = Some b /\
    Fifo.arrival_ms b = 1000 /\ Fifo.start_ms b = Some 1000 /\
    Fifo.finish_ms b = Some 1100 /\
    causal (Fifo.arrival_ms b) (Fifo.start_ms b) (Fifo.finish_ms b).
Proof.
  eexists. split; [vm_compute; reflexivity|]. repeat (split; [reflexivity|]).
  apply (proj2 (proj2 (proj1 arrival_causality)) default_config 2%Q 2%Q
           (Sample.fifo_done "B" 2000 2100) Sample.fifo_honest_once
           (Sample.fifo_run Sample.fifo_honest_once)
           (Sample.fifo_run Sample.fifo_honest)) with (jid := "B").
  - reflexivity.
  - apply (proj2 (proj2 (proj1 arrival_causality)) default_config 2%Q 2%Q
             (Sample.fifo_done "A" 1000 1100) Sample.fifo_late
             (Sample.fifo_run Sample.fifo_late)
             (Sample.fifo_run Sample.fifo_honest_once)).
    + reflexivity.
    + apply (proj1 (proj1 arrival_causality) default_config 1%Q 1%Q "run0000001"
               (Sample.fifo_start "late.csv") Sample.fifo_idle Sample.fifo_late
               "run0000001" [notify_all]); reflexivity.
    + intros job H. vm_compute in H. injection H as <-. vm_compute.
      split; discriminate.
    + reflexivity.
  - intros job H. vm_compute in H. injection H as <-. vm_compute.
    split; discriminate.
  - reflexivity.
  - reflexivity.
Defined.

(** ** Per-job results *)

Lemma fifo_result_rows (cfg : Config) (W : Registry.Workers) (now : Q)
    (run : Fifo.RunState) (path rid : string) (rows : list Fifo.Row) :
  In (path, Fifo.JobsCsv rid rows) (snd (Fifo.finalize_run cfg W now run)) ->
  forall row, In row rows ->
    exists j start finish,
      In j (Py.values (Fifo.jobs run)) /\
      Fifo.start_ms j = Some start /\ Fifo.finish_ms j = Some finish /\
      Fifo.row_job_id row = Fifo.job_id j /\
      Fifo.waiting_time_ms row = start - Fifo.arrival_ms j /\
      Fifo.execution_time_ms row = finish - start /\
      Fifo.response_time_ms row = finish - Fifo.arrival_ms j /\
      Fifo.slowdown row
      = (inject_Z (finish - Fifo.arrival_ms j)
         / inject_Z (Z.max 1 (Fifo.service_ms j)))%Q.
Proof.
  unfold Fifo.finalize_run.
  destruct (Py.len (Fifo.result_rows run) =? 0); simpl; [intros []|].
  intros [H|[H|[]]]; [|discriminate]. injection H as _ _ <-.
  intros row Hrow. unfold Fifo.result_rows in Hrow.
  apply in_flat_map in Hrow. destruct Hrow as (j & Hj & Hrow).
  unfold Fifo.row_of in Hrow.
  destruct (Fifo.finish_ms j) as [finish|] eqn:Ef; [|destruct Hrow].
  destruct (Fifo.start_ms j) as [start|] eqn:Es; [|destruct Hrow].
  destruct Hrow as [<-|[]]. exists j, start, finish. simpl.
  repeat split; try assumption; reflexivity.
Qed.

Lemma prio_result_rows (cfg : Config) (W : Registry.Workers) (now : Q)
    (run : Priority.RunState) (path rid : string) (rows : list Priority.Row) :
  In (path, Priority.JobsCsv rid rows) (snd (Priority.finalize_run cfg W now run)) ->
  forall row, In row rows ->
    exists j start finish,
      In j (Py.values (Priority.jobs run)) /\
      Priority.start_ms j = Some start /\ Priority.finish_ms j = Some finish /\
      Priority.row_job_id row = Priority.job_id j /\
      Priority.waiting_time_ms row = start - Priority.arrival_ms j /\
      Priority.execution_time_ms row = finish - start /\
      Priority.response_time_ms row = finish - Priority.arrival_ms j /\
      Priority.slowdown row
      = (inject_Z (finish - Priority.arrival_ms j)
         / inject_Z (Z.max 1 (Priority.service_ms j)))%Q.
Proof.
  unfold Priority.finalize_run.
  destruct (Priority.result_rows run) as [|r0 rs] eqn:Er; simpl; [intros []|].
  intros [H|[H|[]]]; [|discriminate]. injection H as _ _ <-.
  intros row Hrow. rewrite <- Er in Hrow. unfold Priority.result_rows in Hrow.
  apply in_flat_map in Hrow. destruct Hrow as (j & Hj & Hrow).
  unfold Priority.row_of in Hrow.
  destruct (Priority.start_ms j) as [start|] eqn:Es; [|destruct Hrow].
  destruct (Priority.finish_ms j) as [finish|] eqn:Ef; [|destruct Hrow].
  destruct Hrow as [<-|[]]. exists j, start, finish. simpl.
  repeat split; try assumption; reflexivity.
Qed.

Lemma rr_result_rows (cfg : Config) (W : Registry.Workers) (now : Q)
    (run run2 : RR.RunState) (files : list (string * RR.artifact))
    (path rid : string) (q : Z) (rows : list RR.Row) :
  RR.finalize_run cfg W now run = Py.Ok (run2, files) ->
  In (path, RR.JobsCsv rid q rows) files ->
  forall row, In row rows ->
    exists j finish,
      In j (Py.values (RR.jobs run)) /\ RR.finish_ms j = Some finish /\
      RR.row_job_id row = RR.job_id j /\
      RR.first_start_time_ms row
      = match RR.first_start_ms j with Some s => s | None => 0 end /\
      RR.response_time_ms row = finish - RR.arrival_ms j /\
      RR.waiting_time_ms row = finish - RR.arrival_ms j - RR.service_ms j /\
      RR.slowdown row
      = (inject_Z (finish - RR.arrival_ms j) / inject_Z (Z.max 1 (RR.service_ms j)))%Q.
Proof.
  unfold RR.finalize_run.
  destruct (RR.result_rows run) as [|r0 rs] eqn:Er; [discriminate|].
  intros H. injection H as _ <-.
  intros [H|[H|[]]]; [|discriminate]. injection H as _ _ _ <-.
  intros row Hrow. rewrite <- Er in Hrow. unfold RR.result_rows in Hrow.
  apply in_flat_map in Hrow. destruct Hrow as (j & Hj & Hrow).
  unfold RR.row_of in Hrow.
  destruct (RR.finish_ms j) as [finish|] eqn:Ef; [|destruct Hrow].
  destruct Hrow as [<-|[]]. exists j, finish. simpl.
  repeat split; try assumption; reflexivity.
Qed.

Lemma rrobin_result_rows (cfg : Config) (W : Registry.Workers) (now : Q)
    (run : RoundRobin.RunState) (path rid : string) (q : Z)
    (rows : list RoundRobin.Row) :
  In (path, RoundRobin.JobsCsv rid q rows)
     (snd (RoundRobin.finalize_run cfg W now run)) ->
  forall row, In row rows ->
    exists j finish,
      In j (Py.values (RoundRobin.jobs run)) /\
      RoundRobin.finish_ms j = Some finish /\
      RoundRobin.row_job_id row = RoundRobin.job_id j /\
      RoundRobin.first_start_time_ms row
      = match RoundRobin.first_start_ms j with Some s => s | None => 0 end /\
      RoundRobin.response_time_ms row = finish - RoundRobin.arrival_ms j /\
      RoundRobin.waiting_time_ms row
      = finish - RoundRobin.arrival_ms j - RoundRobin.service_ms j.
Proof.
  unfold RoundRobin.finalize_run. simpl.
  intros [H|[H|[]]]; [|discriminate]. injection H as _ _ _ <-.
  intros row Hrow. unfold RoundRobin.result_rows in Hrow.
  apply in_flat_map in Hrow. destruct Hrow as (j & Hj & Hrow).
  unfold RoundRobin.row_of in Hrow.
  destruct (RoundRobin.finish_ms j) as [finish|] eqn:Ef; [|destruct Hrow].
  destruct Hrow as [<-|[]]. exists j, finish. simpl.
  repeat split; try assumption; reflexivity.
Qed.

(** Claim C8 fails as stated. In the finalized round-robin scenario, [A]
    (50 ms, arrival 0) first started at 0 and finished at 80: its row has
    [waiting_time_ms = 30], not [first_start - arrival = 0]. *)
Lemma result_metrics_counterexample :
  exists path rid q rows row,
    In (path, RR.JobsCsv rid q rows) (RR.RESULTS Sample.rr_finished) /\
    In row rows /\ RR.row_job_id row = "A" /\
    RR.first_start_time_ms row = 0 /\ RR.arrival_time_ms row = 0 /\
    RR.finish_time_ms row = 80 /\ RR.service_time_ms row = 50 /\
    RR.waiting_time_ms row = 30.
Proof.
  eexists _, _, _, _, _. vm_compute.
  split; [left; reflexivity|]. split; [left; reflexivity|].
  repeat split; reflexivity.
Qed.

(** Claim C8, amended. Every row of the per-job results that a
    finalization writes comes from a job of the run with a finish, and
      - under FIFO and Priority: [waiting_time_ms = start - arrival],
        [response_time_ms = finish - arrival] and
        [slowdown = response / max(1, service_ms)];
      - under round-robin: [response_time_ms = finish - arrival] and
        [waiting_time_ms = response - service_ms], whatever the first
        start was; the service without arrivals has the same slowdown
        column, the service with arrivals has none. *)
Theorem result_metrics :
  (forall cfg W now run path rid rows,
     In (path, Fifo.JobsCsv rid rows) (snd (Fifo.finalize_run cfg W now run)) ->
     forall row, In row rows ->
       exists j start finish,
         In j (Py.values (Fifo.jobs run)) /\
         Fifo.start_ms j = Some start /\ Fifo.finish_ms j = Some finish /\
         Fifo.row_job_id row = Fifo.job_id j /\
         Fifo.waiting_time_ms row = start - Fifo.arrival_ms j /\
         Fifo.execution_time_ms row = finish - start /\
         Fifo.response_time_ms row = finish - Fifo.arrival_ms j /\
         Fifo.slowdown row
         = (inject_Z (finish - Fifo.arrival_ms j)
            / inject_Z (Z.max 1 (Fifo.service_ms j)))%Q)
  /\
  (forall cfg W now run path rid rows,
     In (path, Priority.JobsCsv rid rows)
        (snd (Priority.finalize_run cfg W now run)) ->
     forall row, In row rows ->
       exists j start finish,
         In j (Py.values (Priority.jobs run)) /\
         Priority.start_ms j = Some start /\ Priority.finish_ms j = Some finish /\
         Priority.row_job_id row = Priority.job_id j /\
         Priority.waiting_time_ms row = start - Priority.arrival_ms j /\
         Priority.execution_time_ms row = finish - start /\
         Priority.response_time_ms row = finish - Priority.arrival_ms j /\
         Priority.slowdown row
         = (inject_Z (finish - Priority.arrival_ms j)
            / inject_Z (Z.max 1 (Priority.service_ms j)))%Q)
  /\
  (forall cfg W now run run2 files path rid q rows,
     RR.finalize_run cfg W now run = Py.Ok (run2, files) ->
     In (path, RR.JobsCsv rid q rows) files ->
     forall row, In row rows ->
       exists j finish,
         In j (Py.values (RR.jobs run)) /\ RR.finish_ms j = Some finish /\
         RR.row_job_id row = RR.job_id j /\
         RR.first_start_time_ms row
         = match RR.first_start_ms j with Some s => s | None => 0 end /\
         RR.response_time_ms row = finish - RR.arrival_ms j /\
         RR.waiting_time_ms row = finish - RR.arrival_ms j - RR.service_ms j /\
         RR.slowdown row
         = (inject_Z (finish - RR.arrival_ms j)
            / inject_Z (Z.max 1 (RR.service_ms j)))%Q)
  /\
  (forall cfg W now run path rid q rows,
     In (path, RoundRobin.JobsCsv rid q rows)
        (snd (RoundRobin.finalize_run cfg W now run)) ->
     forall row, In row rows ->
       exists j finish,
         In j (Py.values (RoundRobin.jobs run)) /\
         RoundRobin.finish_ms j = Some finish /\
         RoundRobin.row_job_id row = RoundRobin.job_id j /\
         RoundRobin.first_start_time_ms row
         = match RoundRobin.first_start_ms j with Some s => s | None => 0 end /\
         RoundRobin.response_time_ms row = finish - RoundRobin.arrival_ms j /\
         RoundRobin.waiting_time_ms row
         = finish - RoundRobin.arrival_ms j - RoundRobin.service_ms j).
Proof.
  split; [exact fifo_result_rows|]. split; [exact prio_result_rows|].
  split; [exact rr_result_rows | exact rrobin_result_rows].
Qed.

(** The row of [B] in the finalized FIFO run of [late.csv] with honest
    reports: it waited 0 ms and its slowdown is 100 / 100. *)
Lemma result_metrics_witness :
  exists j start finish,
    In j (Py.values (Fifo.jobs (Sample.fifo_run Sample.fifo_honest))) /\
    Fifo.start_ms j = Some start /\ Fifo.finish_ms j = Some finish /\
    Fifo.row_job_id Sample.fifo_row_B = Fifo.job_id j /\
    Fifo.waiting_time_ms Sample.fifo_row_B = start - Fifo.arrival_ms j /\
    Fifo.execution_time_ms Sample.fifo_row_B = finish - start /\
    Fifo.response_time_ms Sample.fifo_row_B = finish - Fifo.arrival_ms j /\
    Fifo.slowdown Sample.fifo_row_B
    = (inject_Z (finish - Fifo.arrival_ms j)
       / inject_Z (Z.max 1 (Fifo.service_ms j)))%Q.
Proof.
  apply (proj1 result_metrics default_config Sample.workers 2%Q
           (Sample.fifo_run Sample.fifo_honest)
           "/results/results_jobs_run0000001.csv" "run0000001"
           (Fifo.result_rows (Sample.fifo_run Sample.fifo_honest))).
  - vm_compute. left. reflexivity.
  - vm_compute. right. left. reflexivity.
Defined.

(** ** Dictionaries with distinct keys, stable sorting *)

Lemma dict_get_In {V : Type} (d : Py.dict V) (k : string) (v : V) :
  Py.get d k = Some v -> In (k, v) d.
Proof.
  induction d as [|[k' v'] d IH]; simpl; [discriminate|].
  destruct (String.eqb_spec k' k) as [->|Hne]; intros H.
  - left. congruence.
  - right. auto.
Qed.

Lemma dict_In_get {V : Type} (d : Py.dict V) (k : string) (v : V) :
  List.NoDup (Py.keys d) -> In (k, v) d -> Py.get d k = Some v.
Proof.
  induction d as [|[k' v'] d IH]; simpl; [intros _ []|].
  intros Hnd [H|H].
  - injection H as -> ->. now rewrite String.eqb_refl.
  - inversion Hnd as [|? ? Hnotin Hnd']. subst.
    destruct (String.eqb_spec k' k) as [->|Hne]; [|auto].
    exfalso. apply Hnotin. unfold Py.keys. apply in_map_iff.
    exists (k, v). auto.
Qed.

Lemma dict_keys_set {V : Type} (d : Py.dict V) (k : string) (v : V) (x : string) :
  In x (Py.keys (Py.set d k v)) <-> x = k \/ In x (Py.keys d).
Proof.
  induction d as [|[k' v'] d IH]; simpl.
  - split; [intros [H|[]]; auto | intros [H|[]]; auto].
  - destruct (String.eqb_spec k' k) as [->|Hne]; simpl.
    + intuition congruence.
    + rewrite IH. tauto.
Qed.

Lemma dict_set_nodup {V : Type} (d : Py.dict V) (k : string) (v : V) :
  List.NoDup (Py.keys d) -> List.NoDup (Py.keys (Py.set d k v)).
Proof.
  induction d as [|[k' v'] d IH]; simpl; intros Hnd.
  - constructor; [intros []|constructor].
  - inversion Hnd as [|? ? Hnotin Hnd']. subst.
    destruct (String.eqb_spec k' k) as [->|Hne]; simpl.
    + constructor; assumption.
    + constructor; [|auto]. intros Hin. apply dict_keys_set in Hin.
      destruct Hin as [->|Hin]; [congruence | contradiction].
Qed.

Lemma dict_keys_known {V : Type} (d : Py.dict V) : ids_known d (Py.keys d).
Proof.
  intros jid. induction d as [|[k v] d IH]; simpl; [intros []|].
  destruct (String.eqb_spec k jid) as [->|Hne]; [eauto|].
  intros [H|H]; [congruence | auto].
Qed.

Lemma dict_get_keys {V : Type} (d : Py.dict V) (k : string) (v : V) :
  Py.get d k = Some v -> In k (Py.keys d).
Proof.
  intros H. apply dict_get_In in H. unfold Py.keys.
  apply in_map_iff. exists (k, v). auto.
Qed.

Lemma dict_get_app_known {V : Type} (d e : Py.dict V) (k : string) (v : V) :
  Py.get d k = Some v -> Py.get (d ++ e) k = Some v.
Proof.
  induction d as [|[k' v'] d IH]; simpl; [discriminate|].
  destruct (String.eqb k' k); auto.
Qed.

Lemma dict_get_app_unknown {V : Type} (d e : Py.dict V) (k : string) :
  Py.get d k = None -> Py.get (d ++ e) k = Py.get e k.
Proof.
  induction d as [|[k' v'] d IH]; simpl; [reflexivity|].
  destruct (String.eqb k' k); [discriminate | auto].
Qed.

Section StableSortFacts.
Context {A : Type} (key : A -> Z).

Lemma insert_by_perm (x : A) (l : list A) :
  Permutation (x :: l) (Py.insert_by key x l).
Proof.
  induction l as [|y l IH]; simpl; [reflexivity|].
  destruct (key x <=? key y); [reflexivity|].
  rewrite perm_swap. now apply perm_skip.
Qed.

Lemma sorted_by_perm (l : list A) : Permutation l (Py.sorted_by key l).
Proof.
  induction l as [|x l IH]; simpl; [reflexivity|].
  rewrite <- insert_by_perm. now apply perm_skip.
Qed.

Lemma insert_by_sorted (x : A) (l : list A) :
  StronglySorted (fun a b => key a <= key b) l ->
  StronglySorted (fun a b => key a <= key b) (Py.insert_by key x l).
Proof.
  induction l as [|y l IH]; simpl; intros Hs.
  - constructor; [constructor | constructor].
  - inversion Hs as [|? ? Hs' Hall]. subst.
    destruct (Z.leb_spec (key x) (key y)) as [Hle|Hgt].
    + constructor; [assumption|]. constructor; [lia|].
      rewrite List.Forall_forall in *. intros z Hz. specialize (Hall z Hz). lia.
    + constructor; [auto|].
      rewrite List.Forall_forall in *. intros z Hz.
      apply (Permutation_in _ (Permutation_sym (insert_by_perm x l))) in Hz.
      destruct Hz as [<-|Hz]; [lia | auto].
Qed.

Lemma sorted_by_sorted (l : list A) :
  StronglySorted (fun a b => key a <= key b) (Py.sorted_by key l).
Proof.
  induction l as [|x l IH]; simpl; [constructor | now apply insert_by_sorted].
Qed.

(** The sort is stable: the items of any one key come out in the order in
    which they went in. *)
Lemma insert_by_stable (k : Z) (x : A) (l : list A) :
  List.filter (fun a => key a =? k) (Py.insert_by key x l)
  = List.filter (fun a => key a =? k) (x :: l).
Proof.
  induction l as [|y l IH]; [reflexivity|].
  cbn [Py.insert_by]. destruct (Z.leb_spec (key x) (key y)) as [Hle|Hgt];
    [reflexivity|].
  cbn [List.filter] in *. rewrite IH.
  destruct (Z.eqb_spec (key x) k) as [Hx|Hx];
    destruct (Z.eqb_spec (key y) k) as [Hy|Hy]; try reflexivity. lia.
Qed.

Lemma sorted_by_stable (k : Z) (l : list A) :
  List.filter (fun a => key a =? k) (Py.sorted_by key l)
  = List.filter (fun a => key a =? k) l.
Proof.
  induction l as [|x l IH]; [reflexivity|].
  cbn [Py.sorted_by fold_right]. fold (Py.sorted_by key l).
  rewrite insert_by_stable. cbn [List.filter]. now rewrite IH.
Qed.

End StableSortFacts.

(** ** Arrival times: loading and the ready/pending partition *)

Lemma fifo_load_jobs_nodup (fs : gmap string file) (path : string)
    (jobs : Py.dict Fifo.JobState) :
  Fifo.load_jobs fs path = Py.Ok jobs -> List.NoDup (Py.keys jobs).
Proof.
  unfold Fifo.load_jobs. intros H. apply bind_ok in H. destruct H as (df & _ & H).
  destruct (negb _); [discriminate|].
  apply (for_rows_invariant (fun d => List.NoDup (Py.keys d))) in H;
    [exact H| |constructor].
  intros i x x' Hx Hs. unfold Fifo.load_row in Hs.
  apply bind_ok in Hs. destruct Hs as (c & _ & Hs).
  apply bind_ok in Hs. destruct Hs as (c1 & _ & Hs).
  apply bind_ok in Hs. destruct Hs as (svc & _ & Hs).
  apply bind_ok in Hs. destruct Hs as (arr & _ & Hs).
  injection Hs as <-. now apply dict_set_nodup.
Qed.

Lemma prio_load_jobs_nodup (fs : gmap string file) (path : string)
    (jobs : Py.dict Priority.JobState) :
  Priority.load_jobs fs path = Py.Ok jobs -> List.NoDup (Py.keys jobs).
Proof.
  unfold Priority.load_jobs. intros H. apply bind_ok in H. destruct H as (df & _ & H).
  destruct (negb _); [discriminate|].
  apply (for_rows_invariant (fun d => List.NoDup (Py.keys d))) in H;
    [exact H| |constructor].
  intros i x x' Hx Hs. unfold Priority.load_row in Hs.
  apply bind_ok in Hs. destruct Hs as (c & _ & Hs).
  apply bind_ok in Hs. destruct Hs as (c1 & _ & Hs).
  apply bind_ok in Hs. destruct Hs as (svc & _ & Hs).
  apply bind_ok in Hs. destruct Hs as (arr & _ & Hs).
  apply bind_ok in Hs. destruct Hs as (c2 & _ & Hs).
  apply bind_ok in Hs. destruct Hs as (prio & _ & Hs).
  injection Hs as <-. now apply dict_set_nodup.
Qed.

(** The partition of [start] under FIFO: a job is ready when its arrival
    is at most 0 and pending otherwise. *)
Lemma fifo_partition (jobs : Py.dict Fifo.JobState) (jid : string) (j : Fifo.JobState) :
  List.NoDup (Py.keys jobs) -> Py.get jobs jid = Some j ->
  (In jid (fst (Fifo.partition_jobs jobs)) <-> Fifo.arrival_ms j <= 0) /\
  (In jid (snd (Fifo.partition_jobs jobs)) <-> 0 < Fifo.arrival_ms j).
Proof.
  intros Hnd Hj. unfold Fifo.partition_jobs. simpl.
  pose proof (dict_get_In _ _ _ Hj) as Hin.
  split; split.
  - intros H. apply in_map_iff in H. destruct H as ([k v] & E & H). simpl in E. subst k.
    apply filter_In in H. destruct H as [H Hle]. simpl in Hle.
    rewrite (dict_In_get _ _ _ Hnd H) in Hj. injection Hj as <-. now apply Z.leb_le.
  - intros H. apply in_map_iff. exists (jid, j). split; [reflexivity|].
    apply filter_In. split; [assumption|]. simpl. now apply Z.leb_le.
  - intros H. apply in_map_iff in H. destruct H as ([k v] & E & H). simpl in E. subst k.
    apply filter_In in H. destruct H as [H Hle]. simpl in Hle.
    rewrite (dict_In_get _ _ _ Hnd H) in Hj. injection Hj as <-.
    apply negb_true_iff, Z.leb_gt in Hle. lia.
  - intros H. apply in_map_iff. exists (jid, j). split; [reflexivity|].
    apply filter_In. split; [assumption|]. simpl.
    apply negb_true_iff, Z.leb_gt. lia.
Qed.

(** The loop of [start] under Priority: every item it adds to the ready
    heap belongs to a job that has arrived, every item it adds to the
    pending heap to one that has not, and every job gets one item. *)
Lemma fill_heaps_spec (items : list (string * Priority.JobState))
    (ready ready' : list Priority.ready_item)
    (pending pending' : list Priority.pending_item) (seq seq' : Z) :
  Priority.fill_heaps items ready pending seq = (ready', pending', seq') ->
  (forall x, In x ready' ->
     In x ready \/
     exists j, In (snd x, j) items /\ Priority.arrival_ms j <= 0 /\
       fst (fst (fst x)) = Priority.priority j /\
       snd (fst (fst x)) = Priority.arrival_ms j) /\
  (forall x, In x pending' ->
     In x pending \/
     exists j, In (snd x, j) items /\ 0 < Priority.arrival_ms j /\
       fst (fst x) = Priority.arrival_ms j) /\
  (forall jid j, In (jid, j) items ->
     if Priority.arrival_ms j <=? 0
     then exists s, In (Priority.priority j, Priority.arrival_ms j, s, jid) ready'
     else exists s, In (Priority.arrival_ms j, s, jid) pending') /\
  (forall x, In x ready -> In x ready') /\
  (forall x, In x pending -> In x pending').
Proof.
  revert ready pending seq.
  induction items as [|[jid j] items IH]; simpl; intros ready pending seq H.
  - injection H as <- <- <-. repeat split; auto. intros ? ? [].
  - destruct (Z.leb_spec (Priority.arrival_ms j) 0) as [Hle|Hgt];
      apply IH in H; destruct H as (Hr & Hp & Hall & Hkr & Hkp);
      unfold Py.heappush in *.
    + split; [|split; [|split; [|split]]].
      * intros x Hx. destruct (Hr x Hx) as [Hin|(j' & Hin & Ha)].
        -- apply in_app_or in Hin. destruct Hin as [Hin|[<-|[]]]; [now left|].
           right. exists j. simpl. repeat split; auto.
        -- right. exists j'. split; [now right | assumption].
      * intros x Hx. destruct (Hp x Hx) as [Hin|(j' & Hin & Ha)]; [now left|].
        right. exists j'. split; [now right | assumption].
      * intros jid' j' [E|Hin]; [|now apply Hall].
        injection E as <- <-.
        destruct (Z.leb_spec (Priority.arrival_ms j) 0); [|lia].
        exists seq. apply Hkr. apply in_or_app. right. now left.
      * intros x Hx. apply Hkr. apply in_or_app. now left.
      * assumption.
    + split; [|split; [|split; [|split]]].
      * intros x Hx. destruct (Hr x Hx) as [Hin|(j' & Hin & Ha)]; [now left|].
        right. exists j'. split; [now right | assumption].
      * intros x Hx. destruct (Hp x Hx) as [Hin|(j' & Hin & Ha)].
        -- apply in_app_or in Hin. destruct Hin as [Hin|[<-|[]]]; [now left|].
           right. exists j. simpl. repeat split; auto.
        -- right. exists j'. split; [now right | assumption].
      * intros jid' j' [E|Hin]; [|now apply Hall].
        injection E as <- <-.
        destruct (Z.leb_spec (Priority.arrival_ms j) 0); [lia|].
        exists seq. apply Hkp. apply in_or_app. right. now left.
      * assumption.
      * intros x Hx. apply Hkp. apply in_or_app. now left.
Qed.

Lemma prio_partition (jobs : Py.dict Priority.JobState)
    (ready : list Priority.ready_item) (pending : list Priority.pending_item)
    (seq : Z) (jid : string) (j : Priority.JobState) :
  Priority.fill_heaps jobs [] [] 0 = (ready, pending, seq) ->
  List.NoDup (Py.keys jobs) -> Py.get jobs jid = Some j ->
  (In jid (map snd ready) <-> Priority.arrival_ms j <= 0) /\
  (In jid (map snd pending) <-> 0 < Priority.arrival_ms j).
Proof.
  intros Hf Hnd Hj.
  destruct (fill_heaps_spec _ _ _ _ _ _ _ Hf) as (Hr & Hp & Hall & _ & _).
  pose proof (Hall jid j (dict_get_In _ _ _ Hj)) as Hmine.
  split; split.
  - intros H. apply in_map_iff in H. destruct H as (x & <- & Hx).
    destruct (Hr x Hx) as [[]|(j' & Hin & Hle & _)].
    rewrite (dict_In_get _ _ _ Hnd Hin) in Hj. now injection Hj as <-.
  - intros Hle. destruct (Z.leb_spec (Priority.arrival_ms j) 0); [|lia].
    destruct Hmine as [s Hs]. apply in_map_iff. eexists. split; [|exact Hs]. reflexivity.
  - intros H. apply in_map_iff in H. destruct H as (x & <- & Hx).
    destruct (Hp x Hx) as [[]|(j' & Hin & Hlt & _)].
    rewrite (dict_In_get _ _ _ Hnd Hin) in Hj. now injection Hj as <-.
  - intros Hlt. destruct (Z.leb_spec (Priority.arrival_ms j) 0); [lia|].
    destruct Hmine as [s Hs]. apply in_map_iff. eexists. split; [|exact Hs]. reflexivity.
Qed.

(** The release at [start] under round-robin with arrivals: exactly the
    jobs that have arrived are ready. *)
Lemma rrobin_partition (cfg : Config) (now_slots now_start : Q) (fresh_id : string)
    (req : RoundRobin.StartReq) (w w' : RoundRobin.World) (rid : string)
    (sigs : list signal) (run : RoundRobin.RunState) :
  RoundRobin.start cfg now_slots now_start fresh_id req w = (Py.Ok rid, w', sigs) ->
  RoundRobin.ACTIVE_RUN w' = Some run ->
  0 <= RoundRobin.pending_idx run /\
  ids_known (RoundRobin.jobs run) (RoundRobin.unreleased run) /\
  arrivals_sorted (RoundRobin.jobs run) (RoundRobin.unreleased run) /\
  forall jid j, Py.get (RoundRobin.jobs run) jid = Some j ->
    (In jid (RoundRobin.ready_q run) <-> RoundRobin.arrival_ms j <= 0) /\
    (In jid (RoundRobin.unreleased run) <-> 0 < RoundRobin.arrival_ms j).
Proof.
  intros Hs Hr.
  destruct (rrobin_start_installs _ _ _ _ _ _ _ _ _ Hs)
    as (run0 & k & Hr0 & Hl & Hids & Hidx & Hq & Hdue & Hstop & _).
  rewrite Hr in Hr0. injection Hr0 as <-.
  set (jobs := RoundRobin.jobs run) in *.
  pose proof (sorted_by_sorted (RoundRobin.arrival_of jobs) (Py.keys jobs)) as Hsorted.
  pose proof (sorted_by_perm (RoundRobin.arrival_of jobs) (Py.keys jobs)) as Hperm.
  rewrite <- Hids in Hsorted, Hperm.
  assert (Hknown : ids_known jobs (RoundRobin.pending_ids run)).
  { intros jid Hin. apply dict_keys_known.
    apply (Permutation_in _ (Permutation_sym Hperm)). exact Hin. }
  assert (Hun : RoundRobin.unreleased run = skipn k (RoundRobin.pending_ids run)).
  { unfold RoundRobin.unreleased. rewrite Hidx. f_equal. lia. }
  assert (Hlate : forall jid, In jid (skipn k (RoundRobin.pending_ids run)) ->
            exists job, Py.get jobs jid = Some job /\ 0 < RoundRobin.arrival_ms job).
  { intros jid Hin. destruct (nth_error (RoundRobin.pending_ids run) k) as [j0|] eqn:En.
    - destruct Hstop as (job0 & Hj0 & Hlt).
      destruct (nth_error_skipn_cons _ _ _ En) as [tl Etl].
      pose proof (strongly_sorted_skipn _ k _ Hsorted) as Hs'.
      rewrite Etl in Hs', Hin. destruct Hin as [<-|Hin]; [eauto|].
      destruct (Hknown jid) as [job Hjob].
      { rewrite <- (firstn_skipn k (RoundRobin.pending_ids run)), Etl.
        apply in_or_app. right. now right. }
      exists job. split; [assumption|].
      inversion Hs' as [|? ? _ Hall]. subst.
      rewrite List.Forall_forall in Hall. specialize (Hall jid Hin).
      unfold RoundRobin.arrival_of in Hall. rewrite Hj0, Hjob in Hall. lia.
    - apply nth_error_None in En. rewrite skipn_all2 in Hin by assumption.
      destruct Hin. }
  split; [lia|]. split.
  { intros jid Hin. rewrite Hun in Hin. apply Hknown.
    rewrite <- (firstn_skipn k (RoundRobin.pending_ids run)).
    apply in_or_app. now right. }
  split.
  { unfold arrivals_sorted. rewrite Hun. now apply strongly_sorted_skipn. }
  intros jid j Hj.
  assert (Hin : In jid (RoundRobin.pending_ids run)).
  { apply (Permutation_in _ Hperm). eapply dict_get_keys. exact Hj. }
  rewrite <- (firstn_skipn k (RoundRobin.pending_ids run)) in Hin.
  rewrite Hq, Hun. split; split.
  - intros H. destruct (Hdue jid H) as (job & Hjob & Hle).
    fold jobs in Hjob. rewrite Hj in Hjob. now injection Hjob as <-.
  - intros Hle. apply in_app_or in Hin. destruct Hin as [Hin|Hin]; [assumption|].
    destruct (Hlate jid Hin) as (job & Hjob & Hlt).
    rewrite Hj in Hjob. injection Hjob as <-. lia.
  - intros H. destruct (Hlate jid H) as (job & Hjob & Hlt).
    rewrite Hj in Hjob. now injection Hjob as <-.
  - intros Hlt. apply in_app_or in Hin. destruct Hin as [Hin|Hin]; [|assumption].
    destruct (Hdue jid Hin) as (job & Hjob & Hle).
    fold jobs in Hjob. rewrite Hj in Hjob. injection Hjob as <-. lia.
Qed.

(** A frame without the arrival column loads like the same frame with a
    column of zeros. *)
Lemma for_rows_ext {S : Type} (step step' : nat -> S -> Py.result S)
    (rows : list nat) (s : S) :
  (forall i x, In i rows -> step i x = step' i x) ->
  Py.for_rows step rows s = Py.for_rows step' rows s.
Proof.
  revert s. induction rows as [|i rows IH]; simpl; intros s H; [reflexivity|].
  rewrite (H i s) by now left. destruct (step' i s) as [x|e]; simpl; [|reflexivity].
  apply IH. intros j y Hj. apply H. now right.
Qed.

Lemma dict_get_singleton {V : Type} (k name : string) (v : V) :
  Py.get [(k, v)] name = if String.eqb k name then Some v else None.
Proof. reflexivity. Qed.

Lemma zero_arrivals_get (df : Py.DataFrame) (name : string) :
  name <> "arrival_time_ms" ->
  Py.get (with_zero_arrivals df) name = Py.get df name.
Proof.
  intros Hne. unfold with_zero_arrivals.
  destruct (Py.get df name) as [c|] eqn:E.
  - now apply dict_get_app_known.
  - rewrite dict_get_app_unknown by assumption. rewrite dict_get_singleton.
    destruct (String.eqb_spec "arrival_time_ms" name); [congruence | reflexivity].
Qed.

Lemma zero_arrivals_getattr (df : Py.DataFrame) (i : nat) (name : string) :
  name <> "arrival_time_ms" ->
  Py.getattr (with_zero_arrivals df) i name = Py.getattr df i name.
Proof.
  intros Hne. unfold Py.getattr. now rewrite zero_arrivals_get.
Qed.

Lemma zero_arrivals_cell (df : Py.DataFrame) (i : nat) :
  Py.has_column df "arrival_time_ms" = false -> (i < Py.nrows df)%nat ->
  Py.getattr (with_zero_arrivals df) i "arrival_time_ms" = Py.Ok (Py.CInt 0).
Proof.
  unfold Py.has_column, Py.getattr, with_zero_arrivals. intros Hno Hi.
  destruct (Py.get df "arrival_time_ms") eqn:E; [discriminate|].
  rewrite dict_get_app_unknown by assumption. simpl.
  rewrite (nth_error_repeat 0 Hi). reflexivity.
Qed.

Lemma zero_arrivals_nrows (df : Py.DataFrame) :
  df <> [] -> Py.nrows (with_zero_arrivals df) = Py.nrows df.
Proof.
  destruct df as [|[k c] df]; [congruence | reflexivity].
Qed.

Lemma zero_arrivals_has_column (df : Py.DataFrame) (name : string) :
  name <> "arrival_time_ms" ->
  Py.has_column (with_zero_arrivals df) name = Py.has_column df name.
Proof.
  intros Hne. unfold Py.has_column. now rewrite zero_arrivals_get.
Qed.

Lemma fifo_load_default_arrival (fs : gmap string file) (path : string)
    (df : Py.DataFrame) :
  fs !! path = Some (Csv df) ->
  Py.has_column df "arrival_time_ms" = false ->
  Fifo.load_jobs fs path
  = Fifo.load_jobs (<[path := Csv (with_zero_arrivals df)]> fs) path.
Proof.
  intros Hf Hno. unfold Fifo.load_jobs, read_csv.
  rewrite Hf, lookup_insert_eq. simpl.
  unfold Py.has_columns. simpl.
  rewrite (zero_arrivals_has_column df "job_id") by discriminate.
  rewrite (zero_arrivals_has_column df "service_time_ms") by discriminate.
  destruct (Py.has_column df "job_id") eqn:Hid; simpl; [|reflexivity].
  destruct (Py.has_column df "service_time_ms"); simpl; [|reflexivity].
  assert (Hne : df <> []).
  { intros ->. discriminate. }
  rewrite Hno, (zero_arrivals_nrows _ Hne).
  assert (Hyes : Py.has_column (with_zero_arrivals df) "arrival_time_ms" = true).
  { unfold Py.has_column, with_zero_arrivals.
    unfold Py.has_column in Hno.
    destruct (Py.get df "arrival_time_ms") eqn:E; [discriminate|].
    now rewrite dict_get_app_unknown by assumption. }
  rewrite Hyes. apply for_rows_ext. intros i x Hi.
  apply in_seq in Hi. unfold Fifo.load_row.
  rewrite (zero_arrivals_getattr df i "job_id") by discriminate.
  rewrite (zero_arrivals_getattr df i "service_time_ms") by discriminate.
  rewrite zero_arrivals_cell by (assumption || lia). reflexivity.
Qed.

Lemma prio_load_default_arrival (fs : gmap string file) (path : string)
    (df : Py.DataFrame) :
  fs !! path = Some (Csv df) ->
  Py.has_column df "arrival_time_ms" = false ->
  Priority.load_jobs fs path
  = Priority.load_jobs (<[path := Csv (with_zero_arrivals df)]> fs) path.
Proof.
  intros Hf Hno. unfold Priority.load_jobs, read_csv.
  rewrite Hf, lookup_insert_eq. simpl.
  unfold Py.has_columns. simpl.
  rewrite (zero_arrivals_has_column df "job_id") by discriminate.
  rewrite (zero_arrivals_has_column df "service_time_ms") by discriminate.
  rewrite (zero_arrivals_has_column df "priority") by discriminate.
  destruct (Py.has_column df "job_id") eqn:Hid; simpl; [|reflexivity].
  destruct (Py.has_column df "service_time_ms"); simpl; [|reflexivity].
  destruct (Py.has_column df "priority"); simpl; [|reflexivity].
  assert (Hne : df <> []).
  { intros ->. discriminate. }
  rewrite Hno, (zero_arrivals_nrows _ Hne).
  assert (Hyes : Py.has_column (with_zero_arrivals df) "arrival_time_ms" = true).
  { unfold Py.has_column, with_zero_arrivals.
    unfold Py.has_column in Hno.
    destruct (Py.get df "arrival_time_ms") eqn:E; [discriminate|].
    now rewrite dict_get_app_unknown by assumption. }
  rewrite Hyes. apply for_rows_ext. intros i x Hi.
  apply in_seq in Hi. unfold Priority.load_row.
  rewrite (zero_arrivals_getattr df i "job_id") by discriminate.
  rewrite (zero_arrivals_getattr df i "service_time_ms") by discriminate.
  rewrite (zero_arrivals_getattr df i "priority") by discriminate.
  rewrite zero_arrivals_cell by (assumption || lia). reflexivity.
Qed.

(** Without the column every loaded job arrives at 0. *)
Lemma fifo_load_no_arrival (fs : gmap string file) (path : string)
    (df : Py.DataFrame) (jobs : Py.dict Fifo.JobState) :
  fs !! path = Some (Csv df) ->
  Py.has_column df "arrival_time_ms" = false ->
  Fifo.load_jobs fs path = Py.Ok jobs ->
  forall jid j, Py.get jobs jid = Some j -> Fifo.arrival_ms j = 0.
Proof.
  intros Hf Hno. unfold Fifo.load_jobs, read_csv. rewrite Hf. simpl.
  destruct (negb _); [discriminate|]. rewrite Hno. intros H.
  apply (for_rows_invariant
           (fun d => forall jid j, Py.get d jid = Some j -> Fifo.arrival_ms j = 0)
           (Fifo.load_row df false) (seq 0 (Py.nrows df)) [] jobs);
    [|intros ? ? H1; discriminate H1|exact H].
  intros i x x' Hx Hs. unfold Fifo.load_row in Hs.
  apply bind_ok in Hs. destruct Hs as (c & _ & Hs).
  apply bind_ok in Hs. destruct Hs as (c1 & _ & Hs).
  apply bind_ok in Hs. destruct Hs as (svc & _ & Hs).
  simpl in Hs. injection Hs as <-. intros jid j Hj.
  apply dict_get_set in Hj. destruct Hj as [[-> ->]|[_ Hj]]; [reflexivity | eauto].
Qed.

Lemma prio_load_no_arrival (fs : gmap string file) (path : string)
    (df : Py.DataFrame) (jobs : Py.dict Priority.JobState) :
  fs !! path = Some (Csv df) ->
  Py.has_column df "arrival_time_ms" = false ->
  Priority.load_jobs fs path = Py.Ok jobs ->
  forall jid j, Py.get jobs jid = Some j -> Priority.arrival_ms j = 0.
Proof.
  intros Hf Hno. unfold Priority.load_jobs, read_csv. rewrite Hf. simpl.
  destruct (negb _); [discriminate|]. rewrite Hno. intros H.
  apply (for_rows_invariant
           (fun d => forall jid j, Py.get d jid = Some j -> Priority.arrival_ms j = 0)
           (Priority.load_row df false) (seq 0 (Py.nrows df)) [] jobs);
    [|intros ? ? H1; discriminate H1|exact H].
  intros i x x' Hx Hs. unfold Priority.load_row in Hs.
  apply bind_ok in Hs. destruct Hs as (c & _ & Hs).
  apply bind_ok in Hs. destruct Hs as (c1 & _ & Hs).
  apply bind_ok in Hs. destruct Hs as (svc & _ & Hs).
  simpl in Hs.
  apply bind_ok in Hs. destruct Hs as (c2 & _ & Hs).
  apply bind_ok in Hs. destruct Hs as (prio & _ & Hs).
  injection Hs as <-. intros jid j Hj.
  apply dict_get_set in Hj. destruct Hj as [[-> ->]|[_ Hj]]; [reflexivity | eauto].
Qed.

(** With the column, the arrival of the job built from a row is the
    integer in that row. *)
Lemma fifo_load_row_arrival (df : Py.DataFrame) (i : nat)
    (jobs jobs' : Py.dict Fifo.JobState) :
  Fifo.load_row df true i jobs = Py.Ok jobs' ->
  exists c_id c_arr svc arr,
    Py.getattr df i "job_id" = Py.Ok c_id /\
    Py.getattr df i "arrival_time_ms" = Py.Ok c_arr /\ Py.int c_arr = Py.Ok arr /\
    jobs' = Py.set jobs (Py.str c_id) (Fifo.new_job (Py.str c_id) svc arr).
Proof.
  unfold Fifo.load_row. intros Hs.
  apply bind_ok in Hs. destruct Hs as (c & Hc & Hs).
  apply bind_ok in Hs. destruct Hs as (c1 & _ & Hs).
  apply bind_ok in Hs. destruct Hs as (svc & _ & Hs).
  apply bind_ok in Hs. destruct Hs as (arr & Ha & Hs).
  apply bind_ok in Ha. destruct Ha as (c2 & Hc2 & Ha).
  injection Hs as <-. exists c, c2, svc, arr. auto.
Qed.

Lemma prio_load_row_arrival (df : Py.DataFrame) (i : nat)
    (jobs jobs' : Py.dict Priority.JobState) :
  Priority.load_row df true i jobs = Py.Ok jobs' ->
  exists c_id c_arr svc arr prio,
    Py.getattr df i "job_id" = Py.Ok c_id /\
    Py.getattr df i "arrival_time_ms" = Py.Ok c_arr /\ Py.int c_arr = Py.Ok arr /\
    jobs' = Py.set jobs (Py.str c_id) (Priority.new_job (Py.str c_id) svc arr prio).
Proof.
  unfold Priority.load_row. intros Hs.
  apply bind_ok in Hs. destruct Hs as (c & Hc & Hs).
  apply bind_ok in Hs. destruct Hs as (c1 & _ & Hs).
  apply bind_ok in Hs. destruct Hs as (svc & _ & Hs).
  apply bind_ok in Hs. destruct Hs as (arr & Ha & Hs).
  apply bind_ok in Ha. destruct Ha as (c2 & Hc2 & Ha).
  apply bind_ok in Hs. destruct Hs as (c3 & _ & Hs).
  apply bind_ok in Hs. destruct Hs as (prio & _ & Hs).
  injection Hs as <-. exists c, c2, svc, arr, prio. auto.
Qed.

Lemma rrobin_load_row_arrival (df : Py.DataFrame) (i : nat)
    (jobs jobs' : Py.dict RoundRobin.JobState) :
  RoundRobin.load_row df i jobs = Py.Ok jobs' ->
  exists c_id c_arr svc arr,
    Py.getattr df i "job_id" = Py.Ok c_id /\
    Py.getattr df i "arrival_time_ms" = Py.Ok c_arr /\ Py.int c_arr = Py.Ok arr /\
    jobs' = Py.set jobs (Py.str c_id) (RoundRobin.new_job (Py.str c_id) svc arr).
Proof.
  unfold RoundRobin.load_row. intros Hs.
  apply bind_ok in Hs. destruct Hs as (c & Hc & Hs).
  apply bind_ok in Hs. destruct Hs as (c1 & _ & Hs).
  apply bind_ok in Hs. destruct Hs as (svc & _ & Hs).
  apply bind_ok in Hs. destruct Hs as (c2 & Hc2 & Hs).
  apply bind_ok in Hs. destruct Hs as (arr & Ha & Hs).
  injection Hs as <-. exists c, c2, svc, arr. auto.
Qed.

(** The round-robin service with arrivals requires the column. *)
Lemma rrobin_load_requires_arrival (fs : gmap string file) (path : string)
    (df : Py.DataFrame) :
  fs !! path = Some (Csv df) ->
  Py.has_column df "arrival_time_ms" = false ->
  exists msg, RoundRobin.load_jobs fs path = Py.Raise (Py.ValueError msg).
Proof.
  intros Hf Hno. unfold RoundRobin.load_jobs, read_csv. rewrite Hf. simpl.
  unfold Py.has_columns. simpl. rewrite Hno, !andb_false_r. simpl. eauto.
Qed.

(** The loop of a loader over the rows of a frame. *)

Section LoadRows.
Context {V : Type} (step : nat -> Py.dict V -> Py.result (Py.dict V)).
Hypothesis step_sets : forall i acc acc',
  step i acc = Py.Ok acc' ->
  exists jid job, acc' = Py.set acc jid job /\
    forall acc2, step i acc2 = Py.Ok (Py.set acc2 jid job).

Lemma step_alone (i : nat) (acc acc' : Py.dict V) :
  step i acc = Py.Ok acc' ->
  exists jid job, step i [] = Py.Ok [(jid, job)] /\ acc' = Py.set acc jid job.
Proof.
  intros H. destruct (step_sets _ _ _ H) as (jid & job & -> & Hall).
  exists jid, job. split; [apply (Hall [])|reflexivity].
Qed.

Lemma step_from_alone (i : nat) (jid : string) (job : V) (acc : Py.dict V) :
  step i [] = Py.Ok [(jid, job)] -> step i acc = Py.Ok (Py.set acc jid job).
Proof.
  intros H. destruct (step_sets _ _ _ H) as (jid' & job' & E & Hall).
  simpl in E. injection E as <- <-. apply Hall.
Qed.

Lemma for_rows_load (rows : list nat) (acc jobs : Py.dict V) :
  Py.for_rows step rows acc = Py.Ok jobs ->
  (forall i, In i rows -> exists jid job, step i [] = Py.Ok [(jid, job)]) /\
  (forall jid, In jid (Py.keys jobs) <->
     In jid (Py.keys acc) \/
     exists i job, In i rows /\ step i [] = Py.Ok [(jid, job)]) /\
  (forall l1 i l2 jid job,
     rows = l1 ++ i :: l2 -> step i [] = Py.Ok [(jid, job)] ->
     (forall j job', In j l2 -> step j [] <> Py.Ok [(jid, job')]) ->
     Py.get jobs jid = Some job) /\
  (length jobs <= length acc + length rows)%nat.
Proof.
  revert acc. induction rows as [|r rows IH]; simpl; intros acc H.
  - injection H as <-. split; [intros ? []|]. split.
    + intros jid. split; [auto | intros [H|(i & job & [] & _)]; exact H].
    + split; [|lia]. intros [|? ?] ? ? ? ? E; discriminate E.
  - destruct (step r acc) as [acc1|e] eqn:Er; simpl in H; [|discriminate].
    destruct (step_alone _ _ _ Er) as (jr & jobr & Halone & ->).
    destruct (IH _ H) as (Hrows & Hkeys & Hlast & Hlen).
    split; [|split; [|split]].
    + intros i [<-|Hi]; [eauto | auto].
    + intros jid. rewrite Hkeys, dict_keys_set. split.
      * intros [[->|Hin]|(i & job & Hi & Hs)]; eauto 8.
      * intros [Hin|(i & job & [<-|Hi] & Hs)]; [auto | | eauto 8].
        rewrite Halone in Hs. injection Hs as <- _. auto.
    + intros l1 i l2 jid job E Hs Hno. destruct l1 as [|x l1]; simpl in E.
      * injection E as <- <-. rewrite Halone in Hs. injection Hs as <- <-.
        assert (Hget : forall rows' acc' jobs',
                  Py.for_rows step rows' acc' = Py.Ok jobs' ->
                  (forall j job', In j rows' -> step j [] <> Py.Ok [(jr, job')]) ->
                  Py.get jobs' jr = Py.get acc' jr).
        { clear - step_sets. induction rows' as [|x rows' IH']; simpl; intros acc' jobs' H Hno.
          - now injection H as <-.
          - destruct (step x acc') as [a|e] eqn:Ex; simpl in H; [|discriminate].
            destruct (step_alone _ _ _ Ex) as (jx & jobx & Hx & ->).
            rewrite (IH' _ _ H) by (intros; apply Hno; now right).
            apply dict_get_set_other. intros ->. eapply Hno; [now left | exact Hx]. }
        rewrite (Hget _ _ _ H Hno). apply dict_get_set_same.
      * injection E as <- ->. eapply Hlast; eauto.
    + assert (Hl : (length (Py.set acc jr jobr) <= S (length acc))%nat).
      { clear. induction acc as [|[k v] acc IHa]; simpl; [lia|].
        destruct (String.eqb k jr); simpl; lia. }
      lia.
Qed.

End LoadRows.

Lemma seq_split_at (n i : nat) :
  (i < n)%nat -> seq 0 n = seq 0 i ++ i :: seq (S i) (n - S i).
Proof.
  intros H. replace n with (i + S (n - S i))%nat at 1 by lia.
  rewrite seq_app. reflexivity.
Qed.

Lemma fifo_load_row_sets (df : Py.DataFrame) (h : bool) (i : nat)
    (acc acc' : Py.dict Fifo.JobState) :
  Fifo.load_row df h i acc = Py.Ok acc' ->
  exists jid job, acc' = Py.set acc jid job /\
    forall acc2, Fifo.load_row df h i acc2 = Py.Ok (Py.set acc2 jid job).
Proof.
  unfold Fifo.load_row. intros Hs.
  apply bind_ok in Hs. destruct Hs as (c & Hc & Hs).
  apply bind_ok in Hs. destruct Hs as (c1 & Hc1 & Hs).
  apply bind_ok in Hs. destruct Hs as (svc & Hsvc & Hs).
  apply bind_ok in Hs. destruct Hs as (arr & Ha & Hs).
  injection Hs as <-. eexists _, _. split; [reflexivity|].
  intros acc2. rewrite Hc. simpl. rewrite Hc1. simpl. rewrite Hsvc. simpl.
  rewrite Ha. reflexivity.
Qed.

Lemma prio_load_row_sets (df : Py.DataFrame) (h : bool) (i : nat)
    (acc acc' : Py.dict Priority.JobState) :
  Priority.load_row df h i acc = Py.Ok acc' ->
  exists jid job, acc' = Py.set acc jid job /\
    forall acc2, Priority.load_row df h i acc2 = Py.Ok (Py.set acc2 jid job).
Proof.
  unfold Priority.load_row. intros Hs.
  apply bind_ok in Hs. destruct Hs as (c & Hc & Hs).
  apply bind_ok in Hs. destruct Hs as (c1 & Hc1 & Hs).
  apply bind_ok in Hs. destruct Hs as (svc & Hsvc & Hs).
  apply bind_ok in Hs. destruct Hs as (arr & Ha & Hs).
  apply bind_ok in Hs. destruct Hs as (c2 & Hc2 & Hs).
  apply bind_ok in Hs. destruct Hs as (prio & Hp & Hs).
  injection Hs as <-. eexists _, _. split; [reflexivity|].
  intros acc2. rewrite Hc. simpl. rewrite Hc1. simpl. rewrite Hsvc. simpl.
  rewrite Ha. simpl. rewrite Hc2. simpl. rewrite Hp. reflexivity.
Qed.

Lemma rr_load_row_sets (df : Py.DataFrame) (i : nat)
    (acc acc' : Py.dict RR.JobState) :
  RR.load_row df i acc = Py.Ok acc' ->
  exists jid job, acc' = Py.set acc jid job /\
    forall acc2, RR.load_row df i acc2 = Py.Ok (Py.set acc2 jid job).
Proof.
  unfold RR.load_row. intros Hs.
  apply bind_ok in Hs. destruct Hs as (c & Hc & Hs).
  apply bind_ok in Hs. destruct Hs as (c1 & Hc1 & Hs).
  apply bind_ok in Hs. destruct Hs as (svc & Hsvc & Hs).
  injection Hs as <-. eexists _, _. split; [reflexivity|].
  intros acc2. rewrite Hc. simpl. rewrite Hc1. simpl. rewrite Hsvc. reflexivity.
Qed.

Lemma load_rows_in_file_order {V : Type}
    (step : nat -> Py.dict V -> Py.result (Py.dict V)) (n : nat) (jobs : Py.dict V) :
  (forall i acc acc', step i acc = Py.Ok acc' ->
     exists jid job, acc' = Py.set acc jid job /\
       forall acc2, step i acc2 = Py.Ok (Py.set acc2 jid job)) ->
  Py.for_rows step (seq 0 n) [] = Py.Ok jobs ->
  Py.len jobs <= Z.of_nat n /\
  (forall i, (i < n)%nat ->
     exists jid job, step i [] = Py.Ok [(jid, job)] /\ In jid (Py.keys jobs)) /\
  (forall jid, In jid (Py.keys jobs) ->
     exists i job, (i < n)%nat /\ step i [] = Py.Ok [(jid, job)]) /\
  (forall i jid job, (i < n)%nat -> step i [] = Py.Ok [(jid, job)] ->
     (forall j job', (i < j < n)%nat -> step j [] <> Py.Ok [(jid, job')]) ->
     Py.get jobs jid = Some job).
Proof.
  intros Hsets H.
  destruct (for_rows_load step Hsets _ _ _ H) as (Hrows & Hkeys & Hlast & Hlen).
  split; [|split; [|split]].
  - unfold Py.len. rewrite length_seq in Hlen. simpl in Hlen. lia.
  - intros i Hi. destruct (Hrows i) as (jid & job & Hs); [apply in_seq; lia|].
    exists jid, job. split; [assumption|]. apply Hkeys. right.
    exists i, job. split; [apply in_seq; lia | assumption].
  - intros jid Hin. apply Hkeys in Hin. destruct Hin as [[]|(i & job & Hi & Hs)].
    apply in_seq in Hi. exists i, job. split; [lia | assumption].
  - intros i jid job Hi Hs Hno.
    eapply (Hlast _ i _ jid job (seq_split_at n i Hi) Hs).
    intros j job' Hj. apply in_seq in Hj. apply Hno. lia.
Qed.

Lemma rrobin_load_row_sets (df : Py.DataFrame) (i : nat)
    (acc acc' : Py.dict RoundRobin.JobState) :
  RoundRobin.load_row df i acc = Py.Ok acc' ->
  exists jid job, acc' = Py.set acc jid job /\
    forall acc2, RoundRobin.load_row df i acc2 = Py.Ok (Py.set acc2 jid job).
Proof.
  unfold RoundRobin.load_row. intros Hs.
  apply bind_ok in Hs. destruct Hs as (c & Hc & Hs).
  apply bind_ok in Hs. destruct Hs as (c1 & Hc1 & Hs).
  apply bind_ok in Hs. destruct Hs as (svc & Hsvc & Hs).
  apply bind_ok in Hs. destruct Hs as (c2 & Hc2 & Hs).
  apply bind_ok in Hs. destruct Hs as (arr & Ha & Hs).
  injection Hs as <-. eexists _, _. split; [reflexivity|].
  intros acc2. rewrite Hc. simpl. rewrite Hc1. simpl. rewrite Hsvc. simpl.
  rewrite Hc2. simpl. rewrite Ha. reflexivity.
Qed.

(** The rows in the order of [sort_values] are the rows of the frame. *)
Lemma sort_rows_perm (df : Py.DataFrame) (name : string) :
  Permutation (seq 0 (Py.nrows df)) (Py.sort_rows df name).
Proof.
  unfold Py.sort_rows. destruct (Py.get df name) as [[l|l]|]; try reflexivity.
  apply sorted_by_perm.
Qed.

(** With the column, [load_jobs] gives every job the arrival time of a
    row of its id, and the row of an id (its last one, where the file
    repeats the id) gives its arrival time to the job. *)
Lemma fifo_load_jobs_arrival (fs : gmap string file) (path : string)
    (df : Py.DataFrame) (jobs : Py.dict Fifo.JobState) :
  fs !! path = Some (Csv df) ->
  Py.has_column df "arrival_time_ms" = true ->
  Fifo.load_jobs fs path = Py.Ok jobs ->
  (forall jid j, Py.get jobs jid = Some j ->
     exists i c_id c_arr,
       Py.getattr df i "job_id" = Py.Ok c_id /\ Py.str c_id = jid /\
       Py.getattr df i "arrival_time_ms" = Py.Ok c_arr /\
       Py.int c_arr = Py.Ok (Fifo.arrival_ms j)) /\
  (forall i c_id, (i < Py.nrows df)%nat ->
     Py.getattr df i "job_id" = Py.Ok c_id ->
     (forall i' c', (i < i' < Py.nrows df)%nat ->
        Py.getattr df i' "job_id" = Py.Ok c' -> Py.str c' <> Py.str c_id) ->
     exists c_arr j,
       Py.getattr df i "arrival_time_ms" = Py.Ok c_arr /\
       Py.get jobs (Py.str c_id) = Some j /\
       Py.int c_arr = Py.Ok (Fifo.arrival_ms j)).
Proof.
  intros Hf Hcol. unfold Fifo.load_jobs, read_csv. rewrite Hf. simpl.
  destruct (negb _); [discriminate|]. rewrite Hcol. intros H. split.
  - apply (for_rows_invariant
             (fun d => forall jid j, Py.get d jid = Some j ->
                exists i c_id c_arr,
                  Py.getattr df i "job_id" = Py.Ok c_id /\ Py.str c_id = jid /\
                  Py.getattr df i "arrival_time_ms" = Py.Ok c_arr /\
                  Py.int c_arr = Py.Ok (Fifo.arrival_ms j))
             (Fifo.load_row df true) (seq 0 (Py.nrows df)) [] jobs);
      [|intros ? ? H1; discriminate H1|exact H].
    intros i x x' Hx Hs.
    destruct (fifo_load_row_arrival _ _ _ _ Hs) as (c & ca & svc & arr & Hc & Hca & Hi & ->).
    intros jid j Hj. apply dict_get_set in Hj.
    destruct Hj as [[-> ->]|[_ Hj]]; [|eauto]. exists i, c, ca. auto.
  - intros i c_id Hi Hc Hlast.
    destruct (load_rows_in_file_order _ _ _ (fifo_load_row_sets df true) H)
      as (_ & Hrows & _ & Hkept).
    destruct (Hrows i Hi) as (jid & job & Hs & _).
    destruct (fifo_load_row_arrival _ _ _ _ Hs) as (c & ca & svc & arr & Hc' & Hca & Hint & E).
    rewrite Hc in Hc'. injection Hc' as <-. simpl in E. injection E as -> ->.
    exists ca, (Fifo.new_job (Py.str c_id) svc arr).
    split; [exact Hca|]. split; [|exact Hint].
    apply (Hkept i _ _ Hi Hs). intros j job' Hj Hsj.
    destruct (fifo_load_row_arrival _ _ _ _ Hsj) as (c' & ? & ? & ? & Hcj & _ & _ & E').
    simpl in E'. injection E' as Hk _. exact (Hlast j c' Hj Hcj (eq_sym Hk)).
Qed.

Lemma prio_load_jobs_arrival (fs : gmap string file) (path : string)
    (df : Py.DataFrame) (jobs : Py.dict Priority.JobState) :
  fs !! path = Some (Csv df) ->
  Py.has_column df "arrival_time_ms" = true ->
  Priority.load_jobs fs path = Py.Ok jobs ->
  (forall jid j, Py.get jobs jid = Some j ->
     exists i c_id c_arr,
       Py.getattr df i "job_id" = Py.Ok c_id /\ Py.str c_id = jid /\
       Py.getattr df i "arrival_time_ms" = Py.Ok c_arr /\
       Py.int c_arr = Py.Ok (Priority.arrival_ms j)) /\
  (forall i c_id, (i < Py.nrows df)%nat ->
     Py.getattr df i "job_id" = Py.Ok c_id ->
     (forall i' c', (i < i' < Py.nrows df)%nat ->
        Py.getattr df i' "job_id" = Py.Ok c' -> Py.str c' <> Py.str c_id) ->
     exists c_arr j,
       Py.getattr df i "arrival_time_ms" = Py.Ok c_arr /\
       Py.get jobs (Py.str c_id) = Some j /\
       Py.int c_arr = Py.Ok (Priority.arrival_ms j)).
Proof.
  intros Hf Hcol. unfold Priority.load_jobs, read_csv. rewrite Hf. simpl.
  destruct (negb _); [discriminate|]. rewrite Hcol. intros H. split.
  - apply (for_rows_invariant
             (fun d => forall jid j, Py.get d jid = Some j ->
                exists i c_id c_arr,
                  Py.getattr df i "job_id" = Py.Ok c_id /\ Py.str c_id = jid /\
                  Py.getattr df i "arrival_time_ms" = Py.Ok c_arr /\
                  Py.int c_arr = Py.Ok (Priority.arrival_ms j))
             (Priority.load_row df true) (seq 0 (Py.nrows df)) [] jobs);
      [|intros ? ? H1; discriminate H1|exact H].
    intros i x x' Hx Hs.
    destruct (prio_load_row_arrival _ _ _ _ Hs)
      as (c & ca & svc & arr & prio & Hc & Hca & Hi & ->).
    intros jid j Hj. apply dict_get_set in Hj.
    destruct Hj as [[-> ->]|[_ Hj]]; [|eauto]. exists i, c, ca. auto.
  - intros i c_id Hi Hc Hlast.
    destruct (load_rows_in_file_order _ _ _ (prio_load_row_sets df true) H)
      as (_ & Hrows & _ & Hkept).
    destruct (Hrows i Hi) as (jid & job & Hs & _).
    destruct (prio_load_row_arrival _ _ _ _ Hs)
      as (c & ca & svc & arr & prio & Hc' & Hca & Hint & E).
    rewrite Hc in Hc'. injection Hc' as <-. simpl in E. injection E as -> ->.
    exists ca, (Priority.new_job (Py.str c_id) svc arr prio).
    split; [exact Hca|]. split; [|exact Hint].
    apply (Hkept i _ _ Hi Hs). intros j job' Hj Hsj.
    destruct (prio_load_row_arrival _ _ _ _ Hsj) as (c' & ? & ? & ? & ? & Hcj & _ & _ & E').
    simpl in E'. injection E' as Hk _. exact (Hlast j c' Hj Hcj (eq_sym Hk)).
Qed.

(** The same for the round-robin service with arrivals, which visits the
    rows in the order of their arrival times: the row of an id that no
    other row carries gives its arrival time to the job. *)
Lemma rrobin_load_jobs_arrival (fs : gmap string file) (path : string)
    (df : Py.DataFrame) (jobs : Py.dict RoundRobin.JobState) :
  fs !! path = Some (Csv df) ->
  RoundRobin.load_jobs fs path = Py.Ok jobs ->
  (forall jid j, Py.get jobs jid = Some j ->
     exists i c_id c_arr,
       Py.getattr df i "job_id" = Py.Ok c_id /\ Py.str c_id = jid /\
       Py.getattr df i "arrival_time_ms" = Py.Ok c_arr /\
       Py.int c_arr = Py.Ok (RoundRobin.arrival_ms j)) /\
  (forall i c_id, (i < Py.nrows df)%nat ->
     Py.getattr df i "job_id" = Py.Ok c_id ->
     (forall i' c', (i' < Py.nrows df)%nat -> i' <> i ->
        Py.getattr df i' "job_id" = Py.Ok c' -> Py.str c' <> Py.str c_id) ->
     exists c_arr j,
       Py.getattr df i "arrival_time_ms" = Py.Ok c_arr /\
       Py.get jobs (Py.str c_id) = Some j /\
       Py.int c_arr = Py.Ok (RoundRobin.arrival_ms j)).
Proof.
  intros Hf. unfold RoundRobin.load_jobs, read_csv. rewrite Hf. simpl.
  destruct (negb _); [discriminate|]. intros H. split.
  - apply (for_rows_invariant
             (fun d => forall jid j, Py.get d jid = Some j ->
                exists i c_id c_arr,
                  Py.getattr df i "job_id" = Py.Ok c_id /\ Py.str c_id = jid /\
                  Py.getattr df i "arrival_time_ms" = Py.Ok c_arr /\
                  Py.int c_arr = Py.Ok (RoundRobin.arrival_ms j))
             (RoundRobin.load_row df) (Py.sort_rows df "arrival_time_ms") [] jobs);
      [|intros ? ? H1; discriminate H1|exact H].
    intros i x x' Hx Hs.
    destruct (rrobin_load_row_arrival _ _ _ _ Hs) as (c & ca & svc & arr & Hc & Hca & Hi & ->).
    intros jid j Hj. apply dict_get_set in Hj.
    destruct Hj as [[-> ->]|[_ Hj]]; [|eauto]. exists i, c, ca. auto.
  - intros i c_id Hi Hc Hlast.
    pose proof (sort_rows_perm df "arrival_time_ms") as Hperm.
    destruct (for_rows_load _ (rrobin_load_row_sets df) _ _ _ H)
      as (Hrows & _ & Hkept & _).
    assert (Hin : In i (Py.sort_rows df "arrival_time_ms")).
    { apply (Permutation_in _ Hperm). apply in_seq. lia. }
    destruct (Hrows i Hin) as (jid & job & Hs).
    destruct (rrobin_load_row_arrival _ _ _ _ Hs) as (c & ca & svc & arr & Hc' & Hca & Hint & E).
    rewrite Hc in Hc'. injection Hc' as <-. simpl in E. injection E as -> ->.
    exists ca, (RoundRobin.new_job (Py.str c_id) svc arr).
    split; [exact Hca|]. split; [|exact Hint].
    destruct (in_split _ _ Hin) as (l1 & l2 & Esplit).
    apply (Hkept l1 i l2 _ _ Esplit Hs). intros j job' Hj Hsj.
    assert (Hnd : List.NoDup (Py.sort_rows df "arrival_time_ms")).
    { eapply Permutation_NoDup; [exact Hperm | apply seq_NoDup]. }
    rewrite Esplit in Hnd. apply NoDup_remove_2 in Hnd.
    assert (Hne : j <> i).
    { intros ->. apply Hnd. apply in_or_app. now right. }
    assert (Hjn : (j < Py.nrows df)%nat).
    { assert (Hj' : In j (Py.sort_rows df "arrival_time_ms")).
      { rewrite Esplit. apply in_or_app. right. now right. }
      apply (Permutation_in _ (Permutation_sym Hperm)) in Hj'. apply in_seq in Hj'. lia. }
    destruct (rrobin_load_row_arrival _ _ _ _ Hsj) as (c' & ? & ? & ? & Hcj & _ & _ & E').
    simpl in E'. injection E' as Hk _. exact (Hlast j c' Hjn Hne Hcj (eq_sym Hk)).
Qed.

(** Claim C9 fails as stated. The round-robin service with arrivals
    rejects [plain.csv], which has no arrival column; the round-robin
    service without arrivals loads [late.csv], whose arrival column says
    1000 for [B], with [B] arriving at 0 and ready from the start. *)
Lemma arrival_column_counterexample :
  Py.has_column Sample.plain_csv "arrival_time_ms" = false /\
  RoundRobin.load_jobs Sample.datasets "/data/plain.csv"
  = Py.Raise (Py.ValueError
      "Dataset must contain at least ['arrival_time_ms', 'job_id', 'service_time_ms']") /\
  Py.http_status
    (fst (fst (RoundRobin.start default_config 1 1 "run0000009"
                 (Sample.rrobin_start "plain.csv") Sample.rrobin_idle))) = 500 /\
  Py.getattr Sample.late_csv 1 "job_id" = Py.Ok (Py.CStr "B") /\
  Py.getattr Sample.late_csv 1 "arrival_time_ms" = Py.Ok (Py.CInt 1000) /\
  exists run b,
    RR.ACTIVE_RUN Sample.rr_late = Some run /\
    Py.get (RR.jobs run) "B" = Some b /\ RR.arrival_ms b = 0 /\
    RR.ready_q run = ["A"; "B"].
Proof.
  repeat split; try (vm_compute; reflexivity).
  eexists _, _. vm_compute. repeat split; reflexivity.
Qed.

(** Claim C9, amended. Under FIFO and Priority the arrival column is
    optional with default 0: a frame without it loads exactly like the
    same frame with a column of zeros, so every job arrives at 0. With the
    column, [load_jobs] gives every job the arrival time of a row of its
    id, and each row gives its arrival time to the job of its id (the last
    row of an id, where the file repeats it). [start] makes a job ready
    when its arrival is at most 0 and pending otherwise. The round-robin
    service without arrivals reads no arrival column: every job arrives at
    0 and is ready at the start. The round-robin service with arrivals
    requires the column (without it the load raises [ValueError]), takes
    the arrival time of every job from its row in the same way, and uses
    it for the partition in the same way. *)
Theorem arrival_column :
  (* FIFO *)
  ((forall fs path df,
      fs !! path = Some (Csv df) ->
      Py.has_column df "arrival_time_ms" = false ->
      Fifo.load_jobs fs path
      = Fifo.load_jobs (<[path := Csv (with_zero_arrivals df)]> fs) path) /\
   (forall fs path df jobs,
      fs !! path = Some (Csv df) ->
      Py.has_column df "arrival_time_ms" = false ->
      Fifo.load_jobs fs path = Py.Ok jobs ->
      forall jid j, Py.get jobs jid = Some j -> Fifo.arrival_ms j = 0) /\
   (forall fs path df jobs,
      fs !! path = Some (Csv df) ->
      Py.has_column df "arrival_time_ms" = true ->
      Fifo.load_jobs fs path = Py.Ok jobs ->
      (forall jid j, Py.get jobs jid = Some j ->
         exists i c_id c_arr,
           Py.getattr df i "job_id" = Py.Ok c_id /\ Py.str c_id = jid /\
           Py.getattr df i "arrival_time_ms" = Py.Ok c_arr /\
           Py.int c_arr = Py.Ok (Fifo.arrival_ms j)) /\
      (forall i c_id, (i < Py.nrows df)%nat ->
         Py.getattr df i "job_id" = Py.Ok c_id ->
         (forall i' c', (i < i' < Py.nrows df)%nat ->
            Py.getattr df i' "job_id" = Py.Ok c' -> Py.str c' <> Py.str c_id) ->
         exists c_arr j,
           Py.getattr df i "arrival_time_ms" = Py.Ok c_arr /\
           Py.get jobs (Py.str c_id) = Some j /\
           Py.int c_arr = Py.Ok (Fifo.arrival_ms j))) /\
   (forall cfg now_slots now_start fresh_id req w w' rid sigs run,
      Fifo.start cfg now_slots now_start fresh_id req w = (Py.Ok rid, w', sigs) ->
      Fifo.ACTIVE_RUN w' = Some run ->
      forall jid j, Py.get (Fifo.jobs run) jid = Some j ->
        (In jid (Fifo.ready_q run) <-> Fifo.arrival_ms j <= 0) /\
        (In jid (Fifo.pending_jobs run) <-> 0 < Fifo.arrival_ms j)))
  /\
  (* Priority *)
  ((forall fs path df,
      fs !! path = Some (Csv df) ->
      Py.has_column df "arrival_time_ms" = false ->
      Priority.load_jobs fs path
      = Priority.load_jobs (<[path := Csv (with_zero_arrivals df)]> fs) path) /\
   (forall fs path df jobs,
      fs !! path = Some (Csv df) ->
      Py.has_column df "arrival_time_ms" = false ->
      Priority.load_jobs fs path = Py.Ok jobs ->
      forall jid j, Py.get jobs jid = Some j -> Priority.arrival_ms j = 0) /\
   (forall fs path df jobs,
      fs !! path = Some (Csv df) ->
      Py.has_column df "arrival_time_ms" = true ->
      Priority.load_jobs fs path = Py.Ok jobs ->
      (forall jid j, Py.get jobs jid = Some j ->
         exists i c_id c_arr,
           Py.getattr df i "job_id" = Py.Ok c_id /\ Py.str c_id = jid /\
           Py.getattr df i "arrival_time_ms" = Py.Ok c_arr /\
           Py.int c_arr = Py.Ok (Priority.arrival_ms j)) /\
      (forall i c_id, (i < Py.nrows df)%nat ->
         Py.getattr df i "job_id" = Py.Ok c_id ->
         (forall i' c', (i < i' < Py.nrows df)%nat ->
            Py.getattr df i' "job_id" = Py.Ok c' -> Py.str c' <> Py.str c_id) ->
         exists c_arr j,
           Py.getattr df i "arrival_time_ms" = Py.Ok c_arr /\
           Py.get jobs (Py.str c_id) = Some j /\
           Py.int c_arr = Py.Ok (Priority.arrival_ms j))) /\
   (forall cfg now_slots now_start fresh_id req w w' rid sigs run,
      Priority.start cfg now_slots now_start fresh_id req w = (Py.Ok rid, w', sigs) ->
      Priority.ACTIVE_RUN w' = Some run ->
      forall jid j, Py.get (Priority.jobs run) jid = Some j ->
        (In jid (map snd (Priority.ready_heap run)) <-> Priority.arrival_ms j <= 0) /\
        (In jid (map snd (Priority.pending_heap run)) <-> 0 < Priority.arrival_ms j)))
  /\
  (* Round-robin without arrivals *)
  (forall cfg now_slots now_start fresh_id req w w' rid sigs run,
     RR.start cfg now_slots now_start fresh_id req w = (Py.Ok rid, w', sigs) ->
     RR.ACTIVE_RUN w' = Some run ->
     forall jid j, Py.get (RR.jobs run) jid = Some j ->
       RR.arrival_ms j = 0 /\ In jid (RR.ready_q run))
  /\
  (* Round-robin with arrivals *)
  ((forall fs path df,
      fs !! path = Some (Csv df) ->
      Py.has_column df "arrival_time_ms" = false ->
      exists msg, RoundRobin.load_jobs fs path = Py.Raise (Py.ValueError msg)) /\
   (forall fs path df jobs,
      fs !! path = Some (Csv df) ->
      RoundRobin.load_jobs fs path = Py.Ok jobs ->
      (forall jid j, Py.get jobs jid = Some j ->
         exists i c_id c_arr,
           Py.getattr df i "job_id" = Py.Ok c_id /\ Py.str c_id = jid /\
           Py.getattr df i "arrival_time_ms" = Py.Ok c_arr /\
           Py.int c_arr = Py.Ok (RoundRobin.arrival_ms j)) /\
      (forall i c_id, (i < Py.nrows df)%nat ->
         Py.getattr df i "job_id" = Py.Ok c_id ->
         (forall i' c', (i' < Py.nrows df)%nat -> i' <> i ->
            Py.getattr df i' "job_id" = Py.Ok c' -> Py.str c' <> Py.str c_id) ->
         exists c_arr j,
           Py.getattr df i "arrival_time_ms" = Py.Ok c_arr /\
           Py.get jobs (Py.str c_id) = Some j /\
           Py.int c_arr = Py.Ok (RoundRobin.arrival_ms j))) /\
   (forall cfg now_slots now_start fresh_id req w w' rid sigs run,
      RoundRobin.start cfg now_slots now_start fresh_id req w = (Py.Ok rid, w', sigs) ->
      RoundRobin.ACTIVE_RUN w' = Some run ->
      forall jid j, Py.get (RoundRobin.jobs run) jid = Some j ->
        (In jid (RoundRobin.ready_q run) <-> RoundRobin.arrival_ms j <= 0) /\
        (In jid (RoundRobin.unreleased run) <-> 0 < RoundRobin.arrival_ms j))).
Proof.
  split; [|split; [|split]].
  - split; [exact fifo_load_default_arrival|]. split; [exact fifo_load_no_arrival|].
    split; [exact fifo_load_jobs_arrival|].
    intros cfg ns nst fid req w w' rid sigs run Hs Hr jid j Hj.
    destruct (fifo_start_installs _ _ _ _ _ _ _ _ _ Hs) as (run0 & Hr0 & Hl & Hq & Hp & _).
    rewrite Hr in Hr0. injection Hr0 as <-. rewrite Hq, Hp.
    apply fifo_partition; [|assumption]. eapply fifo_load_jobs_nodup. exact Hl.
  - split; [exact prio_load_default_arrival|]. split; [exact prio_load_no_arrival|].
    split; [exact prio_load_jobs_arrival|].
    intros cfg ns nst fid req w w' rid sigs run Hs Hr jid j Hj.
    destruct (prio_start_installs _ _ _ _ _ _ _ _ _ Hs) as (run0 & Hr0 & Hl & Hf & _).
    rewrite Hr in Hr0. injection Hr0 as <-.
    apply (prio_partition _ _ _ _ _ _ Hf); [|assumption].
    eapply prio_load_jobs_nodup. exact Hl.
  - intros cfg ns nst fid req w w' rid sigs run Hs Hr jid j Hj.
    destruct (rr_start_installs _ _ _ _ _ _ _ _ _ Hs) as (run0 & Hr0 & Hl & Hq & _).
    rewrite Hr in Hr0. injection Hr0 as <-.
    destruct (rr_load_jobs_fresh _ _ _ Hl jid j Hj) as (_ & _ & _ & Ha & _).
    split; [assumption|]. rewrite Hq. eapply dict_get_keys. exact Hj.
  - split; [exact rrobin_load_requires_arrival|].
    split; [exact rrobin_load_jobs_arrival|].
    intros cfg ns nst fid req w w' rid sigs run Hs Hr.
    exact (proj2 (proj2 (proj2 (rrobin_partition _ _ _ _ _ _ _ _ _ _ Hs Hr)))).
Qed.

(** [plain.csv] under FIFO loads like the frame with the zero column.
    [late.csv] has the column: row 1 says 1000 for [B], the loaded job
    [B] arrives at 1000, and after [/start] it is pending and not
    ready. *)
Lemma arrival_column_witness :
  Fifo.load_jobs Sample.datasets "/data/plain.csv"
  = Fifo.load_jobs
      (<["/data/plain.csv" := Csv (with_zero_arrivals Sample.plain_csv)]> Sample.datasets)
      "/data/plain.csv" /\
  (exists c_arr j,
     Py.getattr Sample.late_csv 1 "arrival_time_ms" = Py.Ok c_arr /\
     Py.get (Fifo.jobs (Sample.fifo_run Sample.fifo_late)) (Py.str (Py.CStr "B")) = Some j /\
     Py.int c_arr = Py.Ok (Fifo.arrival_ms j)) /\
  Py.getattr Sample.late_csv 1 "arrival_time_ms" = Py.Ok (Py.CInt 1000) /\
  ((In "B" (Fifo.ready_q (Sample.fifo_run Sample.fifo_late))
    <-> Fifo.arrival_ms (Fifo.new_job "B" 100 1000) <= 0) /\
   (In "B" (Fifo.pending_jobs (Sample.fifo_run Sample.fifo_late))
    <-> 0 < Fifo.arrival_ms (Fifo.new_job "B" 100 1000))).
Proof.
  split; [|split; [|split]].
  - exact (proj1 (proj1 arrival_column) Sample.datasets "/data/plain.csv"
             Sample.plain_csv eq_refl eq_refl).
  - apply (proj2 (proj1 (proj2 (proj2 (proj1 arrival_column))) Sample.datasets
                    "/data/late.csv" Sample.late_csv
                    (Fifo.jobs (Sample.fifo_run Sample.fifo_late))
                    eq_refl eq_refl eq_refl) 1%nat (Py.CStr "B")).
    + simpl. lia.
    + reflexivity.
    + intros i' c' Hi'. simpl in Hi'. lia.
  - reflexivity.
  - exact (proj2 (proj2 (proj2 (proj1 arrival_column))) default_config 1%Q 1%Q
             "run0000001" (Sample.fifo_start "late.csv") Sample.fifo_idle
             Sample.fifo_late "run0000001" [notify_all]
             (Sample.fifo_run Sample.fifo_late) eq_refl eq_refl
             "B" (Fifo.new_job "B" 100 1000) eq_refl).
Defined.

(** ** The completion counter stays within the number of jobs

    In a run that is not finalized, [completed <= total_jobs]: so a run
    that is neither finalized nor at [completed = total_jobs] has
    [completed < total_jobs], which is how the dispatch case of [/next] is
    stated above. The bound holds after [/start] and is kept by [/done];
    a pass of [/next] changes neither the counter nor the flag. *)

Lemma fifo_rows_nonempty (run : Fifo.RunState) (jid : string) (j : Fifo.JobState) :
  Py.get (Fifo.jobs run) jid = Some j ->
  Fifo.start_ms j <> None -> Fifo.finish_ms j <> None ->
  (Py.len (Fifo.result_rows run) =? 0) = false.
Proof.
  intros Hj Hs Hf. unfold Fifo.result_rows, Py.len.
  destruct (flat_map Fifo.row_of (Py.values (Fifo.jobs run))) as [|r rs] eqn:E;
    [|reflexivity].
  exfalso. apply dict_get_In_values in Hj.
  assert (Hin : In j (Py.values (Fifo.jobs run)) /\ Fifo.row_of j <> []).
  { split; [assumption|]. unfold Fifo.row_of.
    destruct (Fifo.finish_ms j); [|congruence].
    destruct (Fifo.start_ms j); [discriminate | congruence]. }
  destruct Hin as [Hin Hrow]. destruct (Fifo.row_of j) as [|r rs] eqn:Er; [congruence|].
  assert (In r (flat_map Fifo.row_of (Py.values (Fifo.jobs run)))).
  { apply in_flat_map. exists j. split; [assumption|]. rewrite Er. now left. }
  rewrite E in H. destruct H.
Qed.

Lemma fifo_completed_bound (cfg : Config) (now now_final : Q) (req : Fifo.DoneReq)
    (w : Fifo.World) (run run' : Fifo.RunState) :
  Fifo.ACTIVE_RUN w = Some run ->
  (Fifo.done run = false -> Fifo.completed run <= Fifo.total_jobs run) ->
  Fifo.ACTIVE_RUN (snd (fst (Fifo.done_handler cfg now now_final req w))) = Some run' ->
  Fifo.done run' = false -> Fifo.completed run' <= Fifo.total_jobs run'.
Proof.
  intros Hrun Hinv. unfold Fifo.done_handler.
  destruct (negb _); simpl; [rewrite Hrun; intros H; now injection H as <-|].
  rewrite Hrun.
  destruct (Fifo.done run) eqn:Hd; simpl;
    [rewrite Hrun; intros H; injection H as <-; intros; congruence|].
  destruct (Py.get (Fifo.jobs run) (Fifo.dr_job_id req)) as [job|]; simpl;
    [|rewrite Hrun; intros H; injection H as <-; intros; auto].
  match goal with
  | |- context [if ?c then _ else _] => destruct c eqn:Ec
  end.
  - unfold Fifo.finalize_run.
    match goal with
    | |- context [Fifo.result_rows ?r] =>
        rewrite (fifo_rows_nonempty r (Fifo.dr_job_id req) _
                   (dict_get_set_same _ _ _)) by (simpl; discriminate)
    end.
    simpl. intros H. injection H as <-. simpl. discriminate.
  - simpl in Ec. apply Z.leb_gt in Ec. simpl. intros H. injection H as <-. simpl. lia.
Qed.

Lemma prio_rows_nonempty (run : Priority.RunState) (jid : string)
    (j : Priority.JobState) :
  Py.get (Priority.jobs run) jid = Some j ->
  Priority.start_ms j <> None -> Priority.finish_ms j <> None ->
  Priority.result_rows run <> [].
Proof.
  intros Hj Hs Hf. unfold Priority.result_rows. intros E.
  apply dict_get_In_values in Hj.
  destruct (Priority.row_of j) as [|r rs] eqn:Er.
  - unfold Priority.row_of in Er.
    destruct (Priority.start_ms j); [|congruence].
    destruct (Priority.finish_ms j); [discriminate | congruence].
  - assert (In r (flat_map Priority.row_of (Py.values (Priority.jobs run)))).
    { apply in_flat_map. exists j. split; [assumption|]. rewrite Er. now left. }
    rewrite E in H. destruct H.
Qed.

Lemma prio_completed_bound (cfg : Config) (now now_final : Q) (req : Priority.DoneReq)
    (w : Priority.World) (run run' : Priority.RunState) :
  Priority.ACTIVE_RUN w = Some run ->
  (Priority.done run = false -> Priority.completed run <= Priority.total_jobs run) ->
  Priority.ACTIVE_RUN (snd (fst (Priority.done_handler cfg now now_final req w)))
    = Some run' ->
  Priority.done run' = false -> Priority.completed run' <= Priority.total_jobs run'.
Proof.
  intros Hrun Hinv. unfold Priority.done_handler.
  destruct (negb _); simpl; [rewrite Hrun; intros H; now injection H as <-|].
  rewrite Hrun.
  destruct (Priority.done run) eqn:Hd; simpl;
    [rewrite Hrun; intros H; injection H as <-; intros; congruence|].
  destruct (Py.get (Priority.jobs run) (Priority.dr_job_id req)) as [job|]; simpl;
    [|rewrite Hrun; intros H; injection H as <-; intros; auto].
  match goal with
  | |- context [if ?c then _ else _] => destruct c eqn:Ec
  end.
  - unfold Priority.finalize_run.
    match goal with
    | |- context [Priority.result_rows ?r] =>
        pose proof (prio_rows_nonempty r (Priority.dr_job_id req) _
                      (dict_get_set_same _ _ _)) as Hne;
        destruct (Priority.result_rows r)
    end.
    + exfalso. apply Hne; simpl; congruence.
    + simpl. intros H. injection H as <-. simpl. discriminate.
  - simpl in Ec. apply Z.leb_gt in Ec. simpl. intros H. injection H as <-. simpl. lia.
Qed.

Lemma rr_rows_nonempty (run : RR.RunState) (jid : string) (j : RR.JobState) :
  Py.get (RR.jobs run) jid = Some j ->
  RR.finish_ms j <> None ->
  RR.result_rows run <> [].
Proof.
  intros Hj Hf. unfold RR.result_rows. intros E.
  apply dict_get_In_values in Hj.
  destruct (RR.row_of j) as [|r rs] eqn:Er.
  - unfold RR.row_of in Er. destruct (RR.finish_ms j); [discriminate | congruence].
  - assert (In r (flat_map RR.row_of (Py.values (RR.jobs run)))).
    { apply in_flat_map. exists j. split; [assumption|]. rewrite Er. now left. }
    rewrite E in H. destruct H.
Qed.

Lemma rr_completed_bound (cfg : Config) (now now_final : Q) (req : RR.DoneReq)
    (w : RR.World) (run run' : RR.RunState) :
  RR.ACTIVE_RUN w = Some run ->
  (RR.done run = false -> RR.completed run <= RR.total_jobs run) ->
  RR.ACTIVE_RUN (snd (fst (RR.done_handler cfg now now_final req w))) = Some run' ->
  RR.done run' = false -> RR.completed run' <= RR.total_jobs run'.
Proof.
  intros Hrun Hinv. unfold RR.done_handler.
  destruct (negb _); simpl; [rewrite Hrun; intros H; now injection H as <-|].
  rewrite Hrun.
  destruct (RR.done run) eqn:Hd; simpl;
    [rewrite Hrun; intros H; injection H as <-; intros; congruence|].
  destruct (Py.get (RR.jobs run) (RR.dr_job_id req)) as [job|]; simpl;
    [|rewrite Hrun; intros H; injection H as <-; intros; auto].
  specialize (Hinv eq_refl).
  destruct (Z.max 0 (RR.remaining_after_ms req) =? 0) eqn:Erem;
    match goal with
    | |- context [if ?c then _ else _] => destruct c eqn:Ec
    end; simpl in Ec;
    try (apply Z.leb_gt in Ec; simpl; intros H; injection H as <-; simpl; lia).
  - match goal with
    | |- context [RR.finalize_run ?c ?W ?n ?r] =>
        destruct (RR.finalize_run c W n r) as [[run2 files]|e] eqn:Efin
    end; simpl.
    + destruct (rr_finalize_frame _ _ _ _ _ _ Efin) as (_ & _ & _ & Hdone).
      intros H. injection H as <-. congruence.
    + exfalso. unfold RR.finalize_run in Efin.
      match type of Efin with
      | context [RR.result_rows ?r] =>
          pose proof (rr_rows_nonempty r (RR.dr_job_id req) _
                        (dict_get_set_same _ _ _)) as Hne;
          destruct (RR.result_rows r); [|discriminate]
      end.
      apply Hne; [|reflexivity]. unfold RR.record_slice. simpl. rewrite Erem.
      discriminate.
  - match goal with
    | |- context [RR.finalize_run ?c ?W ?n ?r] =>
        destruct (RR.finalize_run c W n r) as [[run2 files]|e] eqn:Efin
    end; simpl.
    + destruct (rr_finalize_frame _ _ _ _ _ _ Efin) as (_ & _ & _ & Hdone).
      intros H. injection H as <-. congruence.
    + intros H. injection H as <-. simpl. lia.
Qed.

Lemma rrobin_completed_bound (cfg : Config) (now now_final : Q)
    (req : RoundRobin.DoneReq) (w : RoundRobin.World) (run run' : RoundRobin.RunState) :
  RoundRobin.ACTIVE_RUN w = Some run ->
  (RoundRobin.done run = false ->
   RoundRobin.completed run <= RoundRobin.total_jobs run) ->
  RoundRobin.ACTIVE_RUN (snd (fst (RoundRobin.done_handler cfg now now_final req w)))
    = Some run' ->
  RoundRobin.done run' = false ->
  RoundRobin.completed run' <= RoundRobin.total_jobs run'.
Proof.
  intros Hrun Hinv. unfold RoundRobin.done_handler.
  destruct (negb _); simpl; [rewrite Hrun; intros H; now injection H as <-|].
  rewrite Hrun.
  destruct (RoundRobin.done run) eqn:Hd; simpl;
    [rewrite Hrun; intros H; injection H as <-; intros; congruence|].
  destruct (Py.get (RoundRobin.jobs run) (RoundRobin.dr_job_id req)) as [job|]; simpl;
    [|rewrite Hrun; intros H; injection H as <-; intros; auto].
  match goal with
  | |- context [if ?c then _ else _] => destruct c eqn:Ec
  end; simpl; intros H; injection H as <-; simpl; [discriminate|].
  intros _. apply Z.leb_gt in Ec. simpl in Ec. lia.
Qed.

(** * Further properties of the services *)

(** ** The worker registry *)

Lemma registry_alive_iff (cfg : Config) (W : Registry.Workers) (now : Q)
    (wid : string) (c : Z) :
  Registry.is_alive_worker_core cfg W now wid c = true <->
  exists info, W !! wid = Some info /\
    (now - Registry.last_seen info <= WORKER_TIMEOUT_SEC cfg)%Q /\
    0 <= c < Registry.cores info.
Proof.
  unfold Registry.is_alive_worker_core. destruct (W !! wid) as [info|].
  - destruct (Qle_bool _ _) eqn:E; simpl.
    + apply Qle_bool_iff in E. rewrite andb_true_iff, Z.leb_le, Z.ltb_lt.
      split; [intros H; exists info; auto | intros (i & Hi & _ & H); now injection Hi as <-].
    + split; [discriminate|]. intros (i & Hi & H & _). injection Hi as <-.
      apply Qle_bool_iff in H. congruence.
  - split; [discriminate | intros (i & Hi & _); discriminate].
Qed.

(** X1. After [/register] of a worker with [n] cores at time [t], a core
    of that worker counts as alive exactly when the clock is at most
    [WORKER_TIMEOUT_SEC] past [t] and the core id is in [0 .. n-1]; the
    other workers are judged as before. *)
Theorem registered_cores_alive (cfg : Config) (W : Registry.Workers) (t now : Q)
    (wid : string) (n c : Z) :
  (Registry.is_alive_worker_core cfg (Registry.register W t wid n) now wid c = true <->
   (now - t <= WORKER_TIMEOUT_SEC cfg)%Q /\ 0 <= c < n) /\
  (forall other, other <> wid ->
     Registry.is_alive_worker_core cfg (Registry.register W t wid n) now other c
     = Registry.is_alive_worker_core cfg W now other c).
Proof.
  split.
  - rewrite registry_alive_iff. unfold Registry.register. rewrite lookup_insert_eq.
    split.
    + intros (info & Hi & H). injection Hi as <-. exact H.
    + intros H. eexists. split; [reflexivity | exact H].
  - intros other Hne. unfold Registry.is_alive_worker_core, Registry.register.
    rewrite lookup_insert_ne by congruence. reflexivity.
Qed.

(** X2. [/heartbeat] of a worker that never registered answers
    [ok: false] and leaves the registry as it is; that of a registered
    worker answers [ok: true], keeps its cores and the other workers, and
    from then on its cores are alive exactly until [WORKER_TIMEOUT_SEC]
    after the heartbeat. *)
Theorem heartbeat_refreshes (cfg : Config) (W : Registry.Workers) (t : Q) (wid : string) :
  (W !! wid = None -> Registry.heartbeat W t wid = (false, W)) /\
  (forall info, W !! wid = Some info ->
     exists W',
       Registry.heartbeat W t wid = (true, W') /\
       W' !! wid = Some {| Registry.cores := Registry.cores info;
                           Registry.last_seen := t |} /\
       (forall other, other <> wid -> W' !! other = W !! other) /\
       (forall now c,
          Registry.is_alive_worker_core cfg W' now wid c = true <->
          (now - t <= WORKER_TIMEOUT_SEC cfg)%Q /\ 0 <= c < Registry.cores info)).
Proof.
  unfold Registry.heartbeat. split.
  - intros H. now rewrite H.
  - intros info H. rewrite H. eexists. split; [reflexivity|].
    split; [apply lookup_insert_eq|]. split.
    + intros other Hne. apply lookup_insert_ne. congruence.
    + intros now c. rewrite registry_alive_iff, lookup_insert_eq. split.
      * intros (i & Hi & Hc). injection Hi as <-. exact Hc.
      * intros Hc. eexists. split; [reflexivity | exact Hc].
Qed.

Lemma alive_slots_comm (cfg : Config) (now : Q)
    (z1 z2 : Registry.WorkerInfo) (y : Z) :
  (if Qle_bool (now - Registry.last_seen z1) (WORKER_TIMEOUT_SEC cfg)
   then Registry.cores z1 +
        (if Qle_bool (now - Registry.last_seen z2) (WORKER_TIMEOUT_SEC cfg)
         then Registry.cores z2 + y else y)
   else (if Qle_bool (now - Registry.last_seen z2) (WORKER_TIMEOUT_SEC cfg)
         then Registry.cores z2 + y else y))
  = (if Qle_bool (now - Registry.last_seen z2) (WORKER_TIMEOUT_SEC cfg)
     then Registry.cores z2 +
          (if Qle_bool (now - Registry.last_seen z1) (WORKER_TIMEOUT_SEC cfg)
           then Registry.cores z1 + y else y)
     else (if Qle_bool (now - Registry.last_seen z1) (WORKER_TIMEOUT_SEC cfg)
           then Registry.cores z1 + y else y)).
Proof.
  destruct (Qle_bool _ _), (Qle_bool _ _); lia.
Qed.

Lemma alive_slots_insert (cfg : Config) (W : Registry.Workers) (now : Q)
    (wid : string) (info : Registry.WorkerInfo) :
  Registry.total_alive_slots cfg (<[wid := info]> W) now
  = (if Qle_bool (now - Registry.last_seen info) (WORKER_TIMEOUT_SEC cfg)
     then Registry.cores info else 0)
    + Registry.total_alive_slots cfg (delete wid W) now.
Proof.
  unfold Registry.total_alive_slots. rewrite <- insert_delete_eq.
  rewrite map_fold_insert_L.
  - destruct (Qle_bool _ _); reflexivity.
  - intros. apply alive_slots_comm.
  - apply lookup_delete_eq.
Qed.

(** X3. [total_alive_slots] is 0 on an empty registry and when every
    worker has timed out; registering a worker replaces what it counted
    for before by its new cores (nothing, once timed out), and a heartbeat
    does the same with the cores it had. *)
Theorem alive_slots_count (cfg : Config) (W : Registry.Workers) (t now : Q)
    (wid : string) (n : Z) :
  Registry.total_alive_slots cfg ∅ now = 0 /\
  Registry.total_alive_slots cfg (Registry.register W t wid n) now
  = (if Qle_bool (now - t) (WORKER_TIMEOUT_SEC cfg) then n else 0)
    + Registry.total_alive_slots cfg (delete wid W) now /\
  (W !! wid = None ->
   Registry.total_alive_slots cfg (Registry.register W t wid n) now
   = (if Qle_bool (now - t) (WORKER_TIMEOUT_SEC cfg) then n else 0)
     + Registry.total_alive_slots cfg W now) /\
  (forall info, W !! wid = Some info ->
   Registry.total_alive_slots cfg (snd (Registry.heartbeat W t wid)) now
   = (if Qle_bool (now - t) (WORKER_TIMEOUT_SEC cfg) then Registry.cores info else 0)
     + Registry.total_alive_slots cfg (delete wid W) now) /\
  ((forall w info, W !! w = Some info ->
      ~ (now - Registry.last_seen info <= WORKER_TIMEOUT_SEC cfg)%Q) ->
   Registry.total_alive_slots cfg W now = 0).
Proof.
  split; [reflexivity|]. split; [apply alive_slots_insert|]. split; [|split].
  - intros H. unfold Registry.register. rewrite alive_slots_insert.
    rewrite delete_id by assumption. reflexivity.
  - intros info H. unfold Registry.heartbeat. rewrite H. simpl.
    rewrite alive_slots_insert. reflexivity.
  - unfold Registry.total_alive_slots.
    induction W as [|w info W Hw _ IH] using map_first_key_ind.
    + reflexivity.
    + intros Hall. rewrite map_fold_insert_L.
      * destruct (Qle_bool _ _) eqn:E.
        -- apply Qle_bool_iff in E. exfalso. eapply Hall; [apply lookup_insert_eq | exact E].
        -- apply IH. intros w' info' Hl. apply (Hall w').
           rewrite lookup_insert_ne; [assumption|]. intros ->. congruence.
      * intros. apply alive_slots_comm.
      * assumption.
Qed.

(** ** The listing of [GET /workers] *)

Section SortStrFacts.
Context {A : Type} (key : A -> string).

Lemma insert_str_perm (x : A) (l : list A) :
  Permutation (x :: l) (Py.insert_str key x l).
Proof.
  induction l as [|y l IH]; simpl; [reflexivity|].
  destruct (String.ltb (key y) (key x)); [|reflexivity].
  rewrite perm_swap. now apply perm_skip.
Qed.

Lemma sorted_str_perm (l : list A) : Permutation l (Py.sorted_str key l).
Proof.
  induction l as [|x l IH]; simpl; [constructor|].
  rewrite <- insert_str_perm. now apply perm_skip.
Qed.

Lemma insert_str_sorted (x : A) (l : list A) :
  StronglySorted (fun a b => String.ltb (key b) (key a) = false) l ->
  StronglySorted (fun a b => String.ltb (key b) (key a) = false) (Py.insert_str key x l).
Proof.
  induction 1 as [|y l Hs IH Hy]; simpl.
  - constructor; constructor.
  - destruct (String.ltb (key y) (key x)) eqn:E.
    + constructor; [assumption|].
      rewrite List.Forall_forall. intros z Hz.
      apply (Permutation_in _ (Permutation_sym (insert_str_perm x l))) in Hz.
      destruct Hz as [<-|Hz].
      * now apply string_ltb_asym.
      * rewrite List.Forall_forall in Hy. now apply Hy.
    + constructor; [now constructor|].
      constructor; [assumption|].
      rewrite List.Forall_forall in *. intros z Hz.
      eapply string_ltb_negtrans; [apply Hy, Hz | exact E].
Qed.

Lemma sorted_str_sorted (l : list A) :
  StronglySorted (fun a b => String.ltb (key b) (key a) = false) (Py.sorted_str key l).
Proof.
  induction l; simpl; [constructor | now apply insert_str_sorted].
Qed.

End SortStrFacts.

Lemma string_ltb_total (a b : string) :
  String.ltb b a = false -> a <> b -> String.ltb a b = true.
Proof.
  unfold String.ltb. rewrite (String.compare_antisym a b).
  destruct (String.compare b a) eqn:E; simpl; intros H Hne; try congruence.
  apply String.compare_eq_iff in E. congruence.
Qed.

Lemma strongly_sorted_strict {A : Type} (key : A -> string) (l : list A) :
  List.NoDup (map key l) ->
  StronglySorted (fun a b => String.ltb (key b) (key a) = false) l ->
  StronglySorted (fun a b => String.ltb (key a) (key b) = true) l.
Proof.
  induction l as [|x l IH]; intros Hnd Hs; [constructor|].
  inversion Hnd as [|? ? Hx Hnd']; subst. inversion Hs as [|? ? Hs' Hall]; subst.
  constructor; [auto|].
  rewrite List.Forall_forall in *. intros y Hy.
  apply string_ltb_total; [auto|].
  intros E. apply Hx. rewrite E. now apply in_map.
Qed.

Lemma workers_loop (cfg : Config) (now : Q) (items : list (string * Registry.WorkerInfo))
    (alive : list (string * Z)) (total : Z) :
  fold_left (Registry.workers_turn cfg now) items (alive, total)
  = (alive ++ map (fun it => (fst it, Registry.cores (snd it)))
               (List.filter (fun it => Qle_bool (now - Registry.last_seen (snd it))
                                         (WORKER_TIMEOUT_SEC cfg)) items),
     total + foldr (fun it acc =>
                      if Qle_bool (now - Registry.last_seen (snd it)) (WORKER_TIMEOUT_SEC cfg)
                      then Registry.cores (snd it) + acc else acc) 0 items).
Proof.
  revert alive total. induction items as [|[wid info] items IH]; intros alive total; simpl.
  - now rewrite app_nil_r, Z.add_0_r.
  - destruct (Qle_bool _ _); rewrite IH; simpl.
    + rewrite <- app_assoc. simpl. f_equal. lia.
    + reflexivity.
Qed.

(** X4. [GET /workers] lists exactly the workers that have not timed out,
    each once with its cores, in strictly ascending order of worker id;
    [worker_count] is the length of the list, [total_slots] is what
    [total_alive_slots] computes at the same clock reading, and the
    cores that [is_alive_worker_core] accepts for a listed worker are
    those below its listed count. *)
Theorem workers_listing (cfg : Config) (W : Registry.Workers) (now : Q) :
  let r := Registry.workers cfg W now in
  Registry.total_slots r = Registry.total_alive_slots cfg W now /\
  Registry.worker_count r = Py.len (Registry.alive_workers r) /\
  StronglySorted (fun a b => String.ltb (fst a) (fst b) = true) (Registry.alive_workers r) /\
  (forall wid c,
     In (wid, c) (Registry.alive_workers r) <->
     exists info, W !! wid = Some info /\
       (now - Registry.last_seen info <= WORKER_TIMEOUT_SEC cfg)%Q /\
       c = Registry.cores info) /\
  (forall wid c core,
     In (wid, c) (Registry.alive_workers r) ->
     (Registry.is_alive_worker_core cfg W now wid core = true <-> 0 <= core < c)).
Proof.
  unfold Registry.workers. rewrite workers_loop. simpl.
  set (alive := map _ (List.filter _ (map_to_list W))).
  assert (Hmem : forall wid c, In (wid, c) alive <->
            exists info, W !! wid = Some info /\
              (now - Registry.last_seen info <= WORKER_TIMEOUT_SEC cfg)%Q /\
              c = Registry.cores info).
  { intros wid c. unfold alive. rewrite in_map_iff. split.
    - intros ([w info] & E & Hin). simpl in E. injection E as -> <-.
      apply filter_In in Hin. destruct Hin as [Hin Ha]. simpl in Ha.
      apply Qle_bool_iff in Ha. exists info. split; [|auto].
      apply elem_of_map_to_list. now apply list_elem_of_In.
    - intros (info & Hl & Ha & ->). exists (wid, info). split; [reflexivity|].
      apply filter_In. split.
      + apply list_elem_of_In. now apply elem_of_map_to_list.
      + simpl. now apply Qle_bool_iff. }
  assert (Hnd : List.NoDup (map fst alive)).
  { unfold alive. rewrite map_map. simpl.
    assert (Hk : List.NoDup (map fst (map_to_list W))).
    { apply NoDup_ListNoDup. apply NoDup_fst_map_to_list. }
    revert Hk. generalize (map_to_list W). intros l.
    induction l as [|[w i] l IH]; simpl; intros Hk; [constructor|].
    inversion Hk as [|? ? Hw Hk']; subst.
    destruct (Qle_bool _ _); simpl; [|auto].
    constructor; [|auto]. intros Hin. apply Hw.
    apply in_map_iff in Hin. destruct Hin as (x & <- & Hx).
    apply filter_In in Hx. apply in_map. tauto. }
  split.
  - unfold Registry.total_alive_slots. rewrite map_fold_foldr.
    rewrite Z.add_0_l. generalize (map_to_list W). intros l.
    induction l as [|[w i] l IH]; simpl; [reflexivity|]. now rewrite IH.
  - split; [reflexivity|]. split; [|split].
    + apply strongly_sorted_strict; [|apply sorted_str_sorted].
      eapply Permutation_NoDup; [|exact Hnd].
      apply Permutation_map. apply sorted_str_perm.
    + intros wid c. rewrite <- Hmem. split; intros H.
      * eapply Permutation_in; [apply Permutation_sym, sorted_str_perm | exact H].
      * eapply Permutation_in; [apply sorted_str_perm | exact H].
    + intros wid c core H.
      apply (Permutation_in _ (Permutation_sym (sorted_str_perm fst alive))) in H.
      apply Hmem in H. destruct H as (info & Hl & Ha & ->).
      rewrite registry_alive_iff. split.
      * intros (i & Hi & _ & Hc). rewrite Hl in Hi. now injection Hi as <-.
      * intros Hc. exists info. auto.
Qed.

(** ** The simulated clock *)

Lemma round_bounds (x : Q) :
  Qfloor x <= Py.round x <= Qfloor x + 1.
Proof.
  unfold Py.round. destruct (Qcompare _ _); [destruct (Z.even _)| |]; lia.
Qed.

Lemma round_nearest (x : Q) :
  (-(1 # 2) <= inject_Z (Py.round x) - x <= 1 # 2)%Q.
Proof.
  unfold Py.round.
  pose proof (Qfloor_le x) as Hlo. pose proof (Qlt_floor x) as Hhi.
  rewrite inject_Z_plus in Hhi. change (inject_Z 1) with 1%Q in Hhi.
  destruct (Qcompare_spec (x - inject_Z (Qfloor x)) (1 # 2)) as [E|E|E].
  - destruct (Z.even (Qfloor x));
      [|rewrite inject_Z_plus; change (inject_Z 1) with 1%Q]; lra.
  - lra.
  - rewrite inject_Z_plus. change (inject_Z 1) with 1%Q. lra.
Qed.

Lemma round_inject_Z (z : Z) : Py.round (inject_Z z) = z.
Proof.
  unfold Py.round. rewrite Qfloor_Z.
  destruct (Qcompare_spec (inject_Z z - inject_Z z) (1 # 2)) as [E|E|E];
    [exfalso; lra | reflexivity | exfalso; lra].
Qed.

Lemma round_mono (x y : Q) : (x <= y)%Q -> Py.round x <= Py.round y.
Proof.
  intros Hxy. pose proof (Qfloor_resp_le _ _ Hxy) as Hf.
  pose proof (round_bounds x) as Hx. pose proof (round_bounds y) as Hy.
  destruct (Z.eq_dec (Qfloor x) (Qfloor y)) as [E|E]; [|lia].
  unfold Py.round. rewrite <- E.
  destruct (Qcompare_spec (x - inject_Z (Qfloor x)) (1 # 2)) as [E1|E1|E1];
    destruct (Qcompare_spec (y - inject_Z (Qfloor x)) (1 # 2)) as [E2|E2|E2];
    try destruct (Z.even (Qfloor x)); try lia; exfalso; lra.
Qed.

Lemma round_proper (x y : Q) : (x == y)%Q -> Py.round x = Py.round y.
Proof.
  intros E. apply Z.le_antisymm; apply round_mono; rewrite E; apply Qle_refl.
Qed.

Lemma clock_facts (start : Z) (speedup : Q) :
  Py.round (inject_Z (start - start) * speedup) = 0 /\
  ((0 <= speedup)%Q -> forall w1 w2, w1 <= w2 ->
     Py.round (inject_Z (w1 - start) * speedup)
     <= Py.round (inject_Z (w2 - start) * speedup)) /\
  (forall k w, (speedup == inject_Z k)%Q ->
     Py.round (inject_Z (w - start) * speedup) = (w - start) * k) /\
  (forall w,
     (-(1 # 2) <= inject_Z (Py.round (inject_Z (w - start) * speedup))
                  - inject_Z (w - start) * speedup <= 1 # 2)%Q).
Proof.
  split; [|split; [|split]].
  - rewrite Z.sub_diag. rewrite (round_proper _ (inject_Z 0)); [apply round_inject_Z|].
    ring.
  - intros Hs w1 w2 Hw. apply round_mono. apply Qmult_le_compat_r; [|assumption].
    rewrite <- Zle_Qle. lia.
  - intros k w E. rewrite (round_proper _ (inject_Z ((w - start) * k)));
      [apply round_inject_Z|].
    rewrite E, inject_Z_mult. reflexivity.
  - intros w. apply round_nearest.
Qed.

(** X5. [wall_to_sim] in the four services: the start of the run is
    simulated time 0; with a speedup that is not negative the conversion
    is monotone; with a whole speedup [k] it is exactly
    [(wall_ms - start_wall_ms) * k]; and it is never more than half a
    millisecond away from the exact product. *)
Theorem wall_to_sim_clock :
  (forall run : Fifo.RunState,
     Fifo.wall_to_sim run (Fifo.start_wall_ms run) = 0 /\
     ((0 <= Fifo.speedup run)%Q -> forall w1 w2, w1 <= w2 ->
        Fifo.wall_to_sim run w1 <= Fifo.wall_to_sim run w2) /\
     (forall k w, (Fifo.speedup run == inject_Z k)%Q ->
        Fifo.wall_to_sim run w = (w - Fifo.start_wall_ms run) * k) /\
     (forall w,
        (-(1 # 2) <= inject_Z (Fifo.wall_to_sim run w)
                     - inject_Z (w - Fifo.start_wall_ms run) * Fifo.speedup run
         <= 1 # 2)%Q)) /\
  (forall run : Priority.RunState,
     Priority.wall_to_sim run (Priority.start_wall_ms run) = 0 /\
     ((0 <= Priority.speedup run)%Q -> forall w1 w2, w1 <= w2 ->
        Priority.wall_to_sim run w1 <= Priority.wall_to_sim run w2) /\
     (forall k w, (Priority.speedup run == inject_Z k)%Q ->
        Priority.wall_to_sim run w = (w - Priority.start_wall_ms run) * k) /\
     (forall w,
        (-(1 # 2) <= inject_Z (Priority.wall_to_sim run w)
                     - inject_Z (w - Priority.start_wall_ms run) * Priority.speedup run
         <= 1 # 2)%Q)) /\
  (forall run : RR.RunState,
     RR.wall_to_sim run (RR.start_wall_ms run) = 0 /\
     ((0 <= RR.speedup run)%Q -> forall w1 w2, w1 <= w2 ->
        RR.wall_to_sim run w1 <= RR.wall_to_sim run w2) /\
     (forall k w, (RR.speedup run == inject_Z k)%Q ->
        RR.wall_to_sim run w = (w - RR.start_wall_ms run) * k) /\
     (forall w,
        (-(1 # 2) <= inject_Z (RR.wall_to_sim run w)
                     - inject_Z (w - RR.start_wall_ms run) * RR.speedup run
         <= 1 # 2)%Q)) /\
  (forall run : RoundRobin.RunState,
     RoundRobin.wall_to_sim run (RoundRobin.start_wall_ms run) = 0 /\
     ((0 <= RoundRobin.speedup run)%Q -> forall w1 w2, w1 <= w2 ->
        RoundRobin.wall_to_sim run w1 <= RoundRobin.wall_to_sim run w2) /\
     (forall k w, (RoundRobin.speedup run == inject_Z k)%Q ->
        RoundRobin.wall_to_sim run w = (w - RoundRobin.start_wall_ms run) * k) /\
     (forall w,
        (-(1 # 2) <= inject_Z (RoundRobin.wall_to_sim run w)
                     - inject_Z (w - RoundRobin.start_wall_ms run) * RoundRobin.speedup run
         <= 1 # 2)%Q)).
Proof.
  repeat split; intros; try apply clock_facts; try assumption.
Qed.

(** ** The FIFO service: what every sequence of steps keeps *)

Lemma filter_split_perm {A : Type} (f : A -> bool) (l : list A) :
  Permutation l (List.filter f l ++ List.filter (fun x => negb (f x)) l).
Proof.
  induction l as [|x l IH]; simpl; [constructor|].
  destruct (f x); simpl.
  - now apply perm_skip.
  - apply Permutation_cons_app. exact IH.
Qed.

Lemma ids_known_set {V : Type} (d : Py.dict V) (k : string) (v : V) (ids : list string) :
  ids_known d ids -> ids_known (Py.set d k v) ids.
Proof.
  intros H jid Hin. destruct (H jid Hin) as [job Hj].
  destruct (String.eqb_spec k jid) as [->|Hne].
  - exists v. apply dict_get_set_same.
  - exists job. rewrite dict_get_set_other; [assumption|]. congruence.
Qed.

Lemma dict_len_set_known {V : Type} (d : Py.dict V) (k : string) (v x : V) :
  Py.get d k = Some x -> Py.len (Py.set d k v) = Py.len d.
Proof.
  intros H. unfold Py.len. f_equal.
  rewrite <- (length_map fst (Py.set d k v)), <- (length_map fst d).
  change (length (Py.keys (Py.set d k v)) = length (Py.keys d)).
  now rewrite (dict_keys_set_known _ _ _ _ H).
Qed.

Lemma ids_known_perm {V : Type} (d : Py.dict V) (l l' : list string) :
  Permutation l l' -> ids_known d l -> ids_known d l'.
Proof.
  intros Hp H jid Hin. apply H. eapply Permutation_in; [apply Permutation_sym|]; eauto.
Qed.

Lemma fifo_partition_perm (jobs : Py.dict Fifo.JobState) :
  Permutation (Py.keys jobs)
    (fst (Fifo.partition_jobs jobs) ++ snd (Fifo.partition_jobs jobs)).
Proof.
  unfold Fifo.partition_jobs, Py.keys. simpl. rewrite <- map_app.
  apply Permutation_map. apply filter_split_perm.
Qed.

Lemma fifo_arrival_pass_perm (run : Fifo.RunState) (now : Q) :
  Permutation (Fifo.ready_q run ++ Fifo.pending_jobs run)
    (Fifo.ready_q (fst (Fifo.arrival_pass run now))
     ++ Fifo.pending_jobs (fst (Fifo.arrival_pass run now))).
Proof.
  unfold Fifo.arrival_pass. simpl. rewrite <- app_assoc.
  apply Permutation_app_head. apply filter_split_perm.
Qed.

Lemma fifo_sound_results (cfg : Config) (w w' : Fifo.World) (run : Fifo.RunState) :
  (forall x, In x (Fifo.RESULTS w) -> In x (Fifo.RESULTS w')) ->
  fifo_sound cfg w run -> fifo_sound cfg w' run.
Proof.
  intros Hsub [H1 H2 H3 H4 H5 H6]. split; try assumption.
  intros Hd. destruct (H6 Hd) as (W & now & Hne & Hs & Hj & Hr & Hi1 & Hi2).
  exists W, now. auto 10.
Qed.

Lemma fifo_start_sound (cfg : Config) (now_slots now_start : Q) (fresh_id : string)
    (req : Fifo.StartReq) (w : Fifo.World) :
  fifo_inv cfg w ->
  fifo_inv cfg (snd (fst (Fifo.start cfg now_slots now_start fresh_id req w))).
Proof.
  intros Hinv.
  destruct (Fifo.start cfg now_slots now_start fresh_id req w) as [[r w'] sigs] eqn:E.
  simpl. destruct r as [rid|e].
  - destruct (fifo_start_installs _ _ _ _ _ _ _ _ _ E)
      as (run & Hrun & Hload & Hq & Hp & Hd & Hc & Ht).
    intros run' Hrun'. rewrite Hrun in Hrun'. injection Hrun' as <-.
    pose proof (fifo_load_jobs_nodup _ _ _ Hload) as Hnd.
    pose proof (fifo_partition_perm (Fifo.jobs run)) as Hperm.
    rewrite <- Hq, <- Hp in Hperm.
    split.
    + assumption.
    + eapply Permutation_NoDup; eassumption.
    + eapply ids_known_perm; [eassumption | apply dict_keys_known].
    + assumption.
    + intros _. rewrite Hc, Ht. unfold Py.len. split; [lia|].
      destruct (Fifo.jobs run); simpl; lia.
    + congruence.
  - assert (w' = w) as ->; [|assumption].
    revert E. unfold Fifo.start.
    destruct (_ <? _); [intros E; now injection E|].
    destruct (negb _); [intros E; now injection E|].
    destruct (Fifo.load_jobs _ _); [|intros E; now injection E].
    destruct (Fifo.partition_jobs _). discriminate.
Qed.

Lemma fifo_inv_with_run (cfg : Config) (w : Fifo.World) (a : option Fifo.RunState) :
  (forall run, a = Some run -> fifo_sound cfg w run) ->
  fifo_inv cfg (Fifo.with_run w a).
Proof.
  intros H run Hrun. simpl in Hrun. eapply fifo_sound_results; [|now apply H]. auto.
Qed.

Lemma fifo_next_sound (cfg : Config) (d now : Q) (w : Fifo.World) :
  fifo_inv cfg w ->
  fifo_inv cfg (Fifo.with_run w (snd (Fifo.next_iter d now (Fifo.ACTIVE_RUN w)))).
Proof.
  intros Hinv. apply fifo_inv_with_run. intros run'. unfold Fifo.next_iter.
  destruct (Fifo.ACTIVE_RUN w) as [run|] eqn:Hrun; [|discriminate].
  specialize (Hinv run Hrun). simpl.
  assert (Hsame : Some run = Some run' -> fifo_sound cfg w run').
  { intros E. now injection E as <-. }
  destruct (Fifo.done run || _); simpl; [exact Hsame|].
  destruct (Fifo.ready_q run) as [|jid rest] eqn:Hq.
  - destruct (Qle_bool _ _); simpl; exact Hsame.
  - destruct Hinv as [H1 H2 H3 H4 H5 H6]. rewrite Hq in H2, H3.
    assert (Hnew : fifo_sound cfg w
              (Fifo.with_queues run rest (Fifo.pending_jobs run) (Fifo.current_sim_ms run))).
    { split; simpl; try assumption.
      - simpl in H2. now inversion H2.
      - intros x Hx. apply H3. now right. }
    destruct (Py.getitem _ _); simpl; intros E; injection E as <-; exact Hnew.
Qed.

Lemma fifo_arrival_sound (cfg : Config) (now : Q) (w : Fifo.World) :
  fifo_inv cfg w ->
  fifo_inv cfg (Fifo.with_run w
    (option_map (fun run => fst (Fifo.arrival_pass run now)) (Fifo.ACTIVE_RUN w))).
Proof.
  intros Hinv. apply fifo_inv_with_run. intros run'.
  destruct (Fifo.ACTIVE_RUN w) as [run|] eqn:Hrun; [|discriminate].
  specialize (Hinv run Hrun). simpl. intros E. injection E as <-.
  pose proof (fifo_arrival_pass_perm run now) as Hperm.
  destruct Hinv as [H1 H2 H3 H4 H5 H6].
  split; try assumption.
  - eapply Permutation_NoDup; eassumption.
  - eapply ids_known_perm; eassumption.
Qed.

Lemma fifo_done_sound (cfg : Config) (now now_final : Q) (req : Fifo.DoneReq)
    (w : Fifo.World) :
  fifo_inv cfg w ->
  fifo_inv cfg (snd (fst (Fifo.done_handler cfg now now_final req w))).
Proof.
  intros Hinv. unfold Fifo.done_handler.
  destruct (negb _); simpl; [assumption|].
  destruct (Fifo.ACTIVE_RUN w) as [run|] eqn:Hrun; simpl; [|assumption].
  destruct (Fifo.done run) eqn:Hd; simpl; [assumption|].
  destruct (Py.get (Fifo.jobs run) (Fifo.dr_job_id req)) as [job|] eqn:Hjob;
    simpl; [|assumption].
  destruct (Hinv run Hrun) as [H1 H2 H3 H4 H5 H6].
  destruct (H5 Hd) as [Hc0 Hc].
  assert (Hpos : 0 < Fifo.total_jobs run).
  { rewrite H4. unfold Py.len. destruct (Fifo.jobs run); [discriminate | simpl; lia]. }
  set (job' := Fifo.record_done job _ _ req).
  set (run1 := {| Fifo.run_id := Fifo.run_id run; Fifo.jobs := Py.set _ _ job' |}).
  assert (Hs1 : forall w1, (forall x, In x (Fifo.RESULTS w) -> In x (Fifo.RESULTS w1)) ->
                 Fifo.completed run + 1 < Fifo.total_jobs run ->
                 fifo_sound cfg w1 run1).
  { intros w1 Hsub Hlt. split; simpl; try assumption.
    - now apply dict_set_nodup.
    - now apply ids_known_set.
    - rewrite H4. symmetry. eapply dict_len_set_known; eassumption.
    - intros _. lia.
    - congruence. }
  destruct (Fifo.total_jobs run <=? Fifo.completed run + 1) eqn:Ec.
  - apply Z.leb_le in Ec.
    unfold Fifo.finalize_run.
    rewrite (fifo_rows_nonempty run1 (Fifo.dr_job_id req) job')
      by (try apply dict_get_set_same; simpl; discriminate).
    simpl. intros run' E. simpl in E. injection E as <-.
    split; simpl; try assumption.
    + now apply dict_set_nodup.
    + now apply ids_known_set.
    + rewrite H4. symmetry. eapply dict_len_set_known; eassumption.
    + discriminate.
    + intros _. exists (Fifo.WORKERS w), now_final.
      split.
      { intros E. change (Fifo.result_rows run1 = []) in E.
        assert (Hn := fifo_rows_nonempty run1 (Fifo.dr_job_id req) job'
                        (dict_get_set_same _ _ _)
                        ltac:(simpl; discriminate) ltac:(simpl; discriminate)).
        rewrite E in Hn. discriminate Hn. }
      split; [reflexivity|]. split; [reflexivity|].
      split; [reflexivity|]. split; apply in_or_app; right; simpl; auto.
  - apply Z.leb_gt in Ec. simpl. intros run' E. simpl in E. injection E as <-.
    apply Hs1; [auto | lia].
Qed.

Lemma fifo_start_run_sound (cfg : Config) (now_slots now_start : Q) (fresh_id : string)
    (req : Fifo.StartReq) (w w' : Fifo.World) (rid : string) (sigs : list signal) :
  Fifo.start cfg now_slots now_start fresh_id req w = (Py.Ok rid, w', sigs) ->
  fifo_inv cfg w'.
Proof.
  intros E.
  destruct (fifo_start_installs _ _ _ _ _ _ _ _ _ E)
    as (run & Hrun & Hload & Hq & Hp & Hd & Hc & Ht).
  intros run' Hrun'. rewrite Hrun in Hrun'. injection Hrun' as <-.
  pose proof (fifo_load_jobs_nodup _ _ _ Hload) as Hnd.
  pose proof (fifo_partition_perm (Fifo.jobs run)) as Hperm.
  rewrite <- Hq, <- Hp in Hperm.
  split.
  - assumption.
  - eapply Permutation_NoDup; eassumption.
  - eapply ids_known_perm; [eassumption | apply dict_keys_known].
  - assumption.
  - intros _. rewrite Hc, Ht. unfold Py.len. split; [lia|].
    destruct (Fifo.jobs run); simpl; lia.
  - congruence.
Qed.

Lemma fifo_step_sound (cfg : Config) (e : Fifo.event) (w : Fifo.World) :
  fifo_inv cfg w -> fifo_inv cfg (Fifo.step cfg e w).
Proof.
  intros Hinv. destruct e; simpl.
  - intros run Hrun. eapply fifo_sound_results; [|apply Hinv, Hrun]. auto.
  - intros run Hrun. eapply fifo_sound_results; [|apply Hinv, Hrun]. auto.
  - now apply fifo_start_sound.
  - now apply fifo_next_sound.
  - now apply fifo_done_sound.
  - now apply fifo_arrival_sound.
Qed.

Lemma fifo_steps_sound (cfg : Config) (es : list Fifo.event) (w : Fifo.World) :
  fifo_inv cfg w -> fifo_inv cfg (Fifo.steps cfg es w).
Proof.
  revert w. induction es as [|e es IH]; intros w Hinv; [assumption|].
  apply IH. now apply fifo_step_sound.
Qed.

Lemma fifo_idle_sound (cfg : Config) (w : Fifo.World) :
  Fifo.ACTIVE_RUN w = None -> fifo_inv cfg w.
Proof. intros H run Hrun. congruence. Qed.




(** X7. From the boot of the FIFO service, whatever steps are taken:
    when [GET /status] says [done], it carries the summary and the two
    paths [RESULTS_DIR/results_jobs_<run_id>.csv] and
    [RESULTS_DIR/results_run_<run_id>.csv], both files have been written,
    and the summary counts the rows of the per-job file, of which there is
    at least one; when it says [running], [completed] is below [total],
    or both are 0. *)
Theorem fifo_status_reachable (cfg : Config) (w0 : Fifo.World) (es : list Fifo.event) :
  Fifo.ACTIVE_RUN w0 = None ->
  match Fifo.status (Fifo.steps cfg es w0) with
  | Fifo.status_no_run => Fifo.ACTIVE_RUN (Fifo.steps cfg es w0) = None
  | Fifo.status_running rid completed total =>
      0 <= completed /\ (completed < total \/ total = 0 /\ completed = 0)
  | Fifo.status_done rid s jobs_csv run_csv =>
      exists sum rows,
        s = Some sum /\
        jobs_csv = Some (Py.path_join (RESULTS_DIR cfg) ("results_jobs_" ++ rid ++ ".csv")) /\
        run_csv = Some (Py.path_join (RESULTS_DIR cfg) ("results_run_" ++ rid ++ ".csv")) /\
        In (Py.path_join (RESULTS_DIR cfg) ("results_jobs_" ++ rid ++ ".csv"),
            Fifo.JobsCsv rid rows) (Fifo.RESULTS (Fifo.steps cfg es w0)) /\
        In (Py.path_join (RESULTS_DIR cfg) ("results_run_" ++ rid ++ ".csv"),
            Fifo.RunCsv sum) (Fifo.RESULTS (Fifo.steps cfg es w0)) /\
        Fifo.sum_run_id sum = rid /\
        Fifo.sum_jobs sum = Py.len rows /\ 0 < Py.len rows
  end.
Proof.
  intros H0.
  pose proof (fifo_steps_sound cfg es w0 (fifo_idle_sound cfg w0 H0)) as Hinv.
  unfold Fifo.status.
  destruct (Fifo.ACTIVE_RUN (Fifo.steps cfg es w0)) as [run|] eqn:Hrun; [|reflexivity].
  destruct (Hinv run Hrun) as [H1 H2 H3 H4 H5 H6].
  destruct (Fifo.done run) eqn:Hd.
  - destruct (H6 eq_refl) as (W & now & Hne & Hs & Hj & Hr & Hi1 & Hi2).
    eexists _, (Fifo.result_rows run). rewrite Hs, Hj, Hr.
    split; [reflexivity|]. split; [reflexivity|]. split; [reflexivity|].
    split; [exact Hi1|]. split; [exact Hi2|]. split; [reflexivity|].
    split; [reflexivity|]. unfold Py.len.
    destruct (Fifo.result_rows run); [congruence | simpl; lia].
  - apply H5. reflexivity.
Qed.

Lemma fifo_status_reachable_witness :
  Fifo.ACTIVE_RUN Scenario.fifo_boot = None /\
  match Fifo.status (Fifo.steps default_config Scenario.fifo_day Scenario.fifo_boot) with
  | Fifo.status_no_run =>
      Fifo.ACTIVE_RUN (Fifo.steps default_config Scenario.fifo_day Scenario.fifo_boot)
      = None
  | Fifo.status_running rid completed total =>
      0 <= completed /\ (completed < total \/ total = 0 /\ completed = 0)
  | Fifo.status_done rid s jobs_csv run_csv =>
      exists sum rows,
        s = Some sum /\
        jobs_csv = Some (Py.path_join (RESULTS_DIR default_config)
                           ("results_jobs_" ++ rid ++ ".csv")) /\
        run_csv = Some (Py.path_join (RESULTS_DIR default_config)
                          ("results_run_" ++ rid ++ ".csv")) /\
        In (Py.path_join (RESULTS_DIR default_config) ("results_jobs_" ++ rid ++ ".csv"),
            Fifo.JobsCsv rid rows)
           (Fifo.RESULTS (Fifo.steps default_config Scenario.fifo_day Scenario.fifo_boot)) /\
        In (Py.path_join (RESULTS_DIR default_config) ("results_run_" ++ rid ++ ".csv"),
            Fifo.RunCsv sum)
           (Fifo.RESULTS (Fifo.steps default_config Scenario.fifo_day Scenario.fifo_boot)) /\
        Fifo.sum_run_id sum = rid /\
        Fifo.sum_jobs sum = Py.len rows /\ 0 < Py.len rows
  end.
Proof.
  split; [reflexivity|].
  exact (fifo_status_reachable default_config Scenario.fifo_boot Scenario.fifo_day
           eq_refl).
Defined.

(** One step that is no [/start] keeps the run in place, with its job
    table's keys, and moves ids only from pending to ready and from ready
    to the caller of [/next]. *)
Lemma fifo_step_conserves (cfg : Config) (e : Fifo.event) (w : Fifo.World)
    (run : Fifo.RunState) :
  Fifo.is_start e = false ->
  Fifo.ACTIVE_RUN w = Some run -> fifo_sound cfg w run ->
  exists run',
    Fifo.ACTIVE_RUN (Fifo.step cfg e w) = Some run' /\
    Py.keys (Fifo.jobs run') = Py.keys (Fifo.jobs run) /\
    Fifo.run_id run' = Fifo.run_id run /\
    Permutation (Fifo.ready_q run ++ Fifo.pending_jobs run)
      (Fifo.handed_out e w ++ Fifo.ready_q run' ++ Fifo.pending_jobs run').
Proof.
  intros Hns Hrun Hs. destruct e; try discriminate; simpl.
  - exists run. auto.
  - exists run. auto.
  - rewrite Hrun. unfold Fifo.next_iter.
    destruct (Fifo.done run || _); simpl; [exists run; auto|].
    destruct (Fifo.ready_q run) as [|jid rest] eqn:Hq.
    + destruct (Qle_bool _ _); simpl; exists run; rewrite Hq; auto.
    + destruct (fs_known _ _ _ Hs jid) as [job Hj]; [rewrite Hq; now left|].
      unfold Py.getitem. rewrite Hj. simpl. eexists. split; [reflexivity|]. simpl. auto.
  - unfold Fifo.done_handler.
    destruct (negb _); simpl; [exists run; auto|].
    rewrite Hrun.
    destruct (Fifo.done run) eqn:Hd; simpl; [exists run; auto|].
    destruct (Py.get (Fifo.jobs run) (Fifo.dr_job_id req)) as [job|] eqn:Hjob;
      simpl; [|exists run; auto].
    destruct (_ <=? _).
    + match goal with
      | |- context [Fifo.finalize_run ?c ?W ?n ?r] =>
          pose proof (fifo_finalize_frame c W n r) as (Hj & _ & Hq & Hp & _);
          assert (Hid : Fifo.run_id (fst (Fifo.finalize_run c W n r)) = Fifo.run_id run)
            by (unfold Fifo.finalize_run; destruct (_ =? _); reflexivity);
          destruct (Fifo.finalize_run c W n r) as [run2 files]
      end.
      simpl in *. exists run2. rewrite Hj, Hq, Hp.
      split; [reflexivity|]. split; [eapply dict_keys_set_known; eassumption|]. auto.
    + simpl. eexists. split; [reflexivity|]. simpl.
      split; [eapply dict_keys_set_known; eassumption|]. auto.
  - rewrite Hrun. simpl. eexists. split; [reflexivity|].
    split; [reflexivity|]. split; [reflexivity|].
    apply (fifo_arrival_pass_perm run now).
Qed.

Lemma fifo_steps_conserve (cfg : Config) (es : list Fifo.event) (w : Fifo.World)
    (run : Fifo.RunState) :
  forallb (fun e => negb (Fifo.is_start e)) es = true ->
  Fifo.ACTIVE_RUN w = Some run -> fifo_inv cfg w ->
  exists run',
    Fifo.ACTIVE_RUN (Fifo.steps cfg es w) = Some run' /\
    Py.keys (Fifo.jobs run') = Py.keys (Fifo.jobs run) /\
    Fifo.run_id run' = Fifo.run_id run /\
    Permutation (Fifo.ready_q run ++ Fifo.pending_jobs run)
      (Fifo.dispatches cfg es w ++ Fifo.ready_q run' ++ Fifo.pending_jobs run').
Proof.
  revert w run. induction es as [|e es IH]; intros w run Hns Hrun Hinv.
  - exists run. simpl. auto.
  - simpl in Hns. apply andb_true_iff in Hns. destruct Hns as [He Hes].
    apply negb_true_iff in He.
    destruct (fifo_step_conserves cfg e w run He Hrun (Hinv run Hrun))
      as (run1 & Hrun1 & Hk1 & Hid1 & Hp1).
    destruct (IH (Fifo.step cfg e w) run1 Hes Hrun1 (fifo_step_sound cfg e w Hinv))
      as (run' & Hrun' & Hk & Hid & Hp).
    exists run'. simpl. split; [assumption|]. split; [congruence|]. split; [congruence|].
    rewrite Hp1. rewrite <- app_assoc. apply Permutation_app_head. exact Hp.
Qed.

(** X8. Within a FIFO run, whatever steps follow its [/start] (no new
    [/start] among them): every job of the dataset is at any time in
    exactly one place, handed out to a caller of [/next], in the ready
    queue, or pending. No job is lost, and none is handed out twice. *)
Theorem fifo_jobs_conserved (cfg : Config) (now_slots now_start : Q) (fresh_id : string)
    (req : Fifo.StartReq) (w w0 : Fifo.World) (rid : string) (sigs : list signal)
    (es : list Fifo.event) :
  Fifo.start cfg now_slots now_start fresh_id req w = (Py.Ok rid, w0, sigs) ->
  forallb (fun e => negb (Fifo.is_start e)) es = true ->
  exists run0 run,
    Fifo.ACTIVE_RUN w0 = Some run0 /\
    Fifo.ACTIVE_RUN (Fifo.steps cfg es w0) = Some run /\
    Fifo.run_id run = rid /\
    Permutation (Py.keys (Fifo.jobs run0))
      (Fifo.dispatches cfg es w0 ++ Fifo.ready_q run ++ Fifo.pending_jobs run) /\
    List.NoDup (Fifo.dispatches cfg es w0).
Proof.
  intros Hstart Hns.
  pose proof (fifo_start_run_sound _ _ _ _ _ _ _ _ _ Hstart) as Hinv.
  destruct (fifo_start_installs _ _ _ _ _ _ _ _ _ Hstart)
    as (run0 & Hrun0 & Hload & Hq & Hp & _).
  destruct (fifo_steps_conserve cfg es w0 run0 Hns Hrun0 Hinv)
    as (run & Hrun & Hk & Hid & Hperm).
  assert (Hall : Permutation (Py.keys (Fifo.jobs run0))
            (Fifo.dispatches cfg es w0 ++ Fifo.ready_q run ++ Fifo.pending_jobs run)).
  { rewrite <- Hperm, Hq, Hp. apply fifo_partition_perm. }
  exists run0, run. split; [assumption|]. split; [assumption|]. split.
  - rewrite Hid. revert Hstart. unfold Fifo.start.
    destruct (_ <? _); [discriminate|]. destruct (negb _); [discriminate|].
    destruct (Fifo.load_jobs _ _); [|discriminate].
    destruct (Fifo.partition_jobs _). intros E. injection E as <- <- _.
    simpl in Hrun0. now injection Hrun0 as <-.
  - split; [assumption|].
    eapply NoDup_app_remove_r. eapply Permutation_NoDup; [exact Hall|].
    exact (fs_keys _ _ _ (Hinv run0 Hrun0)).
Qed.

Lemma fifo_jobs_conserved_witness :
  exists run0 run,
    Fifo.ACTIVE_RUN Sample.fifo_late = Some run0 /\
    Fifo.ACTIVE_RUN (Fifo.steps default_config Scenario.fifo_run_events Sample.fifo_late)
    = Some run /\
    Fifo.run_id run = "run0000001" /\
    Permutation (Py.keys (Fifo.jobs run0))
      (Fifo.dispatches default_config Scenario.fifo_run_events Sample.fifo_late
       ++ Fifo.ready_q run ++ Fifo.pending_jobs run) /\
    List.NoDup (Fifo.dispatches default_config Scenario.fifo_run_events Sample.fifo_late).
Proof.
  apply (fifo_jobs_conserved default_config 1 1 "run0000001"
           (Sample.fifo_start "late.csv") Sample.fifo_idle Sample.fifo_late
           "run0000001" [notify_all] Scenario.fifo_run_events).
  - vm_compute. reflexivity.
  - reflexivity.
Defined.

(** A finalized run is left as it is. *)
Lemma fifo_step_frozen (cfg : Config) (e : Fifo.event) (w : Fifo.World)
    (run : Fifo.RunState) :
  Fifo.is_start e = false ->
  Fifo.ACTIVE_RUN w = Some run -> Fifo.done run = true ->
  exists run',
    Fifo.ACTIVE_RUN (Fifo.step cfg e w) = Some run' /\
    Fifo.done run' = true /\
    Fifo.jobs run' = Fifo.jobs run /\ Fifo.completed run' = Fifo.completed run /\
    Fifo.status (Fifo.step cfg e w) = Fifo.status w /\
    Fifo.RESULTS (Fifo.step cfg e w) = Fifo.RESULTS w /\
    Fifo.handed_out e w = [].
Proof.
  intros Hns Hrun Hd. unfold Fifo.status.
  destruct e; try discriminate; simpl; rewrite ?Hrun, ?Hd.
  - exists run. auto 10.
  - exists run. auto 10.
  - unfold Fifo.next_iter. rewrite Hd. simpl. rewrite Hd. exists run. auto 10.
  - rewrite (fifo_done_untouched cfg now now_final req w run Hrun) by auto.
    rewrite Hrun, Hd. exists run. auto 10.
  - simpl. rewrite Hd. eexists. split; [reflexivity|]. simpl. auto 10.
Qed.

(** X9. A finalized FIFO run is left as it is: whatever steps follow
    (no new [/start]), its job table, its counter, the answer of
    [/status] and the result files stay the same, and no job is handed
    out any more. A late or repeated [/done] changes nothing. *)
Theorem fifo_finalized_frozen (cfg : Config) (es : list Fifo.event) (w : Fifo.World)
    (run : Fifo.RunState) :
  Fifo.ACTIVE_RUN w = Some run -> Fifo.done run = true ->
  forallb (fun e => negb (Fifo.is_start e)) es = true ->
  exists run',
    Fifo.ACTIVE_RUN (Fifo.steps cfg es w) = Some run' /\
    Fifo.done run' = true /\
    Fifo.jobs run' = Fifo.jobs run /\ Fifo.completed run' = Fifo.completed run /\
    Fifo.status (Fifo.steps cfg es w) = Fifo.status w /\
    Fifo.RESULTS (Fifo.steps cfg es w) = Fifo.RESULTS w /\
    Fifo.dispatches cfg es w = [].
Proof.
  revert w run. induction es as [|e es IH]; intros w run Hrun Hd Hns.
  - exists run. simpl. auto 10.
  - simpl in Hns. apply andb_true_iff in Hns. destruct Hns as [He Hes].
    apply negb_true_iff in He.
    destruct (fifo_step_frozen cfg e w run He Hrun Hd)
      as (run1 & Hrun1 & Hd1 & Hj1 & Hc1 & Hs1 & Hr1 & Hh1).
    destruct (IH _ run1 Hrun1 Hd1 Hes) as (run' & Hrun' & Hd' & Hj & Hc & Hs & Hr & Hh).
    exists run'. simpl. rewrite Hh1, Hh. repeat split; congruence.
Qed.

Lemma fifo_finalized_frozen_witness :
  exists run',
    Fifo.ACTIVE_RUN (Fifo.steps default_config Scenario.fifo_late_events Sample.fifo_honest)
    = Some run' /\
    Fifo.done run' = true /\
    Fifo.jobs run' = Fifo.jobs (Sample.fifo_run Sample.fifo_honest) /\
    Fifo.completed run' = Fifo.completed (Sample.fifo_run Sample.fifo_honest) /\
    Fifo.status (Fifo.steps default_config Scenario.fifo_late_events Sample.fifo_honest)
    = Fifo.status Sample.fifo_honest /\
    Fifo.RESULTS (Fifo.steps default_config Scenario.fifo_late_events Sample.fifo_honest)
    = Fifo.RESULTS Sample.fifo_honest /\
    Fifo.dispatches default_config Scenario.fifo_late_events Sample.fifo_honest = [].
Proof.
  apply (fifo_finalized_frozen default_config Scenario.fifo_late_events
           Sample.fifo_honest (Sample.fifo_run Sample.fifo_honest)).
  - vm_compute. reflexivity.
  - vm_compute. reflexivity.
  - reflexivity.
Defined.

(** A dataset without rows. *)
Lemma fifo_step_empty (cfg : Config) (e : Fifo.event) (w : Fifo.World)
    (run : Fifo.RunState) :
  Fifo.is_start e = false ->
  Fifo.ACTIVE_RUN w = Some run ->
  Fifo.jobs run = [] -> Fifo.done run = false -> Fifo.total_jobs run = 0 ->
  Fifo.completed run = 0 ->
  exists run',
    Fifo.ACTIVE_RUN (Fifo.step cfg e w) = Some run' /\
    Fifo.jobs run' = [] /\ Fifo.done run' = false /\ Fifo.total_jobs run' = 0 /\
    Fifo.completed run' = 0 /\ Fifo.run_id run' = Fifo.run_id run /\
    Fifo.RESULTS (Fifo.step cfg e w) = Fifo.RESULTS w.
Proof.
  intros Hns Hrun Hj Hd Ht Hc.
  destruct e; try discriminate; simpl.
  - exists run. auto 10.
  - exists run. auto 10.
  - rewrite Hrun. unfold Fifo.next_iter. rewrite Hd, Ht, Hc. simpl.
    exists run. auto 10.
  - rewrite (fifo_done_untouched cfg now now_final req w run Hrun)
      by (right; right; rewrite Hj; reflexivity).
    exists run. auto 10.
  - rewrite Hrun. simpl. eexists. split; [reflexivity|]. simpl. auto 10.
Qed.

(** X10. A FIFO run of a dataset without rows is never finalized:
    whatever steps follow its [/start], [/status] keeps answering
    [running] with 0 of 0, no result file is written, every pass of
    [/next] answers [done], and every [/done] is refused with status
    400. *)
Theorem fifo_empty_dataset (cfg : Config) (now_slots now_start : Q) (fresh_id : string)
    (req : Fifo.StartReq) (w w0 : Fifo.World) (rid : string) (sigs : list signal)
    (df : Py.DataFrame) (es : list Fifo.event) :
  Fifo.DATASETS w !! Py.path_join (DATA_DIR cfg) (Fifo.sr_dataset_file req)
  = Some (Csv df) ->
  Py.nrows df = 0%nat ->
  Fifo.start cfg now_slots now_start fresh_id req w = (Py.Ok rid, w0, sigs) ->
  forallb (fun e => negb (Fifo.is_start e)) es = true ->
  Fifo.status (Fifo.steps cfg es w0) = Fifo.status_running rid 0 0 /\
  Fifo.RESULTS (Fifo.steps cfg es w0) = Fifo.RESULTS w /\
  (forall d now,
     fst (Fifo.next_iter d now (Fifo.ACTIVE_RUN (Fifo.steps cfg es w0)))
     = Reply (Py.Ok Fifo.next_done)) /\
  (forall now now_final dreq,
     Py.http_status
       (fst (fst (Fifo.done_handler cfg now now_final dreq (Fifo.steps cfg es w0))))
     = 400).
Proof.
  intros Hdf Hrows Hstart Hns.
  assert (H0 : exists run0,
            Fifo.ACTIVE_RUN w0 = Some run0 /\ Fifo.jobs run0 = [] /\
            Fifo.done run0 = false /\ Fifo.total_jobs run0 = 0 /\
            Fifo.completed run0 = 0 /\ Fifo.run_id run0 = rid /\
            Fifo.RESULTS w0 = Fifo.RESULTS w).
  { revert Hstart. unfold Fifo.start, Fifo.load_jobs, read_csv.
    destruct (_ <? _); [discriminate|]. destruct (negb _); [discriminate|].
    rewrite Hdf. simpl. destruct (negb _); [discriminate|].
    rewrite Hrows. simpl. intros E. injection E as <- <- _.
    eexists. split; [reflexivity|]. simpl. auto 10. }
  clear Hstart Hdf Hrows. destruct H0 as (run0 & Hrun0 & Hj0 & Hd0 & Ht0 & Hc0 & Hid0 & Hr0).
  rewrite <- Hr0, <- Hid0. clear Hr0 Hid0.
  revert w0 run0 Hrun0 Hj0 Hd0 Ht0 Hc0.
  induction es as [|e es IH]; intros w0 run0 Hrun0 Hj0 Hd0 Ht0 Hc0.
  - simpl. unfold Fifo.status, Fifo.next_iter, Fifo.done_handler.
    rewrite Hrun0, Hd0, Ht0, Hc0, Hj0. simpl. repeat split.
    intros now now_final dreq. destruct (negb _); reflexivity.
  - simpl in Hns. apply andb_true_iff in Hns. destruct Hns as [He Hes].
    apply negb_true_iff in He.
    destruct (fifo_step_empty cfg e w0 run0 He Hrun0 Hj0 Hd0 Ht0 Hc0)
      as (run1 & Hrun1 & Hj1 & Hd1 & Ht1 & Hc1 & Hid1 & Hr1).
    simpl. rewrite <- Hid1, <- Hr1. now apply IH.
Qed.

Lemma fifo_empty_dataset_witness :
  Fifo.status (Fifo.steps default_config Scenario.fifo_run_events Scenario.fifo_empty)
  = Fifo.status_running "run0000009" 0 0 /\
  Fifo.RESULTS (Fifo.steps default_config Scenario.fifo_run_events Scenario.fifo_empty)
  = Fifo.RESULTS Scenario.fifo_empty_idle /\
  (forall d now,
     fst (Fifo.next_iter d now
            (Fifo.ACTIVE_RUN
               (Fifo.steps default_config Scenario.fifo_run_events Scenario.fifo_empty)))
     = Reply (Py.Ok Fifo.next_done)) /\
  (forall now now_final dreq,
     Py.http_status
       (fst (fst (Fifo.done_handler default_config now now_final dreq
                    (Fifo.steps default_config Scenario.fifo_run_events
                       Scenario.fifo_empty))))
     = 400).
Proof.
  apply (fifo_empty_dataset default_config 1 1 "run0000009"
           (Sample.fifo_start "empty.csv") Scenario.fifo_empty_idle Scenario.fifo_empty
           "run0000009" [notify_all] Scenario.empty_csv Scenario.fifo_run_events).
  - vm_compute. reflexivity.
  - reflexivity.
  - vm_compute. reflexivity.
  - reflexivity.
Defined.

(** ** The arrival thread of the FIFO service *)

Lemma fifo_arrived_pass (run : Fifo.RunState) (now : Q) (sim : Z) (jid : string) :
  Fifo.arrived (fst (Fifo.arrival_pass run now)) sim jid = Fifo.arrived run sim jid.
Proof. reflexivity. Qed.

Lemma fifo_wall_to_sim_pass (run : Fifo.RunState) (now : Q) (wall : Z) :
  Fifo.wall_to_sim (fst (Fifo.arrival_pass run now)) wall = Fifo.wall_to_sim run wall.
Proof. reflexivity. Qed.



(** ** The order of service under FIFO *)

Lemma fifo_next_pass_cases (d now : Q) (run : Fifo.RunState) :
  Fifo.done run = false -> Fifo.completed run = 0 ->
  Fifo.total_jobs run = Py.len (Fifo.jobs run) ->
  ids_known (Fifo.jobs run) (Fifo.ready_q run) ->
  match Fifo.ready_q run with
  | [] => snd (Fifo.next_iter d now (Some run)) = Some run /\
          forall jid x, fst (Fifo.next_iter d now (Some run))
                        <> Reply (Py.Ok (Fifo.next_ok jid x))
  | jid :: rest =>
      exists job,
        Fifo.next_iter d now (Some run)
        = (Reply (Py.Ok (Fifo.next_ok jid (Fifo.service_ms job))),
           Some (Fifo.with_queues run rest (Fifo.pending_jobs run)
                   (Fifo.current_sim_ms run)))
  end.
Proof.
  intros Hd Hc Ht Hk. unfold Fifo.next_iter. rewrite Hd. cbn [orb].
  destruct (Fifo.ready_q run) as [|jid rest] eqn:Hq.
  - destruct (_ <=? _); [|destruct (Qle_bool _ _)]; simpl; split; congruence.
  - destruct (Hk jid (or_introl eq_refl)) as [job Hj]. exists job.
    assert (Hpos : (Fifo.total_jobs run <=? Fifo.completed run) = false).
    { apply Z.leb_gt. rewrite Ht, Hc. unfold Py.len.
      destruct (Fifo.jobs run); [discriminate | simpl; lia]. }
    rewrite Hpos. unfold Py.getitem. rewrite Hj. reflexivity.
Qed.

Lemma fifo_next_only (cfg : Config) (es : list Fifo.event) (w : Fifo.World)
    (run : Fifo.RunState) :
  forallb Fifo.is_next es = true ->
  Fifo.ACTIVE_RUN w = Some run ->
  Fifo.done run = false -> Fifo.completed run = 0 ->
  Fifo.total_jobs run = Py.len (Fifo.jobs run) ->
  ids_known (Fifo.jobs run) (Fifo.ready_q run) ->
  Fifo.dispatches cfg es w = firstn (length es) (Fifo.ready_q run).
Proof.
  revert w run. induction es as [|e es IH]; intros w run Hn Hrun Hd Hc Ht Hk.
  - reflexivity.
  - simpl in Hn. apply andb_true_iff in Hn. destruct Hn as [He Hes].
    destruct e; try discriminate.
    cbn [Fifo.dispatches length Fifo.handed_out Fifo.step]. rewrite Hrun.
    pose proof (fifo_next_pass_cases deadline now run Hd Hc Ht Hk) as Hcase.
    destruct (Fifo.ready_q run) as [|jid rest] eqn:Hq.
    + destruct Hcase as [Hsnd Hfst]. rewrite Hsnd.
      rewrite (IH (Fifo.with_run w (Some run)) run Hes eq_refl Hd Hc Ht)
        by (rewrite Hq; exact Hk).
      rewrite Hq, firstn_nil, app_nil_r.
      destruct (fst (Fifo.next_iter deadline now (Some run))) as [[[]|]|] eqn:E;
        try reflexivity.
      exfalso. eapply Hfst. reflexivity.
    + destruct Hcase as [job Hpass]. rewrite Hpass. cbn [fst snd].
      set (run1 := Fifo.with_queues run rest _ _).
      rewrite (IH (Fifo.with_run w (Some run1)) run1 Hes eq_refl Hd Hc Ht).
      * reflexivity.
      * intros x Hx. apply Hk. now right.
Qed.

(** X12. After [/start] of the FIFO service, callers of [/next] that
    follow one another are handed the jobs that arrive at time 0 in the
    order of the dataset file, one each, until these are used up. *)
Theorem fifo_served_in_file_order (cfg : Config) (now_slots now_start : Q)
    (fresh_id : string) (req : Fifo.StartReq) (w w0 : Fifo.World) (rid : string)
    (sigs : list signal) (es : list Fifo.event) :
  Fifo.start cfg now_slots now_start fresh_id req w = (Py.Ok rid, w0, sigs) ->
  forallb Fifo.is_next es = true ->
  exists run0,
    Fifo.ACTIVE_RUN w0 = Some run0 /\
    List.NoDup (Py.keys (Fifo.jobs run0)) /\
    Fifo.dispatches cfg es w0
    = firstn (length es)
        (map fst (List.filter (fun kv => Fifo.arrival_ms (snd kv) <=? 0)
                    (Fifo.jobs run0))).
Proof.
  intros Hstart Hn.
  destruct (fifo_start_installs _ _ _ _ _ _ _ _ _ Hstart)
    as (run0 & Hrun0 & Hload & Hq & Hp & Hd & Hc & Ht).
  exists run0. split; [assumption|].
  split; [eapply fifo_load_jobs_nodup; eassumption|].
  rewrite (fifo_next_only cfg es w0 run0 Hn Hrun0 Hd Hc Ht).
  - rewrite Hq. reflexivity.
  - rewrite Hq. unfold Fifo.partition_jobs. simpl. intros jid Hin.
    apply in_map_iff in Hin. destruct Hin as ([k v] & <- & Hin).
    apply filter_In in Hin. destruct Hin as [Hin _]. exists v. simpl.
    apply dict_In_get; [eapply fifo_load_jobs_nodup; eassumption | assumption].
Qed.

Lemma fifo_served_in_file_order_witness :
  exists run0,
    Fifo.ACTIVE_RUN Sample.fifo_plain = Some run0 /\
    List.NoDup (Py.keys (Fifo.jobs run0)) /\
    Fifo.dispatches default_config [Fifo.ev_next 11 1; Fifo.ev_next 11 1; Fifo.ev_next 11 1]
      Sample.fifo_plain
    = firstn 3
        (map fst (List.filter (fun kv => Fifo.arrival_ms (snd kv) <=? 0)
                    (Fifo.jobs run0))).
Proof.
  apply (fifo_served_in_file_order default_config 1 1 "run0000002"
           (Sample.fifo_start "plain.csv") Sample.fifo_idle Sample.fifo_plain
           "run0000002" [notify_all]
           [Fifo.ev_next 11 1; Fifo.ev_next 11 1; Fifo.ev_next 11 1]).
  - vm_compute. reflexivity.
  - reflexivity.
Defined.

(** ** Loading a dataset with repeated job ids *)

(** X13. [load_jobs] of the FIFO and Priority services and of the
    round-robin service without arrivals, on a dataset that parses: the
    job table has one entry per distinct [job_id] of the file (so
    [total_jobs] counts ids, not rows), every row's id is in it, and
    where an id is repeated the values of its last row are the ones
    kept. *)
Theorem load_jobs_repeated_ids :
  (forall fs path df jobs,
     fs !! path = Some (Csv df) -> Fifo.load_jobs fs path = Py.Ok jobs ->
     List.NoDup (Py.keys jobs) /\ Py.len jobs <= Z.of_nat (Py.nrows df) /\
     (forall i, (i < Py.nrows df)%nat ->
        exists jid job,
          Fifo.load_row df (Py.has_column df "arrival_time_ms") i [] = Py.Ok [(jid, job)] /\
          In jid (Py.keys jobs)) /\
     (forall jid, In jid (Py.keys jobs) ->
        exists i job, (i < Py.nrows df)%nat /\
          Fifo.load_row df (Py.has_column df "arrival_time_ms") i [] = Py.Ok [(jid, job)]) /\
     (forall i jid job, (i < Py.nrows df)%nat ->
        Fifo.load_row df (Py.has_column df "arrival_time_ms") i [] = Py.Ok [(jid, job)] ->
        (forall j job', (i < j < Py.nrows df)%nat ->
           Fifo.load_row df (Py.has_column df "arrival_time_ms") j []
           <> Py.Ok [(jid, job')]) ->
        Py.get jobs jid = Some job)) /\
  (forall fs path df jobs,
     fs !! path = Some (Csv df) -> Priority.load_jobs fs path = Py.Ok jobs ->
     List.NoDup (Py.keys jobs) /\ Py.len jobs <= Z.of_nat (Py.nrows df) /\
     (forall i, (i < Py.nrows df)%nat ->
        exists jid job,
          Priority.load_row df (Py.has_column df "arrival_time_ms") i []
          = Py.Ok [(jid, job)] /\
          In jid (Py.keys jobs)) /\
     (forall jid, In jid (Py.keys jobs) ->
        exists i job, (i < Py.nrows df)%nat /\
          Priority.load_row df (Py.has_column df "arrival_time_ms") i []
          = Py.Ok [(jid, job)]) /\
     (forall i jid job, (i < Py.nrows df)%nat ->
        Priority.load_row df (Py.has_column df "arrival_time_ms") i []
        = Py.Ok [(jid, job)] ->
        (forall j job', (i < j < Py.nrows df)%nat ->
           Priority.load_row df (Py.has_column df "arrival_time_ms") j []
           <> Py.Ok [(jid, job')]) ->
        Py.get jobs jid = Some job)) /\
  (forall fs path df jobs,
     fs !! path = Some (Csv df) -> RR.load_jobs fs path = Py.Ok jobs ->
     List.NoDup (Py.keys jobs) /\ Py.len jobs <= Z.of_nat (Py.nrows df) /\
     (forall i, (i < Py.nrows df)%nat ->
        exists jid job,
          RR.load_row df i [] = Py.Ok [(jid, job)] /\ In jid (Py.keys jobs)) /\
     (forall jid, In jid (Py.keys jobs) ->
        exists i job, (i < Py.nrows df)%nat /\ RR.load_row df i [] = Py.Ok [(jid, job)]) /\
     (forall i jid job, (i < Py.nrows df)%nat ->
        RR.load_row df i [] = Py.Ok [(jid, job)] ->
        (forall j job', (i < j < Py.nrows df)%nat ->
           RR.load_row df j [] <> Py.Ok [(jid, job')]) ->
        Py.get jobs jid = Some job)).
Proof.
  split; [|split].
  - intros fs path df jobs Hdf H.
    split; [eapply fifo_load_jobs_nodup; eassumption|].
    revert H. unfold Fifo.load_jobs, read_csv. rewrite Hdf. simpl.
    destruct (negb _); [discriminate|].
    apply load_rows_in_file_order. apply fifo_load_row_sets.
  - intros fs path df jobs Hdf H.
    split; [eapply prio_load_jobs_nodup; eassumption|].
    revert H. unfold Priority.load_jobs, read_csv. rewrite Hdf. simpl.
    destruct (negb _); [discriminate|].
    apply load_rows_in_file_order. apply prio_load_row_sets.
  - intros fs path df jobs Hdf H.
    split.
    + revert H. unfold RR.load_jobs, read_csv. rewrite Hdf. simpl.
      destruct (negb _); [discriminate|]. intros H.
      apply (for_rows_invariant (fun d => List.NoDup (Py.keys d))) in H;
        [exact H| |constructor].
      intros i x x' Hx Hs. destruct (rr_load_row_sets _ _ _ _ Hs) as (jid & job & -> & _).
      now apply dict_set_nodup.
    + revert H. unfold RR.load_jobs, read_csv. rewrite Hdf. simpl.
      destruct (negb _); [discriminate|].
      apply load_rows_in_file_order. apply rr_load_row_sets.
Qed.

Lemma load_jobs_repeated_ids_witness :
  exists jobs,
    Fifo.load_jobs Scenario.repeated_files "/data/repeated.csv" = Py.Ok jobs /\
    Py.keys jobs = ["A"; "B"] /\
    Py.get jobs "A" = Some (Fifo.new_job "A" 30 0).
Proof.
  eexists. split; [vm_compute; reflexivity|]. split; [reflexivity|].
  refine (proj2 (proj2 (proj2 (proj2
            (proj1 load_jobs_repeated_ids Scenario.repeated_files "/data/repeated.csv"
               Scenario.repeated_csv _ _ _)))) 2%nat "A" _ _ _ _).
  - reflexivity.
  - vm_compute. reflexivity.
  - simpl. lia.
  - reflexivity.
  - intros j job' Hj. simpl in Hj. lia.
Defined.

(** ** Round-robin with its worker: one core drives a run to its end *)















Lemma dict_keys_get {V : Type} (d : Py.dict V) (k : string) :
  In k (Py.keys d) -> exists v, Py.get d k = Some v.
Proof. apply dict_keys_known. Qed.









(** ** The priority service: what every sequence of steps keeps *)

Lemma prio_fill_heaps_ids (items : list (string * Priority.JobState))
    (ready ready' : list Priority.ready_item)
    (pending pending' : list Priority.pending_item) (seq seq' : Z) :
  Priority.fill_heaps items ready pending seq = (ready', pending', seq') ->
  Permutation (map fst items ++ map snd ready ++ map snd pending)
    (map snd ready' ++ map snd pending').
Proof.
  revert ready pending seq. induction items as [|[jid job] items IH];
    intros ready pending seq H; simpl in H.
  - injection H as <- <- _. reflexivity.
  - destruct (Priority.arrival_ms job <=? 0).
    + rewrite <- (IH _ _ _ H). unfold Py.heappush. simpl.
      rewrite map_app. simpl. rewrite <- (app_assoc (map snd ready)). simpl.
      rewrite !app_assoc. apply Permutation_cons_app. reflexivity.
    + rewrite <- (IH _ _ _ H). unfold Py.heappush. simpl.
      rewrite map_app. simpl.
      rewrite !app_assoc. apply Permutation_cons_append.
Qed.

Lemma prio_sound_results (cfg : Config) (w w' : Priority.World)
    (run : Priority.RunState) :
  (forall x, In x (Priority.RESULTS w) -> In x (Priority.RESULTS w')) ->
  prio_sound cfg w run -> prio_sound cfg w' run.
Proof.
  intros Hsub [H1 H2 H3 H4 H5 H6 H7]. split; try assumption.
  intros Hd. destruct (H7 Hd) as (W & now & Hne & Hs & Hj & Hr & Hi1 & Hi2).
  exists W, now. auto 10.
Qed.

Lemma prio_inv_with_run (cfg : Config) (w : Priority.World)
    (a : option Priority.RunState) :
  (forall run, a = Some run -> prio_sound cfg w run) ->
  prio_inv cfg (Priority.with_run w a).
Proof.
  intros H run Hrun. simpl in Hrun. eapply prio_sound_results; [|now apply H]. auto.
Qed.

Lemma prio_idle_sound (cfg : Config) (w : Priority.World) :
  Priority.ACTIVE_RUN w = None -> prio_inv cfg w.
Proof. intros H run Hrun. congruence. Qed.

Lemma prio_start_run_sound (cfg : Config) (now_slots now_start : Q) (fresh_id : string)
    (req : Priority.StartReq) (w w' : Priority.World) (rid : string)
    (sigs : list signal) :
  Priority.start cfg now_slots now_start fresh_id req w = (Py.Ok rid, w', sigs) ->
  exists run,
    Priority.ACTIVE_RUN w' = Some run /\ prio_sound cfg w' run /\
    Priority.run_id run = rid /\ Priority.RESULTS w' = Priority.RESULTS w /\
    Priority.current_sim_ms run = 0 /\
    Permutation (Py.keys (Priority.jobs run)) (waiting_ids run).
Proof.
  intros E. unfold Priority.start in E.
  destruct (_ <? _); [discriminate|]. destruct (negb _); [discriminate|].
  destruct (Priority.load_jobs _ _) as [jobs|] eqn:Hload; [|discriminate].
  destruct (Priority.fill_heaps jobs [] [] 0) as [[ready pending] seq] eqn:Hfill.
  injection E as <- <- _.
  pose proof (prio_load_jobs_nodup _ _ _ Hload) as Hnd.
  pose proof (prio_fill_heaps_ids _ _ _ _ _ _ _ Hfill) as Hperm.
  simpl in Hperm. rewrite app_nil_r in Hperm.
  destruct (fill_heaps_spec _ _ _ _ _ _ _ Hfill) as (Hr & Hp & _).
  eexists. split; [reflexivity|]. split; [|simpl; auto].
  split; simpl.
  - assumption.
  - unfold waiting_ids. simpl. eapply Permutation_NoDup; eassumption.
  - intros p a s jid Hin. destruct (Hr _ Hin) as [[]|(j & Hj & Ha & Hp1 & Ha1)].
    simpl in *. exists j. split; [now apply dict_In_get|]. subst. auto with zarith.
  - intros a s jid Hin. destruct (Hp _ Hin) as [[]|(j & Hj & Ha & Ha1)].
    simpl in *. exists j. split; [now apply dict_In_get|]. subst. auto.
  - reflexivity.
  - intros _. unfold Py.len. split; [lia|]. destruct jobs; simpl; lia.
  - discriminate.
Qed.

Lemma prio_promote_ids (ready : list Priority.ready_item)
    (pending rest : list Priority.pending_item) (x : Priority.pending_item)
    (y : Priority.ready_item) :
  Permutation pending (x :: rest) -> snd y = snd x ->
  Permutation (map snd ready ++ map snd pending)
    (map snd (Py.heappush ready y) ++ map snd rest).
Proof.
  intros Hp Hy. unfold Py.heappush. rewrite map_app, <- app_assoc. simpl.
  apply Permutation_app_head. rewrite Hy.
  change (snd x :: map snd rest) with (map snd (x :: rest)).
  now apply Permutation_map.
Qed.

(** The loop of [promote_arrivals] never fails on such a run, and keeps it
    such a run. *)
Lemma prio_promote_loop_sound (cfg : Config) (w : Priority.World) (n : nat)
    (run run' : Priority.RunState) (upto : Z) (ch : bool) (r : Py.result bool) :
  Priority.promote_loop n run upto ch = (r, run') ->
  upto <= Priority.current_sim_ms run ->
  prio_sound cfg w run ->
  (exists b, r = Py.Ok b) /\ prio_sound cfg w run' /\
  Permutation (waiting_ids run) (waiting_ids run') /\
  Priority.run_id run' = Priority.run_id run.
Proof.
  revert run ch. induction n as [|n IH]; intros run ch H Hup Hs; simpl in H.
  - injection H as <- <-. eauto.
  - unfold Py.heap_top in H.
    destruct (Py.heappop Priority.pending_ltb (Priority.pending_heap run))
      as [[[[a s] jid] rest]|] eqn:Hpop; [|injection H as <- <-; eauto].
    destruct (a <=? upto) eqn:Ea; [|injection H as <- <-; eauto].
    apply Z.leb_le in Ea.
    destruct (heappop_some _ pending_ltb_asym pending_ltb_negtrans _ _ _ Hpop)
      as [Hperm _].
    destruct Hs as [H1 H2 H3 H4 H5 H6 H7].
    destruct (H4 a s jid) as (job & Hjob & Harr).
    { eapply Permutation_in; [apply Permutation_sym; exact Hperm | now left]. }
    unfold Priority.push_ready, Py.getitem in H. simpl in H. rewrite Hjob in H.
    simpl in H.
    pose proof (prio_promote_ids (Priority.ready_heap run) _ _ _
                  (Priority.priority job, Priority.arrival_ms job,
                   Priority.next_seq run, jid) Hperm eq_refl) as Hids.
    apply IH in H; [|simpl; assumption|].
    + destruct H as (Hr & Hs' & Hp' & Hid). split; [assumption|].
      split; [assumption|]. split; [|assumption].
      etransitivity; [exact Hids | exact Hp'].
    + split; simpl; try assumption.
      * unfold waiting_ids. simpl. eapply Permutation_NoDup; [exact Hids | exact H2].
      * intros p0 a0 s0 jid0 Hin. unfold Py.heappush in Hin.
        apply in_app_or in Hin. destruct Hin as [Hin|[Hin|[]]]; [now apply H3 with s0|].
        injection Hin as <- <- <- <-. exists job. repeat split; try assumption. lia.
      * intros a0 s0 jid0 Hin. apply H4 with s0.
        eapply Permutation_in; [apply Permutation_sym; exact Hperm | now right].
Qed.

Lemma prio_promote_arrivals_sound (cfg : Config) (w : Priority.World)
    (run run' : Priority.RunState) (upto : Z) (r : Py.result unit)
    (sigs : list signal) :
  Priority.promote_arrivals run upto = (r, run', sigs) ->
  upto <= Priority.current_sim_ms run ->
  prio_sound cfg w run ->
  r = Py.Ok tt /\ prio_sound cfg w run' /\
  Permutation (waiting_ids run) (waiting_ids run') /\
  Priority.run_id run' = Priority.run_id run.
Proof.
  unfold Priority.promote_arrivals. intros H Hup Hs.
  destruct (Priority.promote_loop _ run upto false) as [r0 run0] eqn:E.
  destruct (prio_promote_loop_sound cfg w _ _ _ _ _ _ E Hup Hs)
    as ([b ->] & Hs' & Hp & Hid).
  injection H as <- <- _. auto.
Qed.

(** Moving the simulated clock of a run forward. *)
Lemma prio_advance_sound (cfg : Config) (w : Priority.World)
    (run : Priority.RunState) (sim : Z) :
  Priority.current_sim_ms run <= sim ->
  prio_sound cfg w run -> prio_sound cfg w (Priority.advance run sim).
Proof.
  intros Hle [H1 H2 H3 H4 H5 H6 H7]. split; simpl; try assumption.
  intros p a s jid Hin. destruct (H3 p a s jid Hin) as (job & Hj & Hp & Ha & Hc).
  exists job. repeat split; try assumption. lia.
Qed.

Lemma prio_arrival_pass_sound (cfg : Config) (w : Priority.World)
    (run : Priority.RunState) (now : Q) :
  prio_sound cfg w run ->
  fst (fst (Priority.arrival_pass run now)) = Py.Ok tt /\
  prio_sound cfg w (snd (fst (Priority.arrival_pass run now))) /\
  Permutation (waiting_ids run) (waiting_ids (snd (fst (Priority.arrival_pass run now)))) /\
  Priority.run_id (snd (fst (Priority.arrival_pass run now))) = Priority.run_id run.
Proof.
  intros Hs. unfold Priority.arrival_pass.
  destruct (Priority.promote_arrivals _ _) as [[r run'] sigs] eqn:E.
  apply (prio_promote_arrivals_sound cfg w) in E.
  - exact E.
  - simpl. lia.
  - apply prio_advance_sound; [unfold Priority.sim_now; lia | assumption].
Qed.

Lemma prio_pending_known (cfg : Config) (w : Priority.World) (run : Priority.RunState) :
  prio_sound cfg w run ->
  ids_known (Priority.jobs run) (map snd (Priority.pending_heap run)).
Proof.
  intros Hs jid Hin. apply in_map_iff in Hin. destruct Hin as ([[a s] j] & <- & Hin).
  destruct (ps_pending _ _ _ Hs a s j Hin) as (job & Hj & _). eauto.
Qed.

(** One pass of [/next] on such a run: it does not fail, it keeps the run
    such a run, and when it hands out a job, this is a job of the ready
    heap that has arrived and that no other ready job precedes, while the
    jobs left pending are due later than the simulated clock. *)
Lemma prio_next_cases (cfg : Config) (w : Priority.World) (run : Priority.RunState)
    (d now_sim now : Q) (p : pass Priority.NextResp)
    (a : option Priority.RunState) (sigs : list signal) :
  prio_sound cfg w run ->
  Priority.next_iter d now_sim now (Some run) = (p, a, sigs) ->
  exists run',
    a = Some run' /\ prio_sound cfg w run' /\
    Priority.run_id run' = Priority.run_id run /\
    Priority.jobs run' = Priority.jobs run /\
    ((Permutation (waiting_ids run) (waiting_ids run') /\
      (p = Reply (Py.Ok Priority.next_done) \/ p = Reply (Py.Ok Priority.next_wait) \/
       exists t, p = Block t)) \/
     (exists jid job s,
        p = Reply (Py.Ok (Priority.next_ok jid (Priority.service_ms job)
                            (Priority.priority job) (Priority.arrival_ms job))) /\
        Py.get (Priority.jobs run) jid = Some job /\
        Priority.done run = false /\
        Priority.current_sim_ms run' = Priority.sim_now run now_sim /\
        Priority.arrival_ms job <= Priority.current_sim_ms run' /\
        Permutation (waiting_ids run) (jid :: waiting_ids run') /\
        (forall p' a' s' jid', In (p', a', s', jid') (Priority.ready_heap run') ->
           key_le (Priority.priority job, Priority.arrival_ms job, s) (p', a', s')) /\
        (forall a' s' jid', In (a', s', jid') (Priority.pending_heap run') ->
           Priority.current_sim_ms run' < a'))).
Proof.
  intros Hs H. unfold Priority.next_iter in H.
  destruct (Priority.done run || _) eqn:Hd.
  { injection H as <- <- _. exists run.
    split; [reflexivity|]. split; [assumption|]. split; [reflexivity|].
    split; [reflexivity|]. left. split; [reflexivity | now left]. }
  apply orb_false_iff in Hd. destruct Hd as [Hd _].
  destruct (Priority.promote_arrivals _ _) as [[r run1] sigs1] eqn:E.
  assert (Hadv : prio_sound cfg w (Priority.advance run (Priority.sim_now run now_sim))).
  { apply prio_advance_sound; [unfold Priority.sim_now; lia | assumption]. }
  destruct (prio_promote_arrivals_sound cfg w _ _ _ _ _ E (Z.le_refl _) Hadv)
    as (-> & Hs1 & Hp1 & Hid1).
  destruct (promote_arrivals_frame _ _ _ _ _ E) as (Hj1 & _ & _ & _ & Hc1 & _).
  destruct (promote_arrivals_complete _ _ _ _ _ E (prio_pending_known cfg w _ Hadv))
    as (_ & Hlate & _).
  simpl in Hj1, Hc1, Hid1.
  change (waiting_ids (Priority.advance run (Priority.sim_now run now_sim)))
    with (waiting_ids run) in Hp1.
  destruct (Py.heappop Priority.ready_ltb (Priority.ready_heap run1))
    as [[[[[p0 a0] s0] jid] rest]|] eqn:Hpop.
  - destruct (heappop_some _ ready_ltb_asym ready_ltb_negtrans _ _ _ Hpop)
      as [Hperm Hleast].
    destruct Hs1 as [H1 H2 H3 H4 H5 H6 H7].
    destruct (H3 p0 a0 s0 jid) as (job & Hjob & Hprio & Harr & Hnow).
    { eapply Permutation_in; [apply Permutation_sym; exact Hperm | now left]. }
    unfold Py.getitem in H. rewrite Hjob in H. injection H as <- <- _.
    eexists. split; [reflexivity|]. simpl.
    assert (Hids : Permutation (waiting_ids run1)
              (jid :: map snd rest ++ map snd (Priority.pending_heap run1))).
    { unfold waiting_ids.
      change (jid :: map snd rest ++ map snd (Priority.pending_heap run1))
        with (map snd ((p0, a0, s0, jid) :: rest) ++ map snd (Priority.pending_heap run1)).
      apply Permutation_app_tail. now apply Permutation_map. }
    split; [|split; [assumption|split; [assumption|]]].
    + split; simpl; try assumption.
      * unfold waiting_ids. simpl.
        pose proof (Permutation_NoDup Hids H2) as Hnd. now inversion Hnd.
      * intros p' a' s' jid' Hin. apply H3 with s'.
        eapply Permutation_in; [apply Permutation_sym; exact Hperm | now right].
    + right. exists jid, job, s0. subst p0 a0.
      split; [reflexivity|]. split; [congruence|]. split; [assumption|].
      split; [assumption|]. split; [assumption|].
      split; [etransitivity; [exact Hp1 | exact Hids]|]. split.
      * intros p' a' s' jid' Hin.
        apply (ready_not_below_key
                 (Priority.priority job, Priority.arrival_ms job, s0, jid)
                 (p', a', s', jid')).
        apply Hleast.
        eapply Permutation_in; [apply Permutation_sym; exact Hperm | now right].
      * intros a' s' jid' Hin. destruct (Hlate _ Hin) as [_ Hlt]. simpl in Hlt. lia.
  - apply heappop_none in Hpop.
    assert (Hres : exists p1, p = p1 /\ a = Some run1 /\
              (p1 = Reply (Py.Ok Priority.next_wait) \/ exists t, p1 = Block t)).
    { destruct (Qle_bool _ _); injection H as <- <- _; eauto 6. }
    destruct Hres as (p1 & -> & -> & Hp). exists run1.
    split; [reflexivity|]. split; [assumption|]. split; [assumption|].
    split; [assumption|]. left. split; [assumption|]. tauto.
Qed.

Lemma prio_finalize_rows (cfg : Config) (W : Registry.Workers) (now : Q)
    (run : Priority.RunState) :
  Priority.result_rows run <> [] ->
  Priority.finalize_run cfg W now run
  = ({| Priority.run_id := Priority.run_id run;
        Priority.dataset_file := Priority.dataset_file run;
        Priority.speedup := Priority.speedup run;
        Priority.start_wall_ms := Priority.start_wall_ms run;
        Priority.jobs := Priority.jobs run;
        Priority.ready_heap := Priority.ready_heap run;
        Priority.pending_heap := Priority.pending_heap run;
        Priority.next_seq := Priority.next_seq run;
        Priority.total_jobs := Priority.total_jobs run;
        Priority.current_sim_ms := Priority.current_sim_ms run;
        Priority.completed := Priority.completed run;
        Priority.done := true;
        Priority.jobs_csv := Some (Priority.jobs_path cfg run);
        Priority.run_csv := Some (Priority.run_path cfg run);
        Priority.summary :=
          Some (Priority.summarize cfg W now run (Priority.result_rows run)) |},
     [(Priority.jobs_path cfg run,
       Priority.JobsCsv (Priority.run_id run) (Priority.result_rows run));
      (Priority.run_path cfg run,
       Priority.RunCsv (Priority.summarize cfg W now run (Priority.result_rows run)))]).
Proof.
  intros H. unfold Priority.finalize_run.
  destruct (Priority.result_rows run); [congruence | reflexivity].
Qed.

Lemma prio_done_run (cfg : Config) (now now_final : Q) (req : Priority.DoneReq)
    (w : Priority.World) (run : Priority.RunState) :
  Priority.ACTIVE_RUN w = Some run -> prio_sound cfg w run ->
  exists run',
    Priority.ACTIVE_RUN (snd (fst (Priority.done_handler cfg now now_final req w)))
    = Some run' /\
    prio_sound cfg (snd (fst (Priority.done_handler cfg now now_final req w))) run' /\
    Py.keys (Priority.jobs run') = Py.keys (Priority.jobs run) /\
    Priority.run_id run' = Priority.run_id run /\
    waiting_ids run' = waiting_ids run.
Proof.
  intros Hrun Hs. unfold Priority.done_handler.
  destruct (negb _); simpl; [exists run; auto|].
  rewrite Hrun.
  destruct (Priority.done run) eqn:Hd; simpl; [exists run; auto|].
  destruct (Py.get (Priority.jobs run) (Priority.dr_job_id req)) as [job|] eqn:Hjob;
    simpl; [|exists run; auto].
  destruct Hs as [H1 H2 H3 H4 H5 H6 H7].
  destruct (H6 Hd) as [Hc0 Hc].
  assert (Hpos : 0 < Priority.total_jobs run).
  { rewrite H5. unfold Py.len. destruct (Priority.jobs run); [discriminate | simpl; lia]. }
  set (fin := Priority.wall_to_sim run (Priority.started_wall_ms req)
              + Priority.service_ms job).
  set (job' := {| Priority.job_id := Priority.job_id job;
                  Priority.finish_ms := Some fin |}).
  set (run1 := {| Priority.run_id := Priority.run_id run;
                  Priority.jobs := Py.set _ _ job' |}).
  assert (Hready : forall p a s jid, In (p, a, s, jid) (Priority.ready_heap run) ->
            exists j, Py.get (Py.set (Priority.jobs run) (Priority.dr_job_id req) job') jid
                      = Some j /\
              Priority.priority j = p /\ Priority.arrival_ms j = a /\
              a <= Z.max (Priority.current_sim_ms run) fin).
  { intros p a s jid Hin. destruct (H3 p a s jid Hin) as (j & Hj & Hp & Ha & Hle).
    destruct (String.eqb_spec (Priority.dr_job_id req) jid) as [<-|Hne].
    - exists job'. rewrite dict_get_set_same. rewrite Hjob in Hj. injection Hj as ->.
      simpl. repeat split; try assumption. lia.
    - exists j. rewrite dict_get_set_other by congruence.
      repeat split; try assumption. lia. }
  assert (Hpending : forall a s jid, In (a, s, jid) (Priority.pending_heap run) ->
            exists j, Py.get (Py.set (Priority.jobs run) (Priority.dr_job_id req) job') jid
                      = Some j /\ Priority.arrival_ms j = a).
  { intros a s jid Hin. destruct (H4 a s jid Hin) as (j & Hj & Ha).
    destruct (String.eqb_spec (Priority.dr_job_id req) jid) as [<-|Hne].
    - exists job'. rewrite dict_get_set_same. rewrite Hjob in Hj. injection Hj as ->.
      simpl. auto.
    - exists j. rewrite dict_get_set_other by congruence. auto. }
  assert (Hkeys : Py.keys (Py.set (Priority.jobs run) (Priority.dr_job_id req) job')
                  = Py.keys (Priority.jobs run)).
  { eapply dict_keys_set_known; eassumption. }
  assert (Hlen : Priority.total_jobs run
                 = Py.len (Py.set (Priority.jobs run) (Priority.dr_job_id req) job')).
  { rewrite H5. symmetry. eapply dict_len_set_known; eassumption. }
  assert (Hrows : Priority.result_rows run1 <> []).
  { apply (prio_rows_nonempty run1 (Priority.dr_job_id req) job').
    - apply dict_get_set_same.
    - simpl. destruct (Priority.start_ms job); discriminate.
    - simpl. discriminate. }
  destruct (Priority.total_jobs run <=? Priority.completed run + 1) eqn:Ec.
  - rewrite (prio_finalize_rows cfg (Priority.WORKERS w) now_final run1 Hrows).
    simpl. eexists. split; [reflexivity|]. simpl.
    split; [|auto].
    split; simpl; try assumption.
    + rewrite Hkeys. assumption.
    + discriminate.
    + intros _. exists (Priority.WORKERS w), now_final.
      split; [exact Hrows|].
      split; [reflexivity|]. split; [reflexivity|].
      split; [reflexivity|]. split; apply in_or_app; right; simpl; auto.
  - apply Z.leb_gt in Ec. simpl. eexists. split; [reflexivity|]. simpl.
    split; [|auto].
    split; simpl; try assumption.
    + rewrite Hkeys. assumption.
    + intros _. lia.
    + congruence.
Qed.

Lemma prio_start_sound (cfg : Config) (now_slots now_start : Q) (fresh_id : string)
    (req : Priority.StartReq) (w : Priority.World) :
  prio_inv cfg w ->
  prio_inv cfg (snd (fst (Priority.start cfg now_slots now_start fresh_id req w))).
Proof.
  intros Hinv.
  destruct (Priority.start cfg now_slots now_start fresh_id req w) as [[r w'] sigs] eqn:E.
  simpl. destruct r as [rid|e].
  - destruct (prio_start_run_sound _ _ _ _ _ _ _ _ _ E) as (run & Hrun & Hs & _).
    intros run' Hrun'. rewrite Hrun in Hrun'. now injection Hrun' as <-.
  - assert (w' = w) as ->; [|assumption].
    revert E. unfold Priority.start.
    destruct (_ <? _); [intros E; now injection E|].
    destruct (negb _); [intros E; now injection E|].
    destruct (Priority.load_jobs _ _); [|intros E; now injection E].
    destruct (Priority.fill_heaps _ _ _ _) as [[? ?] ?]. discriminate.
Qed.

(** One step that is no [/start] keeps the run in place and such a run,
    with its job table's keys, and moves ids only from the pending heap to
    the ready heap and from the ready heap to the caller of [/next]. *)
Lemma prio_step_run (cfg : Config) (e : Priority.event) (w : Priority.World)
    (run : Priority.RunState) :
  Priority.is_start e = false ->
  Priority.ACTIVE_RUN w = Some run -> prio_sound cfg w run ->
  exists run',
    Priority.ACTIVE_RUN (Priority.step cfg e w) = Some run' /\
    prio_sound cfg (Priority.step cfg e w) run' /\
    Py.keys (Priority.jobs run') = Py.keys (Priority.jobs run) /\
    Priority.run_id run' = Priority.run_id run /\
    Permutation (waiting_ids run) (Priority.handed_out e w ++ waiting_ids run').
Proof.
  intros Hns Hrun Hs. destruct e; try discriminate.
  - exists run. simpl. split; [assumption|].
    split; [eapply prio_sound_results; [|exact Hs]; auto|]. auto.
  - exists run. simpl. split; [assumption|].
    split; [eapply prio_sound_results; [|exact Hs]; auto|]. auto.
  - cbn [Priority.step Priority.handed_out]. rewrite Hrun.
    destruct (Priority.next_iter deadline now_sim now (Some run)) as [[p a] sigs] eqn:E.
    destruct (prio_next_cases cfg w run _ _ _ _ _ _ Hs E)
      as (run' & -> & Hs' & Hid & Hj & Hcase).
    exists run'. cbn [fst snd]. split; [reflexivity|].
    split; [eapply prio_sound_results; [|exact Hs']; auto|].
    split; [now rewrite Hj|]. split; [assumption|].
    destruct Hcase as [[Hp [->|[->|[t ->]]]]|(jid & job & s & -> & _ & _ & _ & _ & Hp & _)];
      simpl; assumption.
  - cbn [Priority.step Priority.handed_out].
    destruct (prio_done_run cfg now now_final req w run Hrun Hs)
      as (run' & Hrun' & Hs' & Hk & Hid & Hw).
    exists run'. rewrite Hw. simpl. auto.
  - cbn [Priority.step Priority.handed_out]. rewrite Hrun. simpl.
    destruct (prio_arrival_pass_sound cfg w run now Hs) as (_ & Hs' & Hp & Hid).
    eexists. split; [reflexivity|].
    split; [eapply prio_sound_results; [|exact Hs']; auto|].
    split; [|auto].
    unfold Priority.arrival_pass.
    destruct (Priority.promote_arrivals _ _) as [[r run'] sigs] eqn:E.
    destruct (promote_arrivals_frame _ _ _ _ _ E) as (Hj & _). simpl in *. now rewrite Hj.
Qed.

Lemma prio_step_sound (cfg : Config) (e : Priority.event) (w : Priority.World) :
  prio_inv cfg w -> prio_inv cfg (Priority.step cfg e w).
Proof.
  intros Hinv.
  destruct (Priority.is_start e) eqn:He.
  - destruct e; try discriminate. simpl. now apply prio_start_sound.
  - destruct (Priority.ACTIVE_RUN w) as [run|] eqn:Hrun.
    + destruct (prio_step_run cfg e w run He Hrun (Hinv run Hrun))
        as (run' & Hrun' & Hs' & _).
      intros r Hr. rewrite Hrun' in Hr. now injection Hr as <-.
    + apply prio_idle_sound. destruct e; try discriminate; simpl; try assumption.
      * now rewrite Hrun.
      * unfold Priority.done_handler. destruct (negb _); simpl; [assumption|].
        rewrite Hrun. assumption.
      * now rewrite Hrun.
Qed.

Lemma prio_steps_sound (cfg : Config) (es : list Priority.event) (w : Priority.World) :
  prio_inv cfg w -> prio_inv cfg (Priority.steps cfg es w).
Proof.
  revert w. induction es as [|e es IH]; intros w Hinv; [assumption|].
  apply IH. now apply prio_step_sound.
Qed.

Lemma prio_steps_run (cfg : Config) (es : list Priority.event) (w : Priority.World)
    (run : Priority.RunState) :
  forallb (fun e => negb (Priority.is_start e)) es = true ->
  Priority.ACTIVE_RUN w = Some run -> prio_sound cfg w run ->
  exists run',
    Priority.ACTIVE_RUN (Priority.steps cfg es w) = Some run' /\
    prio_sound cfg (Priority.steps cfg es w) run' /\
    Py.keys (Priority.jobs run') = Py.keys (Priority.jobs run) /\
    Priority.run_id run' = Priority.run_id run /\
    Permutation (waiting_ids run) (Priority.dispatches cfg es w ++ waiting_ids run').
Proof.
  revert w run. induction es as [|e es IH]; intros w run Hns Hrun Hs.
  - exists run. simpl. auto.
  - simpl in Hns. apply andb_true_iff in Hns. destruct Hns as [He Hes].
    apply negb_true_iff in He.
    destruct (prio_step_run cfg e w run He Hrun Hs)
      as (run1 & Hrun1 & Hs1 & Hk1 & Hid1 & Hp1).
    destruct (IH (Priority.step cfg e w) run1 Hes Hrun1 Hs1)
      as (run' & Hrun' & Hs' & Hk & Hid & Hp).
    exists run'. simpl. split; [assumption|]. split; [assumption|].
    split; [congruence|]. split; [congruence|].
    rewrite Hp1. rewrite <- app_assoc. apply Permutation_app_head. exact Hp.
Qed.



(** X16. Within a run of the priority service, whatever steps follow its
    [/start] (no new [/start] among them): every job of the dataset is at
    any time in exactly one place, handed out to a caller of [/next], in
    the ready heap, or in the pending heap. No job is lost, none is handed
    out twice, and the sizes of the two heaps and the number of jobs handed
    out add up to [total_jobs]. *)
Theorem prio_jobs_conserved (cfg : Config) (now_slots now_start : Q) (fresh_id : string)
    (req : Priority.StartReq) (w w0 : Priority.World) (rid : string)
    (sigs : list signal) (es : list Priority.event) :
  Priority.start cfg now_slots now_start fresh_id req w = (Py.Ok rid, w0, sigs) ->
  forallb (fun e => negb (Priority.is_start e)) es = true ->
  exists run0 run,
    Priority.ACTIVE_RUN w0 = Some run0 /\
    Priority.ACTIVE_RUN (Priority.steps cfg es w0) = Some run /\
    Priority.run_id run = rid /\
    Permutation (Py.keys (Priority.jobs run0))
      (Priority.dispatches cfg es w0
       ++ map snd (Priority.ready_heap run) ++ map snd (Priority.pending_heap run)) /\
    List.NoDup (Priority.dispatches cfg es w0) /\
    Py.len (Priority.dispatches cfg es w0) + Py.len (Priority.ready_heap run)
    + Py.len (Priority.pending_heap run) = Priority.total_jobs run.
Proof.
  intros Hstart Hns.
  destruct (prio_start_run_sound _ _ _ _ _ _ _ _ _ Hstart)
    as (run0 & Hrun0 & Hs0 & Hid0 & _ & _ & Hw0).
  destruct (prio_steps_run cfg es w0 run0 Hns Hrun0 Hs0)
    as (run & Hrun & Hs & Hk & Hid & Hperm).
  assert (Hall : Permutation (Py.keys (Priority.jobs run0))
            (Priority.dispatches cfg es w0 ++ waiting_ids run)).
  { etransitivity; [exact Hw0 | exact Hperm]. }
  exists run0, run. split; [assumption|]. split; [assumption|].
  split; [congruence|]. split; [exact Hall|]. split.
  - eapply NoDup_app_remove_r. eapply Permutation_NoDup; [exact Hall|].
    exact (ps_keys _ _ _ Hs0).
  - rewrite (ps_total _ _ _ Hs). unfold Py.len.
    apply Permutation_length in Hall. unfold waiting_ids in Hall.
    rewrite !length_app, !length_map in Hall.
    rewrite <- (length_map fst (Priority.jobs run)).
    change (map fst (Priority.jobs run)) with (Py.keys (Priority.jobs run)).
    rewrite Hk. unfold Py.keys in Hall |- *. rewrite length_map in Hall.
    rewrite length_map. unfold Priority.ready_item, Priority.pending_item in *. lia.
Qed.

Lemma prio_jobs_conserved_witness :
  exists run0 run,
    Priority.ACTIVE_RUN Sample.prio_late = Some run0 /\
    Priority.ACTIVE_RUN
      (Priority.steps default_config Scenario.prio_run_half Sample.prio_late)
    = Some run /\
    Priority.run_id run = "run0000003" /\
    Permutation (Py.keys (Priority.jobs run0))
      (Priority.dispatches default_config Scenario.prio_run_half Sample.prio_late
       ++ map snd (Priority.ready_heap run) ++ map snd (Priority.pending_heap run)) /\
    List.NoDup (Priority.dispatches default_config Scenario.prio_run_half
                  Sample.prio_late) /\
    Py.len (Priority.dispatches default_config Scenario.prio_run_half Sample.prio_late)
    + Py.len (Priority.ready_heap run) + Py.len (Priority.pending_heap run)
    = Priority.total_jobs run.
Proof.
  apply (prio_jobs_conserved default_config 1 1 "run0000003"
           (Sample.prio_start "late.csv") Sample.prio_idle Sample.prio_late
           "run0000003" [notify_all] Scenario.prio_run_half).
  - vm_compute. reflexivity.
  - reflexivity.
Defined.

(** X17. The priority service hands out the most urgent job that has
    arrived. From the boot of the service, whatever steps were taken: when
    a pass of [/next] hands out a job, the answer carries the service
    time, the priority and the arrival time of that job in the job table;
    the job was waiting in one of the heaps and is in neither afterwards;
    it has arrived by the simulated clock of the run, which the pass moved
    to the later of its old value and the converted wall clock; and every
    job still waiting either arrives later than that clock, or has a
    larger priority value, or the same priority and no earlier arrival. *)
Theorem prio_most_urgent_first (cfg : Config) (w0 : Priority.World)
    (es : list Priority.event) (d now_sim now : Q)
    (run run' : Priority.RunState) (jid : string) (svc prio arrival : Z)
    (sigs : list signal) :
  Priority.ACTIVE_RUN w0 = None ->
  Priority.ACTIVE_RUN (Priority.steps cfg es w0) = Some run ->
  Priority.next_iter d now_sim now (Some run)
  = (Reply (Py.Ok (Priority.next_ok jid svc prio arrival)), Some run', sigs) ->
  exists job,
    Py.get (Priority.jobs run) jid = Some job /\
    svc = Priority.service_ms job /\ prio = Priority.priority job /\
    arrival = Priority.arrival_ms job /\
    In jid (waiting_ids run) /\ ~ In jid (waiting_ids run') /\
    Priority.current_sim_ms run'
    = Z.max (Priority.current_sim_ms run)
        (Priority.wall_to_sim run (Py.int_of_float (now_sim * 1000))) /\
    arrival <= Priority.current_sim_ms run' /\
    forall jid' job',
      In jid' (waiting_ids run') -> Py.get (Priority.jobs run) jid' = Some job' ->
      Priority.current_sim_ms run' < Priority.arrival_ms job' \/
      prio < Priority.priority job' \/
      (prio = Priority.priority job' /\ arrival <= Priority.arrival_ms job').
Proof.
  intros H0 Hrun E.
  pose proof (prio_steps_sound cfg es w0 (prio_idle_sound cfg w0 H0) run Hrun) as Hs.
  destruct (prio_next_cases cfg _ run _ _ _ _ _ _ Hs E)
    as (run1 & Hrun1 & Hs1 & _ & Hj1 & Hcase).
  injection Hrun1 as <-.
  destruct Hcase as [[_ [Hp|[Hp|[t Hp]]]]|
                     (jid0 & job & s & Hp & Hjob & _ & Hsim & Harr & Hperm & Hready & Hpend)];
    try discriminate.
  injection Hp as -> -> -> ->. exists job.
  split; [assumption|]. split; [reflexivity|]. split; [reflexivity|].
  split; [reflexivity|].
  pose proof (Permutation_NoDup Hperm (ps_heaps _ _ _ Hs)) as Hnd.
  split; [eapply Permutation_in; [apply Permutation_sym; exact Hperm | now left]|].
  split; [now inversion Hnd|]. split; [exact Hsim|]. split; [assumption|].
  intros jid' job' Hin Hjob'. unfold waiting_ids in Hin. apply in_app_or in Hin.
  destruct Hin as [Hin|Hin]; apply in_map_iff in Hin.
  - destruct Hin as ([[[p' a'] s'] j'] & Hj' & Hin). simpl in Hj'. subst j'.
    destruct (ps_ready _ _ _ Hs1 _ _ _ _ Hin) as (job1 & Hget & Hp1 & Ha1 & _).
    rewrite Hj1, Hjob' in Hget. injection Hget as <-.
    pose proof (Hready _ _ _ _ Hin) as Hle. unfold key_le in Hle. lia.
  - destruct Hin as ([[a' s'] j'] & Hj' & Hin). simpl in Hj'. subst j'.
    destruct (ps_pending _ _ _ Hs1 _ _ _ Hin) as (job1 & Hget & Ha1).
    rewrite Hj1, Hjob' in Hget. injection Hget as <-.
    pose proof (Hpend _ _ _ Hin). lia.
Qed.

Lemma prio_most_urgent_first_witness :
  exists job,
    Py.get (Priority.jobs (Sample.prio_run Sample.prio_late)) "B" = Some job /\
    100 = Priority.service_ms job /\ 1 = Priority.priority job /\
    1000 = Priority.arrival_ms job /\
    In "B" (waiting_ids (Sample.prio_run Sample.prio_late)) /\
    ~ In "B" (waiting_ids Sample.prio_late_dispatched) /\
    Priority.current_sim_ms Sample.prio_late_dispatched
    = Z.max (Priority.current_sim_ms (Sample.prio_run Sample.prio_late))
        (Priority.wall_to_sim (Sample.prio_run Sample.prio_late)
           (Py.int_of_float (2 * 1000))) /\
    1000 <= Priority.current_sim_ms Sample.prio_late_dispatched /\
    forall jid' job',
      In jid' (waiting_ids Sample.prio_late_dispatched) ->
      Py.get (Priority.jobs (Sample.prio_run Sample.prio_late)) jid' = Some job' ->
      Priority.current_sim_ms Sample.prio_late_dispatched < Priority.arrival_ms job' \/
      1 < Priority.priority job' \/
      (1 = Priority.priority job' /\ 1000 <= Priority.arrival_ms job').
Proof.
  apply (prio_most_urgent_first default_config Scenario.prio_boot Scenario.prio_morning
           12 2 2 (Sample.prio_run Sample.prio_late) Sample.prio_late_dispatched
           "B" 100 1 1000 [notify_all]).
  - reflexivity.
  - vm_compute. reflexivity.
  - vm_compute. reflexivity.
Defined.

Lemma prio_waiting_known (cfg : Config) (w : Priority.World) (run : Priority.RunState) :
  prio_sound cfg w run -> incl (waiting_ids run) (Py.keys (Priority.jobs run)).
Proof.
  intros Hs jid Hin. unfold waiting_ids in Hin. apply in_app_or in Hin.
  destruct Hin as [Hin|Hin]; apply in_map_iff in Hin.
  - destruct Hin as ([[[p a] s] j] & <- & Hin).
    destruct (ps_ready _ _ _ Hs _ _ _ _ Hin) as (job & Hget & _).
    eapply dict_get_keys; eassumption.
  - destruct Hin as ([[a s] j] & <- & Hin).
    destruct (ps_pending _ _ _ Hs _ _ _ Hin) as (job & Hget & _).
    eapply dict_get_keys; eassumption.
Qed.

(** X18. [GET /status] of the priority service, from the boot of the
    service and whatever steps were taken: when it says [running],
    [completed] is below [total], or both are 0, and the jobs counted as
    [ready] and [pending] are no more than [total]; when it says [done], it
    carries the summary and the two paths
    [RESULTS_DIR/results_jobs_<run_id>.csv] and
    [RESULTS_DIR/results_run_<run_id>.csv], both files have been written,
    and the summary counts the rows of the per-job file, of which there is
    at least one. *)
Theorem prio_status_reachable (cfg : Config) (w0 : Priority.World)
    (es : list Priority.event) :
  Priority.ACTIVE_RUN w0 = None ->
  match Priority.status (Priority.steps cfg es w0) with
  | Priority.status_no_run => Priority.ACTIVE_RUN (Priority.steps cfg es w0) = None
  | Priority.status_running rid completed total ready pending =>
      0 <= completed /\ (completed < total \/ total = 0 /\ completed = 0) /\
      0 <= ready /\ 0 <= pending /\ ready + pending <= total
  | Priority.status_done rid s jobs_csv run_csv =>
      exists sum rows,
        s = Some sum /\
        jobs_csv = Some (Py.path_join (RESULTS_DIR cfg) ("results_jobs_" ++ rid ++ ".csv")) /\
        run_csv = Some (Py.path_join (RESULTS_DIR cfg) ("results_run_" ++ rid ++ ".csv")) /\
        In (Py.path_join (RESULTS_DIR cfg) ("results_jobs_" ++ rid ++ ".csv"),
            Priority.JobsCsv rid rows) (Priority.RESULTS (Priority.steps cfg es w0)) /\
        In (Py.path_join (RESULTS_DIR cfg) ("results_run_" ++ rid ++ ".csv"),
            Priority.RunCsv sum) (Priority.RESULTS (Priority.steps cfg es w0)) /\
        Priority.sum_run_id sum = rid /\
        Priority.sum_jobs sum = Py.len rows /\ 0 < Py.len rows
  end.
Proof.
  intros H0.
  pose proof (prio_steps_sound cfg es w0 (prio_idle_sound cfg w0 H0)) as Hinv.
  unfold Priority.status.
  destruct (Priority.ACTIVE_RUN (Priority.steps cfg es w0)) as [run|] eqn:Hrun;
    [|reflexivity].
  pose proof (prio_waiting_known _ _ _ (Hinv run Hrun)) as Hincl.
  destruct (Hinv run Hrun) as [H1 H2 H3 H4 H5 H6 H7].
  destruct (Priority.done run) eqn:Hd.
  - destruct (H7 eq_refl) as (W & now & Hne & Hs & Hj & Hr & Hi1 & Hi2).
    eexists _, (Priority.result_rows run). rewrite Hs, Hj, Hr.
    split; [reflexivity|]. split; [reflexivity|]. split; [reflexivity|].
    split; [exact Hi1|]. split; [exact Hi2|]. split; [reflexivity|].
    split; [reflexivity|]. unfold Py.len.
    destruct (Priority.result_rows run); [congruence | simpl; lia].
  - destruct (H6 eq_refl) as [Hc0 Hc]. split; [assumption|]. split; [assumption|].
    unfold Py.len. split; [lia|]. split; [lia|].
    rewrite H5. unfold Py.len.
    pose proof (NoDup_incl_length H2 Hincl) as Hlen.
    unfold waiting_ids, Py.keys in Hlen. rewrite length_app, !length_map in Hlen.
    unfold Priority.ready_item, Priority.pending_item in *. lia.
Qed.

Lemma prio_status_reachable_witness :
  Priority.ACTIVE_RUN Scenario.prio_boot = None /\
  match Priority.status
          (Priority.steps default_config (Scenario.prio_morning ++ Scenario.prio_run_events)
             Scenario.prio_boot) with
  | Priority.status_no_run =>
      Priority.ACTIVE_RUN
        (Priority.steps default_config (Scenario.prio_morning ++ Scenario.prio_run_events)
           Scenario.prio_boot) = None
  | Priority.status_running rid completed total ready pending =>
      0 <= completed /\ (completed < total \/ total = 0 /\ completed = 0) /\
      0 <= ready /\ 0 <= pending /\ ready + pending <= total
  | Priority.status_done rid s jobs_csv run_csv =>
      exists sum rows,
        s = Some sum /\
        jobs_csv = Some (Py.path_join (RESULTS_DIR default_config)
                           ("results_jobs_" ++ rid ++ ".csv")) /\
        run_csv = Some (Py.path_join (RESULTS_DIR default_config)
                          ("results_run_" ++ rid ++ ".csv")) /\
        In (Py.path_join (RESULTS_DIR default_config) ("results_jobs_" ++ rid ++ ".csv"),
            Priority.JobsCsv rid rows)
           (Priority.RESULTS
              (Priority.steps default_config
                 (Scenario.prio_morning ++ Scenario.prio_run_events) Scenario.prio_boot)) /\
        In (Py.path_join (RESULTS_DIR default_config) ("results_run_" ++ rid ++ ".csv"),
            Priority.RunCsv sum)
           (Priority.RESULTS
              (Priority.steps default_config
                 (Scenario.prio_morning ++ Scenario.prio_run_events) Scenario.prio_boot)) /\
        Priority.sum_run_id sum = rid /\
        Priority.sum_jobs sum = Py.len rows /\ 0 < Py.len rows
  end.
Proof.
  split; [reflexivity|].
  exact (prio_status_reachable default_config Scenario.prio_boot
           (Scenario.prio_morning ++ Scenario.prio_run_events) eq_refl).
Defined.

(** ** Round-robin without arrivals: what every sequence of steps keeps *)










(** ** Round-robin with arrivals: what every sequence of steps keeps *)

Lemma rrobin_sound_results (cfg : Config) (w w' : RoundRobin.World)
    (run : RoundRobin.RunState) :
  (forall x, In x (RoundRobin.RESULTS w) -> In x (RoundRobin.RESULTS w')) ->
  rrobin_sound cfg w run -> rrobin_sound cfg w' run.
Proof.
  intros Hsub [H1 H2 H3 H4 H5 H6 H7 H8]. split; try assumption.
  intros Hd. destruct (H8 Hd) as (W & now & Hne & Hs & Hj & Hr & Hi1 & Hi2).
  exists W, now. auto 10.
Qed.

Lemma rrobin_idle_sound (cfg : Config) (w : RoundRobin.World) :
  RoundRobin.ACTIVE_RUN w = None -> rrobin_inv cfg w.
Proof. intros H run Hrun. congruence. Qed.

Lemma nth_error_skipn_add {A : Type} (n k : nat) (l : list A) :
  nth_error (skipn n l) k = nth_error l (n + k).
Proof.
  revert l. induction n as [|n IH]; intros l; [reflexivity|].
  destruct l as [|x l]; simpl; [now destruct k | apply IH].
Qed.

Lemma in_skipn_in {A : Type} (n : nat) (l : list A) (x : A) :
  In x (skipn n l) -> In x l.
Proof.
  intros H. rewrite <- (firstn_skipn n l). apply in_or_app. now right.
Qed.

Lemma in_firstn_in {A : Type} (n : nat) (l : list A) (x : A) :
  In x (firstn n l) -> In x l.
Proof.
  intros H. rewrite <- (firstn_skipn n l). apply in_or_app. now left.
Qed.

(** [release_arrivals] on a run whose lists name jobs of the table: it
    does not fail, the index stays within the list, the job it stops at is
    due later, and a job it releases is due. *)
Lemma rrobin_release_cases (run run1 : RoundRobin.RunState) (now : Z)
    (r : Py.result unit) :
  RoundRobin.release_arrivals run now = (r, run1) ->
  ids_known (RoundRobin.jobs run) (RoundRobin.ready_q run) ->
  ids_known (RoundRobin.jobs run) (RoundRobin.pending_ids run) ->
  0 <= RoundRobin.pending_idx run <= Py.len (RoundRobin.pending_ids run) ->
  r = Py.Ok tt /\
  ids_known (RoundRobin.jobs run) (RoundRobin.ready_q run1) /\
  RoundRobin.pending_idx run <= RoundRobin.pending_idx run1
  <= Py.len (RoundRobin.pending_ids run) /\
  (forall jid job,
     nth_error (RoundRobin.pending_ids run) (Z.to_nat (RoundRobin.pending_idx run1))
     = Some jid ->
     Py.get (RoundRobin.jobs run) jid = Some job -> now < RoundRobin.arrival_ms job) /\
  (RoundRobin.pending_idx run1 = RoundRobin.pending_idx run ->
   RoundRobin.ready_q run1 = RoundRobin.ready_q run) /\
  (RoundRobin.pending_idx run < RoundRobin.pending_idx run1 ->
   exists jid job,
     nth_error (RoundRobin.pending_ids run) (Z.to_nat (RoundRobin.pending_idx run))
     = Some jid /\
     Py.get (RoundRobin.jobs run) jid = Some job /\ RoundRobin.arrival_ms job <= now).
Proof.
  unfold RoundRobin.release_arrivals. intros H Hq Hp Hidx.
  destruct (RoundRobin.release_loop _ _ _ _ _) as [[r0 ready] idx] eqn:E.
  injection H as <- <-. simpl.
  destruct (release_loop_appends _ _ _ _ _ _ _ _ E)
    as (k & Hk & -> & -> & Hrel & Hstop).
  unfold RoundRobin.unreleased in *.
  set (n := Z.to_nat (RoundRobin.pending_idx run)) in *.
  assert (Hn : Z.of_nat n = RoundRobin.pending_idx run) by (unfold n; lia).
  assert (Hnth : nth_error (skipn n (RoundRobin.pending_ids run)) k
                 = nth_error (RoundRobin.pending_ids run)
                     (Z.to_nat (RoundRobin.pending_idx run + Z.of_nat k))).
  { rewrite nth_error_skipn_add. f_equal. lia. }
  assert (Hsub : forall jid, In jid (firstn k (skipn n (RoundRobin.pending_ids run))) ->
            In jid (RoundRobin.pending_ids run)).
  { intros jid Hin. apply (in_skipn_in n). eapply in_firstn_in; eassumption. }
  assert (Hr0 : r0 = Py.Ok tt).
  { destruct r0 as [[]|e]; [reflexivity|].
    destruct Hstop as (jid & Hjid & Hnone).
    destruct (Hp jid) as [job Hjob]; [|congruence].
    apply (in_skipn_in n). eapply nth_error_In; eassumption. }
  subst r0. split; [reflexivity|]. split; [|split; [|split; [|split]]].
  - intros jid Hin. apply in_app_or in Hin. destruct Hin as [Hin|Hin]; auto.
  - rewrite length_skipn in Hk. unfold Py.len in *. lia.
  - intros jid job Hnth' Hjob. rewrite <- Hnth in Hnth'. rewrite Hnth' in Hstop.
    destruct Hstop as (job' & Hjob' & Hlt). congruence.
  - intros Heq. assert (k = 0)%nat as -> by lia. simpl. apply app_nil_r.
  - intros Hlt. destruct k as [|k]; [lia|].
    destruct (skipn n (RoundRobin.pending_ids run)) as [|jid rest] eqn:Es;
      [simpl in Hk; lia|].
    destruct (Hrel jid) as (job & Hjob & Hle); [now left|].
    exists jid, job. split; [|auto].
    fold n. rewrite <- (Nat.add_0_r n), <- nth_error_skipn_add, Es. reflexivity.
Qed.

Lemma rrobin_release_sound (cfg : Config) (w : RoundRobin.World)
    (run run1 : RoundRobin.RunState) (now : Z) (r : Py.result unit) :
  RoundRobin.release_arrivals run now = (r, run1) ->
  rrobin_sound cfg w run ->
  r = Py.Ok tt /\ rrobin_sound cfg w run1 /\
  (forall jid job,
     nth_error (RoundRobin.pending_ids run1) (Z.to_nat (RoundRobin.pending_idx run1))
     = Some jid ->
     Py.get (RoundRobin.jobs run1) jid = Some job -> now < RoundRobin.arrival_ms job) /\
  (now <= 0 -> RoundRobin.ready_q run1 = RoundRobin.ready_q run /\
               RoundRobin.pending_idx run1 = RoundRobin.pending_idx run).
Proof.
  intros E [H1 H2 H3 H4 H5 H6 H7 H8].
  destruct (rrobin_release_cases _ _ _ _ E H1 H3 H4)
    as (-> & Hq & Hidx & Hnext & Hsame & Hmoved).
  destruct (release_arrivals_frame _ _ _ _ E)
    as (Hj & Hd & Hc & Ht & _ & _ & Hp & _).
  assert (Hrun1 : RoundRobin.run_id run1 = RoundRobin.run_id run /\
                  RoundRobin.summary run1 = RoundRobin.summary run /\
                  RoundRobin.jobs_csv run1 = RoundRobin.jobs_csv run /\
                  RoundRobin.run_csv run1 = RoundRobin.run_csv run /\
                  RoundRobin.quantum_ms run1 = RoundRobin.quantum_ms run /\
                  RoundRobin.dataset_file run1 = RoundRobin.dataset_file run /\
                  RoundRobin.speedup run1 = RoundRobin.speedup run).
  { revert E. unfold RoundRobin.release_arrivals.
    destruct (RoundRobin.release_loop _ _ _ _ _) as [[r0 ready] idx].
    intros E. injection E as _ <-. simpl. auto 10. }
  destruct Hrun1 as (Hid & Hsum & Hjc & Hrc & Hqm & Hdf & Hsp).
  assert (Hstay : now <= 0 -> RoundRobin.pending_idx run1 = RoundRobin.pending_idx run).
  { intros Hnow.
    destruct (Z.eq_dec (RoundRobin.pending_idx run1) (RoundRobin.pending_idx run))
      as [|Hne]; [assumption|].
    destruct Hmoved as (jid & job & Hnth & Hjob & Hle); [lia|].
    pose proof (H5 jid job Hnth Hjob). lia. }
  split; [reflexivity|]. split; [|split].
  - split.
    + now rewrite Hj.
    + now rewrite Hj.
    + now rewrite Hj, Hp.
    + rewrite Hp. lia.
    + rewrite Hj, Hp. intros jid job Hnth Hjob.
      destruct (Z_le_gt_dec now 0) as [Hnow|Hnow].
      * rewrite (Hstay Hnow) in Hnth. eauto.
      * pose proof (Hnext jid job Hnth Hjob). lia.
    + now rewrite Ht, Hj.
    + now rewrite Hd, Hc, Ht.
    + rewrite Hd. intros Hdone. destruct (H8 Hdone) as (W & t & Hne & Hs & Hjs & Hr & Hi1 & Hi2).
      exists W, t. unfold RoundRobin.result_rows, RoundRobin.summarize,
        RoundRobin.jobs_path, RoundRobin.run_path in *.
      rewrite Hj, Hid, Hsum, Hjc, Hrc, Hqm, Hdf, Hsp. auto 10.
  - rewrite Hj, Hp. exact Hnext.
  - intros Hnow. split; [apply Hsame|]; auto.
Qed.

Lemma rrobin_rows_nonempty (run : RoundRobin.RunState) (jid : string)
    (j : RoundRobin.JobState) :
  Py.get (RoundRobin.jobs run) jid = Some j ->
  RoundRobin.finish_ms j <> None ->
  RoundRobin.result_rows run <> [].
Proof.
  intros Hj Hf. unfold RoundRobin.result_rows. intros E.
  apply dict_get_In_values in Hj.
  destruct (RoundRobin.row_of j) as [|r rs] eqn:Er.
  - unfold RoundRobin.row_of in Er.
    destruct (RoundRobin.finish_ms j); [discriminate | congruence].
  - assert (In r (flat_map RoundRobin.row_of (Py.values (RoundRobin.jobs run)))).
    { apply in_flat_map. exists j. split; [assumption|]. rewrite Er. now left. }
    rewrite E in H. destruct H.
Qed.

Lemma rrobin_start_sound (cfg : Config) (now_slots now_start : Q) (fresh_id : string)
    (req : RoundRobin.StartReq) (w : RoundRobin.World) :
  rrobin_inv cfg w ->
  rrobin_inv cfg (snd (fst (RoundRobin.start cfg now_slots now_start fresh_id req w))).
Proof.
  intros Hinv. unfold RoundRobin.start.
  destruct (_ <? _); [assumption|]. destruct (negb _); [assumption|].
  destruct (RoundRobin.load_jobs _ _) as [jobs|] eqn:Hload; [|assumption].
  match goal with
  | |- context [RoundRobin.release_arrivals ?r 0] => set (run0 := r)
  end.
  destruct (RoundRobin.release_arrivals run0 0) as [r run1] eqn:E.
  assert (Hp0 : ids_known (RoundRobin.jobs run0) (RoundRobin.pending_ids run0)).
  { simpl. eapply ids_known_perm; [apply sorted_by_perm | apply dict_keys_known]. }
  assert (Hq0 : ids_known (RoundRobin.jobs run0) (RoundRobin.ready_q run0)).
  { intros jid []. }
  assert (Hi0 : 0 <= RoundRobin.pending_idx run0
                <= Py.len (RoundRobin.pending_ids run0)).
  { simpl. unfold Py.len. lia. }
  destruct (rrobin_release_cases _ _ _ _ E Hq0 Hp0 Hi0)
    as (-> & Hq & Hidx & Hnext & _ & _).
  destruct (release_arrivals_frame _ _ _ _ E)
    as (Hj & Hd & Hc & Ht & _ & _ & Hp & _).
  simpl. intros run Hrun. injection Hrun as <-.
  split.
  - now rewrite Hj.
  - rewrite Hj. simpl. intros jid job Hget.
    now destruct (rrobin_load_jobs_fresh _ _ _ Hload jid job Hget).
  - now rewrite Hj, Hp.
  - rewrite Hp. change (RoundRobin.pending_idx run0) with 0 in Hidx. lia.
  - rewrite Hj, Hp. exact Hnext.
  - now rewrite Ht, Hj.
  - rewrite Hc, Ht. simpl. intros _. unfold Py.len. split; [lia|].
    destruct jobs; simpl; lia.
  - rewrite Hd. discriminate.
Qed.

(** One pass of [/next] on such a run keeps it such a run; it fails only
    by the division in the computation of the wait, when the speedup of
    the run is 0, nothing is ready and a job is still to be released. *)
Lemma rrobin_next_cases (cfg : Config) (w : RoundRobin.World)
    (run : RoundRobin.RunState) (d now_wall now : Q) :
  rrobin_sound cfg w run ->
  exists run',
    snd (RoundRobin.next_iter d now_wall now (Some run)) = Some run' /\
    rrobin_sound cfg w run' /\
    forall e,
      fst (RoundRobin.next_iter d now_wall now (Some run)) = Reply (Py.Raise e) ->
      e = Py.ZeroDivisionError /\ Qeq_bool (RoundRobin.speedup run) 0 = true /\
      RoundRobin.ready_q run' = [] /\
      RoundRobin.pending_idx run' < Py.len (RoundRobin.pending_ids run').
Proof.
  intros Hs. unfold RoundRobin.next_iter.
  destruct (RoundRobin.done run || _).
  { exists run. simpl. split; [reflexivity|]. split; [assumption | discriminate]. }
  destruct (RoundRobin.release_arrivals run _) as [r run1] eqn:E.
  destruct (rrobin_release_sound cfg w _ _ _ _ E Hs) as (-> & Hs1 & _ & _).
  destruct (release_arrivals_frame _ _ _ _ E) as (_ & _ & _ & _ & _ & Hsp & _).
  destruct (RoundRobin.ready_q run1) as [|jid rest] eqn:Hq.
  - destruct (Qle_bool _ _).
    { exists run1. simpl. split; [reflexivity|]. split; [assumption | discriminate]. }
    unfold RoundRobin.wait_time.
    destruct (nth_error _ _) as [next_jid|] eqn:Hnth.
    + destruct (rbs_pending _ _ _ Hs1 next_jid) as [job Hjob].
      { eapply nth_error_In; eassumption. }
      unfold Py.getitem. rewrite Hjob. simpl.
      destruct (Qeq_bool (RoundRobin.speedup run1) 0) eqn:Ez; simpl.
      * exists run1. split; [reflexivity|]. split; [assumption|].
        intros e He. injection He as <-. split; [reflexivity|].
        split; [now rewrite <- Hsp|]. split; [assumption|].
        assert (Hlt : (Z.to_nat (RoundRobin.pending_idx run1)
                       < length (RoundRobin.pending_ids run1))%nat).
        { apply nth_error_Some. congruence. }
        pose proof (rbs_idx _ _ _ Hs1). unfold Py.len. lia.
      * exists run1. split; [reflexivity|]. split; [assumption | discriminate].
    + exists run1. simpl. split; [reflexivity|]. split; [assumption | discriminate].
  - destruct (rbs_known _ _ _ Hs1 jid) as [job Hjob]; [rewrite Hq; now left|].
    unfold Py.getitem. rewrite Hjob. simpl.
    eexists. split; [reflexivity|]. split; [|discriminate].
    destruct Hs1 as [H1 H2 H3 H4 H5 H6 H7 H8]. split; simpl; try assumption.
    rewrite Hq in H1. intros x Hx. apply H1. now right.
Qed.

Lemma rrobin_done_sound (cfg : Config) (now now_final : Q) (req : RoundRobin.DoneReq)
    (w : RoundRobin.World) :
  rrobin_inv cfg w ->
  rrobin_inv cfg (snd (fst (RoundRobin.done_handler cfg now now_final req w))).
Proof.
  intros Hinv. unfold RoundRobin.done_handler.
  destruct (negb _); simpl; [auto|].
  destruct (RoundRobin.ACTIVE_RUN w) as [run|] eqn:Hrun; simpl; [|auto].
  destruct (RoundRobin.done run) eqn:Hd; simpl; [auto|].
  destruct (Py.get (RoundRobin.jobs run) (RoundRobin.dr_job_id req)) as [job|] eqn:Hjob;
    simpl; [|auto].
  destruct (Hinv run Hrun) as [H1 H2 H3 H4 H5 H6 H7 H8].
  destruct (H7 Hd) as [Hc0 Hc].
  assert (Hpos : 0 < RoundRobin.total_jobs run).
  { rewrite H6. unfold Py.len. destruct (RoundRobin.jobs run); [discriminate | simpl; lia]. }
  set (job' := RoundRobin.record_slice run job req).
  assert (Hids : forall jid j,
            Py.get (Py.set (RoundRobin.jobs run) (RoundRobin.dr_job_id req) job') jid
            = Some j -> RoundRobin.job_id j = jid).
  { intros jid j Hj.
    destruct (String.eqb_spec (RoundRobin.dr_job_id req) jid) as [<-|Hne].
    - rewrite dict_get_set_same in Hj. injection Hj as <-. apply (H2 _ _ Hjob).
    - rewrite dict_get_set_other in Hj by congruence. now apply H2. }
  assert (Hnext : forall jid j,
            nth_error (RoundRobin.pending_ids run) (Z.to_nat (RoundRobin.pending_idx run))
            = Some jid ->
            Py.get (Py.set (RoundRobin.jobs run) (RoundRobin.dr_job_id req) job') jid
            = Some j -> 0 < RoundRobin.arrival_ms j).
  { intros jid j Hnth Hj.
    destruct (String.eqb_spec (RoundRobin.dr_job_id req) jid) as [<-|Hne].
    - rewrite dict_get_set_same in Hj. injection Hj as <-. apply (H5 _ _ Hnth Hjob).
    - rewrite dict_get_set_other in Hj by congruence. eapply H5; eassumption. }
  assert (Hlen : RoundRobin.total_jobs run
                 = Py.len (Py.set (RoundRobin.jobs run) (RoundRobin.dr_job_id req) job')).
  { rewrite H6. symmetry. eapply dict_len_set_known; eassumption. }
  pose proof (ids_known_set _ (RoundRobin.dr_job_id req) job' _ H1) as Hq'.
  pose proof (ids_known_set _ (RoundRobin.dr_job_id req) job' _ H3) as Hp'.
  destruct (Z.max 0 (RoundRobin.remaining_after_ms req) =? 0) eqn:Efin; simpl.
  - set (run1 := {| RoundRobin.run_id := RoundRobin.run_id run;
                    RoundRobin.jobs := Py.set _ _ job' |}).
    assert (Hrows : RoundRobin.result_rows run1 <> []).
    { apply (rrobin_rows_nonempty run1 (RoundRobin.dr_job_id req) job').
      - apply dict_get_set_same.
      - unfold job', RoundRobin.record_slice. simpl. rewrite Efin. discriminate. }
    destruct (RoundRobin.total_jobs run <=? RoundRobin.completed run + 1) eqn:Ec.
    + simpl. intros r E. simpl in E. injection E as <-.
      split; simpl; try assumption.
      * discriminate.
      * intros _. exists (RoundRobin.WORKERS w), now_final.
        split; [exact Hrows|]. split; [reflexivity|]. split; [reflexivity|].
        split; [reflexivity|]. split; apply in_or_app; right; simpl; auto.
    + apply Z.leb_gt in Ec. simpl. intros r E. simpl in E. injection E as <-.
      split; simpl; try assumption.
      * intros _. lia.
      * congruence.
  - assert (Ec : (RoundRobin.total_jobs run <=? RoundRobin.completed run) = false).
    { apply Z.leb_gt. lia. }
    rewrite Ec. simpl. intros r E. simpl in E. injection E as <-.
    split; simpl; try assumption.
    + intros x Hx. apply in_app_or in Hx. destruct Hx as [Hx|[<-|[]]].
      * exact (Hq' x Hx).
      * rewrite (H2 _ _ Hjob). exists job'. apply dict_get_set_same.
    + auto.
    + congruence.
Qed.

Lemma rrobin_step_sound (cfg : Config) (e : RoundRobin.event) (w : RoundRobin.World) :
  rrobin_inv cfg w -> rrobin_inv cfg (RoundRobin.step cfg e w).
Proof.
  intros Hinv. destruct e; simpl.
  - intros run Hrun. eapply rrobin_sound_results; [|apply Hinv, Hrun]. auto.
  - intros run Hrun. eapply rrobin_sound_results; [|apply Hinv, Hrun]. auto.
  - now apply rrobin_start_sound.
  - destruct (RoundRobin.ACTIVE_RUN w) as [run|] eqn:Hrun.
    + destruct (rrobin_next_cases cfg w run deadline now_wall now (Hinv run Hrun))
        as (run' & -> & Hs & _).
      intros r E. simpl in E. injection E as <-.
      eapply rrobin_sound_results; [|exact Hs]. auto.
    + intros r E. discriminate.
  - now apply rrobin_done_sound.
Qed.

Lemma rrobin_steps_sound (cfg : Config) (es : list RoundRobin.event)
    (w : RoundRobin.World) :
  rrobin_inv cfg w -> rrobin_inv cfg (RoundRobin.steps cfg es w).
Proof.
  revert w. induction es as [|e es IH]; intros w Hinv; [assumption|].
  apply IH. now apply rrobin_step_sound.
Qed.

Lemma rrobin_frozen_clock (run : RoundRobin.RunState) (wall : Z) :
  (RoundRobin.speedup run == 0)%Q -> RoundRobin.wall_to_sim run wall = 0.
Proof.
  intros H. unfold RoundRobin.wall_to_sim.
  rewrite (round_proper _ (inject_Z 0)); [apply round_inject_Z|].
  rewrite H. change (inject_Z 0) with 0%Q. ring.
Qed.

(** X20. The service of [src/round-robin/scheduler.py], from its boot and
    whatever steps were taken, on a run whose arrival times are within 61
    bits and at a clock reading that converts to a simulated time within
    range: a pass of [/next] fails with no other exception than the
    [ZeroDivisionError] of [delta_sim / run.speedup], and only on a run
    whose speedup is 0, which [/start] accepts. On such a run, once
    nothing is ready while a job is still to be released, the pass of
    every caller whose deadline is still ahead fails in this way, so the
    caller is answered with status 500 and the job is never released.
    (A pass ends where the handler returns or waits on the condition; the
    wait itself is not part of it.) *)
Theorem rrobin_next_fails_on_zero_speedup (cfg : Config) (w0 : RoundRobin.World)
    (es : list RoundRobin.event) (run : RoundRobin.RunState) (d now_wall now : Q) :
  RoundRobin.ACTIVE_RUN w0 = None ->
  RoundRobin.ACTIVE_RUN (RoundRobin.steps cfg es w0) = Some run ->
  clock_in_range (RoundRobin.speedup run) (RoundRobin.start_wall_ms run)
    (Py.int_of_float (now_wall * 1000)) ->
  (forall jid job, Py.get (RoundRobin.jobs run) jid = Some job ->
     Z.abs (RoundRobin.arrival_ms job) <= 2 ^ 61) ->
  (forall e,
     fst (RoundRobin.next_iter d now_wall now (Some run)) = Reply (Py.Raise e) ->
     e = Py.ZeroDivisionError /\ (RoundRobin.speedup run == 0)%Q) /\
  ((RoundRobin.speedup run == 0)%Q ->
   RoundRobin.done run = false ->
   RoundRobin.completed run < RoundRobin.total_jobs run ->
   RoundRobin.ready_q run = [] ->
   RoundRobin.pending_idx run < Py.len (RoundRobin.pending_ids run) ->
   (now < d)%Q ->
   fst (RoundRobin.next_iter d now_wall now (Some run))
   = Reply (Py.Raise Py.ZeroDivisionError) /\
   Py.http_status (A := RoundRobin.NextResp) (Py.Raise Py.ZeroDivisionError) = 500 /\
   exists run',
     snd (RoundRobin.next_iter d now_wall now (Some run)) = Some run' /\
     RoundRobin.ready_q run' = [] /\
     RoundRobin.pending_idx run' = RoundRobin.pending_idx run).
Proof.
  intros H0 Hrun _ _.
  pose proof (rrobin_steps_sound cfg es w0 (rrobin_idle_sound cfg w0 H0) run Hrun) as Hs.
  split.
  - intros e He.
    destruct (rrobin_next_cases cfg _ run d now_wall now Hs) as (run' & _ & _ & Hfail).
    destruct (Hfail e He) as (-> & Hz & _). split; [reflexivity|].
    now apply Qeq_bool_iff.
  - intros Hz Hd Hc Hq Hidx Hlt. unfold RoundRobin.next_iter.
    rewrite Hd. cbn [orb].
    assert (Ec : (RoundRobin.total_jobs run <=? RoundRobin.completed run) = false)
      by (apply Z.leb_gt; lia).
    rewrite Ec, (rrobin_frozen_clock run _ Hz).
    destruct (RoundRobin.release_arrivals run 0) as [r run1] eqn:E.
    destruct (rrobin_release_sound cfg _ _ _ _ _ E Hs) as (-> & Hs1 & _ & Hsame).
    destruct (Hsame (Z.le_refl 0)) as [Hq1 Hi1].
    destruct (release_arrivals_frame _ _ _ _ E) as (_ & _ & _ & _ & _ & Hsp & Hp & _).
    rewrite Hq1, Hq.
    assert (Hopen : Qle_bool (d - now) 0 = false).
    { destruct (Qle_bool (d - now) 0) eqn:Eq; [|reflexivity].
      apply Qle_bool_iff in Eq. lra. }
    rewrite Hopen. unfold RoundRobin.wait_time.
    destruct (nth_error (RoundRobin.pending_ids run1)
                (Z.to_nat (RoundRobin.pending_idx run1))) as [jid|] eqn:Hnth.
    + destruct (rbs_pending _ _ _ Hs1 jid) as [job Hjob].
      { eapply nth_error_In; eassumption. }
      unfold Py.getitem. rewrite Hjob. simpl.
      assert (Ez : Qeq_bool (RoundRobin.speedup run1) 0 = true).
      { apply Qeq_bool_iff. now rewrite Hsp. }
      rewrite Ez. simpl. split; [reflexivity|]. split; [reflexivity|].
      exists run1. rewrite Hq1, Hq. auto.
    + exfalso. apply nth_error_None in Hnth. rewrite Hp, Hi1 in Hnth.
      pose proof (rbs_idx _ _ _ Hs). unfold Py.len in *. lia.
Qed.

Lemma rrobin_next_fails_on_zero_speedup_witness :
  (forall e,
     fst (RoundRobin.next_iter 12 2 2
            (Some (Sample.rrobin_run
                     (RoundRobin.steps default_config Scenario.rrobin_stalled
                        Scenario.rrobin_boot))))
     = Reply (Py.Raise e) ->
     e = Py.ZeroDivisionError /\
     (RoundRobin.speedup
        (Sample.rrobin_run
           (RoundRobin.steps default_config Scenario.rrobin_stalled Scenario.rrobin_boot))
      == 0)%Q) /\
  fst (RoundRobin.next_iter 12 2 2
         (Some (Sample.rrobin_run
                  (RoundRobin.steps default_config Scenario.rrobin_stalled
                     Scenario.rrobin_boot))))
  = Reply (Py.Raise Py.ZeroDivisionError).
Proof.
  destruct (rrobin_next_fails_on_zero_speedup default_config Scenario.rrobin_boot
              Scenario.rrobin_stalled
              (Sample.rrobin_run
                 (RoundRobin.steps default_config Scenario.rrobin_stalled
                    Scenario.rrobin_boot))
              12 2 2 eq_refl ltac:(vm_compute; reflexivity)) as [Honly Hfails].
  - split; vm_compute; congruence.
  - intros jid job Hj. apply dict_get_In in Hj. vm_compute in Hj.
    destruct Hj as [E|[E|[]]]; injection E as <- <-; vm_compute; congruence.
  - split; [exact Honly|].
    apply Hfails.
    + vm_compute. reflexivity.
    + vm_compute. reflexivity.
    + vm_compute. reflexivity.
    + vm_compute. reflexivity.
    + vm_compute. reflexivity.
    + vm_compute. reflexivity.
Defined.

(** X21. [GET /status] of the service of [src/round-robin/scheduler.py],
    from its boot and whatever steps were taken: when it says [done], it
    carries the summary and the two paths
    [RESULTS_DIR/results_jobs_<run_id>.csv] and
    [RESULTS_DIR/results_run_<run_id>.csv], both files have been written
    with the quantum of the run, and the summary counts the rows of the
    per-job file, of which there is at least one; so the branch of
    [finalize_run] for an empty frame, with its summary of 0 jobs, is never
    taken. When it says [running], [completed] is below [total], or both
    are 0. *)
Theorem rrobin_status_reachable (cfg : Config) (w0 : RoundRobin.World)
    (es : list RoundRobin.event) :
  RoundRobin.ACTIVE_RUN w0 = None ->
  match RoundRobin.status (RoundRobin.steps cfg es w0) with
  | RoundRobin.status_no_run =>
      RoundRobin.ACTIVE_RUN (RoundRobin.steps cfg es w0) = None
  | RoundRobin.status_running rid completed total quantum =>
      0 <= completed /\ (completed < total \/ total = 0 /\ completed = 0)
  | RoundRobin.status_done rid s jobs_csv run_csv =>
      exists sum rows,
        s = Some sum /\
        jobs_csv = Some (Py.path_join (RESULTS_DIR cfg) ("results_jobs_" ++ rid ++ ".csv")) /\
        run_csv = Some (Py.path_join (RESULTS_DIR cfg) ("results_run_" ++ rid ++ ".csv")) /\
        In (Py.path_join (RESULTS_DIR cfg) ("results_jobs_" ++ rid ++ ".csv"),
            RoundRobin.JobsCsv rid (RoundRobin.sum_quantum_ms sum) rows)
           (RoundRobin.RESULTS (RoundRobin.steps cfg es w0)) /\
        In (Py.path_join (RESULTS_DIR cfg) ("results_run_" ++ rid ++ ".csv"),
            RoundRobin.RunCsv sum) (RoundRobin.RESULTS (RoundRobin.steps cfg es w0)) /\
        RoundRobin.sum_run_id sum = rid /\
        RoundRobin.sum_jobs sum = Py.len rows /\ 0 < Py.len rows
  end.
Proof.
  intros H0.
  pose proof (rrobin_steps_sound cfg es w0 (rrobin_idle_sound cfg w0 H0)) as Hinv.
  unfold RoundRobin.status.
  destruct (RoundRobin.ACTIVE_RUN (RoundRobin.steps cfg es w0)) as [run|] eqn:Hrun;
    [|reflexivity].
  destruct (Hinv run Hrun) as [H1 H2 H3 H4 H5 H6 H7 H8].
  destruct (RoundRobin.done run) eqn:Hd.
  - destruct (H8 eq_refl) as (W & now & Hne & Hs & Hj & Hr & Hi1 & Hi2).
    set (sum := RoundRobin.summarize cfg W now run (RoundRobin.result_rows run)) in *.
    assert (Hsum : RoundRobin.sum_quantum_ms sum = RoundRobin.quantum_ms run /\
                   RoundRobin.sum_run_id sum = RoundRobin.run_id run /\
                   RoundRobin.sum_jobs sum = Py.len (RoundRobin.result_rows run) /\
                   0 < Py.len (RoundRobin.result_rows run)).
    { unfold sum, RoundRobin.summarize.
      destruct (RoundRobin.result_rows run); [congruence|].
      repeat split. }
    destruct Hsum as (Hq & Hid & Hjobs & Hpos).
    exists sum, (RoundRobin.result_rows run). rewrite Hs, Hj, Hr, Hq.
    auto 10.
  - apply H7. reflexivity.
Qed.

Lemma rrobin_status_reachable_witness :
  RoundRobin.ACTIVE_RUN Scenario.rrobin_boot = None /\
  match RoundRobin.status
          (RoundRobin.steps default_config Scenario.rrobin_day Scenario.rrobin_boot) with
  | RoundRobin.status_no_run =>
      RoundRobin.ACTIVE_RUN
        (RoundRobin.steps default_config Scenario.rrobin_day Scenario.rrobin_boot) = None
  | RoundRobin.status_running rid completed total quantum =>
      0 <= completed /\ (completed < total \/ total = 0 /\ completed = 0)
  | RoundRobin.status_done rid s jobs_csv run_csv =>
      exists sum rows,
        s = Some sum /\
        jobs_csv = Some (Py.path_join (RESULTS_DIR default_config)
                           ("results_jobs_" ++ rid ++ ".csv")) /\
        run_csv = Some (Py.path_join (RESULTS_DIR default_config)
                          ("results_run_" ++ rid ++ ".csv")) /\
        In (Py.path_join (RESULTS_DIR default_config) ("results_jobs_" ++ rid ++ ".csv"),
            RoundRobin.JobsCsv rid (RoundRobin.sum_quantum_ms sum) rows)
           (RoundRobin.RESULTS
              (RoundRobin.steps default_config Scenario.rrobin_day Scenario.rrobin_boot)) /\
        In (Py.path_join (RESULTS_DIR default_config) ("results_run_" ++ rid ++ ".csv"),
            RoundRobin.RunCsv sum)
           (RoundRobin.RESULTS
              (RoundRobin.steps default_config Scenario.rrobin_day Scenario.rrobin_boot)) /\
        RoundRobin.sum_run_id sum = rid /\
        RoundRobin.sum_jobs sum = Py.len rows /\ 0 < Py.len rows
  end.
Proof.
  split; [reflexivity|].
  exact (rrobin_status_reachable default_config Scenario.rrobin_boot Scenario.rrobin_day
           eq_refl).
Defined.

(** ** The FIFO service with its worker: one core drives a run to its end *)

Lemma forall2_in_l {A B : Type} (P : A -> B -> Prop) (l : list A) (l' : list B) (x : A) :
  Forall2 P l l' -> In x l -> exists y, In y l' /\ P x y.
Proof.
  induction 1 as [|a b l l' Hab HF IH]; intros Hin; [destruct Hin|].
  destruct Hin as [<-|Hin]; [exists b; split; [now left | assumption]|].
  destruct (IH Hin) as (y & Hy & Hp). exists y. split; [now right | assumption].
Qed.

Lemma forall2_snoc {A B : Type} (P : A -> B -> Prop) (l : list A) (l' : list B)
    (x : A) (y : B) :
  Forall2 P l l' -> P x y -> Forall2 P (l ++ [x]) (l' ++ [y]).
Proof. intros H Hxy. apply Forall2_app; [assumption | now constructor]. Qed.

Lemma forall2_weaken {A B : Type} (P Q : A -> B -> Prop) (l : list A) (l' : list B) :
  Forall2 P l l' -> (forall x y, In x l -> P x y -> Q x y) -> Forall2 Q l l'.
Proof.
  induction 1 as [|a b l l' Hab HF IH]; intros H; constructor.
  - apply H; [now left | assumption].
  - apply IH. intros x y Hx. apply H. now right.
Qed.










(** ** The priority service with its worker: one core drives a run to its end *)

Lemma position_app (jid : string) (l1 l2 : list string) :
  ~ In jid l1 -> position jid (l1 ++ jid :: l2) = Py.len l1.
Proof.
  induction l1 as [|x l1 IH]; intros Hn; simpl.
  - now rewrite String.eqb_refl.
  - destruct (String.eqb_spec x jid) as [->|_]; [exfalso; apply Hn; now left|].
    rewrite IH by (intros H; apply Hn; now right).
    unfold Py.len. simpl length. lia.
Qed.

Lemma dict_get_none {V : Type} (d : Py.dict V) (k : string) :
  ~ In k (Py.keys d) -> Py.get d k = None.
Proof.
  intros Hn. destruct (Py.get d k) as [v|] eqn:E; [|reflexivity].
  exfalso. apply Hn. eapply dict_get_keys; eassumption.
Qed.

Lemma prio_item_app (pre post : Py.dict Priority.JobState) (jid : string)
    (job : Priority.JobState) :
  ~ In jid (Py.keys pre) ->
  prio_item (pre ++ (jid, job) :: post) jid
  = (Priority.priority job, Priority.arrival_ms job, Py.len pre, jid).
Proof.
  intros Hn. unfold prio_item.
  rewrite dict_get_app_unknown by (now apply dict_get_none).
  simpl. rewrite String.eqb_refl.
  unfold Py.keys. rewrite map_app. simpl.
  rewrite position_app by exact Hn.
  unfold Py.len. now rewrite length_map.
Qed.

(** [start] on a dataset whose jobs have all arrived pushes them all on
    the ready heap, each with its place in the dataset as sequence
    number. *)
Lemma prio_fill_ready (items pre : Py.dict Priority.JobState)
    (ready : list Priority.ready_item) :
  List.NoDup (Py.keys (pre ++ items)) ->
  (forall k v, In (k, v) items -> Priority.arrival_ms v <= 0) ->
  Priority.fill_heaps items ready [] (Py.len pre)
  = (ready ++ map (prio_item (pre ++ items)) (Py.keys items), [],
     Py.len pre + Py.len items).
Proof.
  revert pre ready. induction items as [|[jid job] items IH]; intros pre ready Hnd Harr.
  - simpl. rewrite app_nil_r. unfold Py.len at 2. simpl. now rewrite Z.add_0_r.
  - simpl. assert (Ha : (Priority.arrival_ms job <=? 0) = true).
    { apply Z.leb_le. apply (Harr jid). now left. }
    rewrite Ha.
    assert (Hn : ~ In jid (Py.keys pre)).
    { unfold Py.keys in *. rewrite map_app in Hnd. simpl in Hnd.
      apply NoDup_remove_2 in Hnd. intros H. apply Hnd. apply in_or_app. now left. }
    rewrite (prio_item_app pre items jid job Hn).
    assert (Hpre : Py.len pre + 1 = Py.len (pre ++ [(jid, job)])).
    { unfold Py.len. rewrite length_app. simpl. lia. }
    rewrite Hpre, (IH (pre ++ [(jid, job)])).
    + rewrite <- !app_assoc. simpl. unfold Py.heappush. rewrite <- app_assoc. simpl.
      f_equal. rewrite <- Hpre. unfold Py.len. simpl length. lia.
    + now rewrite <- app_assoc.
    + intros k v Hkv. apply (Harr k). now right.
Qed.

Lemma prio_served_frame (run run' : Priority.RunState)
    (jobs0 : Py.dict Priority.JobState) (jid : string) (t : PriorityWorker.Turn) :
  Priority.speedup run' = Priority.speedup run ->
  Priority.start_wall_ms run' = Priority.start_wall_ms run ->
  Py.get (Priority.jobs run') jid = Py.get (Priority.jobs run) jid ->
  prio_served run jobs0 jid t -> prio_served run' jobs0 jid t.
Proof.
  intros Hs Hw Hg (job0 & job & H1 & H2 & H3).
  exists job0, job. unfold Priority.wall_to_sim in *. rewrite Hs, Hw, Hg. auto.
Qed.

Lemma prio_rows_all (d : Py.dict Priority.JobState) :
  (forall k v, In (k, v) d ->
     Priority.job_id v = k /\ Priority.start_ms v <> None /\
     Priority.finish_ms v <> None) ->
  map Priority.row_job_id (flat_map Priority.row_of (Py.values d)) = Py.keys d.
Proof.
  induction d as [|[k v] d IH]; intros H; [reflexivity|].
  simpl. rewrite map_app, IH by (intros; apply H; now right).
  destruct (H k v (or_introl eq_refl)) as (Hid & Hs & Hf).
  unfold Priority.row_of. destruct (Priority.start_ms v); [|congruence].
  destruct (Priority.finish_ms v); [|congruence].
  simpl. now rewrite Hid.
Qed.

Lemma strongly_sorted_snoc {A : Type} (R : A -> A -> Prop) (l : list A) (x : A) :
  StronglySorted R l -> (forall a, In a l -> R a x) -> StronglySorted R (l ++ [x]).
Proof.
  induction 1 as [|a l Hs IH Hall]; intros Hx; simpl.
  - constructor; constructor.
  - constructor.
    + apply IH. intros b Hb. apply Hx. now right.
    + apply List.Forall_forall. intros b Hb. apply in_app_or in Hb.
      destruct Hb as [Hb|[<-|[]]].
      * rewrite List.Forall_forall in Hall. now apply Hall.
      * apply Hx. now left.
Qed.

(** The long poll of a turn on a run that has nothing pending and a job
    ready: it is answered at once with a job that no other ready job
    precedes. *)
Lemma prio_poll_min (cfg : Config) (wid : string) (core : Z) (t : PriorityWorker.Turn)
    (w : Priority.World) (run : Priority.RunState) :
  Registry.is_alive_worker_core cfg (Priority.WORKERS w) (PriorityWorker.t_next t)
    wid core = true ->
  PriorityWorker.t_passes t <> [] ->
  Priority.ACTIVE_RUN w = Some run ->
  Priority.done run = false -> Priority.completed run < Priority.total_jobs run ->
  Priority.pending_heap run = [] -> Priority.ready_heap run <> [] ->
  ids_known (Priority.jobs run) (map snd (Priority.ready_heap run)) ->
  exists prio arr seq jid rest job run2,
    Permutation (Priority.ready_heap run) ((prio, arr, seq, jid) :: rest) /\
    (forall y, In y (Priority.ready_heap run) -> key_le (prio, arr, seq) (ready_key y)) /\
    Py.get (Priority.jobs run) jid = Some job /\
    Priority.next_job cfg (PriorityWorker.t_next t) (PriorityWorker.t_deadline t)
      {| Priority.nr_worker_id := wid; Priority.nr_core_id := core;
         Priority.nr_timeout_ms := 20000 |}
      (PriorityWorker.t_passes t) w
    = Some (Py.Ok (Priority.next_ok jid (Priority.service_ms job) prio arr),
            Priority.with_run w (Some run2)) /\
    Priority.jobs run2 = Priority.jobs run /\
    Priority.ready_heap run2 = rest /\ Priority.pending_heap run2 = [] /\
    Priority.done run2 = false /\
    Priority.completed run2 = Priority.completed run /\
    Priority.total_jobs run2 = Priority.total_jobs run /\
    Priority.speedup run2 = Priority.speedup run /\
    Priority.start_wall_ms run2 = Priority.start_wall_ms run /\
    Priority.run_id run2 = Priority.run_id run.
Proof.
  intros Ha Hp Hrun Hd Hc Hpend Hne Hknown.
  destruct (PriorityWorker.t_passes t) as [|[[now_sim now] others] post]; [congruence|].
  set (sim := Priority.sim_now run now_sim).
  assert (Hprom : Priority.promote_arrivals (Priority.advance run sim) sim
                  = (Py.Ok tt, Priority.advance run sim, [])).
  { unfold Priority.promote_arrivals. cbn [Priority.advance Priority.with_heaps
      Priority.pending_heap]. rewrite Hpend. reflexivity. }
  destruct (prio_next_dispatch
              (PriorityWorker.t_deadline t + inject_Z 20000 / 1000)%Q now_sim now
              run (Priority.advance run sim) [] Hd Hc Hprom Hne Hknown)
    as (prio & arr & seq & jid & rest & job & Hperm & Hleast & Hjob & Hnext).
  exists prio, arr, seq, jid, rest, job. eexists.
  split; [exact Hperm|]. split; [exact Hleast|]. split; [exact Hjob|].
  split.
  - apply (prio_next_reply cfg _ _ _ [] post now_sim now others w (Some run) _ _ []).
    + exact Ha.
    + simpl. now rewrite Hrun.
    + exact Hnext.
  - cbn. auto 10.
Qed.

(** A core thread whose job it can sleep through puts its event. *)
Lemma prio_core_thread_runs (S : Q) (wid : string) (core : Z)
    (a : PriorityWorker.Assignment) (t0 t1 : Q) (ps : option PriorityWorker.Psutil) :
  sleeps S (PriorityWorker.a_execution_ms a) ->
  PriorityWorker.core_thread S wid core a t0 t1 ps
  = Py.Ok {| Priority.dr_worker_id := wid; Priority.dr_core_id := core;
             Priority.dr_job_id := PriorityWorker.a_job_id a;
             Priority.started_wall_ms := Py.int_of_float (t0 * 1000);
             Priority.finished_wall_ms := Py.int_of_float (t1 * 1000);
             Priority.dr_cpu_percent := PriorityWorker.cpu_avg ps;
             Priority.dr_memory_mb := PriorityWorker.memory_max ps |}.
Proof.
  intros H. pose proof (sleeps_through _ _ H) as Hs. unfold PriorityWorker.core_thread.
  destruct (Py.float_of_int (PriorityWorker.a_execution_ms a)) as [x|e];
    [|discriminate Hs].
  cbn [mbind Py.result_bind] in *.
  destruct (Py.truediv (x / 1000) S) as [secs|e]; [|discriminate Hs].
  cbn [mbind Py.result_bind] in *. now rewrite Hs.
Qed.

(** One turn of the core on a run that has a job ready. *)
Lemma prio_turn_effect (cfg : Config) (SPEEDUP : Q) (W : Registry.Workers)
    (jobs0 : Py.dict Priority.JobState) (wid : string) (core : Z)
    (served : list string) (turns : list PriorityWorker.Turn)
    (w : Priority.World) (run : Priority.RunState) (t : PriorityWorker.Turn) :
  List.NoDup (Py.keys jobs0) -> fresh_prio jobs0 ->
  (forall jid job0, Py.get jobs0 jid = Some job0 ->
     sleeps SPEEDUP (Priority.service_ms job0)) ->
  prio_between W jobs0 served turns w run ->
  Priority.ready_heap run <> [] ->
  Registry.is_alive_worker_core cfg W (PriorityWorker.t_next t) wid core = true ->
  Registry.is_alive_worker_core cfg W (PriorityWorker.t_done t) wid core = true ->
  PriorityWorker.t_passes t <> [] ->
  exists w',
    PriorityWorker.core_driver cfg SPEEDUP wid core t w = (w', core_polling) /\
    exists run' jid,
      Priority.ACTIVE_RUN w' = Some run' /\
      Priority.run_id run' = Priority.run_id run /\
      S (length (Priority.ready_heap run')) = length (Priority.ready_heap run) /\
      match Priority.ready_heap run' with
      | [] => prio_complete cfg jobs0 (served ++ [jid]) (turns ++ [t]) w' run'
      | _ :: _ => prio_between W jobs0 (served ++ [jid]) (turns ++ [t]) w' run'
      end.
Proof.
  intros Hnd Hfresh Hsleep
    [HW Hrun Hd Hk Hsplit Hitems Hpend Ht Hc Hsorted Hleast Hserved Hwait]
    Hne Ha1 Ha2 Hp.
  assert (Hknown : ids_known (Priority.jobs run) (map snd (Priority.ready_heap run))).
  { intros b Hb. rewrite (Hwait b Hb). apply dict_keys_get.
    eapply Permutation_in; [apply Permutation_sym; exact Hsplit|].
    apply in_or_app. now right. }
  assert (Hlen : Py.len jobs0
                 = Py.len served + Z.of_nat (length (Priority.ready_heap run))).
  { unfold Py.len. rewrite <- (length_map fst jobs0).
    change (map fst jobs0) with (Py.keys jobs0).
    rewrite (Permutation_length Hsplit), length_app, length_map.
    unfold Priority.ready_item. lia. }
  assert (Hpos : (0 < length (Priority.ready_heap run))%nat).
  { destruct (Priority.ready_heap run); [congruence | simpl; lia]. }
  destruct (prio_poll_min cfg wid core t w run) as
    (prio & arr & seq & jid & rest & job & run2 & Hperm & Hmin & Hjob & Hnext &
     Hj2 & Hr2 & Hp2 & Hd2 & Hc2 & Ht2 & Hsp2 & Hsw2 & Hid2);
    try assumption; [now rewrite HW | lia |].
  assert (Hinr : In (prio, arr, seq, jid) (Priority.ready_heap run)).
  { eapply Permutation_in; [apply Permutation_sym; exact Hperm | now left]. }
  assert (Hinj : In jid (map snd (Priority.ready_heap run))).
  { apply in_map_iff. exists (prio, arr, seq, jid). auto. }
  pose proof (Hitems _ Hinr) as Hitem. simpl in Hitem.
  assert (Hjob0 : Py.get jobs0 jid = Some job) by (rewrite <- (Hwait jid Hinj); exact Hjob).
  destruct (Hfresh jid job Hjob0) as (Hid0 & Hs0 & Hf0).
  assert (Hids : Permutation (map snd (Priority.ready_heap run)) (jid :: map snd rest)).
  { change (jid :: map snd rest) with (map snd ((prio, arr, seq, jid) :: rest)).
    now apply Permutation_map. }
  assert (Hsplit' : Permutation (Py.keys jobs0) ((served ++ [jid]) ++ map snd rest)).
  { rewrite Hsplit, Hids, <- app_assoc. reflexivity. }
  pose proof (Permutation_NoDup Hsplit' Hnd) as Hnd'.
  assert (Hout : forall x, In x served -> x <> jid).
  { intros x Hx ->. rewrite <- app_assoc in Hnd'. simpl in Hnd'.
    apply NoDup_remove_2 in Hnd'. apply Hnd'. apply in_or_app. now left. }
  assert (Hrest : forall x, In x (map snd rest) -> x <> jid).
  { intros x Hx ->. rewrite <- app_assoc in Hnd'. simpl in Hnd'.
    apply NoDup_remove_2 in Hnd'. apply Hnd'. apply in_or_app. now right. }
  assert (Hsub : forall x, In x rest -> In x (Priority.ready_heap run)).
  { intros x Hx. eapply Permutation_in; [apply Permutation_sym; exact Hperm | now right]. }
  assert (Hsubid : forall b, In b (map snd rest) -> In b (map snd (Priority.ready_heap run))).
  { intros b Hb. eapply Permutation_in; [apply Permutation_sym; exact Hids | now right]. }
  assert (Hlenr : length (Priority.ready_heap run) = S (length rest)).
  { rewrite (Permutation_length Hperm). reflexivity. }
  unfold PriorityWorker.core_driver. rewrite Hnext. cbv zeta.
  rewrite prio_core_thread_runs by (exact (Hsleep jid job Hjob0)).
  eexists. split; [reflexivity|].
  match goal with
  | |- context [Priority.done_handler _ _ _ ?e _] => set (ev := e)
  end.
  unfold Priority.done_handler.
  change (Priority.WORKERS (Priority.with_run w _)) with (Priority.WORKERS w).
  change (Priority.dr_worker_id ev) with wid. change (Priority.dr_core_id ev) with core.
  rewrite HW, Ha2. cbn [negb].
  change (Priority.ACTIVE_RUN (Priority.with_run w (Some run2))) with (Some run2).
  cbv beta iota.
  rewrite Hd2. change (Priority.dr_job_id ev) with jid. rewrite Hj2, Hjob, Hs0.
  set (sim := Priority.wall_to_sim run2 (Priority.started_wall_ms ev)).
  set (job' := {| Priority.job_id := Priority.job_id job;
                  Priority.finish_ms := Some (sim + Priority.service_ms job) |}).
  cbn [Priority.total_jobs Priority.completed].
  rewrite Ht2, Hc2.
  assert (Hkeys' : Py.keys (Py.set (Priority.jobs run) jid job') = Py.keys jobs0).
  { rewrite <- Hk. eapply dict_keys_set_known; eassumption. }
  assert (Hnew : forall r, Priority.speedup r = Priority.speedup run ->
            Priority.start_wall_ms r = Priority.start_wall_ms run ->
            Priority.jobs r = Py.set (Priority.jobs run) jid job' ->
            Forall2 (prio_served r jobs0) (served ++ [jid]) (turns ++ [t])).
  { intros r Hsp Hsw Hjr. apply forall2_snoc.
    - eapply forall2_weaken; [exact Hserved|]. intros x y Hx.
      apply prio_served_frame; try assumption.
      rewrite Hjr. apply dict_get_set_other. intros E. now apply (Hout x Hx).
    - assert (Hsim : Priority.wall_to_sim r
                         (Py.int_of_float (PriorityWorker.t_started t * 1000)) = sim).
      { unfold sim, Priority.wall_to_sim. rewrite Hsp, Hsw, Hsp2, Hsw2. reflexivity. }
      exists job, job'. rewrite Hjr, dict_get_set_same, Hsim.
      split; [assumption|]. split; [reflexivity|]. split; [exact Hid0|].
      repeat (split; [reflexivity|]). reflexivity. }
  assert (Hsorted' : StronglySorted (prio_before jobs0) (served ++ [jid])).
  { apply strongly_sorted_snoc; [exact Hsorted|]. intros a Ha. now apply Hleast. }
  assert (Hleast' : forall a b, In a (served ++ [jid]) -> In b (map snd rest) ->
            prio_before jobs0 a b).
  { intros a b Ha Hb. apply in_app_or in Ha. destruct Ha as [Ha|[<-|[]]].
    - apply Hleast; [exact Ha | now apply Hsubid].
    - apply in_map_iff in Hb. destruct Hb as (y & <- & Hy).
      unfold prio_before. rewrite <- Hitem, <- (Hitems y (Hsub y Hy)).
      apply Hmin. now apply Hsub. }
  destruct rest as [|next rest].
  - assert (Ec : (Priority.total_jobs run <=? Priority.completed run + 1) = true).
    { apply Z.leb_le. rewrite Ht, Hc, Hlen, Hlenr. simpl. lia. }
    rewrite Ec.
    set (run1 := {| Priority.run_id := Priority.run_id run2;
                    Priority.jobs := Py.set _ _ job' |}).
    simpl in Hsplit'. rewrite app_nil_r in Hsplit'.
    assert (Hall : Forall2 (prio_served run1 jobs0) (served ++ [jid]) (turns ++ [t])).
    { apply Hnew; [exact Hsp2 | exact Hsw2 | reflexivity]. }
    assert (Hrows : map Priority.row_job_id (Priority.result_rows run1) = Py.keys jobs0).
    { unfold Priority.result_rows. rewrite prio_rows_all; [exact Hkeys'|].
      intros k v Hkv.
      assert (Hkin : In k (served ++ [jid])).
      { eapply Permutation_in; [exact Hsplit'|]. rewrite <- Hkeys'.
        apply in_map_iff. exists (k, v). auto. }
      destruct (forall2_in_l _ _ _ _ Hall Hkin)
        as (y & _ & j0 & j & _ & Hg & Hid & _ & _ & _ & Hst & Hfi & _).
      assert (Hv : Py.get (Priority.jobs run1) k = Some v).
      { apply dict_In_get; [|exact Hkv]. simpl. rewrite Hkeys'. exact Hnd. }
      rewrite Hv in Hg. injection Hg as <-. rewrite Hst, Hfi.
      split; [assumption|]. split; discriminate. }
    assert (Hne1 : Priority.result_rows run1 <> []).
    { intros E. rewrite E in Hrows. simpl in Hrows.
      apply (f_equal (@length string)) in Hrows. simpl in Hrows.
      unfold Py.len, Py.keys in *. rewrite length_map in Hrows. lia. }
    rewrite (prio_finalize_rows cfg W (PriorityWorker.t_final t) run1 Hne1).
    cbn [fst snd Priority.ACTIVE_RUN Priority.ready_heap Priority.run_id run1].
    eexists. exists jid. split; [reflexivity|]. split; [exact Hid2|].
    rewrite Hr2. split; [now rewrite Hlenr|].
    split.
    + reflexivity.
    + reflexivity.
    + change (Priority.completed run + 1 = Priority.total_jobs run).
      rewrite Ht, Hc, Hlen, Hlenr. simpl. lia.
    + exact Ht.
    + reflexivity.
    + now apply Permutation_sym.
    + exact Hsorted'.
    + eapply forall2_weaken; [exact Hall|]. intros x y _.
      apply prio_served_frame; reflexivity.
    + exact Hrows.
    + apply in_or_app. right. left. reflexivity.
  - assert (Ec : (Priority.total_jobs run <=? Priority.completed run + 1) = false).
    { apply Z.leb_gt. rewrite Ht, Hc, Hlen, Hlenr. simpl length. lia. }
    rewrite Ec. cbn [fst snd Priority.ACTIVE_RUN Priority.with_run Priority.ready_heap
                     Priority.run_id].
    eexists. exists jid. split; [reflexivity|]. split; [exact Hid2|].
    rewrite Hr2. split; [now rewrite Hlenr|].
    split; cbn [Priority.ACTIVE_RUN Priority.done Priority.completed Priority.total_jobs
                Priority.ready_heap Priority.pending_heap Priority.RESULTS
                Priority.run_id Priority.WORKERS Priority.jobs Priority.with_run];
      rewrite ?Hr2.
    + exact HW.
    + reflexivity.
    + reflexivity.
    + exact Hkeys'.
    + exact Hsplit'.
    + intros x Hx. apply Hitems. now apply Hsub.
    + exact Hp2.
    + exact Ht.
    + rewrite Hc. unfold Py.len. rewrite length_app. simpl. lia.
    + exact Hsorted'.
    + exact Hleast'.
    + apply Hnew; [exact Hsp2 | exact Hsw2 | reflexivity].
    + intros x Hx. rewrite dict_get_set_other.
      * apply Hwait. now apply Hsubid.
      * intros E. apply (Hrest x); [exact Hx | now symmetry].
Qed.

Lemma prio_drive (cfg : Config) (SPEEDUP : Q) (W : Registry.Workers)
    (jobs0 : Py.dict Priority.JobState) (wid : string) (core : Z) :
  List.NoDup (Py.keys jobs0) -> fresh_prio jobs0 ->
  (forall jid job0, Py.get jobs0 jid = Some job0 ->
     sleeps SPEEDUP (Priority.service_ms job0)) ->
  forall (todo : list PriorityWorker.Turn) (served : list string)
         (turns : list PriorityWorker.Turn) (w : Priority.World)
         (run : Priority.RunState),
    prio_between W jobs0 served turns w run ->
    Priority.ready_heap run <> [] ->
    (forall t, In t todo ->
       Registry.is_alive_worker_core cfg W (PriorityWorker.t_next t) wid core = true /\
       Registry.is_alive_worker_core cfg W (PriorityWorker.t_done t) wid core = true /\
       PriorityWorker.t_passes t <> []) ->
    length todo = length (Priority.ready_heap run) ->
    snd (PriorityWorker.run_core cfg SPEEDUP wid core todo w) = core_polling /\
    (exists run' order,
       prio_complete cfg jobs0 order (turns ++ todo)
         (fst (PriorityWorker.run_core cfg SPEEDUP wid core todo w)) run' /\
       Priority.run_id run' = Priority.run_id run) /\
    (forall k, (k < length todo)%nat ->
       snd (PriorityWorker.run_core cfg SPEEDUP wid core (firstn k todo) w)
       = core_polling /\
       exists runk,
         Priority.ACTIVE_RUN
           (fst (PriorityWorker.run_core cfg SPEEDUP wid core (firstn k todo) w))
         = Some runk /\
         Priority.done runk = false).
Proof.
  intros Hnd Hfresh Hsleep. induction todo as [|t todo IH];
    intros served turns w run Hb Hne Hal Hlen.
  - destruct (Priority.ready_heap run); [congruence | discriminate].
  - destruct (Hal t (or_introl eq_refl)) as (Ha1 & Ha2 & Hp).
    destruct (prio_turn_effect cfg SPEEDUP W jobs0 wid core served turns w run t
                Hnd Hfresh Hsleep Hb Hne Ha1 Ha2 Hp)
      as (w1 & Hturn & run1 & jid & Hrun1 & Hid1 & Hlen1 & Hcase).
    assert (Hk0 : snd (PriorityWorker.run_core cfg SPEEDUP wid core [] w) = core_polling /\
                  exists runk,
                    Priority.ACTIVE_RUN
                      (fst (PriorityWorker.run_core cfg SPEEDUP wid core [] w))
                    = Some runk /\
                    Priority.done runk = false).
    { split; [reflexivity|]. exists run.
      split; [exact (pb_run _ _ _ _ _ _ Hb) | exact (pb_running _ _ _ _ _ _ Hb)]. }
    destruct (Priority.ready_heap run1) as [|x rest] eqn:Hq1.
    + destruct todo as [|t2 todo]; [|simpl in Hlen, Hlen1; lia].
      cbn [PriorityWorker.run_core]. rewrite Hturn. cbn [fst snd].
      split; [reflexivity|]. split.
      * exists run1, (served ++ [jid]). split; [exact Hcase | exact Hid1].
      * intros k Hk. simpl in Hk. assert (k = 0%nat) as -> by lia. exact Hk0.
    + destruct (IH (served ++ [jid]) (turns ++ [t]) w1 run1 Hcase)
        as (Halive & (run' & order & Hc & Hid) & Hprefix).
      * rewrite Hq1. discriminate.
      * intros t' Ht'. apply Hal. now right.
      * rewrite Hq1. simpl in Hlen, Hlen1 |- *. lia.
      * cbn [PriorityWorker.run_core]. rewrite Hturn.
        split; [exact Halive|]. split.
        -- exists run', order. rewrite <- app_assoc in Hc. split; [exact Hc | congruence].
        -- intros [|k] Hk; [exact Hk0|]. cbn [firstn PriorityWorker.run_core].
           rewrite Hturn. apply Hprefix. simpl in Hk. lia.
Qed.

Lemma prio_item_id (jobs0 : Py.dict Priority.JobState) (jid : string) :
  snd (prio_item jobs0 jid) = jid.
Proof. unfold prio_item. destruct (Py.get jobs0 jid); reflexivity. Qed.

(** X23. The priority service driven by one core of its worker, from
    [/start] on, for a dataset that has a job and whose jobs have all
    arrived at the start. Take service times that the core thread can
    sleep through (not negative, and at most [2^63 - 1] ns at the
    worker's positive [SPEEDUP]), the core alive at every turn, and clock
    readings whose conversion to simulated time stays within 61 bits.
    Then the core thread survives every job, the turns run the
    jobs one each in the order of the policy (smaller priority value
    first, then earlier arrival, then earlier place in the dataset), the
    run is finalized by the turn that reports the last job and not
    before, and in the end every job has as its start the simulated time
    at which the core thread read the clock, as its finish that start
    plus its service time, and as CPU and memory figures the average and
    the maximum the thread computed from [psutil] (none without it); the
    ready heap is empty, [completed = total_jobs], and the per-job file
    holds one row per job in the order of the dataset. *)
Theorem prio_single_core_completes (cfg : Config) (SPEEDUP : Q)
    (now_slots now_start : Q)
    (fresh_id : string) (req : Priority.StartReq) (w w0 : Priority.World) (rid : string)
    (sigs : list signal) (jobs : Py.dict Priority.JobState) (wid : string) (core : Z)
    (turns : list PriorityWorker.Turn) :
  Priority.load_jobs (Priority.DATASETS w)
    (Py.path_join (DATA_DIR cfg) (Priority.sr_dataset_file req)) = Py.Ok jobs ->
  Priority.start cfg now_slots now_start fresh_id req w = (Py.Ok rid, w0, sigs) ->
  jobs <> [] ->
  (forall jid job, Py.get jobs jid = Some job ->
     Priority.arrival_ms job <= 0 /\ sleeps SPEEDUP (Priority.service_ms job)) ->
  (forall t, In t turns ->
     Registry.is_alive_worker_core cfg (Priority.WORKERS w) (PriorityWorker.t_next t)
       wid core = true /\
     Registry.is_alive_worker_core cfg (Priority.WORKERS w) (PriorityWorker.t_done t)
       wid core = true /\
     PriorityWorker.t_passes t <> [] /\
     (forall now_sim now others, In (now_sim, now, others) (PriorityWorker.t_passes t) ->
        clock_in_range (Priority.sr_speedup req) (Py.int_of_float (now_start * 1000))
          (Py.int_of_float (now_sim * 1000))) /\
     clock_in_range (Priority.sr_speedup req) (Py.int_of_float (now_start * 1000))
       (Py.int_of_float (PriorityWorker.t_started t * 1000))) ->
  length turns = length jobs ->
  snd (PriorityWorker.run_core cfg SPEEDUP wid core turns w0) = core_polling /\
  (exists run order,
     Priority.ACTIVE_RUN (fst (PriorityWorker.run_core cfg SPEEDUP wid core turns w0))
     = Some run /\
     Priority.run_id run = rid /\ Priority.done run = true /\
     Priority.completed run = Priority.total_jobs run /\
     Priority.total_jobs run = Py.len jobs /\
     Priority.ready_heap run = [] /\
     Permutation order (Py.keys jobs) /\
     StronglySorted (prio_before jobs) order /\
     Forall2 (prio_served run jobs) order turns /\
     map Priority.row_job_id (Priority.result_rows run) = Py.keys jobs /\
     In (Priority.jobs_path cfg run, Priority.JobsCsv rid (Priority.result_rows run))
        (Priority.RESULTS (fst (PriorityWorker.run_core cfg SPEEDUP wid core turns w0)))) /\
  (forall k, (k < length turns)%nat ->
     snd (PriorityWorker.run_core cfg SPEEDUP wid core (firstn k turns) w0)
     = core_polling /\
     exists runk,
       Priority.ACTIVE_RUN
         (fst (PriorityWorker.run_core cfg SPEEDUP wid core (firstn k turns) w0))
       = Some runk /\
       Priority.done runk = false).
Proof.
  intros Hload Hstart Hjobs Harr Hal Hlen.
  pose proof (prio_load_jobs_nodup _ _ _ Hload) as Hnd.
  pose proof (prio_load_jobs_fresh _ _ _ Hload) as Hfresh.
  assert (Hfill : Priority.fill_heaps jobs [] [] 0
                  = (map (prio_item jobs) (Py.keys jobs), [], Py.len jobs)).
  { apply (prio_fill_ready jobs [] []); [exact Hnd|].
    intros k v Hkv. apply (Harr k). now apply dict_In_get. }
  assert (Hids : map snd (map (prio_item jobs) (Py.keys jobs)) = Py.keys jobs).
  { rewrite map_map. rewrite (map_ext _ (fun x => x)); [apply map_id|].
    intros a. apply prio_item_id. }
  assert (H0 : exists run0,
            prio_between (Priority.WORKERS w) jobs [] [] w0 run0 /\
            Priority.ready_heap run0 = map (prio_item jobs) (Py.keys jobs) /\
            Priority.run_id run0 = rid).
  { revert Hstart. unfold Priority.start. destruct (_ <? _); [discriminate|].
    destruct (negb _); [discriminate|]. rewrite Hload, Hfill.
    intros E. injection E as <- <- _. eexists.
    split; [split; [reflexivity | cbn; reflexivity | ..] | split; reflexivity];
      cbn [Priority.done Priority.jobs Priority.ready_heap Priority.pending_heap
           Priority.total_jobs Priority.completed app];
      try reflexivity.
    - now rewrite Hids.
    - intros x Hx. apply in_map_iff in Hx. destruct Hx as (jid & <- & _).
      now rewrite prio_item_id.
    - constructor.
    - intros a b [].
    - constructor. }
  destruct H0 as (run0 & Hb & Hq0 & Hid0).
  destruct (prio_drive cfg SPEEDUP (Priority.WORKERS w) jobs wid core Hnd Hfresh
              (fun jid job H => proj2 (Harr jid job H)) turns [] [] w0
              run0 Hb) as (Halive & (run & order & Hc & Hid) & Hprefix).
  - rewrite Hq0. destruct jobs; [congruence | discriminate].
  - intros t Ht. destruct (Hal t Ht) as (H1 & H2 & H3 & _). auto.
  - rewrite Hq0. unfold Py.keys. now rewrite !length_map.
  - split; [exact Halive|]. split; [|exact Hprefix].
    destruct Hc as [H1 H2 H3 H4 H5 H6 H7 H8 H9 H10].
    exists run, order. simpl in H8. rewrite Hid, Hid0 in *. auto 14.
Qed.

Lemma prio_single_core_completes_witness :
  snd (PriorityWorker.run_core default_config 1 "w1" 0 Scenario.prio_turns
         Scenario.prio_urgent) = core_polling /\
  (exists run order,
     Priority.ACTIVE_RUN (fst (PriorityWorker.run_core default_config 1 "w1" 0
                                 Scenario.prio_turns Scenario.prio_urgent)) = Some run /\
     Priority.run_id run = "run0000010" /\ Priority.done run = true /\
     Priority.completed run = Priority.total_jobs run /\
     Priority.total_jobs run
     = Py.len (Priority.jobs (Sample.prio_run Scenario.prio_urgent)) /\
     Priority.ready_heap run = [] /\
     Permutation order (Py.keys (Priority.jobs (Sample.prio_run Scenario.prio_urgent))) /\
     StronglySorted (prio_before (Priority.jobs (Sample.prio_run Scenario.prio_urgent)))
       order /\
     Forall2 (prio_served run (Priority.jobs (Sample.prio_run Scenario.prio_urgent)))
       order Scenario.prio_turns /\
     map Priority.row_job_id (Priority.result_rows run)
     = Py.keys (Priority.jobs (Sample.prio_run Scenario.prio_urgent)) /\
     In (Priority.jobs_path default_config run,
         Priority.JobsCsv "run0000010" (Priority.result_rows run))
        (Priority.RESULTS (fst (PriorityWorker.run_core default_config 1 "w1" 0
                                  Scenario.prio_turns Scenario.prio_urgent)))) /\
  (forall k, (k < length Scenario.prio_turns)%nat ->
     snd (PriorityWorker.run_core default_config 1 "w1" 0
            (firstn k Scenario.prio_turns) Scenario.prio_urgent) = core_polling /\
     exists runk,
       Priority.ACTIVE_RUN (fst (PriorityWorker.run_core default_config 1 "w1" 0
                                   (firstn k Scenario.prio_turns) Scenario.prio_urgent))
       = Some runk /\
       Priority.done runk = false).
Proof.
  apply (prio_single_core_completes default_config 1 1 1 "run0000010"
           (Sample.prio_start "urgent.csv") Scenario.prio_office Scenario.prio_urgent
           "run0000010" [notify_all]
           (Priority.jobs (Sample.prio_run Scenario.prio_urgent)) "w1" 0
           Scenario.prio_turns).
  - vm_compute. reflexivity.
  - vm_compute. reflexivity.
  - vm_compute. discriminate.
  - intros jid job Hget.
    assert (Hin : In (jid, job) (Priority.jobs (Sample.prio_run Scenario.prio_urgent)))
      by (now apply dict_get_In).
    vm_compute in Hin.
    repeat (destruct Hin as [Hin|Hin];
            [injection Hin as <- <-;
             split; [discriminate|];
             split; [reflexivity|];
             split; [split; discriminate | discriminate]|]).
    destruct Hin.
  - intros t Ht. unfold Scenario.prio_turns in Ht. simpl in Ht.
    repeat (destruct Ht as [<-|Ht];
            [split; [vm_compute; reflexivity|];
             split; [vm_compute; reflexivity|];
             split; [discriminate|];
             split; [|split; vm_compute; congruence];
             intros now_sim now others [E|[]]; injection E as <- _ _;
             split; vm_compute; congruence|]).
    destruct Ht.
  - reflexivity.
Defined.
